(** * YouTrack Wrapped: the collection and statistics pipeline

    A shallow embedding of the three services of the application,
    [youtrackClient.js] (the API gateway), [dataCollector.js] (the collector)
    and [statisticsCalculator.js] (the aggregator), followed by the
    properties of the pipeline.

    Conventions of the embedding:
    - a JavaScript number that is an integer in the source (a length, a
      counter, an epoch time in milliseconds) is a [Z]; a number obtained by
      a division is a [JsNum], an exact rational or one of the non-finite
      values a division by zero produces. The source computes in doubles,
      which are exact on the integers below 2^53 and round a quotient to
      the nearest double; the rounding is left out;
    - an optional field ([undefined] or [null] in the source) is an [option];
    - a plain object used as a dictionary is a [JsObject], an association
      list in insertion order together with the enumeration order and the
      prototype lookup of the language;
    - an asynchronous function is a function of the observable state that
      returns how it ends, with a budget for its unbounded loops;
    - the host (time zone, locale, clock) and the tracker are explicit
      parameters; console output is left out. *)

From Stdlib Require Import ZArith QArith Qround List String Ascii Bool Lia.
From Stdlib Require Import DecimalString DecimalZ Permutation Sorted.
From Stdlib Require Import OrderedTypeEx.
Import ListNotations.
Local Open Scope string_scope.
Local Open Scope list_scope.
Local Open Scope Z_scope.

(* ===================================================================== *)
(** * Part I. The language primitives the services rely on *)
(* ===================================================================== *)

Module Js.

(** ** Numbers *)

(** The result of a JavaScript division. *)
Inductive JsNum : Type :=
| Fin (q : Q)
| NaN
| PosInf
| NegInf.

Definition num (z : Z) : JsNum := Fin (inject_Z z).

Definition isFinite (x : JsNum) : bool :=
  match x with Fin _ => true | _ => false end.

(** [a / b] on finite operands: a zero divisor gives [NaN] or an infinity.
    The quotient is exact here; the source rounds it to the nearest
    double. *)
Definition qdiv (a b : Q) : JsNum :=
  if Qeq_bool b 0 then
    (if Qeq_bool a 0 then NaN
     else if Qle_bool 0 a then PosInf else NegInf)
  else Fin (Qred (a / b)).

Definition div (x y : JsNum) : JsNum :=
  match x, y with
  | Fin a, Fin b => qdiv a b
  | Fin a, (PosInf | NegInf) => Fin 0
  | _, _ => NaN
  end.

(** [Math.round]: the nearest integer, halves going up. *)
Definition round (x : JsNum) : JsNum :=
  match x with
  | Fin q => Fin (inject_Z (Qfloor (q + (1 # 2))))
  | other => other
  end.

(** [x >= n] for an integer [n]; every comparison with [NaN] is false. *)
Definition geZ (x : JsNum) (n : Z) : bool :=
  match x with
  | Fin q => Qle_bool (inject_Z n) q
  | PosInf => true
  | _ => false
  end.

(** [x > n] for an integer [n]. *)
Definition gtZ (x : JsNum) (n : Z) : bool :=
  match x with
  | Fin q => negb (Qle_bool q (inject_Z n))
  | PosInf => true
  | _ => false
  end.

(** ** Strings *)

(** [String(n)] and the interpolation of an integer in a template literal. *)
Definition numToString (z : Z) : string :=
  NilZero.string_of_int (Z.to_int z).

(** The rendering of a number in a template literal. The services print
    rounded values only, so the finite case is an integer. *)
Definition toStr (x : JsNum) : string :=
  match x with
  | Fin q => numToString (Qfloor q)
  | NaN => "NaN"
  | PosInf => "Infinity"
  | NegInf => "-Infinity"
  end.

(** [parseInt(s)] on a decimal numeral. *)
Definition parseInt (s : string) : Z :=
  match s with
  | EmptyString => 0
  | _ =>
      (fix go (acc : Z) (r : string) : Z :=
         match r with
         | EmptyString => acc
         | String c rest =>
             let n := Z.of_N (N_of_ascii c) in
             if (48 <=? n) && (n <=? 57) then go (10 * acc + (n - 48)) rest
             else acc
         end) 0 s
  end.

Definition strlen (s : string) : Z := Z.of_nat (String.length s).

(** [a.length] *)
Definition len {A} (l : list A) : Z := Z.of_nat (List.length l).

(** Truthiness of an optional number: [undefined], [null] and [0] are
    falsy. *)
Definition truthyNum (x : option Z) : bool :=
  match x with
  | Some v => negb (v =? 0)
  | None => false
  end.

(** [s || fallback] for an optional string: the empty string is falsy. *)
Definition orElse (s : option string) (fallback : string) : string :=
  match s with
  | Some EmptyString => fallback
  | Some t => t
  | None => fallback
  end.

(** [a[a.length - 1] || null] *)
Definition lastOf {A} (l : list A) : option A :=
  match rev l with
  | [] => None
  | x :: _ => Some x
  end.

(** [s?.length || 0] *)
Definition optLength (s : option string) : Z :=
  match s with Some t => strlen t | None => 0 end.

Fixpoint repeatChar (n : nat) (c : ascii) : string :=
  match n with O => EmptyString | S k => String c (repeatChar k c) end.

(** [s.padStart(n, c)] for a one-character filler. *)
Definition padStart (n : nat) (c : ascii) (s : string) : string :=
  (repeatChar (n - String.length s) c ++ s)%string.

Definition digitValue (c : ascii) : option Z :=
  let n := Z.of_N (N_of_ascii c) in
  if (48 <=? n) && (n <=? 57) then Some (n - 48) else None.

Fixpoint parseDigitsFrom (acc : Z) (s : string) : option Z :=
  match s with
  | EmptyString => Some acc
  | String c rest =>
      match digitValue c with
      | Some d => parseDigitsFrom (10 * acc + d) rest
      | None => None
      end
  end.

(** A non-empty string of decimal digits, read as a number. *)
Definition parseDigits (s : string) : option Z :=
  match s with
  | EmptyString => None
  | _ => parseDigitsFrom 0 s
  end.

(** ** Sorting *)

(** [Array.prototype.sort(compareFn)] is stable: [x] is placed before the
    first element that must follow it. *)
Fixpoint insertBy {A} (cmp : A -> A -> Z) (x : A) (l : list A) : list A :=
  match l with
  | [] => [x]
  | y :: rest =>
      if cmp x y <=? 0 then x :: y :: rest else y :: insertBy cmp x rest
  end.

Definition sortBy {A} (cmp : A -> A -> Z) (l : list A) : list A :=
  fold_right (insertBy cmp) [] l.

(** The default comparison of [sort()]: strings by code units. *)
Definition compareStrings (a b : string) : Z :=
  match String.compare a b with
  | Lt => -1
  | Eq => 0
  | Gt => 1
  end.

Definition sortStrings (l : list string) : list string :=
  sortBy compareStrings l.

(** [[...new Set(l)]]: the distinct elements, in order of first occurrence. *)
Fixpoint uniqueStrings (seen l : list string) : list string :=
  match l with
  | [] => []
  | x :: rest =>
      if existsb (String.eqb x) seen then uniqueStrings seen rest
      else x :: uniqueStrings (x :: seen) rest
  end.

(** ** Plain objects used as dictionaries *)

(** Own properties, in insertion order. *)
Definition JsObject (V : Type) : Type := list (string * V).

(** The members every object literal inherits from [Object.prototype]; each
    of them is a function or an object, hence truthy. *)
Definition objectPrototypeMembers : list string :=
  [ "constructor"; "hasOwnProperty"; "isPrototypeOf"; "propertyIsEnumerable";
    "toLocaleString"; "toString"; "valueOf"; "__proto__";
    "__defineGetter__"; "__defineSetter__";
    "__lookupGetter__"; "__lookupSetter__" ].

Definition inherited (k : string) : bool :=
  existsb (String.eqb k) objectPrototypeMembers.

Inductive Lookup (V : Type) : Type :=
| Own (v : V)
| Inherited
| Missing.
Arguments Own {V} v.
Arguments Inherited {V}.
Arguments Missing {V}.

Fixpoint getOwn {V} (o : JsObject V) (k : string) : option V :=
  match o with
  | [] => None
  | (k', v) :: rest => if String.eqb k' k then Some v else getOwn rest k
  end.

(** [o[k]]: an own property first, then the prototype. *)
Definition get {V} (o : JsObject V) (k : string) : Lookup V :=
  match getOwn o k with
  | Some v => Own v
  | None => if inherited k then Inherited else Missing
  end.

Fixpoint updateOwn {V} (k : string) (f : V -> V) (o : JsObject V)
  : JsObject V :=
  match o with
  | [] => []
  | (k', v) :: rest =>
      if String.eqb k' k then (k', f v) :: rest
      else (k', v) :: updateOwn k f rest
  end.

(** The idiom [if (!o[k]) { o[k] = init; } o[k].field++] with [init] an
    object: a missing key is created, an own entry is updated in place, and
    a key that resolves to a member of the prototype neither creates an
    entry nor changes one (the increment lands on the inherited member). *)
Definition touch {V} (init : V) (incr : V -> V) (k : string)
  (o : JsObject V) : JsObject V :=
  match get o k with
  | Own _ => updateOwn k incr o
  | Missing => o ++ [(k, incr init)]
  | Inherited => o
  end.

(** A key is an array index when it is the canonical decimal form of an
    integer in [0, 2^32 - 2]. *)
Definition arrayIndex (k : string) : option Z :=
  match parseDigits k with
  | Some v =>
      if String.eqb (numToString v) k && (v <? 4294967295) then Some v
      else None
  | None => None
  end.

Definition isArrayIndex (k : string) : bool :=
  match arrayIndex k with Some _ => true | None => false end.

Definition indexOf (k : string) : Z :=
  match arrayIndex k with Some v => v | None => 0 end.

(** [Object.entries(o)]: array-index keys first, in ascending numeric
    order, then the other keys in insertion order. *)
Definition entries {V} (o : JsObject V) : list (string * V) :=
  sortBy (fun a b => indexOf (fst a) - indexOf (fst b))
         (filter (fun e => isArrayIndex (fst e)) o)
  ++ filter (fun e => negb (isArrayIndex (fst e))) o.

(** [Object.values(o)] *)
Definition values {V} (o : JsObject V) : list V := map snd (entries o).

(** ** Errors *)

(** A thrown [Error] object: the name of its class and its message. *)
Record JsError : Type := mkError {
  errName : string;
  errMessage : string
}.

(** ** More of the numbers and strings, as the page uses them *)

(** [x * n] for an integer [n]. *)
Definition mulZ (x : JsNum) (n : Z) : JsNum :=
  match x with
  | Fin q => Fin (Qred (q * inject_Z n))
  | NaN => NaN
  | PosInf => if n =? 0 then NaN else if 0 <? n then PosInf else NegInf
  | NegInf => if n =? 0 then NaN else if 0 <? n then NegInf else PosInf
  end.

(** [Math.max(x, n)] for an integer [n]. *)
Definition maxZ (x : JsNum) (n : Z) : JsNum :=
  match x with
  | Fin q => if Qle_bool q (inject_Z n) then num n else Fin q
  | NaN => NaN
  | PosInf => PosInf
  | NegInf => num n
  end.

(** [Math.max(...l)] for integers: [-Infinity] of no argument. *)
Definition maxOf (l : list Z) : JsNum :=
  match l with
  | [] => NegInf
  | x :: rest => num (fold_left Z.max rest x)
  end.

(** The white space that [trim] removes and [parseInt] skips, among the
    code units below 256: tab, line feed, vertical tab, form feed, carriage
    return, space and no-break space. *)
Definition isWhiteSpace (c : ascii) : bool :=
  existsb (N.eqb (N_of_ascii c)) [9; 10; 11; 12; 13; 32; 160]%N.

Fixpoint trimStart (s : string) : string :=
  match s with
  | EmptyString => EmptyString
  | String c rest => if isWhiteSpace c then trimStart rest else s
  end.

Fixpoint trimEnd (s : string) : string :=
  match s with
  | EmptyString => EmptyString
  | String c rest =>
      match trimEnd rest with
      | EmptyString =>
          if isWhiteSpace c then EmptyString else String c EmptyString
      | kept => String c kept
      end
  end.

(** [s.trim()] *)
Definition trim (s : string) : string := trimEnd (trimStart s).

(** [s.split(sep)] for a separator of one character: the pieces between
    the separators, the empty ones included. *)
Fixpoint split (sep : ascii) (s : string) : list string :=
  match s with
  | EmptyString => [EmptyString]
  | String c rest =>
      if Ascii.eqb c sep then EmptyString :: split sep rest
      else
        match split sep rest with
        | piece :: pieces => String c piece :: pieces
        | [] => [String c EmptyString]
        end
  end.

(** [hay.includes(needle)] *)
Fixpoint includes (needle hay : string) : bool :=
  String.prefix needle hay
  || match hay with
     | EmptyString => false
     | String _ rest => includes needle rest
     end.

(** The value of the longest run of decimal digits at the start of [s];
    [acc] is the value read so far, [None] before the first digit. *)
Fixpoint leadingDigits (acc : option Z) (s : string) : option Z :=
  match s with
  | EmptyString => acc
  | String c rest =>
      match digitValue c with
      | Some d =>
          leadingDigits
            (Some (10 * match acc with Some a => a | None => 0 end + d)) rest
      | None => acc
      end
  end.

(** [parseInt(s, 10)]: leading white space is skipped, then an optional
    sign, then the digits are read up to the first character that is not
    one. [None] is [NaN], the result when no digit is there. *)
Definition parseInt10 (s : string) : option Z :=
  match trimStart s with
  | String "-" rest => option_map Z.opp (leadingDigits None rest)
  | String "+" rest => leadingDigits None rest
  | t => leadingDigits None t
  end.

End Js.

(* ===================================================================== *)
(** * Part II. Calendar arithmetic of [Date] *)
(* ===================================================================== *)

Module Dates.

Definition msPerSecond : Z := 1000.
Definition msPerMinute : Z := 60000.
Definition msPerHour : Z := 3600000.
Definition msPerDay : Z := 86400000.

(** Day number (days since 1970-01-01) of a date of the proleptic Gregorian
    calendar, months counted from 1. The year is shifted to start in March,
    which puts the leap day last. *)
Definition daysFromCivil (y m d : Z) : Z :=
  let y' := if m <=? 2 then y - 1 else y in
  let era := y' / 400 in
  let yoe := y' - era * 400 in
  let mp := if 2 <? m then m - 3 else m + 9 in
  let doy := (153 * mp + 2) / 5 + d - 1 in
  let doe := yoe * 365 + yoe / 4 - yoe / 100 + doy in
  era * 146097 + doe - 719468.

(** The inverse: year, month (from 1) and day of the month of a day number. *)
Definition civilFromDays (n : Z) : Z * Z * Z :=
  let z := n + 719468 in
  let era := z / 146097 in
  let doe := z - era * 146097 in
  let yoe := (doe - doe / 1460 + doe / 36524 - doe / 146096) / 365 in
  let doy := doe - (365 * yoe + yoe / 4 - yoe / 100) in
  let mp := (5 * doy + 2) / 153 in
  let d := doy - (153 * mp + 2) / 5 + 1 in
  let m := if mp <? 10 then mp + 3 else mp - 9 in
  let y := yoe + era * 400 in
  ((if m <=? 2 then y + 1 else y), m, d).

(** The instant, in milliseconds since the epoch, of a UTC date and time. *)
Definition utcMs (y m d hh mm ss : Z) : Z :=
  daysFromCivil y m d * msPerDay
  + hh * msPerHour + mm * msPerMinute + ss * msPerSecond.

(** *** Parsing of the two ISO forms the services build

    [new Date(s)] is modelled on the date-only form [YYYY-MM-DD] and on
    the form [YYYY-MM-DDTHH:mm:ssZ], both of which denote UTC. Any other
    string is an invalid date ([None]); its time value is [NaN]. *)

Definition twoDigits (a b : ascii) : option Z :=
  match Js.digitValue a, Js.digitValue b with
  | Some x, Some y => Some (10 * x + y)
  | _, _ => None
  end.

Definition fourDigits (a b c d : ascii) : option Z :=
  match twoDigits a b, twoDigits c d with
  | Some x, Some y => Some (100 * x + y)
  | _, _ => None
  end.

Definition parseTimeOfDay (s : string) : option Z :=
  match s with
  | String "T" (String h1 (String h2 (String ":" (String m1 (String m2
      (String ":" (String s1 (String s2 (String "Z" EmptyString))))))))) =>
      match twoDigits h1 h2, twoDigits m1 m2, twoDigits s1 s2 with
      | Some hh, Some mm, Some ss =>
          if (hh <=? 23) && (mm <=? 59) && (ss <=? 59)
          then Some (hh * msPerHour + mm * msPerMinute + ss * msPerSecond)
          else None
      | _, _, _ => None
      end
  | _ => None
  end.

Definition parseDate (s : string) : option Z :=
  match s with
  | String y1 (String y2 (String y3 (String y4 (String "-" (String m1
      (String m2 (String "-" (String d1 (String d2 rest))))))))) =>
      match fourDigits y1 y2 y3 y4, twoDigits m1 m2, twoDigits d1 d2 with
      | Some y, Some m, Some d =>
          if (1 <=? m) && (m <=? 12) && (1 <=? d) && (d <=? 31) then
            match rest with
            | EmptyString => Some (daysFromCivil y m d * msPerDay)
            | _ =>
                match parseTimeOfDay rest with
                | Some t => Some (daysFromCivil y m d * msPerDay + t)
                | None => None
                end
            end
          else None
      | _, _, _ => None
      end
  | _ => None
  end.

(** *** Local time *)

(** What the services take from the host: the offset of local time from
    UTC at an instant, in milliseconds, and the locale's rendering of a
    number. *)
Record Host : Type := mkHost {
  tzOffset : Z -> Z;
  toLocaleString : Z -> string
}.

Definition localTime (h : Host) (t : Z) : Z := t + tzOffset h t.

Definition localDay (h : Host) (t : Z) : Z := localTime h t / msPerDay.

Definition getFullYear (h : Host) (t : Z) : Z :=
  fst (fst (civilFromDays (localDay h t))).

(** [getMonth()] counts from 0. *)
Definition getMonth (h : Host) (t : Z) : Z :=
  snd (fst (civilFromDays (localDay h t))) - 1.

Definition getDate (h : Host) (t : Z) : Z :=
  snd (civilFromDays (localDay h t)).

(** [getDay()]: 0 is Sunday; 1970-01-01 was a Thursday. *)
Definition getDay (h : Host) (t : Z) : Z := (localDay h t + 4) mod 7.

Definition getHours (h : Host) (t : Z) : Z :=
  (localTime h t / msPerHour) mod 24.

(** A host in the UTC time zone, for concrete runs. *)
Definition utcHost : Host :=
  {| tzOffset := fun _ => 0; toLocaleString := Js.numToString |}.

End Dates.

(* ===================================================================== *)
(** * Part III. The entities exchanged between the services *)
(* ===================================================================== *)

(** [project(id,name,shortName)] *)
Module ProjectRef.
Record t : Type := mk {
  id : string;
  name : option string;
  shortName : option string
}.
End ProjectRef.

(** [author(id,login,fullName)] and [reporter(id,login,fullName)] *)
Module UserRef.
Record t : Type := mk {
  id : string;
  login : string;
  fullName : string
}.
End UserRef.

(** The answer of [/users/me]. *)
Module User.
Record t : Type := mk {
  id : string;
  login : string;
  fullName : string;
  email : option string;
  avatarUrl : option string
}.
End User.

(** An issue of the created or of the resolved collection; [created] and
    [resolved] are epoch times in milliseconds. *)
Module Issue.
Record t : Type := mk {
  id : string;
  idReadable : string;
  summary : option string;
  created : Z;
  resolved : option Z;
  project : option ProjectRef.t
}.
End Issue.

(** A comment as the tracker returns it, inside its issue. *)
Module RawComment.
Record t : Type := mk {
  id : string;
  text : option string;
  created : Z;
  author : option UserRef.t
}.
End RawComment.

(** An issue of the issues-with-comments query. *)
Module CommentedIssue.
Record t : Type := mk {
  id : string;
  idReadable : string;
  summary : option string;
  project : option ProjectRef.t;
  comments : option (list RawComment.t)
}.
End CommentedIssue.

(** The back-reference a kept comment carries. *)
Module IssueRef.
Record t : Type := mk {
  id : string;
  idReadable : string;
  summary : option string;
  project : option ProjectRef.t
}.
End IssueRef.

(** A kept comment: the raw comment's fields and its [issue]. *)
Module Comment.
Record t : Type := mk {
  id : string;
  text : option string;
  created : Z;
  author : option UserRef.t;
  issue : IssueRef.t
}.
End Comment.

Module Article.
Record t : Type := mk {
  id : string;
  idReadable : string;
  summary : option string;
  content : option string;
  created : Z;
  updated : Z;
  reporter : option UserRef.t;
  project : option ProjectRef.t
}.
End Article.

(** What [collectYearData] returns and [StatisticsCalculator] consumes. *)
Module Dataset.
Record t : Type := mk {
  user : User.t;
  year : Z;
  createdIssues : list Issue.t;
  resolvedIssues : list Issue.t;
  comments : list Comment.t;
  articles : list Article.t;
  collectedAt : string
}.
End Dataset.

(* ===================================================================== *)
(** * Part IV. The aggregator ([statisticsCalculator.js]) *)
(* ===================================================================== *)

Module Summary.
Record t : Type := mk {
  totalIssuesCreated : Z;
  totalIssuesResolved : Z;
  totalComments : Z;
  totalArticles : Z;
  totalContributions : Z
}.
End Summary.

Module IssueStats.
Record t : Type := mk {
  total : Z;
  resolved : Z;
  avgResolutionTimeMs : Js.JsNum;
  avgResolutionTimeDays : Js.JsNum;
  longestSummary : option Issue.t;
  shortestSummary : option Issue.t
}.
End IssueStats.

(** An entry of [issueCommentCounts]. *)
Module IssueCount.
Record t : Type := mk {
  issue : IssueRef.t;
  count : Z
}.
End IssueCount.

Module CommentStats.
Record t : Type := mk {
  total : Z;
  avgLength : Js.JsNum;
  longestComment : option Comment.t;
  shortestComment : option Comment.t;
  totalCharacters : Z;
  mostCommentedIssue : option IssueCount.t
}.
End CommentStats.

Module ArticleStats.
Record t : Type := mk {
  total : Z;
  totalContentLength : Z;
  avgContentLength : Js.JsNum;
  longestArticle : option Article.t
}.
End ArticleStats.

(** An entry of [projectCounts]. *)
Module ProjectCount.
Record t : Type := mk {
  name : string;
  shortName : string;
  issuesCreated : Z;
  issuesResolved : Z;
  comments : Z
}.
End ProjectCount.

(** An entry of [projects]: the counters and their sum. *)
Module ProjectActivity.
Record t : Type := mk {
  name : string;
  shortName : string;
  issuesCreated : Z;
  issuesResolved : Z;
  comments : Z;
  totalActivity : Z
}.
End ProjectActivity.

Module ProjectStats.
Record t : Type := mk {
  totalProjects : Z;
  projects : list ProjectActivity.t;
  topProject : option ProjectActivity.t
}.
End ProjectStats.

Module Activity.
Record t : Type := mk {
  type : string;
  timestamp : Z
}.
End Activity.

Module Streak.
Record t : Type := mk {
  days : Z;
  startDate : option string;
  endDate : option string
}.
End Streak.

Module BusiestMonth.
Record t : Type := mk {
  month : Z;
  monthName : option string;
  count : Z
}.
End BusiestMonth.

Module BusiestDay.
Record t : Type := mk {
  day : Z;
  dayName : option string;
  count : Z
}.
End BusiestDay.

Module BusiestHour.
Record t : Type := mk {
  hour : Z;
  count : Z
}.
End BusiestHour.

Module TimeStats.
Record t : Type := mk {
  monthlyActivity : Js.JsObject Z;
  dayOfWeekActivity : Js.JsObject Z;
  hourlyActivity : Js.JsObject Z;
  busiestMonth : BusiestMonth.t;
  busiestDayOfWeek : BusiestDay.t;
  busiestHour : BusiestHour.t;
  longestStreak : Streak.t
}.
End TimeStats.

Module FunFact.
Record t : Type := mk {
  icon : string;
  text : string;
  comparison : string
}.
End FunFact.

Module Achievement.
Record t : Type := mk {
  id : string;
  name : string;
  description : string;
  icon : string
}.
End Achievement.

Module Report.
Record t : Type := mk {
  user : User.t;
  year : Z;
  summary : Summary.t;
  issueStats : IssueStats.t;
  commentStats : CommentStats.t;
  articleStats : ArticleStats.t;
  projectStats : ProjectStats.t;
  timeStats : TimeStats.t;
  funFacts : list FunFact.t;
  achievements : list Achievement.t
}.
End Report.

Module StatisticsCalculator.

Import Js.

(** *** [calculateSummary] *)

Definition calculateSummary (data : Dataset.t) : Summary.t :=
  {| Summary.totalIssuesCreated := len (Dataset.createdIssues data);
     Summary.totalIssuesResolved := len (Dataset.resolvedIssues data);
     Summary.totalComments := len (Dataset.comments data);
     Summary.totalArticles := len (Dataset.articles data);
     Summary.totalContributions :=
       len (Dataset.createdIssues data)
       + len (Dataset.resolvedIssues data)
       + len (Dataset.comments data)
       + len (Dataset.articles data) |}.

(** *** [calculateIssueStats] *)

(** [issues.filter(i => i.resolved)] *)
Definition resolvedCreatedIssues (issues : list Issue.t) : list Issue.t :=
  filter (fun i => truthyNum (Issue.resolved i)) issues.

(** [i.resolved - i.created], on an issue that kept the filter. *)
Definition resolutionTime (i : Issue.t) : Z :=
  match Issue.resolved i with
  | Some r => r - Issue.created i
  | None => 0
  end.

Definition avgResolutionTime (issues : list Issue.t) : JsNum :=
  let resolvedCreated := resolvedCreatedIssues issues in
  if 0 <? len resolvedCreated then
    div (num (fold_left (fun sum i => sum + resolutionTime i)
                        resolvedCreated 0))
        (num (len resolvedCreated))
  else num 0.

Definition calculateIssueStats (data : Dataset.t) : IssueStats.t :=
  let issues := Dataset.createdIssues data in
  let avg := avgResolutionTime issues in
  let sortedBySummaryLength :=
    sortBy (fun a b => optLength (Issue.summary b) - optLength (Issue.summary a))
           issues in
  {| IssueStats.total := len issues;
     IssueStats.resolved := len (Dataset.resolvedIssues data);
     IssueStats.avgResolutionTimeMs := avg;
     IssueStats.avgResolutionTimeDays :=
       round (div avg (num (1000 * 60 * 60 * 24)));
     IssueStats.longestSummary := hd_error sortedBySummaryLength;
     IssueStats.shortestSummary := lastOf sortedBySummaryLength |}.

(** *** [calculateCommentStats] *)

Definition countIssueComments (comments : list Comment.t)
  : JsObject IssueCount.t :=
  fold_left
    (fun counts comment =>
       touch {| IssueCount.issue := Comment.issue comment;
                IssueCount.count := 0 |}
             (fun e => {| IssueCount.issue := IssueCount.issue e;
                          IssueCount.count := IssueCount.count e + 1 |})
             (IssueRef.idReadable (Comment.issue comment))
             counts)
    comments [].

Definition calculateCommentStats (data : Dataset.t) : CommentStats.t :=
  let comments := Dataset.comments data in
  if len comments =? 0 then
    {| CommentStats.total := 0;
       CommentStats.avgLength := num 0;
       CommentStats.longestComment := None;
       CommentStats.shortestComment := None;
       CommentStats.totalCharacters := 0;
       CommentStats.mostCommentedIssue := None |}
  else
    let commentLengths :=
      map (fun c => (c, optLength (Comment.text c))) comments in
    let totalChars := fold_left (fun sum c => sum + snd c) commentLengths 0 in
    let sorted := sortBy (fun a b => snd b - snd a) commentLengths in
    let mostCommentedIssue :=
      hd_error (sortBy (fun a b => IssueCount.count b - IssueCount.count a)
                       (values (countIssueComments comments))) in
    {| CommentStats.total := len comments;
       CommentStats.avgLength := round (div (num totalChars) (num (len comments)));
       CommentStats.totalCharacters := totalChars;
       CommentStats.longestComment := option_map fst (hd_error sorted);
       CommentStats.shortestComment := option_map fst (lastOf sorted);
       CommentStats.mostCommentedIssue := mostCommentedIssue |}.

(** *** [calculateArticleStats] *)

Definition calculateArticleStats (data : Dataset.t) : ArticleStats.t :=
  let articles := Dataset.articles data in
  if len articles =? 0 then
    {| ArticleStats.total := 0;
       ArticleStats.totalContentLength := 0;
       ArticleStats.avgContentLength := num 0;
       ArticleStats.longestArticle := None |}
  else
    let contentLengths :=
      map (fun a => (a, optLength (Article.content a))) articles in
    let totalLength := fold_left (fun sum a => sum + snd a) contentLengths 0 in
    let sorted := sortBy (fun a b => snd b - snd a) contentLengths in
    {| ArticleStats.total := len articles;
       ArticleStats.totalContentLength := totalLength;
       ArticleStats.avgContentLength :=
         round (div (num totalLength) (num (len articles)));
       ArticleStats.longestArticle := option_map fst (hd_error sorted) |}.

(** *** [calculateProjectStats] *)

(** [x.project?.name || 'Unknown'] *)
Definition projectNameOf (p : option ProjectRef.t) : string :=
  orElse (match p with Some r => ProjectRef.name r | None => None end)
         "Unknown".

(** [x.project?.shortName || '?'] *)
Definition projectShortNameOf (p : option ProjectRef.t) : string :=
  orElse (match p with Some r => ProjectRef.shortName r | None => None end)
         "?".

(** The object literal of a new group. *)
Definition newGroup (p : option ProjectRef.t) : ProjectCount.t :=
  {| ProjectCount.name := projectNameOf p;
     ProjectCount.shortName := projectShortNameOf p;
     ProjectCount.issuesCreated := 0;
     ProjectCount.issuesResolved := 0;
     ProjectCount.comments := 0 |}.

Definition incrCreated (g : ProjectCount.t) : ProjectCount.t :=
  {| ProjectCount.name := ProjectCount.name g;
     ProjectCount.shortName := ProjectCount.shortName g;
     ProjectCount.issuesCreated := ProjectCount.issuesCreated g + 1;
     ProjectCount.issuesResolved := ProjectCount.issuesResolved g;
     ProjectCount.comments := ProjectCount.comments g |}.

Definition incrResolved (g : ProjectCount.t) : ProjectCount.t :=
  {| ProjectCount.name := ProjectCount.name g;
     ProjectCount.shortName := ProjectCount.shortName g;
     ProjectCount.issuesCreated := ProjectCount.issuesCreated g;
     ProjectCount.issuesResolved := ProjectCount.issuesResolved g + 1;
     ProjectCount.comments := ProjectCount.comments g |}.

Definition incrComments (g : ProjectCount.t) : ProjectCount.t :=
  {| ProjectCount.name := ProjectCount.name g;
     ProjectCount.shortName := ProjectCount.shortName g;
     ProjectCount.issuesCreated := ProjectCount.issuesCreated g;
     ProjectCount.issuesResolved := ProjectCount.issuesResolved g;
     ProjectCount.comments := ProjectCount.comments g + 1 |}.

(** One pass of a counting loop over the projects of [items]. *)
Definition countInto (incr : ProjectCount.t -> ProjectCount.t)
  (items : list (option ProjectRef.t)) (counts : JsObject ProjectCount.t)
  : JsObject ProjectCount.t :=
  fold_left (fun acc p => touch (newGroup p) incr (projectNameOf p) acc)
            items counts.

(** The three loops, in the order of the source. *)
Definition projectCounts (data : Dataset.t) : JsObject ProjectCount.t :=
  let afterCreated :=
    countInto incrCreated (map Issue.project (Dataset.createdIssues data)) [] in
  let afterResolved :=
    countInto incrResolved (map Issue.project (Dataset.resolvedIssues data))
              afterCreated in
  countInto incrComments
            (map (fun c => IssueRef.project (Comment.issue c))
                 (Dataset.comments data))
            afterResolved.

(** [{...p, totalActivity: p.issuesCreated + p.issuesResolved + p.comments}] *)
Definition withTotal (p : ProjectCount.t) : ProjectActivity.t :=
  {| ProjectActivity.name := ProjectCount.name p;
     ProjectActivity.shortName := ProjectCount.shortName p;
     ProjectActivity.issuesCreated := ProjectCount.issuesCreated p;
     ProjectActivity.issuesResolved := ProjectCount.issuesResolved p;
     ProjectActivity.comments := ProjectCount.comments p;
     ProjectActivity.totalActivity :=
       ProjectCount.issuesCreated p + ProjectCount.issuesResolved p
       + ProjectCount.comments p |}.

Definition byTotalActivity (a b : ProjectActivity.t) : Z :=
  ProjectActivity.totalActivity b - ProjectActivity.totalActivity a.

Definition calculateProjectStats (data : Dataset.t) : ProjectStats.t :=
  let projects :=
    sortBy byTotalActivity (map withTotal (values (projectCounts data))) in
  {| ProjectStats.totalProjects := len projects;
     ProjectStats.projects := projects;
     ProjectStats.topProject := hd_error projects |}.

(** *** [calculateTimeStats] and [calculateLongestStreak] *)

Definition allActivities (data : Dataset.t) : list Activity.t :=
  map (fun i => Activity.mk "issue" (Issue.created i))
      (Dataset.createdIssues data)
  ++ map (fun c => Activity.mk "comment" (Comment.created c))
         (Dataset.comments data)
  ++ map (fun a => Activity.mk "article" (Article.created a))
         (Dataset.articles data).

(** The integers [from], [from + 1], ..., [from + n - 1]. *)
Definition range (from : Z) (n : nat) : list Z :=
  map (fun k => from + Z.of_nat k) (seq 0 n).

(** An object with the keys [keys], each set to 0, added in that order. *)
Definition zeroCounts (keys : list Z) : JsObject Z :=
  map (fun k => (numToString k, 0)) keys.

(** [counts[k]++] on a key the object has. *)
Definition increment (k : Z) (counts : JsObject Z) : JsObject Z :=
  updateOwn (numToString k) (fun v => v + 1) counts.

(** [Object.entries(counts).sort((a, b) => b[1] - a[1])[0]]; the objects
    it is applied to are never empty. *)
Definition busiest (counts : JsObject Z) : string * Z :=
  hd (EmptyString, 0) (sortBy (fun a b => snd b - snd a) (entries counts)).

Definition monthNames : list string :=
  [ ""; "January"; "February"; "March"; "April"; "May"; "June";
    "July"; "August"; "September"; "October"; "November"; "December" ].

Definition dayNames : list string :=
  [ "Sunday"; "Monday"; "Tuesday"; "Wednesday"; "Thursday"; "Friday";
    "Saturday" ].

(** The key of a calendar day:
    [`${getFullYear()}-${pad(getMonth() + 1)}-${pad(getDate())}`]. *)
Definition dayKey (h : Dates.Host) (timestamp : Z) : string :=
  (numToString (Dates.getFullYear h timestamp) ++ "-"
   ++ padStart 2 "0" (numToString (Dates.getMonth h timestamp + 1)) ++ "-"
   ++ padStart 2 "0" (numToString (Dates.getDate h timestamp)))%string.

(** [(new Date(curr) - new Date(prev)) / (1000 * 60 * 60 * 24) === 1]: the
    two keys parse and are exactly one day apart. An invalid date makes the
    difference [NaN], which is not 1. *)
Definition isNextDay (prev curr : string) : bool :=
  match Dates.parseDate prev, Dates.parseDate curr with
  | Some p, Some c => c - p =? 1000 * 60 * 60 * 24
  | _, _ => false
  end.

(** The variables of the scanning loop. *)
Record StreakScan : Type := mkScan {
  longestStreak : Z;
  currentStreak : Z;
  longestStart : string;
  longestEnd : string;
  currentStart : string
}.

(** One iteration of the loop, at [sortedDays[i]] with [prev] the day
    before it in the array. *)
Definition scanStep (prev curr : string) (st : StreakScan) : StreakScan :=
  if isNextDay prev curr then
    let current := currentStreak st + 1 in
    if longestStreak st <? current then
      {| longestStreak := current;
         currentStreak := current;
         longestStart := currentStart st;
         longestEnd := curr;
         currentStart := currentStart st |}
    else
      {| longestStreak := longestStreak st;
         currentStreak := current;
         longestStart := longestStart st;
         longestEnd := longestEnd st;
         currentStart := currentStart st |}
  else
    {| longestStreak := longestStreak st;
       currentStreak := 1;
       longestStart := longestStart st;
       longestEnd := longestEnd st;
       currentStart := curr |}.

(** The loop [for (let i = 1; i < sortedDays.length; i++)]. *)
Fixpoint scanDays (prev : string) (rest : list string) (st : StreakScan)
  : StreakScan :=
  match rest with
  | [] => st
  | curr :: rest' => scanDays curr rest' (scanStep prev curr st)
  end.

(** The sorted distinct day keys of the activities. *)
Definition sortedDays (h : Dates.Host) (activities : list Activity.t)
  : list string :=
  sortStrings
    (uniqueStrings [] (map (fun a => dayKey h (Activity.timestamp a))
                           activities)).

Definition calculateLongestStreak (h : Dates.Host)
  (activities : list Activity.t) : Streak.t :=
  if len activities =? 0 then
    {| Streak.days := 0; Streak.startDate := None; Streak.endDate := None |}
  else
    match sortedDays h activities with
    | [] =>
        (* [sortedDays[0]] of an empty array is [undefined] *)
        {| Streak.days := 1; Streak.startDate := None;
           Streak.endDate := None |}
    | first :: rest =>
        let st :=
          scanDays first rest
            {| longestStreak := 1;
               currentStreak := 1;
               longestStart := first;
               longestEnd := first;
               currentStart := first |} in
        {| Streak.days := longestStreak st;
           Streak.startDate := Some (longestStart st);
           Streak.endDate := Some (longestEnd st) |}
    end.

(** The histogram loop: one event per activity, in local time. *)
Definition countActivities (h : Dates.Host) (activities : list Activity.t)
  : JsObject Z * JsObject Z * JsObject Z :=
  fold_left
    (fun acc activity =>
       let '(monthly, dayOfWeek, hourly) := acc in
       let t := Activity.timestamp activity in
       (increment (Dates.getMonth h t + 1) monthly,
        increment (Dates.getDay h t) dayOfWeek,
        increment (Dates.getHours h t) hourly))
    activities
    (zeroCounts (range 1 12), zeroCounts (range 0 7), zeroCounts (range 0 24)).

Definition calculateTimeStats (h : Dates.Host) (data : Dataset.t)
  : TimeStats.t :=
  let activities := allActivities data in
  let '(monthly, dayOfWeek, hourly) := countActivities h activities in
  let busiestMonth := busiest monthly in
  let busiestDayOfWeek := busiest dayOfWeek in
  let busiestHour := busiest hourly in
  {| TimeStats.monthlyActivity := monthly;
     TimeStats.dayOfWeekActivity := dayOfWeek;
     TimeStats.hourlyActivity := hourly;
     TimeStats.busiestMonth :=
       {| BusiestMonth.month := parseInt (fst busiestMonth);
          BusiestMonth.monthName :=
            nth_error monthNames (Z.to_nat (parseInt (fst busiestMonth)));
          BusiestMonth.count := snd busiestMonth |};
     TimeStats.busiestDayOfWeek :=
       {| BusiestDay.day := parseInt (fst busiestDayOfWeek);
          BusiestDay.dayName :=
            nth_error dayNames (Z.to_nat (parseInt (fst busiestDayOfWeek)));
          BusiestDay.count := snd busiestDayOfWeek |};
     TimeStats.busiestHour :=
       {| BusiestHour.hour := parseInt (fst busiestHour);
          BusiestHour.count := snd busiestHour |};
     TimeStats.longestStreak := calculateLongestStreak h activities |}.

(** *** [calculateFunFacts] *)

(** An optional string inside a template literal. *)
Definition shown (s : option string) : string :=
  match s with Some t => t | None => "undefined" end.

Definition personalityOf (hour : Z) : string :=
  if (5 <=? hour) && (hour <? 9) then "Early Bird"
  else if (9 <=? hour) && (hour <? 12) then "Morning Person"
  else if (12 <=? hour) && (hour <? 17) then "Afternoon Warrior"
  else if (17 <=? hour) && (hour <? 21) then "Evening Coder"
  else "Night Owl".

Definition charactersFact (h : Dates.Host) (commentStats : CommentStats.t)
  : list FunFact.t :=
  let totalCharacters := CommentStats.totalCharacters commentStats in
  if 0 <? totalCharacters then
    let pages := round (div (num totalCharacters) (num 3000)) in
    if gtZ pages 0 then
      [ {| FunFact.icon := "📝";
           FunFact.text :=
             ("You wrote " ++ Dates.toLocaleString h totalCharacters
              ++ " characters in comments")%string;
           FunFact.comparison :=
             ("That's about " ++ toStr pages ++ " page"
              ++ (if gtZ pages 1 then "s" else "") ++ " of text!")%string |} ]
    else []
  else [].

(** [timeStats.busiestDayOfWeek] is an object, which is truthy. *)
Definition busiestDayFact (timeStats : TimeStats.t) : list FunFact.t :=
  let busiestDay := TimeStats.busiestDayOfWeek timeStats in
  [ {| FunFact.icon := "📅";
       FunFact.text :=
         (shown (BusiestDay.dayName busiestDay) ++ " was your power day")%string;
       FunFact.comparison :=
         (numToString (BusiestDay.count busiestDay) ++ " activities on "
          ++ shown (BusiestDay.dayName busiestDay) ++ "s")%string |} ].

(** [timeStats.busiestHour] is an object, which is truthy. *)
Definition personalityFact (timeStats : TimeStats.t) : list FunFact.t :=
  let hour := BusiestHour.hour (TimeStats.busiestHour timeStats) in
  [ {| FunFact.icon := "⏰";
       FunFact.text := ("You're a " ++ personalityOf hour)%string;
       FunFact.comparison :=
         ("Most active around " ++ numToString hour ++ ":00")%string |} ].

Definition streakFact (timeStats : TimeStats.t) : list FunFact.t :=
  let streak := TimeStats.longestStreak timeStats in
  if 1 <? Streak.days streak then
    [ {| FunFact.icon := "🔥";
         FunFact.text :=
           (numToString (Streak.days streak) ++ "-day activity streak!")%string;
         FunFact.comparison :=
           ("From " ++ shown (Streak.startDate streak) ++ " to "
            ++ shown (Streak.endDate streak))%string |} ]
  else [].

Definition monthlyIssuesFact (summary : Summary.t) : list FunFact.t :=
  let monthlyIssues := div (num (Summary.totalIssuesCreated summary)) (num 12) in
  if geZ monthlyIssues 1 then
    [ {| FunFact.icon := "📊";
         FunFact.text :=
           ("You created ~" ++ toStr (round monthlyIssues)
            ++ " issues per month")%string;
         FunFact.comparison :=
           ("That's one every " ++ toStr (round (div (num 30) monthlyIssues))
            ++ " days on average")%string |} ]
  else [].

Definition calculateFunFacts (h : Dates.Host) (data : Dataset.t)
  : list FunFact.t :=
  let summary := calculateSummary data in
  let commentStats := calculateCommentStats data in
  let timeStats := calculateTimeStats h data in
  charactersFact h commentStats
  ++ busiestDayFact timeStats
  ++ personalityFact timeStats
  ++ streakFact timeStats
  ++ monthlyIssuesFact summary.

(** *** [calculateAchievements] *)

Definition badge (id name description icon : string) : Achievement.t :=
  {| Achievement.id := id; Achievement.name := name;
     Achievement.description := description; Achievement.icon := icon |}.

Definition issueCreatorBadges (totalIssuesCreated : Z) : list Achievement.t :=
  if 100 <=? totalIssuesCreated then
    [badge "issue_master" "Issue Master" "Created 100+ issues" "🏆"]
  else if 50 <=? totalIssuesCreated then
    [badge "issue_expert" "Issue Expert" "Created 50+ issues" "🥇"]
  else if 20 <=? totalIssuesCreated then
    [badge "issue_enthusiast" "Issue Enthusiast" "Created 20+ issues" "🥈"]
  else if 5 <=? totalIssuesCreated then
    [badge "issue_starter" "Issue Starter" "Created 5+ issues" "🥉"]
  else [].

Definition bugCrusherBadges (totalIssuesResolved : Z) : list Achievement.t :=
  if 100 <=? totalIssuesResolved then
    [badge "bug_crusher" "Bug Crusher" "Resolved 100+ issues" "🐛"]
  else if 50 <=? totalIssuesResolved then
    [badge "bug_hunter" "Bug Hunter" "Resolved 50+ issues" "🔍"]
  else if 20 <=? totalIssuesResolved then
    [badge "bug_squasher" "Bug Squasher" "Resolved 20+ issues" "👊"]
  else [].

Definition commenterBadges (totalComments : Z) : list Achievement.t :=
  if 500 <=? totalComments then
    [badge "chatterbox" "Chatterbox" "Left 500+ comments" "💬"]
  else if 200 <=? totalComments then
    [badge "conversationalist" "Conversationalist" "Left 200+ comments" "🗣️"]
  else if 50 <=? totalComments then
    [badge "contributor" "Contributor" "Left 50+ comments" "✍️"]
  else [].

Definition documentationBadges (totalArticles : Z) : list Achievement.t :=
  if 20 <=? totalArticles then
    [badge "documentation_hero" "Documentation Hero" "Created 20+ articles" "📚"]
  else if 10 <=? totalArticles then
    [badge "knowledge_sharer" "Knowledge Sharer" "Created 10+ articles" "📖"]
  else if 3 <=? totalArticles then
    [badge "writer" "Writer" "Created 3+ articles" "✏️"]
  else [].

Definition streakBadges (days : Z) : list Achievement.t :=
  if 30 <=? days then
    [badge "unstoppable" "Unstoppable" "30+ day streak" "🔥"]
  else if 14 <=? days then
    [badge "consistent" "Consistent" "14+ day streak" "⚡"]
  else if 7 <=? days then
    [badge "dedicated" "Dedicated" "7+ day streak" "💪"]
  else [].

Definition multiProjectBadges (totalProjects : Z) : list Achievement.t :=
  if 10 <=? totalProjects then
    [badge "polyglot" "Polyglot" "Active in 10+ projects" "🌍"]
  else if 5 <=? totalProjects then
    [badge "versatile" "Versatile" "Active in 5+ projects" "🎯"]
  else [].

(** [counts[k]] of a histogram read as a number; a missing bucket would be
    [undefined]. *)
Definition bucket (counts : JsObject Z) (k : Z) : option Z :=
  getOwn counts (numToString k).

(** [counts[0] + counts[6]]: the sum with a missing bucket is [NaN], and
    no comparison with [NaN] holds. *)
Definition weekendActivity (timeStats : TimeStats.t) : option Z :=
  match bucket (TimeStats.dayOfWeekActivity timeStats) 0,
        bucket (TimeStats.dayOfWeekActivity timeStats) 6 with
  | Some a, Some b => Some (a + b)
  | _, _ => None
  end.

(** [hours.reduce((sum, h) => sum + (hourlyActivity[h] || 0), 0)] *)
Definition hoursActivity (hours : list Z) (timeStats : TimeStats.t) : Z :=
  fold_left
    (fun sum hr =>
       sum + match bucket (TimeStats.hourlyActivity timeStats) hr with
             | Some v => v
             | None => 0
             end)
    hours 0.

Definition nightActivity (timeStats : TimeStats.t) : Z :=
  hoursActivity [22; 23; 0; 1; 2; 3; 4] timeStats.

Definition morningActivity (timeStats : TimeStats.t) : Z :=
  hoursActivity [5; 6; 7; 8] timeStats.

Definition weekendBadge (timeStats : TimeStats.t) : list Achievement.t :=
  match weekendActivity timeStats with
  | Some n =>
      if 20 <? n then
        [badge "weekend_warrior" "Weekend Warrior" "Active on weekends" "🦸"]
      else []
  | None => []
  end.

Definition nightOwlBadge (timeStats : TimeStats.t) : list Achievement.t :=
  if 20 <? nightActivity timeStats then
    [badge "night_owl" "Night Owl" "Active late at night" "🦉"]
  else [].

Definition earlyBirdBadge (timeStats : TimeStats.t) : list Achievement.t :=
  if 20 <? morningActivity timeStats then
    [badge "early_bird" "Early Bird" "Active early morning" "🐦"]
  else [].

Definition calculateAchievements (h : Dates.Host) (data : Dataset.t)
  : list Achievement.t :=
  let summary := calculateSummary data in
  let timeStats := calculateTimeStats h data in
  let projectStats := calculateProjectStats data in
  issueCreatorBadges (Summary.totalIssuesCreated summary)
  ++ bugCrusherBadges (Summary.totalIssuesResolved summary)
  ++ commenterBadges (Summary.totalComments summary)
  ++ documentationBadges (Summary.totalArticles summary)
  ++ streakBadges (Streak.days (TimeStats.longestStreak timeStats))
  ++ multiProjectBadges (ProjectStats.totalProjects projectStats)
  ++ weekendBadge timeStats
  ++ nightOwlBadge timeStats
  ++ earlyBirdBadge timeStats.

(** *** [calculateAll] *)

Definition calculateAll (h : Dates.Host) (data : Dataset.t) : Report.t :=
  {| Report.user := Dataset.user data;
     Report.year := Dataset.year data;
     Report.summary := calculateSummary data;
     Report.issueStats := calculateIssueStats data;
     Report.commentStats := calculateCommentStats data;
     Report.articleStats := calculateArticleStats data;
     Report.projectStats := calculateProjectStats data;
     Report.timeStats := calculateTimeStats h data;
     Report.funFacts := calculateFunFacts h data;
     Report.achievements := calculateAchievements h data |}.

End StatisticsCalculator.

(* ===================================================================== *)
(** * Part V. Asynchronous code: requests, callbacks and failures *)
(* ===================================================================== *)

Module Async.

Import Js.

(** A request as [fetch] receives it. Every request of the client is a
    [GET]. *)
Record Request : Type := mkRequest {
  url : string;
  headers : list (string * string)
}.

(** What [fetch] can do with a request: reject (the request could not be
    sent), or resolve with a response whose status, body text and parsed
    body are read by the client. Reading the body can fail as well. *)
Inductive FetchOutcome (A : Type) : Type :=
| NetworkFailure (e : JsError)
| Response (status : Z) (statusText : string)
           (text : JsError + string) (json : JsError + A).
Arguments NetworkFailure {A} e.
Arguments Response {A} status statusText text json.

(** An endpoint of the tracker: its answer to a request, which may depend
    on the requests sent before it. *)
Definition Endpoint (A : Type) : Type :=
  list Request -> Request -> FetchOutcome A.

(** What is observable of a run: the requests sent, oldest first, and the
    messages handed to the progress callback. Console output is left out. *)
Record World : Type := mkWorld {
  requests : list Request;
  progress : list string
}.

Definition initialWorld : World := {| requests := []; progress := [] |}.

(** How an asynchronous function ends: its promise is fulfilled, it is
    rejected, or the loop budget of the model ran out before either. *)
Inductive Completion (A : Type) : Type :=
| Return (a : A)
| Throw (e : JsError)
| OutOfFuel.
Arguments Return {A} a.
Arguments Throw {A} e.
Arguments OutOfFuel {A}.

Definition M (A : Type) : Type := World -> Completion A * World.

Definition ret {A} (a : A) : M A := fun w => (Return a, w).

Definition throw {A} (e : JsError) : M A := fun w => (Throw e, w).

Definition bind {A B} (c : M A) (k : A -> M B) : M B :=
  fun w =>
    match c w with
    | (Return a, w') => k a w'
    | (Throw e, w') => (Throw e, w')
    | (OutOfFuel, w') => (OutOfFuel, w')
    end.

(** [try { c } catch (error) { ... }] with the outcome handed back as a
    value: a rejection is caught, a run that does not end is not. *)
Definition attempt {A} (c : M A) : M (JsError + A) :=
  fun w =>
    match c w with
    | (Return a, w') => (Return (inr a), w')
    | (Throw e, w') => (Return (inl e), w')
    | (OutOfFuel, w') => (OutOfFuel, w')
    end.

(** A progress callback inside the services. *)
Definition Callback : Type := string -> M unit.

(** A callback supplied by the caller: given the messages it has already
    received and a new one, it returns ([None]) or throws. *)
Definition Listener : Type := list string -> string -> option JsError.

Definition listen (l : Listener) : Callback :=
  fun message w =>
    let w' := {| requests := requests w;
                 progress := progress w ++ [message] |} in
    match l (progress w) message with
    | None => (Return tt, w')
    | Some e => (Throw e, w')
    end.

(** [if (onProgress) onProgress(message)] *)
Definition notify (onProgress : option Callback) (message : string) : M unit :=
  match onProgress with
  | Some callback => callback message
  | None => ret tt
  end.

(** [await Promise.all([a, b, c, d])], in one schedule: each operation runs
    to its end before the next starts, whatever the others do, and the
    result is rejected with the first rejection in the order of the array.
    The source starts the four together and interleaves them at their
    [await]s: requests and messages of different operations can come in
    another order, and the rejection is the first in time. *)
Definition promiseAll4 {A B C D} (a : M A) (b : M B) (c : M C) (d : M D)
  : M (A * B * C * D) :=
  fun w0 =>
    let '(ra, w1) := a w0 in
    let '(rb, w2) := b w1 in
    let '(rc, w3) := c w2 in
    let '(rd, w4) := d w3 in
    match ra, rb, rc, rd with
    | Return x, Return y, Return z, Return t => (Return (x, y, z, t), w4)
    | Throw e, _, _, _ => (Throw e, w4)
    | _, Throw e, _, _ => (Throw e, w4)
    | _, _, Throw e, _ => (Throw e, w4)
    | _, _, _, Throw e => (Throw e, w4)
    | _, _, _, _ => (OutOfFuel, w4)
    end.

End Async.

Declare Scope async_scope.
Delimit Scope async_scope with async.
Notation "x <- c ;; k" := (Async.bind c (fun x => k))
  (at level 61, c at next level, right associativity) : async_scope.
Notation "c ;;; k" := (Async.bind c (fun _ => k))
  (at level 61, right associativity) : async_scope.

(* ===================================================================== *)
(** * Part VI. The gateway ([youtrackClient.js]) *)
(* ===================================================================== *)

Module YouTrackClient.

Import Js Async.
Local Open Scope async_scope.

(** The tracker behind the client, one endpoint per shape of answer, and
    the host functions the client calls. *)
Record Tracker : Type := mkTracker {
  usersMe : Endpoint User.t;
  issues : Endpoint (list Issue.t);
  issuesWithComments : Endpoint (list CommentedIssue.t);
  articles : Endpoint (list Article.t);
  encodeURIComponent : string -> string
}.

Record t : Type := mkClient {
  baseUrl : string;
  token : string;
  apiBase : string
}.

(** [s.replace(/\/$/, '')] *)
Fixpoint removeTrailingSlash (s : string) : string :=
  match s with
  | EmptyString => EmptyString
  | String c EmptyString => if Ascii.eqb c "/" then EmptyString else s
  | String c rest => String c (removeTrailingSlash rest)
  end.

(** The constructor. *)
Definition new (baseUrl token : string) : t :=
  {| baseUrl := removeTrailingSlash baseUrl;
     token := token;
     apiBase := (removeTrailingSlash baseUrl ++ "/api")%string |}.

(** [response.ok] *)
Definition ok (status : Z) : bool := (200 <=? status) && (status <=? 299).

(** [request(endpoint)]: one call of [fetch]. The [catch] block logs and
    rethrows what it caught. *)
Definition request {A} (client : t) (endpoint : Endpoint A) (path : string)
  : M A :=
  fun w =>
    let req :=
      {| url := (apiBase client ++ path)%string;
         headers :=
           [ ("Authorization", ("Bearer " ++ token client)%string);
             ("Accept", "application/json");
             ("Content-Type", "application/json") ] |} in
    let w' := {| requests := requests w ++ [req]; progress := progress w |} in
    match endpoint (requests w) req with
    | NetworkFailure e => (Throw e, w')
    | Response status statusText text json =>
        if negb (ok status) then
          match text with
          | inr errorText =>
              (Throw (mkError "Error"
                        ("YouTrack API error (" ++ numToString status ++ "): "
                         ++ errorText)%string), w')
          | inl e => (Throw e, w')
          end
        else
          match json with
          | inr data => (Return data, w')
          | inl e => (Throw e, w')
          end
    end.

Definition getCurrentUser (client : t) (tracker : Tracker) : M User.t :=
  request client (usersMe tracker)
          "/users/me?fields=id,login,fullName,email,avatarUrl".

Definition top : Z := 100.

(** The pagination loop shared, word for word, by the fetch functions:
    [fetchPage skip] is the request of the page at offset [skip], and
    [afterPage] what the body does between extending the result and the
    test for a short page. [fuel] bounds the number of iterations. *)
Fixpoint pageLoop {A} (fuel : nat) (fetchPage : Z -> M (list A))
  (afterPage : list A -> M unit) (all : list A) (skip : Z) : M (list A) :=
  match fuel with
  | O => fun w => (OutOfFuel, w)
  | S fuel' =>
      page <- fetchPage skip ;;
      if len page =? 0 then ret all
      else
        let all' := all ++ page in
        let skip' := skip + top in
        afterPage all' ;;;
        if len page <? top then ret all'
        else pageLoop fuel' fetchPage afterPage all' skip'
  end.

Definition issueFields : string :=
  "id,idReadable,summary,created,resolved,project(id,name,shortName),customFields(name,value(name))".

Definition commentFields : string :=
  "id,idReadable,summary,project(id,name,shortName),comments(id,text,created,author(id,login,fullName))".

Definition articleFields : string :=
  "id,idReadable,summary,content,created,updated,reporter(id,login,fullName),project(id,name,shortName)".

Definition issuesPath (query fields : string) (skip : Z) : string :=
  ("/issues?query=" ++ query ++ "&fields=" ++ fields
   ++ "&$top=" ++ numToString top ++ "&$skip=" ++ numToString skip)%string.

Definition getIssuesCreatedByUser (fuel : nat) (client : t) (tracker : Tracker)
  (userId startDate endDate : string) (onProgress : option Callback)
  : M (list Issue.t) :=
  let query :=
    encodeURIComponent tracker
      ("created: " ++ startDate ++ " .. " ++ endDate
       ++ " created by: " ++ userId)%string in
  pageLoop fuel
    (fun skip => request client (issues tracker)
                         (issuesPath query issueFields skip))
    (fun allIssues =>
       notify onProgress
         ("Fetched " ++ numToString (len allIssues) ++ " created issues...")%string)
    [] 0.

Definition getIssuesWithComments (fuel : nat) (client : t) (tracker : Tracker)
  (userId startDate endDate : string) (onProgress : option Callback)
  : M (list CommentedIssue.t) :=
  let query :=
    encodeURIComponent tracker
      ("commenter: " ++ userId ++ " commented: " ++ startDate
       ++ " .. " ++ endDate)%string in
  pageLoop fuel
    (fun skip => request client (issuesWithComments tracker)
                         (issuesPath query commentFields skip))
    (fun allIssues =>
       notify onProgress
         ("Fetched " ++ numToString (len allIssues)
          ++ " issues with comments...")%string)
    [] 0.

Definition getIssuesResolvedByUser (fuel : nat) (client : t) (tracker : Tracker)
  (userId startDate endDate : string) (onProgress : option Callback)
  : M (list Issue.t) :=
  let query :=
    encodeURIComponent tracker
      ("resolved date: " ++ startDate ++ " .. " ++ endDate
       ++ " Assignee: " ++ userId)%string in
  pageLoop fuel
    (fun skip => request client (issues tracker)
                         (issuesPath query issueFields skip))
    (fun allIssues =>
       notify onProgress
         ("Fetched " ++ numToString (len allIssues) ++ " resolved issues...")%string)
    [] 0.

Definition articlesPath (shortName : string) (skip : Z) : string :=
  ("/admin/projects/" ++ shortName ++ "/articles?fields=" ++ articleFields
   ++ "&$top=" ++ numToString top ++ "&$skip=" ++ numToString skip)%string.

(** The pages of one project, the [while] loop inside the [try]. *)
Definition projectArticles (fuel : nat) (client : t) (tracker : Tracker)
  (shortName : string) : M (list Article.t) :=
  pageLoop fuel
    (fun skip => request client (articles tracker) (articlesPath shortName skip))
    (fun _ => ret tt)
    [] 0.

(** One iteration of [for (const shortName of projectShortNames)], from
    the articles collected so far to those collected after it. The [try]
    covers the page loop, the [push] and the progress call: a failure of
    the loop leaves [allArticles] as it was, a failure of the progress
    call comes after the [push] and leaves the pushed articles in place;
    both are caught and logged. *)
Definition articlesStep (fuel : nat) (client : t) (tracker : Tracker)
  (onProgress : option Callback) (allArticles : list Article.t)
  (shortName : string) : M (list Article.t) :=
  fetched <- attempt (projectArticles fuel client tracker shortName) ;;
  match fetched with
  | inl error => ret allArticles
  | inr pages =>
      let allArticles' := allArticles ++ pages in
      attempt (notify onProgress
                 ("Fetched " ++ numToString (len allArticles')
                  ++ " articles...")%string) ;;;
      ret allArticles'
  end.

Fixpoint articlesLoop (fuel : nat) (client : t) (tracker : Tracker)
  (onProgress : option Callback) (allArticles : list Article.t)
  (projectShortNames : list string) : M (list Article.t) :=
  match projectShortNames with
  | [] => ret allArticles
  | shortName :: rest =>
      allArticles' <- articlesStep fuel client tracker onProgress
                                   allArticles shortName ;;
      articlesLoop fuel client tracker onProgress allArticles' rest
  end.

Definition getArticles (fuel : nat) (client : t) (tracker : Tracker)
  (projectShortNames : list string) (onProgress : option Callback)
  : M (list Article.t) :=
  if len projectShortNames =? 0 then ret []
  else articlesLoop fuel client tracker onProgress [] projectShortNames.

End YouTrackClient.

(* ===================================================================== *)
(** * Part VII. The collector ([dataCollector.js]) *)
(* ===================================================================== *)

Module DataCollector.

Import Js Async.
Local Open Scope async_scope.

(** [new Date(`${year}-01-01T00:00:00Z`).getTime()]; [None] is [NaN]. *)
Definition yearStart (year : Z) : option Z :=
  Dates.parseDate (numToString year ++ "-01-01T00:00:00Z")%string.

(** [new Date(`${year}-12-31T23:59:59Z`).getTime()] *)
Definition yearEnd (year : Z) : option Z :=
  Dates.parseDate (numToString year ++ "-12-31T23:59:59Z")%string.

(** [created >= yearStart && created <= yearEnd]; a comparison with [NaN]
    is false. *)
Definition withinYear (created : Z) (year : Z) : bool :=
  match yearStart year, yearEnd year with
  | Some s, Some e => (s <=? created) && (created <=? e)
  | _, _ => false
  end.

(** [who && who.login === userLogin] *)
Definition isUser (who : option UserRef.t) (userLogin : string) : bool :=
  match who with
  | Some u => String.eqb (UserRef.login u) userLogin
  | None => false
  end.

(** The condition of the inner [if] of [extractUserComments]. *)
Definition keepsComment (userLogin : string) (year : Z) (comment : RawComment.t)
  : bool :=
  isUser (RawComment.author comment) userLogin
  && withinYear (RawComment.created comment) year.

(** [{...comment, issue: {id, idReadable, summary, project}}] *)
Definition enrich (issue : CommentedIssue.t) (comment : RawComment.t)
  : Comment.t :=
  {| Comment.id := RawComment.id comment;
     Comment.text := RawComment.text comment;
     Comment.created := RawComment.created comment;
     Comment.author := RawComment.author comment;
     Comment.issue :=
       {| IssueRef.id := CommentedIssue.id issue;
          IssueRef.idReadable := CommentedIssue.idReadable issue;
          IssueRef.summary := CommentedIssue.summary issue;
          IssueRef.project := CommentedIssue.project issue |} |}.

(** The comments one issue contributes; an issue without a [comments]
    array is skipped. *)
Definition commentsOfIssue (userLogin : string) (year : Z)
  (issue : CommentedIssue.t) : list Comment.t :=
  match CommentedIssue.comments issue with
  | None => []
  | Some comments =>
      map (enrich issue) (filter (keepsComment userLogin year) comments)
  end.

Definition extractUserComments (issues : list CommentedIssue.t)
  (userLogin : string) (year : Z) : list Comment.t :=
  flat_map (commentsOfIssue userLogin year) issues.

(** The predicate of the [filter] of [filterArticlesByUserAndYear]. *)
Definition keepsArticle (userLogin : string) (year : Z) (article : Article.t)
  : bool :=
  isUser (Article.reporter article) userLogin
  && withinYear (Article.created article) year.

Definition filterArticlesByUserAndYear (articles : list Article.t)
  (userLogin : string) (year : Z) : list Article.t :=
  filter (keepsArticle userLogin year) articles.

(** [collectYearData]. [nowISO] is [new Date().toISOString()] at the end
    of the collection. Both [try] blocks log and rethrow. *)
Definition collectYearData (fuel : nat) (client : YouTrackClient.t)
  (tracker : YouTrackClient.Tracker) (nowISO : string)
  (year : Z) (articleProjects : list string) (onProgress : option Callback)
  : M Dataset.t :=
  let startDate := (numToString year ++ "-01-01")%string in
  let endDate := (numToString year ++ "-12-31")%string in
  let updateProgress : Callback := fun message => notify onProgress message in
  updateProgress "Fetching your user information..." ;;;
  currentUser <- YouTrackClient.getCurrentUser client tracker ;;
  updateProgress "Fetching your issues, comments, and articles..." ;;;
  fetched <-
    promiseAll4
      (YouTrackClient.getIssuesCreatedByUser fuel client tracker
         (User.login currentUser) startDate endDate (Some updateProgress))
      (YouTrackClient.getIssuesResolvedByUser fuel client tracker
         (User.login currentUser) startDate endDate (Some updateProgress))
      (YouTrackClient.getIssuesWithComments fuel client tracker
         (User.login currentUser) startDate endDate (Some updateProgress))
      (YouTrackClient.getArticles fuel client tracker articleProjects
         (Some updateProgress)) ;;
  let '(createdIssues, resolvedIssues, issuesWithComments, allArticles) :=
    fetched in
  updateProgress "Processing your comments..." ;;;
  let userComments :=
    extractUserComments issuesWithComments (User.login currentUser) year in
  updateProgress "Processing your articles..." ;;;
  let userArticles :=
    filterArticlesByUserAndYear allArticles (User.login currentUser) year in
  ret {| Dataset.user := currentUser;
         Dataset.year := year;
         Dataset.createdIssues := createdIssues;
         Dataset.resolvedIssues := resolvedIssues;
         Dataset.comments := userComments;
         Dataset.articles := userArticles;
         Dataset.collectedAt := nowISO |}.

End DataCollector.

(* ===================================================================== *)
(** * Part VII bis. The page (the script that drives the three services) *)
(* ===================================================================== *)

(** The controls of the login form: the [value] of the four inputs and the
    [checked] state of the box. *)
Module LoginForm.
Record t : Type := mk {
  youtrackUrl : string;
  youtrackToken : string;
  year : string;
  articleProjects : string;
  rememberCredentials : bool
}.
End LoginForm.

(** [this.config]; [articleProjects] is the text of the input, trimmed. *)
Module Config.
Record t : Type := mk {
  baseUrl : string;
  token : string;
  year : Z;
  articleProjects : string
}.
End Config.

(** [localStorage], as far as the page uses it. *)
Module LocalStorage.

(** The item ['youtrack-wrapped-config']. [Saved] is the JSON text of an
    object, each field of it present or not, with the types [saveConfig]
    writes; [Unreadable] is a text on which the [try] block of
    [loadSavedConfig] does nothing: the empty text, a text that
    [JSON.parse] rejects, the text [null]. *)
Inductive Item : Type :=
| Saved (baseUrl token : option string) (year : option Z)
        (articleProjects : option string)
| Unreadable.

(** The item, whether every access to the storage throws (storage denied
    to the page), and whether [setItem] throws (quota exceeded). *)
Record t : Type := mk {
  item : option Item;
  denied : bool;
  full : bool
}.

End LocalStorage.

Module YouTrackWrapped.

Import Js Async.
Local Open Scope async_scope.

(** ** The login form and the saved configuration *)

(** The part of [setupLoginForm] that touches the form: the default
    year. *)
Definition setupLoginForm (form : LoginForm.t) : LoginForm.t :=
  match LoginForm.year form with
  | EmptyString =>
      {| LoginForm.youtrackUrl := LoginForm.youtrackUrl form;
         LoginForm.youtrackToken := LoginForm.youtrackToken form;
         LoginForm.year := numToString 2025;
         LoginForm.articleProjects := LoginForm.articleProjects form;
         LoginForm.rememberCredentials := LoginForm.rememberCredentials form |}
  | _ => form
  end.

(** [x && y] of two optional strings, as a condition. *)
Definition bothTruthy (x y : option string) : bool :=
  negb (String.eqb (orElse x "") "") && negb (String.eqb (orElse y "") "").

(** [loadSavedConfig]: whatever the [try] block throws is caught, and it
    throws before its first assignment or not at all. *)
Definition loadSavedConfig (storage : LocalStorage.t) (form : LoginForm.t)
  : LoginForm.t :=
  if LocalStorage.denied storage then form
  else
    match LocalStorage.item storage with
    | Some (LocalStorage.Saved baseUrl token year articleProjects) =>
        {| LoginForm.youtrackUrl := orElse baseUrl "";
           LoginForm.youtrackToken := orElse token "";
           LoginForm.year :=
             numToString
               (if truthyNum year
                then match year with Some y => y | None => 2025 end
                else 2025);
           LoginForm.articleProjects := orElse articleProjects "";
           LoginForm.rememberCredentials :=
             if bothTruthy baseUrl token then true
             else LoginForm.rememberCredentials form |}
    | Some LocalStorage.Unreadable => form
    | None => form
    end.

(** [init]: [setupLoginForm] and then [loadSavedConfig]. *)
Definition init (storage : LocalStorage.t) (form : LoginForm.t) : LoginForm.t :=
  loadSavedConfig storage (setupLoginForm form).

(** [localStorage.removeItem('youtrack-wrapped-config')] *)
Definition removeItem (storage : LocalStorage.t) : LocalStorage.t :=
  {| LocalStorage.item := None;
     LocalStorage.denied := LocalStorage.denied storage;
     LocalStorage.full := LocalStorage.full storage |}.

(** [saveConfig(config, remember)]; a failure of the storage is caught. *)
Definition saveConfig (config : Config.t) (remember : bool)
  (storage : LocalStorage.t) : LocalStorage.t :=
  if remember then
    if LocalStorage.denied storage || LocalStorage.full storage then storage
    else
      {| LocalStorage.item :=
           Some (LocalStorage.Saved (Some (Config.baseUrl config))
                                    (Some (Config.token config))
                                    (Some (Config.year config))
                                    (Some (Config.articleProjects config)));
         LocalStorage.denied := LocalStorage.denied storage;
         LocalStorage.full := LocalStorage.full storage |}
  else
    if LocalStorage.denied storage then storage else removeItem storage.

Definition clearSavedCredentials (storage : LocalStorage.t) : LocalStorage.t :=
  if LocalStorage.denied storage then storage else removeItem storage.

(** ** [loadData] *)

(** [updateProgress(message)] sets the loading text where the page has
    one; it does not throw. The texts are kept in the progress log. *)
Definition updateProgress : Callback := listen (fun _ _ => None).

Definition lineBreak : string := String "010" EmptyString.

Definition connectionHelp : string :=
  ("Could not connect to YouTrack. Please check:" ++ lineBreak
   ++ "1. The YouTrack URL is correct" ++ lineBreak
   ++ "2. Your YouTrack instance has CORS enabled for this origin" ++ lineBreak
   ++ "3. You have network connectivity")%string.

Definition authenticationHelp : string :=
  ("Authentication failed. Please check your API token." ++ lineBreak
   ++ "Make sure the token has the required permissions.")%string.

(** The [catch] block of [loadData]: the error it throws for the one it
    caught. *)
Definition explain (error : JsError) : JsError :=
  let message := errMessage error in
  if includes "Failed to fetch" message || includes "NetworkError" message
  then mkError "Error" connectionHelp
  else if includes "401" message || includes "403" message
  then mkError "Error" authenticationHelp
  else error.

(** [loadData]; the report it stores in [this.data] is its result. *)
Definition loadData (h : Dates.Host) (fuel : nat)
  (tracker : YouTrackClient.Tracker) (nowISO : string)
  (baseUrl token : string) (year : Z) (articleProjects : list string)
  : M Report.t :=
  outcome <-
    attempt
      (updateProgress "Connecting to YouTrack..." ;;;
       let client := YouTrackClient.new baseUrl token in
       rawData <-
         DataCollector.collectYearData fuel client tracker nowISO year
           articleProjects (Some (fun progress => updateProgress progress)) ;;
       updateProgress "Calculating your statistics..." ;;;
       ret (StatisticsCalculator.calculateAll h rawData)) ;;
  match outcome with
  | inr report => ret report
  | inl error => throw (explain error)
  end.

(** ** [handleLogin] *)

(** The list of projects typed in the form:
    [input ? input.split(',').map(p => p.trim()).filter(p => p) : []]. *)
Definition articleProjectsOf (input : string) : list string :=
  match input with
  | EmptyString => []
  | _ =>
      filter (fun p => negb (String.eqb p EmptyString))
             (map trim (split "," input))
  end.

(** What the page shows when [handleLogin] is over. *)
Inductive Shown : Type :=
| LoginError (message : string)
| ErrorScreen (message : string)
| Wrapped (report : Report.t).

(** [handleLogin]. [render] stands for what follows [saveConfig] inside the
    [try] block ([hideLoading], [showWrapped], [renderAll],
    [setupScrollAnimations], [setupShareButton]), which works on the
    document only. The [try] block is entered in two steps, with the one
    [catch] block after each, so that the storage written between them is
    kept. The result is what the page shows and the storage it leaves. *)
Definition handleLogin (h : Dates.Host) (fuel : nat)
  (tracker : YouTrackClient.Tracker) (nowISO : string)
  (render : Report.t -> M unit) (form : LoginForm.t)
  (storage : LocalStorage.t) : M (Shown * LocalStorage.t) :=
  let baseUrl := trim (LoginForm.youtrackUrl form) in
  let token := trim (LoginForm.youtrackToken form) in
  let year := parseInt10 (LoginForm.year form) in
  let articleProjectsInput := trim (LoginForm.articleProjects form) in
  let rememberCredentials := LoginForm.rememberCredentials form in
  let articleProjects := articleProjectsOf articleProjectsInput in
  match year with
  | Some year =>
      if String.eqb baseUrl EmptyString || String.eqb token EmptyString
         || (year =? 0)
      then ret (LoginError "Please fill in all required fields", storage)
      else
        let config :=
          {| Config.baseUrl := baseUrl;
             Config.token := token;
             Config.year := year;
             Config.articleProjects := articleProjectsInput |} in
        loaded <- attempt (loadData h fuel tracker nowISO baseUrl token year
                                    articleProjects) ;;
        match loaded with
        | inl error => ret (ErrorScreen (errMessage error), storage)
        | inr report =>
            let storage' := saveConfig config rememberCredentials storage in
            rendered <- attempt (render report) ;;
            match rendered with
            | inl error => ret (ErrorScreen (errMessage error), storage')
            | inr _ => ret (Wrapped report, storage')
            end
        end
  | None =>
      (* [year] is [NaN], which is falsy *)
      ret (LoginError "Please fill in all required fields", storage)
  end.

(** ** Rendering *)

(** [renderTopProject]: the chips of the projects list,
    [projects.slice(0, 10).map(p => `${p.shortName}: ${p.totalActivity}`)];
    nothing is listed when there is no top project. *)
Definition projectChips (projectStats : ProjectStats.t) : list string :=
  match ProjectStats.topProject projectStats with
  | None => []
  | Some _ =>
      map (fun p => (ProjectActivity.shortName p ++ ": "
                     ++ numToString (ProjectActivity.totalActivity p))%string)
          (firstn 10 (ProjectStats.projects projectStats))
  end.

(** [renderTimeStats]: the text of the busiest hour,
    [`${String(hour).padStart(2, '0')}:00`]. *)
Definition busiestHourText (timeStats : TimeStats.t) : string :=
  (padStart 2 "0" (numToString (BusiestHour.hour (TimeStats.busiestHour timeStats)))
   ++ ":00")%string.

(** [renderTimeStats]: the heights of the bars of the monthly chart, in
    percent, [Math.max(maxActivity > 0 ? (count / maxActivity) * 100 : 0, 3)]
    for each count of [Object.values(timeStats.monthlyActivity)]. *)
Definition chartHeights (timeStats : TimeStats.t) : list JsNum :=
  let counts := values (TimeStats.monthlyActivity timeStats) in
  let maxActivity := maxOf counts in
  map (fun count =>
         let height :=
           if gtZ maxActivity 0 then mulZ (div (num count) maxActivity) 100
           else num 0 in
         maxZ height 3)
      counts.

Definition shortMonthNames : list string :=
  [ "Jan"; "Feb"; "Mar"; "Apr"; "May"; "Jun";
    "Jul"; "Aug"; "Sep"; "Oct"; "Nov"; "Dec" ].

(** [formatDate(dateStr)]: the date is parsed, which reads a day key as
    midnight UTC, and printed in local time by
    [toLocaleDateString('en-US', { month: 'short', day: 'numeric' })]. *)
Definition formatDate (h : Dates.Host) (dateStr : option string) : string :=
  match dateStr with
  | None => EmptyString
  | Some EmptyString => EmptyString
  | Some s =>
      match Dates.parseDate s with
      | Some t =>
          (nth (Z.to_nat (Dates.getMonth h t)) shortMonthNames EmptyString
           ++ " " ++ numToString (Dates.getDate h t))%string
      | None => "Invalid Date"
      end
  end.

(** [renderStreak]: the two dates it shows, or [None] where it shows
    ['No streak recorded']. *)
Definition renderStreak (h : Dates.Host) (timeStats : TimeStats.t)
  : option (string * string) :=
  let streak := TimeStats.longestStreak timeStats in
  if (0 <? Streak.days streak)
     && negb (String.eqb (orElse (Streak.startDate streak) "") "")
  then Some (formatDate h (Streak.startDate streak),
             formatDate h (Streak.endDate streak))
  else None.

End YouTrackWrapped.


(* ===================================================================== *)
(** * Part VIII. The vocabulary of the properties *)
(* ===================================================================== *)

Section Vocabulary.
Import Js Async YouTrackClient DataCollector StatisticsCalculator.

(** ** Issue statistics *)

(** The resolution times [resolvedAt - createdAt] of the issues that have a
    [resolvedAt]. The source tests the field for truthiness, which an
    instant of 0 fails like a missing one. *)
Definition resolutionTimes (issues : list Issue.t) : list Z :=
  flat_map
    (fun i =>
       match Issue.resolved i with
       | Some r => if r =? 0 then [] else [r - Issue.created i]
       | None => []
       end)
    issues.

Definition sumZ (l : list Z) : Z := fold_right Z.add 0 l.

(** The largest relative error of one operation on doubles rounded to the
    nearest: 2^-53. *)
Definition unitRoundoff : Q := 1 # 9007199254740992.

(** [q] is [a / n] up to the rounding of one division of doubles: within
    the [unitRoundoff] part of the quotient. *)
Definition quotientUpToRounding (a n : Z) (q : Q) : Prop :=
  let exact := (inject_Z a / inject_Z n)%Q in
  let slack := (inject_Z (Z.abs a) / inject_Z n * unitRoundoff)%Q in
  (exact - slack <= q)%Q /\ (q <= exact + slack)%Q.

(** ** Histograms *)

(** How many of the integers [ks] are [k]. *)
Definition occurrences (k : Z) (ks : list Z) : Z :=
  len (filter (Z.eqb k) ks).

(** The local hours and weekdays of the events of a dataset. *)
Definition eventHours (h : Dates.Host) (data : Dataset.t) : list Z :=
  map (fun a => Dates.getHours h (Activity.timestamp a)) (allActivities data).

Definition eventWeekdays (h : Dates.Host) (data : Dataset.t) : list Z :=
  map (fun a => Dates.getDay h (Activity.timestamp a)) (allActivities data).

(** The instants of the events of a dataset: the creation times of the
    created issues, of the comments and of the articles. *)
Definition eventInstants (data : Dataset.t) : list Z :=
  map Issue.created (Dataset.createdIssues data)
  ++ map Comment.created (Dataset.comments data)
  ++ map Article.created (Dataset.articles data).

(** How many of the integers [ks] are among [wanted]. *)
Definition countAmong (wanted ks : list Z) : Z :=
  fold_right Z.add 0 (map (fun k => occurrences k ks) wanted).

(** ** Achievement ladders *)

Definition badgeIds (badges : list Achievement.t) : list string :=
  map Achievement.id badges.

(** A threshold ladder: its tiers, highest first, each a threshold and the
    id of its badge. *)
Definition Ladder : Type := list (Z * string).

Definition issuesCreatedLadder : Ladder :=
  [ (100, "issue_master"); (50, "issue_expert");
    (20, "issue_enthusiast"); (5, "issue_starter") ].

Definition issuesResolvedLadder : Ladder :=
  [ (100, "bug_crusher"); (50, "bug_hunter"); (20, "bug_squasher") ].

Definition commentsLadder : Ladder :=
  [ (500, "chatterbox"); (200, "conversationalist"); (50, "contributor") ].

Definition articlesLadder : Ladder :=
  [ (20, "documentation_hero"); (10, "knowledge_sharer"); (3, "writer") ].

Definition streakLadder : Ladder :=
  [ (30, "unstoppable"); (14, "consistent"); (7, "dedicated") ].

Definition projectsLadder : Ladder :=
  [ (10, "polyglot"); (5, "versatile") ].

(** The badge of the highest tier that [value] reaches, if any. *)
Fixpoint highestTierMet (ladder : Ladder) (value : Z) : list string :=
  match ladder with
  | [] => []
  | (threshold, id) :: lower =>
      if threshold <=? value then [id] else highestTierMet lower value
  end.

Definition onLadder (ladder : Ladder) (id : string) : bool :=
  existsb (fun tier => String.eqb (snd tier) id) ladder.

(** The badges of [earned] that belong to [ladder]. *)
Definition fromLadder (ladder : Ladder) (earned : list string) : list string :=
  filter (onLadder ladder) earned.

(** ** Checks over a range of integers *)

(** A check that holds at [from], [from + 1], ..., [from + n - 1]. *)
Fixpoint holdsFrom (check : Z -> bool) (from : Z) (n : nat) : bool :=
  match n with
  | O => true
  | S k => check from && holdsFrom check (from + 1) k
  end.

(** The decimal form of [year] is four digits that read as [year]. *)
Definition yearDigitsCheck (year : Z) : bool :=
  match numToString year with
  | String a (String b (String c (String d EmptyString))) =>
      match Dates.fourDigits a b c d with
      | Some v => v =? year
      | None => false
      end
  | _ => false
  end.

(** Padded to two places, [v] is two digits that read as [v]. *)
Definition twoDigitsCheck (v : Z) : bool :=
  match padStart 2 "0" (numToString v) with
  | String a (String b EmptyString) =>
      match Dates.twoDigits a b with
      | Some w => w =? v
      | None => false
      end
  | _ => false
  end.

(** ** Orders *)

(** [a] may stand before [b]. *)
Definition before {A} (cmp : A -> A -> Z) (a b : A) : Prop :=
  cmp a b <= 0.

Definition strictlyBefore (a b : string) : Prop := String.compare a b = Lt.

(** ** Streaks *)

(** A run: each day is the day after the one before it. *)
Fixpoint chain (days : list string) : Prop :=
  match days with
  | a :: (b :: _) as rest => isNextDay a b = true /\ chain rest
  | _ => True
  end.

(** [run] is a stretch of consecutive elements of [days]. *)
Definition segment (run days : list string) : Prop :=
  exists pre post, days = pre ++ run ++ post.

Definition suffix (run days : list string) : Prop :=
  exists pre, days = pre ++ run.

(** [n] is the length of the longest run of consecutive days among
    [days]: some stretch of [days] is a run of [n] days, and none is a
    longer run. *)
Definition longestRun (days : list string) (n : Z) : Prop :=
  (exists run,
      segment run days /\ chain run /\ Z.of_nat (List.length run) = n)
  /\ forall other,
       segment other days -> chain other -> Z.of_nat (List.length other) <= n.

(** What the loop knows after the days [done ++ [prev]]: [cur] is the
    run that ends at [prev], [best] the longest run so far. *)
Record ScanInv (done : list string) (prev : string) (st : StreakScan) : Prop := {
  inv_current :
    exists pre run,
      done ++ [prev] = pre ++ run ++ [prev]
      /\ chain (run ++ [prev])
      /\ hd prev run = currentStart st
      /\ Z.of_nat (List.length (run ++ [prev])) = currentStreak st
      /\ (forall s, suffix s (done ++ [prev]) -> chain s ->
                    (List.length s <= List.length (run ++ [prev]))%nat);
  inv_longest :
    exists best last,
      segment (best ++ [last]) (done ++ [prev])
      /\ chain (best ++ [last])
      /\ hd last best = longestStart st
      /\ last = longestEnd st
      /\ Z.of_nat (List.length (best ++ [last])) = longestStreak st;
  inv_maximal :
    forall s, segment s (done ++ [prev]) -> chain s ->
              Z.of_nat (List.length s) <= longestStreak st;
  inv_order : currentStreak st <= longestStreak st
}.

Definition dayKeys (h : Dates.Host) (activities : list Activity.t)
  : list string :=
  map (fun a => dayKey h (Activity.timestamp a)) activities.

(** The days of the example of the specification. *)
Definition marchDays : list string :=
  [ "2025-03-01"; "2025-03-02"; "2025-03-03"; "2025-03-04"; "2025-03-05";
    "2025-03-10" ].

(** ** Objects and project groups *)

Definition keys {V} (o : JsObject V) : list string := map fst o.

(** The enumeration order of a list of distinct keys: the array indices in
    ascending numeric order, then the others as they stand. *)
Definition enumerationOrder (names : list string) : list string :=
  sortBy (fun a b => indexOf a - indexOf b) (filter isArrayIndex names)
  ++ filter (fun k => negb (isArrayIndex k)) names.

(** How many of [names] are [k]. *)
Definition count (k : string) (names : list string) : Z :=
  len (filter (String.eqb k) names).

Definition namesOf (items : list (option ProjectRef.t)) : list string :=
  map projectNameOf items.

(** No name resolves to a member of [Object.prototype]. *)
Definition ownNames (names : list string) : Prop :=
  forall k, In k names -> inherited k = false.

(** The value of a counter under a key, 0 where the object has no entry. *)
Definition counterAt (counter : ProjectCount.t -> Z)
  (o : JsObject ProjectCount.t) (k : string) : Z :=
  match getOwn o k with
  | Some g => counter g
  | None => 0
  end.

Definition named (o : JsObject ProjectCount.t) : Prop :=
  forall k g, getOwn o k = Some g -> ProjectCount.name g = k.

Definition createdNames (data : Dataset.t) : list string :=
  namesOf (map Issue.project (Dataset.createdIssues data)).

Definition resolvedNames (data : Dataset.t) : list string :=
  namesOf (map Issue.project (Dataset.resolvedIssues data)).

Definition commentNames (data : Dataset.t) : list string :=
  namesOf (map (fun c => IssueRef.project (Comment.issue c))
               (Dataset.comments data)).

(** The project names of a dataset, in the order the three loops meet
    them. *)
Definition projectNames (data : Dataset.t) : list string :=
  createdNames data ++ resolvedNames data ++ commentNames data.

(** The distinct names, in order of first discovery. *)
Definition discoveryOrder (data : Dataset.t) : list string :=
  uniqueStrings [] (projectNames data).

(** The activity recorded under a name. *)
Definition totalOf (data : Dataset.t) (name : string) : Z :=
  count name (createdNames data) + count name (resolvedNames data)
  + count name (commentNames data).

(** The groups in the order [Object.values] lists them. *)
Definition listing (data : Dataset.t) : list ProjectActivity.t :=
  map withTotal (values (projectCounts data)).

(** ** Requests and pagination *)

(** The request [request(path)] sends. *)
Definition requestOf (client : YouTrackClient.t) (path : string) : Request :=
  {| url := (apiBase client ++ path)%string;
     headers :=
       [ ("Authorization", ("Bearer " ++ token client)%string);
         ("Accept", "application/json");
         ("Content-Type", "application/json") ] |}.

Definition sent (w : World) (req : Request) : World :=
  {| requests := requests w ++ [req]; progress := progress w |}.

(** A run fails with an error of class [kind]. *)
Definition failsWith {A} (kind : string) (c : Completion A) : Prop :=
  exists e, c = Throw e /\ errName e = kind.

(** The error [request] builds for a response that is not [ok]. *)
Definition apiError (status : Z) (body : string) : JsError :=
  mkError "Error"
    ("YouTrack API error (" ++ numToString status ++ "): " ++ body)%string.

Definition currentUserPath : string :=
  "/users/me?fields=id,login,fullName,email,avatarUrl".

(** A callback that returns normally and sends nothing. *)
Definition quiet (onProgress : option Callback) : Prop :=
  match onProgress with
  | None => True
  | Some callback =>
      forall message w, exists w',
        callback message w = (Return tt, w') /\ requests w' = requests w
  end.

(** The endpoint answers the requests for the offsets [skip], [skip + 100],
    ... with the pages [pages], in this order, after the requests [log]. *)
Fixpoint serves {A} (client : YouTrackClient.t) (endpoint : Endpoint (list A))
  (path : Z -> string) (log : list Request) (skip : Z)
  (pages : list (list A)) : Prop :=
  match pages with
  | [] => True
  | page :: later =>
      (exists status statusText text,
          ok status = true
          /\ endpoint log (requestOf client (path skip))
             = Response status statusText text (inr page))
      /\ serves client endpoint path (log ++ [requestOf client (path skip)])
                (skip + top) later
  end.

(** The requests for the first [n] pages from offset [skip]. *)
Definition pageRequests (client : YouTrackClient.t) (path : Z -> string)
  (skip : Z) (n : nat) : list Request :=
  map (fun i => requestOf client (path (skip + top * Z.of_nat i))) (seq 0 n).

(** The paths of the pages of the four fetches. *)
Definition createdPath (tracker : Tracker) (userId startDate endDate : string)
  (skip : Z) : string :=
  issuesPath
    (encodeURIComponent tracker
       ("created: " ++ startDate ++ " .. " ++ endDate
        ++ " created by: " ++ userId)%string)
    issueFields skip.

Definition resolvedPath (tracker : Tracker) (userId startDate endDate : string)
  (skip : Z) : string :=
  issuesPath
    (encodeURIComponent tracker
       ("resolved date: " ++ startDate ++ " .. " ++ endDate
        ++ " Assignee: " ++ userId)%string)
    issueFields skip.

Definition commentedPath (tracker : Tracker) (userId startDate endDate : string)
  (skip : Z) : string :=
  issuesPath
    (encodeURIComponent tracker
       ("commenter: " ++ userId ++ " commented: " ++ startDate
        ++ " .. " ++ endDate)%string)
    commentFields skip.

(** [fetch] pages through [endpoint]: whenever the endpoint serves, from
    offset 0, any number of full pages and then a short or empty one, the
    fetch returns their concatenation and has sent one request per page,
    at the offsets 0, 100, 200, ... *)
Definition fetchesEveryPage {A} (fuel : nat) (client : YouTrackClient.t)
  (endpoint : Endpoint (list A)) (path : Z -> string) (fetch : M (list A))
  (w : World) : Prop :=
  forall (fulls : list (list A)) (last : list A),
    Forall (fun page => top <= len page) fulls ->
    len last < top ->
    (List.length fulls < fuel)%nat ->
    serves client endpoint path (requests w) 0 (fulls ++ [last]) ->
    exists w',
      fetch w = (Return (List.concat (fulls ++ [last])), w')
      /\ requests w'
         = requests w ++ pageRequests client path 0 (S (List.length fulls)).

(** ** Failures and callbacks *)

(** An endpoint whose answer depends on the request alone. *)
Definition stateless {A} (endpoint : Endpoint A) : Prop :=
  forall log log' req, endpoint log req = endpoint log' req.

(** A callback that ends, by returning or by throwing. *)
Definition ends (onProgress : option Callback) : Prop :=
  match onProgress with
  | None => True
  | Some callback => forall message w, fst (callback message w) <> OutOfFuel
  end.

(** What the fetch of one project's articles ends with, at a stateless
    endpoint. *)
Definition projectOutcome (fuel : nat) (client : YouTrackClient.t)
  (tracker : Tracker) (shortName : string) : Completion (list Article.t) :=
  fst (projectArticles fuel client tracker shortName initialWorld).

(** The articles a project contributes: its pages when its fetch
    succeeded, nothing when it failed. *)
Definition contribution (fuel : nat) (client : YouTrackClient.t)
  (tracker : Tracker) (shortName : string) : list Article.t :=
  match projectOutcome fuel client tracker shortName with
  | Return pages => pages
  | _ => []
  end.

(** Two runs agree when, from worlds with the same requests, they end the
    same way and have sent the same requests. *)
Definition agree {A} (c c' : M A) : Prop :=
  forall w w', requests w = requests w' ->
    fst (c w) = fst (c' w') /\ requests (snd (c w)) = requests (snd (c' w')).

(** A listener that never throws. *)
Definition neverThrows (l : Listener) : Prop :=
  forall received message, l received message = None.

End Vocabulary.

(* ===================================================================== *)
(** * Part IX. Example data *)
(* ===================================================================== *)

Section ExampleData.
Import Js Async YouTrackClient DataCollector StatisticsCalculator.

Definition someUser : User.t :=
  {| User.id := "1-1"; User.login := "jane"; User.fullName := "Jane Doe";
     User.email := None; User.avatarUrl := None |}.

Definition alpha : ProjectRef.t :=
  {| ProjectRef.id := "0-1"; ProjectRef.name := Some "Alpha";
     ProjectRef.shortName := Some "AL" |}.

(** An issue of project Alpha created at [created]. *)
Definition alphaIssue (created : Z) (resolved : option Z) : Issue.t :=
  {| Issue.id := "2-1"; Issue.idReadable := "AL-1";
     Issue.summary := Some "A summary";
     Issue.created := created; Issue.resolved := resolved;
     Issue.project := Some alpha |}.

Definition emptyDataset (user : User.t) (year : Z) (collectedAt : string)
  : Dataset.t :=
  {| Dataset.user := user; Dataset.year := year;
     Dataset.createdIssues := []; Dataset.resolvedIssues := [];
     Dataset.comments := []; Dataset.articles := [];
     Dataset.collectedAt := collectedAt |}.

(** A dataset of [n] created issues and nothing else. *)
Definition createdOnly (n : nat) : Dataset.t :=
  {| Dataset.user := someUser; Dataset.year := 2025;
     Dataset.createdIssues :=
       repeat (alphaIssue (Dates.utcMs 2025 6 2 10 0 0) None) n;
     Dataset.resolvedIssues := [];
     Dataset.comments := []; Dataset.articles := [];
     Dataset.collectedAt := "2026-01-01T00:00:00.000Z" |}.

Definition exampleClient : YouTrackClient.t :=
  YouTrackClient.new "https://youtrack.example.com/" "perm:secret".

Definition answers {A} (data : A) : FetchOutcome A :=
  Response 200 "OK" (inr "(json)") (inr data).

(** A response with an error status: the body is not JSON. *)
Definition refuses {A} (status : Z) (body : string) : FetchOutcome A :=
  Response status "" (inr body)
           (inl (mkError "SyntaxError" "Unexpected token in JSON")).

(** A tracker that knows the user and has nothing else. *)
Definition emptyTracker : Tracker :=
  {| usersMe := fun _ _ => answers someUser;
     issues := fun _ _ => answers [];
     issuesWithComments := fun _ _ => answers [];
     articles := fun _ _ => answers [];
     encodeURIComponent := fun s => s |}.

(** A tracker that answers [/users/me] with an error status. *)
Definition refusingTracker (status : Z) (body : string) : Tracker :=
  {| usersMe := fun _ _ => refuses status body;
     issues := fun _ _ => answers [];
     issuesWithComments := fun _ _ => answers [];
     articles := fun _ _ => answers [];
     encodeURIComponent := fun s => s |}.

(** A stub whose [k]-th answer to an issues query is the [k]-th page. *)
Definition scriptedTracker (pages : list (list Issue.t)) : Tracker :=
  {| usersMe := fun _ _ => answers someUser;
     issues := fun log _ => answers (nth (List.length log) pages []);
     issuesWithComments := fun _ _ => answers [];
     articles := fun _ _ => answers [];
     encodeURIComponent := fun s => s |}.

Definition articleOf (shortName : string) : Article.t :=
  {| Article.id := ("article-of-" ++ shortName)%string;
     Article.idReadable := (shortName ++ "-A-1")%string;
     Article.summary := Some "Notes";
     Article.content := Some "Some content";
     Article.created := Dates.utcMs 2025 5 5 9 0 0;
     Article.updated := Dates.utcMs 2025 5 6 9 0 0;
     Article.reporter := None;
     Article.project := None |}.

Definition hasPrefix (prefix s : string) : bool :=
  String.eqb (substring 0 (String.length prefix) s) prefix.

(** Projects A and C each have one article; the articles of B are
    forbidden. *)
Definition abcTracker : Tracker :=
  {| usersMe := fun _ _ => answers someUser;
     issues := fun _ _ => answers [];
     issuesWithComments := fun _ _ => answers [];
     articles := fun _ req =>
       if hasPrefix "https://youtrack.example.com/api/admin/projects/A/" (url req)
       then answers [articleOf "A"]
       else if hasPrefix "https://youtrack.example.com/api/admin/projects/C/"
                         (url req)
       then answers [articleOf "C"]
       else refuses 403 "Forbidden";
     encodeURIComponent := fun s => s |}.

Definition failingListener : Listener :=
  fun _ _ => Some (mkError "Error" "the progress display is gone").

Definition silentListener : Listener := fun _ _ => None.

Definition page (n : nat) : list Issue.t :=
  repeat (alphaIssue (Dates.utcMs 2025 6 2 10 0 0) None) n.

(** An issue of a project called [name]. *)
Definition issueOf (name : string) : Issue.t :=
  {| Issue.id := "2-7"; Issue.idReadable := "X-7";
     Issue.summary := Some "Another summary";
     Issue.created := Dates.utcMs 2025 4 1 9 30 0; Issue.resolved := None;
     Issue.project :=
       Some {| ProjectRef.id := "0-7"; ProjectRef.name := Some name;
               ProjectRef.shortName := None |} |}.

Definition issuesOnly (created resolved : list Issue.t) : Dataset.t :=
  {| Dataset.user := someUser; Dataset.year := 2025;
     Dataset.createdIssues := created; Dataset.resolvedIssues := resolved;
     Dataset.comments := []; Dataset.articles := [];
     Dataset.collectedAt := "2026-01-01T00:00:00.000Z" |}.

(** Ten created issues, each of a project of its own; the last project is
    called [constructor]. *)
Definition tenProjects : Dataset.t :=
  issuesOnly
    (map issueOf [ "Alpha"; "Beta"; "Gamma"; "Delta"; "Epsilon"; "Zeta";
                   "Eta"; "Theta"; "Iota"; "constructor" ])
    [].

(** An event at noon, UTC, of a day of March 2025. *)
Definition marchEvent (day : Z) : Activity.t :=
  {| Activity.type := "issue";
     Activity.timestamp := Dates.utcMs 2025 3 day 12 0 0 |}.

End ExampleData.

(* ===================================================================== *)
(** * Part IX bis. Further vocabulary *)
(* ===================================================================== *)

Section FurtherVocabulary.
Import Js Async YouTrackClient DataCollector StatisticsCalculator.

(** ** Histograms and extremes *)

(** The local months, counted from 1, of the events of a dataset. *)
Definition eventMonths (h : Dates.Host) (data : Dataset.t) : list Z :=
  map (fun a => Dates.getMonth h (Activity.timestamp a) + 1) (allActivities data).

(** The object that holds, under each of [buckets], how many of [ks] fall
    into it. *)
Definition histogram (buckets ks : list Z) : JsObject Z :=
  map (fun k => (numToString k, occurrences k ks)) buckets.

(** Among the buckets [from], ..., [from + n - 1], [m] is the first that
    no other exceeds. *)
Definition firstBusiest (from : Z) (n : nat) (ks : list Z) (m : Z) : Prop :=
  from <= m < from + Z.of_nat n
  /\ (forall k, from <= k < from + Z.of_nat n ->
                occurrences k ks <= occurrences m ks)
  /\ (forall k, from <= k < m -> occurrences k ks < occurrences m ks).

(** The list is in ascending order. *)
Fixpoint ascending (l : list Z) : bool :=
  match l with
  | a :: (b :: _) as rest => (a <=? b) && ascending rest
  | _ => true
  end.

(** [parseInt] reads the decimal form of [m] as [m]. *)
Definition readsBack (m : Z) : bool := parseInt (numToString m) =? m.

(** [x] is the first element of [l] with the largest key. *)
Definition firstLargest {A} (key : A -> Z) (l : list A) (x : A) : Prop :=
  exists pre post,
    l = pre ++ x :: post
    /\ Forall (fun y => key y < key x) pre
    /\ Forall (fun y => key y <= key x) post.

(** [x] is the last element of [l] with the smallest key. *)
Definition lastSmallest {A} (key : A -> Z) (l : list A) (x : A) : Prop :=
  exists pre post,
    l = pre ++ x :: post
    /\ Forall (fun y => key x <= key y) pre
    /\ Forall (fun y => key x < key y) post.

(** [d] is [a / n] rounded to the nearest integer, halves going up. *)
Definition roundedQuotient (a n d : Z) : Prop :=
  (2 * d - 1) * n <= 2 * a < (2 * d + 1) * n.

(** The readable ids of the issues of the comments. *)
Definition issueIds (comments : list Comment.t) : list string :=
  map (fun c => IssueRef.idReadable (Comment.issue c)) comments.

(** The count recorded under a key, 0 where the object has no entry. *)
Definition commentsAt (o : JsObject IssueCount.t) (k : string) : Z :=
  match getOwn o k with
  | Some e => IssueCount.count e
  | None => 0
  end.

(** Every entry is filed under the readable id of its issue, which is the
    issue of one of [comments]. *)
Definition filed (comments : list Comment.t) (o : JsObject IssueCount.t) : Prop :=
  forall k e, getOwn o k = Some e ->
    IssueRef.idReadable (IssueCount.issue e) = k
    /\ exists comment, In comment comments
                       /\ Comment.issue comment = IssueCount.issue e.

(** ** Runs of the gateway and of the collector *)

(** The endpoint's answer to [req] after [log] makes [request] throw
    [e]. *)
Definition rejects {A} (endpoint : Endpoint A) (log : list Request)
  (req : Request) (e : JsError) : Prop :=
  match endpoint log req with
  | NetworkFailure e' => e = e'
  | Response status _ text json =>
      if ok status then json = inl e
      else
        match text with
        | inr body => e = apiError status body
        | inl e' => e = e'
        end
  end.

(** The sizes of the result after each of [pages], from [start] items. *)
Fixpoint runningTotals {A} (start : Z) (pages : list (list A)) : list Z :=
  match pages with
  | [] => []
  | page :: later => (start + len page) :: runningTotals (start + len page) later
  end.

(** The pages that hold something. *)
Definition nonEmpty {A} (pages : list (list A)) : list (list A) :=
  filter (fun page => negb (len page =? 0)) pages.

(** The messages after each of [pages], where [note all] are the messages
    after a page that brings the result to [all]. *)
Fixpoint notesOf {A} (note : list A -> list string) (all : list A)
  (pages : list (list A)) : list string :=
  match pages with
  | [] => []
  | page :: later => note (all ++ page) ++ notesOf note (all ++ page) later
  end.

(** [fetch] gives up at the first page it cannot get: whenever the
    endpoint serves, from offset 0, any number of full pages and then makes
    the next request fail with [e], the fetch fails with [e], having sent
    one request per page served and the one that failed. *)
Definition failsAtTheFirstRejection {A} (fuel : nat) (client : YouTrackClient.t)
  (endpoint : Endpoint (list A)) (path : Z -> string) (fetch : M (list A))
  (w : World) : Prop :=
  forall (fulls : list (list A)) (e : JsError),
    Forall (fun page => top <= len page) fulls ->
    (List.length fulls < fuel)%nat ->
    serves client endpoint path (requests w) 0 fulls ->
    rejects endpoint
            (requests w ++ pageRequests client path 0 (List.length fulls))
            (requestOf client (path (top * Z.of_nat (List.length fulls)))) e ->
    exists w',
      fetch w = (Throw e, w')
      /\ requests w'
         = requests w ++ pageRequests client path 0 (S (List.length fulls)).

(** [fetch] reports its running total: whenever the endpoint serves, from
    offset 0, any number of full pages and then a short or empty one, the
    callback has received one message per page that held something, made
    by [message] from the size of the result with that page. *)
Definition reportsTheRunningTotal {A} (fuel : nat) (client : YouTrackClient.t)
  (endpoint : Endpoint (list A)) (path : Z -> string) (message : Z -> string)
  (fetch : M (list A)) (w : World) : Prop :=
  forall (fulls : list (list A)) (last : list A),
    Forall (fun page => top <= len page) fulls ->
    len last < top ->
    (List.length fulls < fuel)%nat ->
    serves client endpoint path (requests w) 0 (fulls ++ [last]) ->
    progress (snd (fetch w))
    = progress w ++ map message (runningTotals 0 (nonEmpty (fulls ++ [last]))).

(** The progress callback of a caller who passes a listener, or none. *)
Definition listening (l : option Listener) : option Callback :=
  option_map listen l.

(** What [notify] tells a listener that returns. *)
Definition told (l : option Listener) (message : string) : list string :=
  match l with
  | Some _ => [message]
  | None => []
  end.

(** Two runs that end the same way, whatever the worlds they start from. *)
Definition alike {A} (c c' : M A) : Prop :=
  forall w w', fst (c w) = fst (c' w').

(** A request of the client: to a path under its API base, with its three
    headers. *)
Definition ofClient (client : YouTrackClient.t) (req : Request) : Prop :=
  exists path, req = requestOf client path.

(** A run that adds requests of the client to the log, and nothing else. *)
Definition confined {A} (client : YouTrackClient.t) (c : M A) : Prop :=
  forall w, exists new,
    requests (snd (c w)) = requests w ++ new /\ Forall (ofClient client) new.

(** ** Texts of the form *)

(** The character [c] occurs in [s]. *)
Fixpoint contains (c : ascii) (s : string) : bool :=
  match s with
  | EmptyString => false
  | String c' rest => Ascii.eqb c' c || contains c rest
  end.

(** [names.join(sep)] *)
Fixpoint joinWith (sep : string) (names : list string) : string :=
  match names with
  | [] => EmptyString
  | [name] => name
  | name :: later => (name ++ sep ++ joinWith sep later)%string
  end.

(** A name as the form can give it: not empty, without white space at its
    ends and without comma. *)
Definition cleanName (name : string) : Prop :=
  name <> EmptyString /\ trim name = name /\ contains "," name = false.

(** ** The login *)

(** [handleLogin] accepts the form, and reads [year] as its year: the URL
    and the token are not blank and the year is a number other than 0. *)
Definition accepted (form : LoginForm.t) (year : Z) : Prop :=
  trim (LoginForm.youtrackUrl form) <> EmptyString
  /\ trim (LoginForm.youtrackToken form) <> EmptyString
  /\ parseInt10 (LoginForm.year form) = Some year
  /\ year <> 0.

(** The configuration it reads from a form it accepts. *)
Definition configOf (form : LoginForm.t) (year : Z) : Config.t :=
  {| Config.baseUrl := trim (LoginForm.youtrackUrl form);
     Config.token := trim (LoginForm.youtrackToken form);
     Config.year := year;
     Config.articleProjects := trim (LoginForm.articleProjects form) |}.

(** The item that holds a configuration. *)
Definition savedItem (config : Config.t) : LocalStorage.Item :=
  LocalStorage.Saved (Some (Config.baseUrl config)) (Some (Config.token config))
                     (Some (Config.year config))
                     (Some (Config.articleProjects config)).

(** The load that [handleLogin] starts for a form it accepts. *)
Definition loadFor (h : Dates.Host) (fuel : nat) (tracker : Tracker)
  (nowISO : string) (form : LoginForm.t) (year : Z) : M Report.t :=
  YouTrackWrapped.loadData h fuel tracker nowISO
    (trim (LoginForm.youtrackUrl form)) (trim (LoginForm.youtrackToken form))
    year
    (YouTrackWrapped.articleProjectsOf (trim (LoginForm.articleProjects form))).

(** ** Rendering *)

(** The short form of a day number: the month, short, and the day of the
    month. *)
Definition shortDate (day : Z) : string :=
  let '(_, m, d) := Dates.civilFromDays day in
  (nth (Z.to_nat (m - 1)) YouTrackWrapped.shortMonthNames EmptyString
   ++ " " ++ numToString d)%string.

(** The chip of a project. *)
Definition chipOf (p : ProjectActivity.t) : string :=
  (ProjectActivity.shortName p ++ ": "
   ++ numToString (ProjectActivity.totalActivity p))%string.

End FurtherVocabulary.

(* ===================================================================== *)
(** * Part IX ter. Further example data *)
(* ===================================================================== *)

Section FurtherExamples.
Import Js Async YouTrackClient DataCollector StatisticsCalculator.

(** A host five hours west of Greenwich. *)
Definition westernHost : Dates.Host :=
  {| Dates.tzOffset := fun _ => - (5 * Dates.msPerHour);
     Dates.toLocaleString := numToString |}.

Definition jane : UserRef.t :=
  {| UserRef.id := "1-1"; UserRef.login := "jane";
     UserRef.fullName := "Jane Doe" |}.

Definition joe : UserRef.t :=
  {| UserRef.id := "1-2"; UserRef.login := "joe";
     UserRef.fullName := "Joe Bloggs" |}.

(** A comment of Jane on the issue [idReadable]. *)
Definition commentOn (idReadable : string) : Comment.t :=
  {| Comment.id := "4-1"; Comment.text := Some "Looks good";
     Comment.created := Dates.utcMs 2025 6 2 10 0 0;
     Comment.author := Some jane;
     Comment.issue :=
       {| IssueRef.id := "2-1"; IssueRef.idReadable := idReadable;
          IssueRef.summary := Some "A summary";
          IssueRef.project := Some alpha |} |}.

Definition commentsOnly (comments : list Comment.t) : Dataset.t :=
  {| Dataset.user := someUser; Dataset.year := 2025;
     Dataset.createdIssues := []; Dataset.resolvedIssues := [];
     Dataset.comments := comments; Dataset.articles := [];
     Dataset.collectedAt := "2026-01-01T00:00:00.000Z" |}.

(** A tracker whose [k]-th answer to an issues query is the [k]-th page,
    and an error status when the pages are used up. *)
Definition exhaustedTracker (pages : list (list Issue.t)) (status : Z)
  (body : string) : Tracker :=
  {| usersMe := fun _ _ => answers someUser;
     issues := fun log _ =>
       match nth_error pages (List.length log) with
       | Some page => answers page
       | None => refuses status body
       end;
     issuesWithComments := fun _ _ => answers [];
     articles := fun _ _ => answers [];
     encodeURIComponent := fun s => s |}.

(** A tracker that knows the user and refuses every query for issues. *)
Definition brokenIssuesTracker : Tracker :=
  {| usersMe := fun _ _ => answers someUser;
     issues := fun _ _ => refuses 500 "Internal Server Error";
     issuesWithComments := fun _ _ => answers [];
     articles := fun _ _ => answers [];
     encodeURIComponent := fun s => s |}.

Definition rawComment (id : string) (author : UserRef.t) (created : Z)
  : RawComment.t :=
  {| RawComment.id := id; RawComment.text := Some "Looks good";
     RawComment.created := created; RawComment.author := Some author |}.

(** An issue with a comment of Jane in 2025, one of Joe in 2025 and one
    of Jane in 2024. *)
Definition discussedIssue : CommentedIssue.t :=
  {| CommentedIssue.id := "2-1"; CommentedIssue.idReadable := "AL-1";
     CommentedIssue.summary := Some "A summary";
     CommentedIssue.project := Some alpha;
     CommentedIssue.comments :=
       Some [ rawComment "4-1" jane (Dates.utcMs 2025 6 2 10 0 0);
              rawComment "4-2" joe (Dates.utcMs 2025 6 3 10 0 0);
              rawComment "4-3" jane (Dates.utcMs 2024 12 31 23 59 59) ] |}.

(** A tracker with that issue and nothing else. *)
Definition discussingTracker : Tracker :=
  {| usersMe := fun _ _ => answers someUser;
     issues := fun _ _ => answers [];
     issuesWithComments := fun _ _ => answers [discussedIssue];
     articles := fun _ _ => answers [];
     encodeURIComponent := fun s => s |}.

(** What is collected from it. *)
Definition janesCollection : Dataset.t :=
  {| Dataset.user := someUser; Dataset.year := 2025;
     Dataset.createdIssues := []; Dataset.resolvedIssues := [];
     Dataset.comments :=
       [ enrich discussedIssue
                (rawComment "4-1" jane (Dates.utcMs 2025 6 2 10 0 0)) ];
     Dataset.articles := [];
     Dataset.collectedAt := "2026-01-05T10:00:00.000Z" |}.

(** The login form as Jane fills it, the box checked. *)
Definition janesForm : LoginForm.t :=
  {| LoginForm.youtrackUrl := " https://youtrack.example.com/ ";
     LoginForm.youtrackToken := "perm:secret";
     LoginForm.year := "2025";
     LoginForm.articleProjects := " DOCS, KB ";
     LoginForm.rememberCredentials := true |}.

Definition blankForm : LoginForm.t :=
  {| LoginForm.youtrackUrl := ""; LoginForm.youtrackToken := "";
     LoginForm.year := ""; LoginForm.articleProjects := "";
     LoginForm.rememberCredentials := false |}.

Definition emptyStorage : LocalStorage.t :=
  {| LocalStorage.item := None; LocalStorage.denied := false;
     LocalStorage.full := false |}.

(** A rendering that succeeds. *)
Definition rendered : Report.t -> M unit := fun _ => ret tt.

End FurtherExamples.

(* ===================================================================== *)
(** * Part X. Properties *)
(* ===================================================================== *)

Section Numbers.
Import Js.

Lemma qdiv_nonzero (a b : Q) :
  ~ (b == 0)%Q -> qdiv a b = Fin (Qred (a / b)).
Proof.
  intros Hb. unfold qdiv.
  destruct (Qeq_bool b 0) eqn:E; [|reflexivity].
  apply Qeq_bool_iff in E. contradiction.
Qed.

Lemma inject_Z_nonzero (n : Z) : n <> 0 -> ~ (inject_Z n == 0)%Q.
Proof.
  intros Hn H. apply Hn. unfold Qeq in H. simpl in H. lia.
Qed.

Lemma div_num (a b : Z) :
  b <> 0 -> div (num a) (num b) = Fin (Qred (inject_Z a / inject_Z b)).
Proof.
  intros Hb. unfold div, num. apply qdiv_nonzero. now apply inject_Z_nonzero.
Qed.

Lemma Qfloor_fraction (a : Z) (b : positive) : Qfloor (a # b) = a / Zpos b.
Proof. reflexivity. Qed.

Lemma round_half_up (a n : Z) :
  0 < n ->
  forall q : Q, (q == inject_Z a / inject_Z n)%Q ->
  let d := Qfloor (q + (1 # 2)) in
  (2 * d - 1) * n <= 2 * a < (2 * d + 1) * n.
Proof.
  intros Hn q Hq d.
  assert (Hx : (q + (1 # 2) == (2 * a + n) # (Z.to_pos (2 * n)))%Q).
  { rewrite Hq. destruct n as [|p|p]; try lia.
    replace (Z.to_pos (2 * Z.pos p)) with (2 * p)%positive by reflexivity.
    unfold Qeq, Qdiv, Qmult, Qplus, Qinv, inject_Z.
    cbn [Qnum Qden]. rewrite !Pos2Z.inj_mul. lia. }
  assert (Hd : d = (2 * a + n) / (2 * n)).
  { unfold d. rewrite Hx. rewrite Qfloor_fraction.
    rewrite Z2Pos.id by lia. reflexivity. }
  assert (H2n : 0 < 2 * n) by lia.
  pose proof (Z.div_mod (2 * a + n) (2 * n) ltac:(lia)) as Hdm.
  pose proof (Z.mod_pos_bound (2 * a + n) (2 * n) H2n) as Hb.
  rewrite <- Hd in Hdm. nia.
Qed.

End Numbers.

Section IssueStatistics.
Import Js StatisticsCalculator.

Lemma resolutionTimes_filter (issues : list Issue.t) :
  resolutionTimes issues = map resolutionTime (resolvedCreatedIssues issues).
Proof.
  induction issues as [|i issues IH]; [reflexivity|].
  unfold resolutionTimes, resolvedCreatedIssues in *. cbn [flat_map filter].
  rewrite IH. unfold truthyNum, resolutionTime at 1.
  destruct (Issue.resolved i) as [r|] eqn:Hr; [|reflexivity].
  destruct (r =? 0); cbn [negb app map]; [reflexivity|].
  unfold resolutionTime at 1. now rewrite Hr.
Qed.

Lemma fold_left_sum {A} (f : A -> Z) (l : list A) (acc : Z) :
  fold_left (fun sum x => sum + f x) l acc = acc + sumZ (map f l).
Proof.
  revert acc. induction l as [|x l IH]; intros acc.
  - cbn. lia.
  - cbn [fold_left map]. rewrite IH. unfold sumZ. cbn [fold_right]. lia.
Qed.

Lemma avgResolutionTime_spec (issues : list Issue.t) :
  let times := resolutionTimes issues in
  avgResolutionTime issues =
    if 0 <? len times
    then Fin (Qred (inject_Z (sumZ times) / inject_Z (len times)))
    else num 0.
Proof.
  cbv zeta. unfold avgResolutionTime.
  rewrite resolutionTimes_filter. unfold len. rewrite length_map.
  destruct (0 <? Z.of_nat (List.length (resolvedCreatedIssues issues))) eqn:E.
  - rewrite div_num by lia. rewrite fold_left_sum. reflexivity.
  - reflexivity.
Qed.

Lemma exact_quotient_up_to_rounding (a n : Z) (q : Q) :
  0 < n -> (q == inject_Z a / inject_Z n)%Q -> quotientUpToRounding a n q.
Proof.
  intros Hn Hq. unfold quotientUpToRounding. cbv zeta.
  assert (Hslack :
    (0 <= inject_Z (Z.abs a) / inject_Z n * unitRoundoff)%Q).
  { apply Qmult_le_0_compat; [|discriminate].
    apply Qle_shift_div_l.
    - unfold Qlt. cbn. lia.
    - rewrite Qmult_0_l. unfold Qle. cbn. lia. }
  rewrite Hq.
  set (exact := (inject_Z a / inject_Z n)%Q) in *.
  set (slack := (inject_Z (Z.abs a) / inject_Z n * unitRoundoff)%Q) in *.
  split.
  - rewrite <- (Qplus_0_r exact) at 2. unfold Qminus.
    apply Qplus_le_compat; [apply Qle_refl|].
    apply (Qopp_le_compat 0 slack). exact Hslack.
  - rewrite <- (Qplus_0_r exact) at 1.
    apply Qplus_le_compat; [apply Qle_refl|exact Hslack].
Qed.

Lemma Qred_whole (m : Z) : Qred (inject_Z m) = inject_Z m.
Proof.
  unfold Qred, inject_Z.
  pose proof (Z.ggcd_gcd m 1) as Hg.
  pose proof (Z.ggcd_correct_divisors m 1) as Hd.
  destruct (Z.ggcd m 1) as [g [aa bb]]. cbn [fst snd] in *.
  rewrite Z.gcd_1_r in Hg. subst g. destruct Hd as [Ha Hb].
  rewrite Z.mul_1_l in Ha, Hb. subst aa bb. reflexivity.
Qed.

Lemma whole_quotient (m n : Z) :
  0 < n -> Qred (inject_Z (m * n) / inject_Z n) = inject_Z m.
Proof.
  intros Hn. rewrite <- (Qred_whole m). apply Qred_complete.
  destruct n as [|p|p]; try lia.
  unfold Qeq, Qdiv, Qmult, Qinv, inject_Z. cbn [Qnum Qden]. lia.
Qed.

(** Claim C8. The average resolution time is taken over the created
    issues that have a [resolvedAt] only: it is the mean of their
    [resolvedAt - createdAt], in milliseconds, up to the rounding of the
    one division that computes it (the source divides doubles, which
    gives the double nearest to the mean, within the 2^-53th part of it),
    and the mean itself where that is a whole number.
    [avgResolutionTimeDays] is the mean divided by the milliseconds of a
    day and rounded to the nearest whole number, [d] with
    [d - 1/2 <= mean / 86400000 < d + 1/2]. When no created issue has a
    [resolvedAt] both are exactly 0; in every case both are finite,
    neither [NaN] nor an infinity. *)
Theorem average_resolution_time (data : Dataset.t) :
  let times := resolutionTimes (Dataset.createdIssues data) in
  let stats := calculateIssueStats data in
  let avgMs := IssueStats.avgResolutionTimeMs stats in
  let avgDays := IssueStats.avgResolutionTimeDays stats in
  isFinite avgMs = true
  /\ isFinite avgDays = true
  /\ (times = [] -> avgMs = num 0 /\ avgDays = num 0)
  /\ (times <> [] ->
      exists (q : Q) (d : Z),
        avgMs = Fin q
        /\ quotientUpToRounding (sumZ times) (len times) q
        /\ (forall m, sumZ times = m * len times -> avgMs = num m)
        /\ avgDays = num d
        /\ (2 * d - 1) * (86400000 * len times)
           <= 2 * sumZ times
           < (2 * d + 1) * (86400000 * len times)).
Proof.
  cbv zeta. unfold calculateIssueStats. cbn [IssueStats.avgResolutionTimeMs IssueStats.avgResolutionTimeDays].
  rewrite avgResolutionTime_spec.
  set (times := resolutionTimes (Dataset.createdIssues data)).
  destruct times as [|t0 rest] eqn:Ht.
  - cbn. repeat split; try reflexivity. intros H; now elim H.
  - assert (Hn : 0 < len times) by (rewrite Ht; unfold len; cbn [List.length]; lia).
    rewrite <- Ht. apply Z.ltb_lt in Hn as Hb. rewrite Hb.
    change (1000 * 60 * 60 * 24) with 86400000.
    unfold div at 1 2. unfold num at 1 2.
    rewrite !qdiv_nonzero by (apply inject_Z_nonzero; lia).
    cbn [isFinite round].
    split; [reflexivity|]. split; [reflexivity|]. split.
    + intros H. rewrite H in Hn. discriminate Hn.
    + intros _.
      exists (Qred (inject_Z (sumZ times) / inject_Z (len times))).
      eexists. split; [reflexivity|].
      split; [apply exact_quotient_up_to_rounding;
              [exact Hn|apply Qred_correct]|].
      split.
      { intros m Hm. rewrite Hm, whole_quotient by exact Hn. reflexivity. }
      split; [reflexivity|].
      apply round_half_up; [lia|].
      rewrite !Qred_correct.
      destruct (len times) as [|p|p] eqn:Hp; try lia.
      change (86400000 * Z.pos p) with (Z.pos (86400000 * p)).
      unfold Qeq, Qdiv, Qmult, Qinv, inject_Z.
      cbn [Qnum Qden]. rewrite !Pos2Z.inj_mul. lia.
Qed.
End IssueStatistics.

Section Strings.
Import Js.

Lemma to_int_not_nil (z : Z) :
  Z.to_int z <> Decimal.Pos Decimal.Nil /\ Z.to_int z <> Decimal.Neg Decimal.Nil.
Proof.
  split; intros H; pose proof (of_to z) as Hz; rewrite H in Hz;
    cbn in Hz; subst z; discriminate H.
Qed.

Lemma numToString_inj (a b : Z) : numToString a = numToString b -> a = b.
Proof.
  unfold numToString. intros H.
  apply (f_equal NilZero.int_of_string) in H.
  destruct (to_int_not_nil a) as [Ha1 Ha2], (to_int_not_nil b) as [Hb1 Hb2].
  rewrite !NilZero.isi in H by assumption.
  injection H as H. apply (f_equal Z.of_int) in H. now rewrite !of_to in H.
Qed.

Lemma numToString_eqb (a b : Z) :
  String.eqb (numToString a) (numToString b) = (a =? b).
Proof.
  destruct (Z.eqb_spec a b) as [->|Hne].
  - apply String.eqb_refl.
  - apply String.eqb_neq. intros H. now apply numToString_inj in H.
Qed.

Lemma getOwn_updateOwn {V} (k k' : string) (f : V -> V) (o : JsObject V) :
  getOwn (updateOwn k f o) k' =
    if String.eqb k k' then option_map f (getOwn o k') else getOwn o k'.
Proof.
  induction o as [|[k0 v] o IH]; cbn [updateOwn getOwn].
  - now destruct (String.eqb k k').
  - destruct (String.eqb k0 k) eqn:E0.
    + apply String.eqb_eq in E0. subst k0. cbn [getOwn].
      destruct (String.eqb k k') eqn:E; [reflexivity|reflexivity].
    + cbn [getOwn]. destruct (String.eqb k0 k') eqn:E1.
      * apply String.eqb_eq in E1. subst k0.
        rewrite String.eqb_sym, E0. reflexivity.
      * exact IH.
Qed.

End Strings.

Section Histograms.
Import Js StatisticsCalculator.

Lemma occurrences_cons (k j : Z) (ks : list Z) :
  occurrences k (j :: ks) = (if k =? j then 1 else 0) + occurrences k ks.
Proof.
  unfold occurrences, len. cbn [filter].
  destruct (k =? j); cbn [List.length]; lia.
Qed.

Lemma bucket_increments (counts : JsObject Z) (ks : list Z) (k : Z) :
  bucket (fold_left (fun acc j => increment j acc) ks counts) k =
    option_map (fun v => v + occurrences k ks) (bucket counts k).
Proof.
  revert counts. induction ks as [|j ks IH]; intros counts; cbn [fold_left].
  - destruct (bucket counts k) as [v|]; [|reflexivity].
    cbn [option_map]. f_equal. unfold occurrences, len. cbn. lia.
  - rewrite IH. unfold bucket, increment. rewrite getOwn_updateOwn.
    rewrite numToString_eqb, occurrences_cons, (Z.eqb_sym j k).
    destruct (k =? j), (getOwn counts (numToString k)); cbn [option_map];
      f_equal; lia.
Qed.

Lemma bucket_zeroCounts (keys : list Z) (k : Z) :
  bucket (zeroCounts keys) k = if existsb (Z.eqb k) keys then Some 0 else None.
Proof.
  unfold bucket, zeroCounts.
  induction keys as [|j keys IH]; [reflexivity|].
  cbn [map getOwn existsb]. rewrite numToString_eqb, (Z.eqb_sym j k).
  destruct (k =? j); [reflexivity|exact IH].
Qed.

(** The three histograms are counted independently of one another. *)
Lemma countActivities_split (h : Dates.Host) (activities : list Activity.t) :
  countActivities h activities =
    (fold_left (fun acc j => increment j acc)
       (map (fun a => Dates.getMonth h (Activity.timestamp a) + 1) activities)
       (zeroCounts (range 1 12)),
     fold_left (fun acc j => increment j acc)
       (map (fun a => Dates.getDay h (Activity.timestamp a)) activities)
       (zeroCounts (range 0 7)),
     fold_left (fun acc j => increment j acc)
       (map (fun a => Dates.getHours h (Activity.timestamp a)) activities)
       (zeroCounts (range 0 24))).
Proof.
  unfold countActivities.
  generalize (zeroCounts (range 1 12)) (zeroCounts (range 0 7))
    (zeroCounts (range 0 24)).
  induction activities as [|a activities IH]; intros m d hr; [reflexivity|].
  cbn [fold_left map]. apply IH.
Qed.

Lemma timeStats_hourly (h : Dates.Host) (data : Dataset.t) :
  TimeStats.hourlyActivity (calculateTimeStats h data) =
    fold_left (fun acc j => increment j acc)
      (map (fun a => Dates.getHours h (Activity.timestamp a)) (allActivities data))
      (zeroCounts (range 0 24)).
Proof.
  unfold calculateTimeStats. rewrite countActivities_split. reflexivity.
Qed.

Lemma timeStats_dayOfWeek (h : Dates.Host) (data : Dataset.t) :
  TimeStats.dayOfWeekActivity (calculateTimeStats h data) =
    fold_left (fun acc j => increment j acc)
      (map (fun a => Dates.getDay h (Activity.timestamp a)) (allActivities data))
      (zeroCounts (range 0 7)).
Proof.
  unfold calculateTimeStats. rewrite countActivities_split. reflexivity.
Qed.

Lemma hoursActivity_count (h : Dates.Host) (data : Dataset.t) (hours : list Z) :
  forallb (fun k => existsb (Z.eqb k) (range 0 24)) hours = true ->
  hoursActivity hours (calculateTimeStats h data) =
    countAmong hours (eventHours h data).
Proof.
  intros Hin. unfold hoursActivity, countAmong.
  rewrite timeStats_hourly. fold (eventHours h data).
  set (f := fun hr => occurrences hr (eventHours h data)).
  assert (Hgen : forall acc,
    fold_left
      (fun sum hr =>
         sum + match bucket (fold_left (fun acc j => increment j acc)
                               (eventHours h data) (zeroCounts (range 0 24))) hr with
               | Some v => v
               | None => 0
               end) hours acc
    = acc + fold_right Z.add 0 (map f hours)).
  { induction hours as [|k hours IH]; intros acc; cbn [fold_left map fold_right].
    - lia.
    - cbn [forallb] in Hin. apply andb_prop in Hin as [Hk Hrest].
      rewrite IH by exact Hrest.
      rewrite bucket_increments, bucket_zeroCounts, Hk. cbn [option_map].
      unfold f. lia. }
  apply Hgen.
Qed.

Lemma weekendActivity_count (h : Dates.Host) (data : Dataset.t) :
  weekendActivity (calculateTimeStats h data) =
    Some (countAmong [0; 6] (eventWeekdays h data)).
Proof.
  unfold weekendActivity. rewrite timeStats_dayOfWeek.
  fold (eventWeekdays h data).
  rewrite !bucket_increments, !bucket_zeroCounts. cbn [option_map].
  unfold countAmong. cbn [map fold_right existsb range]. cbn. f_equal. lia.
Qed.

End Histograms.

Section Achievements.
Import Js StatisticsCalculator.

Lemma highestTierMet_at_most_one (ladder : Ladder) (value : Z) :
  (List.length (highestTierMet ladder value) <= 1)%nat.
Proof.
  induction ladder as [|[threshold id] lower IH]; cbn [highestTierMet].
  - cbn. lia.
  - destruct (threshold <=? value); [cbn; lia|exact IH].
Qed.

Ltac split_conditions :=
  repeat match goal with
         | |- context [if ?c then _ else _] => destruct c eqn:?
         | |- context [match ?x with Some _ => _ | None => _ end] =>
             destruct x eqn:?
         end.

Ltac badge_piece :=
  intros; cbv beta delta
    [issueCreatorBadges bugCrusherBadges commenterBadges documentationBadges
     streakBadges multiProjectBadges weekendBadge nightOwlBadge earlyBirdBadge
     highestTierMet issuesCreatedLadder issuesResolvedLadder commentsLadder
     articlesLadder streakLadder projectsLadder] iota;
  split_conditions; reflexivity.

(** The badges a filter [keep] retains from the nine blocks of
    [calculateAchievements]. *)
Lemma filter_achievements (keep : string -> bool) (h : Dates.Host)
  (data : Dataset.t) :
  let timeStats := calculateTimeStats h data in
  filter keep (badgeIds (calculateAchievements h data)) =
    filter keep (badgeIds (issueCreatorBadges (len (Dataset.createdIssues data))))
    ++ filter keep (badgeIds (bugCrusherBadges (len (Dataset.resolvedIssues data))))
    ++ filter keep (badgeIds (commenterBadges (len (Dataset.comments data))))
    ++ filter keep (badgeIds (documentationBadges (len (Dataset.articles data))))
    ++ filter keep (badgeIds (streakBadges
                                (Streak.days (TimeStats.longestStreak timeStats))))
    ++ filter keep (badgeIds (multiProjectBadges
                                (ProjectStats.totalProjects
                                   (calculateProjectStats data))))
    ++ filter keep (badgeIds (weekendBadge timeStats))
    ++ filter keep (badgeIds (nightOwlBadge timeStats))
    ++ filter keep (badgeIds (earlyBirdBadge timeStats)).
Proof.
  cbv zeta. unfold calculateAchievements, badgeIds.
  rewrite !map_app, !filter_app. reflexivity.
Qed.

(** One block answers each filter, the other eight contribute nothing. *)
Ltac one_block h data :=
  rewrite filter_achievements; cbv zeta;
  generalize (calculateTimeStats h data);
  generalize (calculateProjectStats data); intros;
  repeat (match goal with
          | |- context [filter ?k (badgeIds (?f ?x))] =>
              replace (filter k (badgeIds (f x))) with (@nil string)
                by (symmetry; badge_piece)
          end);
  rewrite ?app_nil_r; cbn [app]; badge_piece.

Section Ladders.
Variable h : Dates.Host.
Variable data : Dataset.t.

Let earned : list string := badgeIds (calculateAchievements h data).
Let timeStats : TimeStats.t := calculateTimeStats h data.

Lemma ladder_issuesCreated :
  fromLadder issuesCreatedLadder earned =
    highestTierMet issuesCreatedLadder (len (Dataset.createdIssues data)).
Proof.
  unfold fromLadder, earned.
  one_block h data.
Qed.

Lemma ladder_issuesResolved :
  fromLadder issuesResolvedLadder earned =
    highestTierMet issuesResolvedLadder (len (Dataset.resolvedIssues data)).
Proof.
  unfold fromLadder, earned.
  one_block h data.
Qed.

Lemma ladder_comments :
  fromLadder commentsLadder earned =
    highestTierMet commentsLadder (len (Dataset.comments data)).
Proof.
  unfold fromLadder, earned.
  one_block h data.
Qed.

Lemma ladder_articles :
  fromLadder articlesLadder earned =
    highestTierMet articlesLadder (len (Dataset.articles data)).
Proof.
  unfold fromLadder, earned.
  one_block h data.
Qed.

Lemma ladder_streak :
  fromLadder streakLadder earned =
    highestTierMet streakLadder
      (Streak.days (TimeStats.longestStreak timeStats)).
Proof.
  unfold fromLadder, earned, timeStats.
  one_block h data.
Qed.

Lemma ladder_projects :
  fromLadder projectsLadder earned =
    highestTierMet projectsLadder
      (ProjectStats.totalProjects (calculateProjectStats data)).
Proof.
  unfold fromLadder, earned.
  one_block h data.
Qed.

Lemma flag_weekend :
  filter (String.eqb "weekend_warrior") earned =
    if 20 <? countAmong [0; 6] (eventWeekdays h data)
    then ["weekend_warrior"] else [].
Proof.
  pose proof (weekendActivity_count h data) as Hw.
  unfold earned. revert Hw.
  generalize (countAmong [0; 6] (eventWeekdays h data)) as n. intros n.
  rewrite filter_achievements; cbv zeta.
  generalize (calculateTimeStats h data) as ts.
  generalize (calculateProjectStats data) as ps. intros ps ts Hw.
  repeat (match goal with
          | |- context [filter ?k (badgeIds (?f ?x))] =>
              replace (filter k (badgeIds (f x))) with (@nil string)
                by (symmetry; badge_piece)
          end).
  unfold weekendBadge. rewrite Hw.
  now destruct (20 <? n).
Qed.

Lemma flag_nightOwl :
  filter (String.eqb "night_owl") earned =
    if 20 <? countAmong [22; 23; 0; 1; 2; 3; 4] (eventHours h data)
    then ["night_owl"] else [].
Proof.
  rewrite <- (hoursActivity_count h data) by reflexivity.
  fold (nightActivity (calculateTimeStats h data)).
  unfold earned.
  one_block h data.
Qed.

Lemma flag_earlyBird :
  filter (String.eqb "early_bird") earned =
    if 20 <? countAmong [5; 6; 7; 8] (eventHours h data)
    then ["early_bird"] else [].
Proof.
  rewrite <- (hoursActivity_count h data) by reflexivity.
  fold (morningActivity (calculateTimeStats h data)).
  unfold earned.
  one_block h data.
Qed.

End Ladders.

End Achievements.

Section YearWindow.
Import Js DataCollector.

Lemma holdsFrom_spec (check : Z -> bool) (n : nat) :
  forall from, holdsFrom check from n = true ->
  forall x, from <= x < from + Z.of_nat n -> check x = true.
Proof.
  induction n as [|k IH]; intros from H x Hx; [lia|].
  cbn [holdsFrom] in H. apply andb_prop in H as [H0 H].
  destruct (Z.eq_dec x from) as [->|Hne]; [exact H0|].
  apply (IH (from + 1) H). lia.
Qed.

Lemma year_digits_table : holdsFrom yearDigitsCheck 1000 (Z.to_nat 9000) = true.
Proof. vm_compute. reflexivity. Qed.

Lemma two_digits_table : holdsFrom twoDigitsCheck 0 (Z.to_nat 100) = true.
Proof. vm_compute. reflexivity. Qed.

Lemma year_digits (year : Z) :
  1000 <= year <= 9999 ->
  exists a b c d,
    numToString year = String a (String b (String c (String d EmptyString)))
    /\ Dates.fourDigits a b c d = Some year.
Proof.
  intros Hy.
  assert (Ht : yearDigitsCheck year = true).
  { apply (holdsFrom_spec yearDigitsCheck (Z.to_nat 9000) 1000 year_digits_table).
    rewrite Z2Nat.id by lia. lia. }
  unfold yearDigitsCheck in Ht.
  destruct (numToString year) as [|a [|b [|c [|d [|? ?]]]]]; try discriminate.
  exists a, b, c, d. split; [reflexivity|].
  destruct (Dates.fourDigits a b c d) as [v|]; [|discriminate].
  apply Z.eqb_eq in Ht. now subst.
Qed.

Lemma two_digits (v : Z) :
  0 <= v <= 99 ->
  exists a b,
    padStart 2 "0" (numToString v) = String a (String b EmptyString)
    /\ Dates.twoDigits a b = Some v.
Proof.
  intros Hv.
  assert (Ht : twoDigitsCheck v = true).
  { apply (holdsFrom_spec twoDigitsCheck (Z.to_nat 100) 0 two_digits_table).
    rewrite Z2Nat.id by lia. lia. }
  unfold twoDigitsCheck in Ht.
  destruct (padStart 2 "0" (numToString v)) as [|a [|b [|? ?]]]; try discriminate.
  exists a, b. split; [reflexivity|].
  destruct (Dates.twoDigits a b) as [w|]; [|discriminate].
  apply Z.eqb_eq in Ht. now subst.
Qed.

Lemma year_bounds (year : Z) :
  1000 <= year <= 9999 ->
  yearStart year = Some (Dates.utcMs year 1 1 0 0 0)
  /\ yearEnd year = Some (Dates.utcMs year 12 31 23 59 59).
Proof.
  intros Hy. destruct (year_digits year Hy) as (a & b & c & d & Hs & Hd).
  unfold yearStart, yearEnd. rewrite Hs.
  cbn [String.append Dates.parseDate]. rewrite Hd.
  change (Dates.twoDigits "0" "1") with (Some 1).
  change (Dates.twoDigits "1" "2") with (Some 12).
  change (Dates.twoDigits "3" "1") with (Some 31).
  change (Dates.parseTimeOfDay "T00:00:00Z") with (Some 0).
  change (Dates.parseTimeOfDay "T23:59:59Z") with (Some 86399000).
  cbv iota beta. change ((1 <=? 1) && (1 <=? 12) && (1 <=? 1) && (1 <=? 31)) with true.
  change ((1 <=? 12) && (12 <=? 12) && (1 <=? 31) && (31 <=? 31)) with true.
  cbv iota.
  unfold Dates.utcMs, Dates.msPerHour, Dates.msPerMinute, Dates.msPerSecond.
  split; f_equal; lia.
Qed.

Lemma next_year_follows (year : Z) :
  Dates.utcMs (year + 1) 1 1 0 0 0 = Dates.utcMs year 12 31 23 59 59 + 1000.
Proof.
  unfold Dates.utcMs, Dates.daysFromCivil, Dates.msPerDay, Dates.msPerHour,
    Dates.msPerMinute, Dates.msPerSecond.
  cbn [Z.leb Z.ltb Z.compare Pos.compare Pos.compare_cont].
  replace (year + 1 - 1) with year by lia.
  change ((153 * (1 + 9) + 2) / 5) with 306.
  change ((153 * (12 - 3) + 2) / 5) with 275.
  lia.
Qed.

Lemma year_start_before_end (year : Z) :
  Dates.utcMs year 1 1 0 0 0 <= Dates.utcMs year 12 31 23 59 59.
Proof.
  unfold Dates.utcMs, Dates.daysFromCivil, Dates.msPerDay, Dates.msPerHour,
    Dates.msPerMinute, Dates.msPerSecond.
  cbn [Z.leb Z.ltb Z.compare Pos.compare Pos.compare_cont].
  change ((153 * (1 + 9) + 2) / 5) with 306.
  change ((153 * (12 - 3) + 2) / 5) with 275.
  Z.div_mod_to_equations. lia.
Qed.

Lemma withinYear_spec (year t : Z) :
  1000 <= year <= 9999 ->
  withinYear t year = true <->
  Dates.utcMs year 1 1 0 0 0 <= t <= Dates.utcMs year 12 31 23 59 59.
Proof.
  intros Hy. unfold withinYear.
  destruct (year_bounds year Hy) as [-> ->].
  rewrite andb_true_iff, !Z.leb_le. reflexivity.
Qed.

Lemma isUser_spec (who : option UserRef.t) (userLogin : string) :
  isUser who userLogin = true <->
  exists u, who = Some u /\ UserRef.login u = userLogin.
Proof.
  unfold isUser. destruct who as [u|].
  - rewrite String.eqb_eq. split.
    + intros H. now exists u.
    + intros (u' & [= <-] & H). exact H.
  - split; [discriminate|]. intros (u & H & _). discriminate H.
Qed.

Lemma extractUserComments_In (issues : list CommentedIssue.t)
  (userLogin : string) (year : Z) (kept : Comment.t) :
  In kept (extractUserComments issues userLogin year) <->
  exists issue comments comment,
    In issue issues
    /\ CommentedIssue.comments issue = Some comments
    /\ In comment comments
    /\ keepsComment userLogin year comment = true
    /\ kept = enrich issue comment.
Proof.
  unfold extractUserComments. rewrite in_flat_map. split.
  - intros (issue & Hissue & Hkept). unfold commentsOfIssue in Hkept.
    destruct (CommentedIssue.comments issue) as [comments|] eqn:Hc; [|now elim Hkept].
    apply in_map_iff in Hkept as (comment & <- & Hf).
    apply filter_In in Hf as [Hin Hkeep].
    now exists issue, comments, comment.
  - intros (issue & comments & comment & Hissue & Hc & Hin & Hkeep & ->).
    exists issue. split; [exact Hissue|].
    unfold commentsOfIssue. rewrite Hc. apply in_map.
    now apply filter_In.
Qed.

(** Claim C3. For a year of four digits, the year filter keeps exactly the
    instants of the closed interval from [{year}-01-01T00:00:00Z] to
    [{year}-12-31T23:59:59Z]: both ends are kept and
    [{year+1}-01-01T00:00:00Z] is not. A comment is kept exactly when its
    author's login is the user's and its instant is in the interval, and
    the kept comments are those, each with the reference to its issue; an
    article is kept exactly when its reporter's login is the user's and
    its instant is in the interval. *)
Theorem year_filter_closed_interval (year : Z) :
  1000 <= year <= 9999 ->
  let first := Dates.utcMs year 1 1 0 0 0 in
  let last := Dates.utcMs year 12 31 23 59 59 in
  let next := Dates.utcMs (year + 1) 1 1 0 0 0 in
  (forall t, withinYear t year = true <-> first <= t <= last)
  /\ withinYear first year = true
  /\ withinYear last year = true
  /\ withinYear next year = false
  /\ (forall userLogin comment,
        keepsComment userLogin year comment = true <->
        (exists a, RawComment.author comment = Some a
                   /\ UserRef.login a = userLogin)
        /\ first <= RawComment.created comment <= last)
  /\ (forall issues userLogin kept,
        In kept (extractUserComments issues userLogin year) <->
        exists issue comments comment,
          In issue issues
          /\ CommentedIssue.comments issue = Some comments
          /\ In comment comments
          /\ keepsComment userLogin year comment = true
          /\ kept = enrich issue comment)
  /\ (forall articles userLogin article,
        In article (filterArticlesByUserAndYear articles userLogin year) <->
        In article articles
        /\ (exists r, Article.reporter article = Some r
                      /\ UserRef.login r = userLogin)
        /\ first <= Article.created article <= last).
Proof.
  intros Hy. cbv zeta.
  pose proof (year_start_before_end year) as Hle.
  pose proof (next_year_follows year) as Hnext.
  split; [intros t; now apply withinYear_spec|].
  split; [apply withinYear_spec; [exact Hy|lia]|].
  split; [apply withinYear_spec; [exact Hy|lia]|].
  split.
  { destruct (withinYear (Dates.utcMs (year + 1) 1 1 0 0 0) year) eqn:E;
      [|reflexivity].
    apply withinYear_spec in E; [lia|exact Hy]. }
  split.
  { intros userLogin comment. unfold keepsComment.
    rewrite andb_true_iff, isUser_spec, withinYear_spec by exact Hy.
    reflexivity. }
  split; [intros; apply extractUserComments_In|].
  intros articles userLogin article.
  unfold filterArticlesByUserAndYear, keepsArticle.
  rewrite filter_In, andb_true_iff, isUser_spec, withinYear_spec by exact Hy.
  reflexivity.
Qed.

(** Claim C3 at the year 2025. *)
Lemma year_filter_2025 :
  withinYear (Dates.utcMs 2025 1 1 0 0 0) 2025 = true
  /\ withinYear (Dates.utcMs 2025 12 31 23 59 59) 2025 = true
  /\ withinYear (Dates.utcMs 2026 1 1 0 0 0) 2025 = false.
Proof.
  destruct (year_filter_closed_interval 2025 ltac:(lia)) as (_ & A & B & C & _).
  exact (conj A (conj B C)).
Defined.

End YearWindow.

Section Calendar.
Import Js StatisticsCalculator.

(** The year of the era and the day of that year, of a day of a 400-year
    era. *)
Lemma year_of_era_bounds (doe : Z) :
  0 <= doe < 146097 ->
  let yoe := (doe - doe / 1460 + doe / 36524 - doe / 146096) / 365 in
  let doy := doe - (365 * yoe + yoe / 4 - yoe / 100) in
  0 <= yoe <= 399 /\ 0 <= doy <= 365.
Proof. intros H. cbv zeta. Z.div_mod_to_equations. lia. Qed.

(** The month and the day of the month, of a day of a year that starts in
    March. *)
Lemma month_of_year_bounds (doy : Z) :
  0 <= doy <= 365 ->
  let mp := (5 * doy + 2) / 153 in
  let d := doy - (153 * mp + 2) / 5 + 1 in
  0 <= mp <= 11 /\ 1 <= d <= 31.
Proof. intros H. cbv zeta. Z.div_mod_to_equations. lia. Qed.

(** [civilFromDays] yields a date of the calendar, of which
    [daysFromCivil] is the day number. *)
Lemma civilFromDays_spec (n : Z) :
  let '(y, m, d) := Dates.civilFromDays n in
  1 <= m <= 12 /\ 1 <= d <= 31 /\ Dates.daysFromCivil y m d = n.
Proof.
  unfold Dates.civilFromDays.
  set (z := n + 719468). set (era := z / 146097).
  set (doe := z - era * 146097).
  assert (Hdoe : 0 <= doe < 146097).
  { unfold doe, era. pose proof (Z.div_mod z 146097 ltac:(lia)).
    pose proof (Z.mod_pos_bound z 146097 ltac:(lia)). lia. }
  pose proof (year_of_era_bounds doe Hdoe) as Hy. cbv zeta in Hy.
  set (yoe := (doe - doe / 1460 + doe / 36524 - doe / 146096) / 365) in *.
  set (doy := doe - (365 * yoe + yoe / 4 - yoe / 100)) in *.
  destruct Hy as [Hyoe Hdoy].
  pose proof (month_of_year_bounds doy Hdoy) as Hm. cbv zeta in Hm.
  set (mp := (5 * doy + 2) / 153) in *.
  set (d := doy - (153 * mp + 2) / 5 + 1) in *.
  destruct Hm as [Hmp Hd].
  set (m := if mp <? 10 then mp + 3 else mp - 9).
  assert (Hmonth : 1 <= m <= 12) by (unfold m; destruct (Z.ltb_spec mp 10); lia).
  assert (Hback : (if 2 <? m then m - 3 else m + 9) = mp).
  { unfold m. destruct (Z.ltb_spec mp 10).
    - destruct (Z.ltb_spec 2 (mp + 3)); lia.
    - destruct (Z.ltb_spec 2 (mp - 9)); lia. }
  split; [exact Hmonth|]. split; [exact Hd|].
  unfold Dates.daysFromCivil. rewrite Hback.
  assert (Hyear : (if m <=? 2 then (if m <=? 2 then yoe + era * 400 + 1
                                    else yoe + era * 400) - 1
                   else (if m <=? 2 then yoe + era * 400 + 1
                         else yoe + era * 400))
                  = yoe + era * 400)
    by (destruct (m <=? 2); lia).
  rewrite Hyear.
  assert (Hera : (yoe + era * 400) / 400 = era)
    by (rewrite Z.div_add by lia; rewrite Z.div_small by lia; lia).
  rewrite Hera.
  replace (yoe + era * 400 - era * 400) with yoe by lia.
  unfold d, doy, doe, z. lia.
Qed.

Lemma parse_date_key (y m d : Z) :
  1000 <= y <= 9999 -> 1 <= m <= 12 -> 1 <= d <= 31 ->
  Dates.parseDate
    (numToString y ++ "-" ++ padStart 2 "0" (numToString m) ++ "-"
     ++ padStart 2 "0" (numToString d))%string
  = Some (Dates.daysFromCivil y m d * Dates.msPerDay).
Proof.
  intros Hy Hm Hd.
  destruct (year_digits y Hy) as (y1 & y2 & y3 & y4 & -> & Hyear).
  destruct (two_digits m ltac:(lia)) as (m1 & m2 & -> & Hmonth).
  destruct (two_digits d ltac:(lia)) as (d1 & d2 & -> & Hday).
  cbn [String.append Dates.parseDate]. rewrite Hyear, Hmonth, Hday.
  assert (Hin : (1 <=? m) && (m <=? 12) && (1 <=? d) && (d <=? 31) = true)
    by (rewrite !andb_true_iff, !Z.leb_le; lia).
  now rewrite Hin.
Qed.

(** The key of a day parses to the midnight, UTC, of its day number. *)
Lemma dayKey_parses (h : Dates.Host) (t : Z) :
  1000 <= Dates.getFullYear h t <= 9999 ->
  Dates.parseDate (dayKey h t) = Some (Dates.localDay h t * Dates.msPerDay).
Proof.
  intros Hy. unfold dayKey.
  pose proof (civilFromDays_spec (Dates.localDay h t)) as Hc.
  unfold Dates.getFullYear, Dates.getMonth, Dates.getDate in *.
  destruct (Dates.civilFromDays (Dates.localDay h t)) as [[y m] d].
  cbn [fst snd] in *. destruct Hc as (Hm & Hd & Hn).
  replace (m - 1 + 1) with m by lia.
  rewrite parse_date_key by assumption. now rewrite Hn.
Qed.

(** Two keys pass the test of the scan exactly when their days follow
    each other on the calendar. *)
Lemma isNextDay_dayKey (h : Dates.Host) (t1 t2 : Z) :
  1000 <= Dates.getFullYear h t1 <= 9999 ->
  1000 <= Dates.getFullYear h t2 <= 9999 ->
  isNextDay (dayKey h t1) (dayKey h t2) = true
  <-> Dates.localDay h t2 = Dates.localDay h t1 + 1.
Proof.
  intros H1 H2. unfold isNextDay. rewrite !dayKey_parses by assumption.
  rewrite Z.eqb_eq. unfold Dates.msPerDay. lia.
Qed.

(** Two instants have the same key exactly when they fall on the same
    local day. *)
Lemma dayKey_same_day (h : Dates.Host) (t1 t2 : Z) :
  1000 <= Dates.getFullYear h t1 <= 9999 ->
  1000 <= Dates.getFullYear h t2 <= 9999 ->
  dayKey h t1 = dayKey h t2 <-> Dates.localDay h t1 = Dates.localDay h t2.
Proof.
  intros H1 H2. split.
  - intros Hkey. pose proof (dayKey_parses h t1 H1) as P1.
    pose proof (dayKey_parses h t2 H2) as P2.
    rewrite Hkey, P2 in P1. injection P1 as P1. unfold Dates.msPerDay in P1. lia.
  - intros Hday. unfold dayKey, Dates.getFullYear, Dates.getMonth, Dates.getDate.
    now rewrite Hday.
Qed.

End Calendar.

Section Sorting.
Import Js.
Context {A : Type}.
Variable cmp : A -> A -> Z.

Lemma insertBy_perm (x : A) (l : list A) :
  Permutation (insertBy cmp x l) (x :: l).
Proof.
  induction l as [|y l IH]; cbn [insertBy]; [reflexivity|].
  destruct (cmp x y <=? 0); [reflexivity|].
  rewrite IH. apply perm_swap.
Qed.

Lemma sortBy_perm (l : list A) : Permutation (sortBy cmp l) l.
Proof.
  induction l as [|x l IH]; [reflexivity|].
  unfold sortBy in *. cbn [fold_right].
  rewrite insertBy_perm. now apply perm_skip.
Qed.

Lemma sortBy_In (l : list A) (x : A) : In x (sortBy cmp l) <-> In x l.
Proof.
  split; apply Permutation_in; [|symmetry]; apply sortBy_perm.
Qed.

Lemma sortBy_length (l : list A) : List.length (sortBy cmp l) = List.length l.
Proof. apply Permutation_length, sortBy_perm. Qed.

Hypothesis cmp_total : forall a b, 0 < cmp a b -> cmp b a <= 0.
Hypothesis cmp_trans : forall a b c, cmp a b <= 0 -> cmp b c <= 0 -> cmp a c <= 0.

Lemma insertBy_sorted (x : A) (l : list A) :
  StronglySorted (before cmp) l -> StronglySorted (before cmp) (insertBy cmp x l).
Proof.
  induction l as [|y l IH]; intros Hs; cbn [insertBy].
  - repeat constructor.
  - destruct (Z.leb_spec (cmp x y) 0) as [Hle|Hgt].
    + constructor; [exact Hs|]. constructor; [exact Hle|].
      apply StronglySorted_inv in Hs as [_ Hall].
      rewrite Forall_forall in *. intros z Hz. unfold before.
      apply (cmp_trans x y z); [exact Hle|now apply Hall].
    + apply StronglySorted_inv in Hs as [Hl Hall].
      constructor; [now apply IH|].
      rewrite Forall_forall in *. intros z Hz.
      apply (Permutation_in _ (insertBy_perm x l)) in Hz.
      destruct Hz as [<-|Hz]; [now apply cmp_total|now apply Hall].
Qed.

Lemma sortBy_sorted (l : list A) : StronglySorted (before cmp) (sortBy cmp l).
Proof.
  induction l as [|x l IH]; [constructor|].
  unfold sortBy in *. cbn [fold_right]. now apply insertBy_sorted.
Qed.

End Sorting.

Section Stability.
Import Js.
Context {A : Type}.
Variable key : A -> Z.

(** Sorting by descending key. *)
Let cmp (a b : A) : Z := key b - key a.

(** The sort is stable: the elements of one key keep their order. *)
Lemma insertBy_stable (v : Z) (x : A) (l : list A) :
  StronglySorted (before cmp) l ->
  filter (fun a => key a =? v) (insertBy cmp x l)
  = filter (fun a => key a =? v) (x :: l).
Proof.
  induction l as [|y l IH]; intros Hs; cbn [insertBy]; [reflexivity|].
  destruct (Z.leb_spec (cmp x y) 0) as [Hle|Hgt]; [reflexivity|].
  apply StronglySorted_inv in Hs as [Hl Hall].
  cbn [filter] in *. rewrite (IH Hl).
  unfold cmp in Hgt.
  destruct (Z.eqb_spec (key y) v), (Z.eqb_spec (key x) v); try reflexivity.
  lia.
Qed.

Lemma sortBy_stable (v : Z) (l : list A) :
  filter (fun a => key a =? v) (sortBy cmp l)
  = filter (fun a => key a =? v) l.
Proof.
  induction l as [|x l IH]; [reflexivity|].
  unfold sortBy in *. cbn [fold_right].
  rewrite insertBy_stable.
  - cbn [filter]. now rewrite IH.
  - apply sortBy_sorted; unfold cmp; intros; lia.
Qed.

Lemma sortBy_descending (l : list A) :
  StronglySorted (fun a b => key b <= key a) (sortBy cmp l).
Proof.
  assert (H : StronglySorted (before cmp) (sortBy cmp l))
    by (apply sortBy_sorted; unfold cmp; intros; lia).
  induction H; constructor; [assumption|].
  eapply Forall_impl; [|eassumption]. unfold before, cmp. intros; lia.
Qed.

End Stability.

Section StringOrder.
Import Js.

Lemma strictlyBefore_trans (a b c : string) :
  strictlyBefore a b -> strictlyBefore b c -> strictlyBefore a c.
Proof.
  unfold strictlyBefore. intros H1 H2.
  apply String_as_OT.cmp_lt in H1, H2. apply String_as_OT.cmp_lt.
  eapply String_as_OT.lt_trans; eassumption.
Qed.

Lemma strictlyBefore_irrefl (a : string) : ~ strictlyBefore a a.
Proof.
  unfold strictlyBefore. intros H.
  assert (E : String.compare a a = Eq) by now apply String_as_OT.cmp_eq.
  congruence.
Qed.

Lemma compareStrings_le (a b : string) :
  compareStrings a b <= 0 <-> a = b \/ strictlyBefore a b.
Proof.
  unfold compareStrings, strictlyBefore.
  destruct (String.compare a b) eqn:E.
  - apply String_as_OT.cmp_eq in E. split; [now left|lia].
  - split; [now right|lia].
  - split; [lia|]. intros [->|H]; [|discriminate].
    assert (E' : String.compare b b = Eq) by now apply String_as_OT.cmp_eq.
    congruence.
Qed.

Lemma compareStrings_total (a b : string) :
  0 < compareStrings a b -> compareStrings b a <= 0.
Proof.
  unfold compareStrings. rewrite (String.compare_antisym a b).
  destruct (String.compare b a); cbn; lia.
Qed.

Lemma compareStrings_trans (a b c : string) :
  compareStrings a b <= 0 -> compareStrings b c <= 0 -> compareStrings a c <= 0.
Proof.
  rewrite !compareStrings_le. intros [->|H1] [->|H2]; auto.
  right. eapply strictlyBefore_trans; eassumption.
Qed.

Lemma uniqueStrings_spec (l seen : list string) :
  NoDup (uniqueStrings seen l)
  /\ (forall x, In x (uniqueStrings seen l) <-> In x l /\ ~ In x seen).
Proof.
  revert seen. induction l as [|y l IH]; intros seen; cbn [uniqueStrings].
  - split; [constructor|]. intros x. cbn. tauto.
  - destruct (existsb (String.eqb y) seen) eqn:E.
    + destruct (IH seen) as [Hnd Hin]. split; [exact Hnd|].
      apply existsb_exists in E as (z & Hz & Hyz).
      apply String.eqb_eq in Hyz. subst z.
      intros x. rewrite Hin. cbn [In]. split; [tauto|].
      intros [[<-|Hx] Hn]; [contradiction|tauto].
    + destruct (IH (y :: seen)) as [Hnd Hin].
      assert (Hy : ~ In y seen).
      { intros Hy. assert (existsb (String.eqb y) seen = true).
        { apply existsb_exists. exists y. split; [exact Hy|apply String.eqb_refl]. }
        congruence. }
      split.
      * constructor; [|exact Hnd]. rewrite Hin. cbn [In]. tauto.
      * intros x. cbn [In]. rewrite Hin. cbn [In].
        destruct (string_dec y x) as [->|Hne]; tauto.
Qed.

(** After removing duplicates, the sort is strictly ascending. *)
Lemma sortStrings_strict (l : list string) :
  NoDup l -> StronglySorted strictlyBefore (sortStrings l).
Proof.
  intros Hnd.
  assert (Hnd' : NoDup (sortStrings l)).
  { eapply Permutation_NoDup; [symmetry; apply sortBy_perm|exact Hnd]. }
  assert (Hs : StronglySorted (before compareStrings) (sortStrings l))
    by (apply sortBy_sorted; [apply compareStrings_total|apply compareStrings_trans]).
  induction Hs as [|a rest Hrest IH Hall]; constructor.
  - apply IH. now apply NoDup_cons_iff in Hnd'.
  - apply NoDup_cons_iff in Hnd' as [Hnotin _].
    rewrite Forall_forall in *. intros b Hb.
    specialize (Hall b Hb). unfold before in Hall.
    apply compareStrings_le in Hall as [->|Hlt]; [contradiction|exact Hlt].
Qed.

(** Two strictly ascending lists with the same elements are equal. *)
Lemma strictly_sorted_unique (l1 l2 : list string) :
  StronglySorted strictlyBefore l1 -> StronglySorted strictlyBefore l2 ->
  (forall x, In x l1 <-> In x l2) -> l1 = l2.
Proof.
  intros H1. revert l2. induction H1 as [|a l1 Hl1 IH Ha]; intros l2 H2 Hin.
  - destruct l2 as [|b l2]; [reflexivity|].
    exfalso. apply (Hin b). now left.
  - destruct H2 as [|b l2 Hl2 Hb].
    + exfalso. apply (Hin a). now left.
    + rewrite Forall_forall in Ha, Hb.
      assert (Hab : a = b).
      { destruct (proj1 (Hin a) (or_introl eq_refl)) as [Heq|Hain]; [now symmetry|].
        destruct (proj2 (Hin b) (or_introl eq_refl)) as [Heq|Hbin]; [exact Heq|].
        exfalso. apply (strictlyBefore_irrefl a).
        eapply strictlyBefore_trans; [apply Ha, Hbin|apply Hb, Hain]. }
      subst b. f_equal. apply IH; [exact Hl2|].
      intros x. split; intros Hx.
      * destruct (proj1 (Hin x) (or_intror Hx)) as [<-|Hx2]; [|exact Hx2].
        exfalso. apply (strictlyBefore_irrefl a). now apply Ha.
      * destruct (proj2 (Hin x) (or_intror Hx)) as [<-|Hx1]; [|exact Hx1].
        exfalso. apply (strictlyBefore_irrefl a). now apply Hb.
Qed.

End StringOrder.

Section Streaks.
Import Js StatisticsCalculator.

Lemma chain_snoc (run : list string) (prev curr : string) :
  chain (run ++ [prev]) -> isNextDay prev curr = true ->
  chain ((run ++ [prev]) ++ [curr]).
Proof.
  induction run as [|a run IH]; intros Hc Hn.
  - cbn. auto.
  - destruct run as [|b run].
    + cbn in *. tauto.
    + cbn [app chain] in *. destruct Hc as [Hab Hc]. split; [exact Hab|].
      now apply IH.
Qed.

Lemma chain_snoc_inv (run : list string) (curr : string) :
  chain (run ++ [curr]) ->
  chain run /\ (run = [] \/ exists run' prev, run = run' ++ [prev]
                                         /\ isNextDay prev curr = true).
Proof.
  induction run as [|a run IH]; intros Hc.
  - split; [exact I|now left].
  - destruct run as [|b run].
    + cbn in Hc. split; [exact I|]. right. exists [], a. tauto.
    + cbn [app chain] in Hc. destruct Hc as [Hab Hc].
      destruct (IH Hc) as [Hrun Hlast]. split; [cbn [chain]; tauto|].
      right. destruct Hlast as [Hnil|(run' & prev & Heq & Hn)]; [discriminate|].
      exists (a :: run'), prev. rewrite Heq. now split.
Qed.

Lemma suffix_snoc_inv (s done : list string) (curr : string) :
  suffix s (done ++ [curr]) ->
  s = [] \/ exists s', s = s' ++ [curr] /\ suffix s' done.
Proof.
  intros (pre & Heq).
  destruct s as [|a s] using rev_ind; [now left|]. clear IHs. right.
  rewrite app_assoc in Heq. apply app_inj_tail in Heq as [Hd <-].
  exists s. split; [reflexivity|]. now exists pre.
Qed.

Lemma segment_snoc_inv (s done : list string) (curr : string) :
  segment s (done ++ [curr]) ->
  segment s done \/ exists s', s = s' ++ [curr] /\ suffix s' done.
Proof.
  intros (pre & post & Heq).
  destruct post as [|b post] using rev_ind.
  - rewrite app_nil_r in Heq.
    destruct (suffix_snoc_inv s done curr) as [->|H]; [now exists pre| |now right].
    left. exists done, []. now rewrite app_nil_r.
  - clear IHpost. left. rewrite !app_assoc in Heq.
    apply app_inj_tail in Heq as [Hd _]. exists pre, post.
    now rewrite app_assoc.
Qed.

Lemma suffix_last (s' done : list string) (x prev : string) :
  suffix (s' ++ [x]) (done ++ [prev]) -> x = prev /\ suffix s' done.
Proof.
  intros (pre & Heq). rewrite app_assoc in Heq.
  apply app_inj_tail in Heq as [Hd ->]. split; [reflexivity|now exists pre].
Qed.

Lemma segment_extend (s done : list string) (curr : string) :
  segment s done -> segment s (done ++ [curr]).
Proof.
  intros (pre & post & ->). exists pre, (post ++ [curr]).
  now rewrite <- !app_assoc.
Qed.

Lemma suffix_segment (s done : list string) : suffix s done -> segment s done.
Proof. intros (pre & ->). exists pre, []. now rewrite app_nil_r. Qed.

Lemma scanStep_inv (done : list string) (prev curr : string) (st : StreakScan) :
  ScanInv done prev st ->
  ScanInv (done ++ [prev]) curr (scanStep prev curr st).
Proof.
  intros [(pre & run & Hsplit & Hchain & Hstart & Hlen & Hmax)
          (best & last & Hseg & Hbchain & Hbstart & Hbend & Hblen)
          Hall Hord].
  unfold scanStep. destruct (isNextDay prev curr) eqn:Hnext.
  - (* the run goes on *)
    assert (Hcur' : exists pre' run',
      (done ++ [prev]) ++ [curr] = pre' ++ run' ++ [curr]
      /\ chain (run' ++ [curr])
      /\ hd curr run' = currentStart st
      /\ Z.of_nat (List.length (run' ++ [curr])) = currentStreak st + 1
      /\ (forall s, suffix s ((done ++ [prev]) ++ [curr]) -> chain s ->
                    (List.length s <= List.length (run' ++ [curr]))%nat)).
    { exists pre, (run ++ [prev]). split; [now rewrite Hsplit, <- !app_assoc|].
      split; [now apply chain_snoc|].
      split; [destruct run; cbn in *; congruence|].
      split; [rewrite !length_app in *; cbn [List.length] in *; lia|].
      intros s Hs Hc.
      apply suffix_snoc_inv in Hs as [->|(s' & -> & Hs')]; [cbn; lia|].
      apply chain_snoc_inv in Hc as [Hc' _].
      specialize (Hmax s' Hs' Hc'). rewrite !length_app in *. cbn [List.length] in *. lia. }
    assert (Hall' : forall s, segment s ((done ++ [prev]) ++ [curr]) -> chain s ->
              Z.of_nat (List.length s) <= Z.max (longestStreak st) (currentStreak st + 1)).
    { intros s Hs Hc.
      apply segment_snoc_inv in Hs as [Hs|(s' & -> & Hs')].
      - specialize (Hall s Hs Hc). lia.
      - apply chain_snoc_inv in Hc as [Hc' _].
        specialize (Hmax s' Hs' Hc'). rewrite !length_app in *.
        cbn [List.length] in *. lia. }
    destruct (Z.ltb_spec (longestStreak st) (currentStreak st + 1)) as [Hlt|Hge].
    + destruct Hcur' as (pre' & run' & Hsplit' & Hchain' & Hstart' & Hlen' & Hmax').
      constructor; cbn [longestStreak currentStreak longestStart longestEnd currentStart].
      * now exists pre', run'.
      * exists run', curr. split; [|now repeat split].
        exists pre', []. now rewrite app_nil_r.
      * intros s Hs Hc. specialize (Hall' s Hs Hc). lia.
      * lia.
    + constructor; cbn [longestStreak currentStreak longestStart longestEnd currentStart].
      * exact Hcur'.
      * exists best, last. split; [now apply segment_extend|now repeat split].
      * intros s Hs Hc. specialize (Hall' s Hs Hc). lia.
      * lia.
  - (* a new run starts at [curr] *)
    assert (H1 : 1 <= longestStreak st).
    { rewrite <- Hblen, length_app. cbn [List.length]. lia. }
    constructor; cbn [longestStreak currentStreak longestStart longestEnd currentStart].
    + exists (done ++ [prev]), []. split; [reflexivity|].
      split; [exact I|]. split; [reflexivity|]. split; [reflexivity|].
      intros s Hs Hc.
      apply suffix_snoc_inv in Hs as [->|(s' & -> & Hs')]; [cbn; lia|].
      apply chain_snoc_inv in Hc as [_ [->|(s'' & x & -> & Hx)]]; [cbn; lia|].
      apply suffix_last in Hs' as [-> _]. congruence.
    + exists best, last. split; [now apply segment_extend|now repeat split].
    + intros s Hs Hc.
      apply segment_snoc_inv in Hs as [Hs|(s' & -> & Hs')]; [now apply Hall|].
      apply chain_snoc_inv in Hc as [_ [->|(s'' & x & -> & Hx)]]; [cbn; lia|].
      apply suffix_last in Hs' as [-> _]. congruence.
    + exact H1.
Qed.

Lemma scanDays_inv (rest done : list string) (prev : string) (st : StreakScan) :
  ScanInv done prev st ->
  exists done' prev',
    done ++ prev :: rest = done' ++ [prev']
    /\ ScanInv done' prev' (scanDays prev rest st).
Proof.
  revert done prev st. induction rest as [|curr rest IH]; intros done prev st Hinv.
  - now exists done, prev.
  - cbn [scanDays].
    destruct (IH (done ++ [prev]) curr (scanStep prev curr st)
                 (scanStep_inv done prev curr st Hinv))
      as (done' & prev' & Heq & Hinv').
    exists done', prev'. split; [|exact Hinv'].
    now rewrite <- Heq, <- app_assoc.
Qed.

Lemma scan_start (first : string) :
  ScanInv [] first
    {| longestStreak := 1; currentStreak := 1; longestStart := first;
       longestEnd := first; currentStart := first |}.
Proof.
  constructor; cbn [longestStreak currentStreak longestStart longestEnd currentStart].
  - exists [], []. repeat split.
    intros s (pre & Heq) _. apply (f_equal (@List.length string)) in Heq.
    rewrite !length_app in Heq. cbn in *. lia.
  - exists [], first. repeat split. now exists [], [].
  - intros s (pre & post & Heq) _. apply (f_equal (@List.length string)) in Heq.
    rewrite !length_app in Heq. cbn in *. lia.
  - lia.
Qed.

Lemma sortedDays_spec (h : Dates.Host) (activities : list Activity.t) :
  NoDup (sortedDays h activities)
  /\ (forall key, In key (sortedDays h activities)
                  <-> In key (dayKeys h activities))
  /\ StronglySorted strictlyBefore (sortedDays h activities).
Proof.
  unfold sortedDays. fold (dayKeys h activities).
  destruct (uniqueStrings_spec (dayKeys h activities) []) as [Hnd Hin].
  split; [|split].
  - eapply Permutation_NoDup; [symmetry; apply sortBy_perm|exact Hnd].
  - intros key. unfold sortStrings. rewrite sortBy_In, Hin. cbn [In]. tauto.
  - now apply sortStrings_strict.
Qed.

Lemma sortedDays_nonempty (h : Dates.Host) (activities : list Activity.t) :
  activities <> [] -> sortedDays h activities <> [].
Proof.
  intros Hne Hnil. destruct activities as [|a activities]; [now elim Hne|].
  destruct (sortedDays_spec h (a :: activities)) as (_ & Hin & _).
  rewrite Hnil in Hin. apply (Hin (dayKey h (Activity.timestamp a))).
  now left.
Qed.

Lemma hd_error_snoc (run : list string) (x : string) :
  hd_error (run ++ [x]) = Some (hd x run).
Proof. now destruct run. Qed.

Lemma lastOf_snoc (run : list string) (x : string) : lastOf (run ++ [x]) = Some x.
Proof. unfold lastOf. now rewrite rev_app_distr. Qed.

Lemma len_nonzero {A} (l : list A) : l <> [] -> (len l =? 0) = false.
Proof.
  intros Hne. destruct l; [now elim Hne|]. apply Z.eqb_neq. unfold len.
  cbn [List.length]. lia.
Qed.

Lemma marchDays_sorted : StronglySorted strictlyBefore marchDays.
Proof. repeat constructor. Qed.

(** Claim C5. The streak is computed on the distinct local day keys of the
    events, sorted ascending: the sorted list has no duplicate, has the
    keys of the events as its elements and is strictly ascending in the
    order of strings. No event gives [{days: 0, startDate: null, endDate:
    null}]. With events, [days] is at least 1 and is the length of a run
    of consecutive days of the sorted list, which [startDate] and
    [endDate] begin and end, and no run of the list is longer. Events on
    2025-03-01 .. 2025-03-05 and on 2025-03-10, in any number and order,
    give 5 days from 2025-03-01 to 2025-03-05. For instants in years of
    four digits, two keys are equal exactly when the instants fall on the
    same local day, and pass the test of the scan exactly when the second
    falls on the day after the first. The streak of the time statistics
    is that of the instants of the created issues, the comments and the
    articles. *)
Theorem longest_streak (h : Dates.Host) (activities : list Activity.t) :
  let days := sortedDays h activities in
  let streak := calculateLongestStreak h activities in
  (NoDup days
   /\ (forall key, In key days <-> In key (dayKeys h activities))
   /\ StronglySorted strictlyBefore days)
  /\ (activities = [] ->
      streak = {| Streak.days := 0; Streak.startDate := None;
                  Streak.endDate := None |})
  /\ (activities <> [] ->
      1 <= Streak.days streak
      /\ exists run,
           segment run days
           /\ chain run
           /\ Z.of_nat (List.length run) = Streak.days streak
           /\ hd_error run = Streak.startDate streak
           /\ lastOf run = Streak.endDate streak
           /\ forall other,
                segment other days -> chain other ->
                Z.of_nat (List.length other) <= Streak.days streak)
  /\ ((forall key, In key (dayKeys h activities) <-> In key marchDays) ->
      streak = {| Streak.days := 5; Streak.startDate := Some "2025-03-01";
                  Streak.endDate := Some "2025-03-05" |})
  /\ (forall t1 t2,
        1000 <= Dates.getFullYear h t1 <= 9999 ->
        1000 <= Dates.getFullYear h t2 <= 9999 ->
        (dayKey h t1 = dayKey h t2
         <-> Dates.localDay h t1 = Dates.localDay h t2)
        /\ (isNextDay (dayKey h t1) (dayKey h t2) = true
            <-> Dates.localDay h t2 = Dates.localDay h t1 + 1))
  /\ (forall data,
        TimeStats.longestStreak (calculateTimeStats h data)
        = calculateLongestStreak h (allActivities data)
        /\ map Activity.timestamp (allActivities data)
           = map Issue.created (Dataset.createdIssues data)
             ++ map Comment.created (Dataset.comments data)
             ++ map Article.created (Dataset.articles data)).
Proof.
  cbv zeta.
  pose proof (sortedDays_spec h activities) as Hspec.
  split; [exact Hspec|]. split; [intros ->; reflexivity|].
  split; [|split; [|split]].
  - intros Hne. unfold calculateLongestStreak. rewrite (len_nonzero _ Hne).
    pose proof (sortedDays_nonempty h activities Hne) as Hdays.
    destruct (sortedDays h activities) as [|first rest]; [now elim Hdays|].
    destruct (scanDays_inv rest [] first _ (scan_start first))
      as (done' & prev' & Heq & Hinv).
    cbn [app] in Heq.
    destruct Hinv as [_ (best & last & Hseg & Hchain & Hstart & Hend & Hlen)
                        Hall _].
    cbn [Streak.days Streak.startDate Streak.endDate].
    rewrite Heq. split.
    + rewrite <- Hlen, length_app. cbn [List.length]. lia.
    + exists (best ++ [last]). split; [exact Hseg|]. split; [exact Hchain|].
      split; [exact Hlen|]. split; [now rewrite hd_error_snoc, Hstart|].
      split; [now rewrite lastOf_snoc, Hend|]. exact Hall.
  - intros Hkeys.
    assert (Hne : activities <> []).
    { intros ->. apply (Hkeys "2025-03-01"). now left. }
    assert (Hdays : sortedDays h activities = marchDays).
    { destruct Hspec as (_ & Hin & Hsorted).
      apply strictly_sorted_unique; [exact Hsorted|apply marchDays_sorted|].
      intros key. now rewrite Hin. }
    unfold calculateLongestStreak. rewrite (len_nonzero _ Hne), Hdays.
    reflexivity.
  - intros t1 t2 H1 H2. split; [|now apply isNextDay_dayKey].
    now apply dayKey_same_day.
  - intros data. split.
    + unfold calculateTimeStats.
      now destruct (countActivities h (allActivities data)) as [[? ?] ?].
    + unfold allActivities. rewrite !map_app, !map_map. reflexivity.
Qed.

End Streaks.

Section Objects.
Import Js.
Context {V : Type}.

Lemma getOwn_None (o : JsObject V) (k : string) :
  getOwn o k = None <-> ~ In k (keys o).
Proof.
  induction o as [|[k0 v] o IH]; cbn [getOwn keys map In]; [tauto|].
  destruct (String.eqb_spec k0 k) as [->|Hne].
  - split; [discriminate|]. intros H. elim H. now left.
  - rewrite IH. unfold keys. tauto.
Qed.

Lemma getOwn_In (o : JsObject V) (k : string) (v : V) :
  NoDup (keys o) -> (getOwn o k = Some v <-> In (k, v) o).
Proof.
  induction o as [|[k0 v0] o IH]; intros Hnd; cbn [getOwn In].
  - split; [discriminate|tauto].
  - cbn [keys map fst] in Hnd. apply NoDup_cons_iff in Hnd as [Hnotin Hnd].
    destruct (String.eqb_spec k0 k) as [->|Hne].
    + split.
      * intros [= ->]. now left.
      * intros [[= ->]|Hin]; [reflexivity|].
        elim Hnotin. unfold keys in *. apply in_map_iff. now exists (k, v).
    + rewrite (IH Hnd). split; [tauto|].
      intros [[= -> ->]|Hin]; [now elim Hne|exact Hin].
Qed.

Lemma getOwn_app (o : JsObject V) (k k' : string) (v : V) :
  getOwn (o ++ [(k, v)]) k' =
    match getOwn o k' with
    | Some v' => Some v'
    | None => if String.eqb k k' then Some v else None
    end.
Proof.
  induction o as [|[k0 v0] o IH]; cbn [app getOwn]; [reflexivity|].
  now destruct (String.eqb k0 k').
Qed.

Lemma keys_updateOwn (k : string) (f : V -> V) (o : JsObject V) :
  keys (updateOwn k f o) = keys o.
Proof.
  unfold keys. induction o as [|[k0 v0] o IH]; cbn [updateOwn]; [reflexivity|].
  destruct (String.eqb k0 k); cbn [map fst]; [reflexivity|].
  now rewrite IH.
Qed.

Variable init : V.
Variable incr : V -> V.

(** The entry [touch] leaves under the key it is given. *)
Lemma getOwn_touch (k k' : string) (o : JsObject V) :
  inherited k = false ->
  getOwn (touch init incr k o) k' =
    if String.eqb k k'
    then Some (incr (match getOwn o k with Some v => v | None => init end))
    else getOwn o k'.
Proof.
  intros Hk. unfold touch, get. rewrite Hk.
  destruct (getOwn o k) as [v|] eqn:Hget.
  - rewrite getOwn_updateOwn.
    destruct (String.eqb_spec k k') as [<-|Hne]; [|reflexivity].
    now rewrite Hget.
  - rewrite getOwn_app.
    destruct (String.eqb_spec k k') as [<-|Hne].
    + now rewrite Hget.
    + now destruct (getOwn o k').
Qed.

Lemma keys_touch (k : string) (o : JsObject V) :
  inherited k = false ->
  keys (touch init incr k o) =
    if existsb (String.eqb k) (keys o) then keys o else keys o ++ [k].
Proof.
  intros Hk. unfold touch, get. rewrite Hk.
  destruct (getOwn o k) as [v|] eqn:Hget.
  - rewrite keys_updateOwn.
    assert (Hin : In k (keys o)).
    { destruct (in_dec string_dec k (keys o)) as [Hin|Hout]; [exact Hin|].
      apply getOwn_None in Hout. congruence. }
    assert (E : existsb (String.eqb k) (keys o) = true).
    { apply existsb_exists. exists k. split; [exact Hin|apply String.eqb_refl]. }
    now rewrite E.
  - apply getOwn_None in Hget.
    assert (E : existsb (String.eqb k) (keys o) = false).
    { destruct (existsb (String.eqb k) (keys o)) eqn:E; [|reflexivity].
      apply existsb_exists in E as (z & Hz & Hkz).
      apply String.eqb_eq in Hkz. subst z. contradiction. }
    rewrite E. unfold keys. now rewrite map_app.
Qed.

End Objects.

Section Enumeration.
Import Js.
Context {V : Type}.

Lemma filter_fst (f : string -> bool) (o : JsObject V) :
  map fst (filter (fun e => f (fst e)) o) = filter f (map fst o).
Proof.
  induction o as [|[k v] o IH]; cbn [filter map fst]; [reflexivity|].
  destruct (f k); cbn [map fst]; now rewrite IH.
Qed.

Lemma insertBy_fst (f : string -> Z) (e : string * V) (o : JsObject V) :
  map fst (insertBy (fun a b => f (fst a) - f (fst b)) e o)
  = insertBy (fun a b => f a - f b) (fst e) (map fst o).
Proof.
  induction o as [|e' o IH]; cbn [insertBy map]; [reflexivity|].
  destruct (f (fst e) - f (fst e') <=? 0); cbn [map]; [reflexivity|].
  now rewrite IH.
Qed.

Lemma sortBy_fst (f : string -> Z) (o : JsObject V) :
  map fst (sortBy (fun a b => f (fst a) - f (fst b)) o)
  = sortBy (fun a b => f a - f b) (map fst o).
Proof.
  induction o as [|e o IH]; [reflexivity|].
  unfold sortBy in *. cbn [fold_right map]. now rewrite insertBy_fst, IH.
Qed.

Lemma entries_keys (o : JsObject V) :
  map fst (entries o) = enumerationOrder (keys o).
Proof.
  unfold entries, enumerationOrder, keys.
  rewrite map_app, (sortBy_fst indexOf).
  now rewrite (filter_fst isArrayIndex),
    (filter_fst (fun k => negb (isArrayIndex k))).
Qed.

Lemma entries_perm (o : JsObject V) : Permutation (entries o) o.
Proof.
  unfold entries. rewrite sortBy_perm.
  induction o as [|e o IH]; [reflexivity|].
  cbn [filter]. destruct (isArrayIndex (fst e)); cbn [negb app].
  - now apply perm_skip.
  - rewrite <- Permutation_middle. now apply perm_skip.
Qed.

Lemma enumerationOrder_no_index (names : list string) :
  forallb (fun k => negb (isArrayIndex k)) names = true ->
  enumerationOrder names = names.
Proof.
  intros H. unfold enumerationOrder.
  assert (H1 : filter isArrayIndex names = []).
  { induction names as [|k names IH]; [reflexivity|].
    cbn [forallb] in H. apply andb_prop in H as [Hk H].
    cbn [filter]. apply negb_true_iff in Hk. rewrite Hk. now apply IH. }
  assert (H2 : filter (fun k => negb (isArrayIndex k)) names = names).
  { induction names as [|k names IH]; [reflexivity|].
    cbn [forallb] in H. apply andb_prop in H as [Hk H].
    cbn [filter]. rewrite Hk. f_equal. apply IH; [exact H|].
    cbn [filter] in H1. apply negb_true_iff in Hk. now rewrite Hk in H1. }
  now rewrite H1, H2.
Qed.

End Enumeration.

Section Unique.
Import Js.

Lemma existsb_eqb_In (x : string) (seen : list string) :
  existsb (String.eqb x) seen = true <-> In x seen.
Proof.
  rewrite existsb_exists. split.
  - intros (y & Hy & Hxy). apply String.eqb_eq in Hxy. now subst.
  - intros Hx. exists x. split; [exact Hx|apply String.eqb_refl].
Qed.

Lemma uniqueStrings_ext (l seen seen' : list string) :
  (forall x, In x seen <-> In x seen') ->
  uniqueStrings seen l = uniqueStrings seen' l.
Proof.
  revert seen seen'. induction l as [|y l IH]; intros seen seen' Hext;
    [reflexivity|].
  cbn [uniqueStrings].
  assert (E : existsb (String.eqb y) seen = existsb (String.eqb y) seen').
  { destruct (existsb (String.eqb y) seen) eqn:E1,
             (existsb (String.eqb y) seen') eqn:E2; try reflexivity.
    - apply existsb_eqb_In, Hext, existsb_eqb_In in E1. congruence.
    - apply existsb_eqb_In, Hext, existsb_eqb_In in E2. congruence. }
  rewrite E. destruct (existsb (String.eqb y) seen').
  - now apply IH.
  - f_equal. apply IH. intros x. cbn [In]. now rewrite Hext.
Qed.

Lemma uniqueStrings_app (l1 l2 seen : list string) :
  uniqueStrings seen (l1 ++ l2)
  = uniqueStrings seen l1 ++ uniqueStrings (seen ++ uniqueStrings seen l1) l2.
Proof.
  revert seen. induction l1 as [|y l1 IH]; intros seen; cbn [app uniqueStrings].
  - now rewrite app_nil_r.
  - destruct (existsb (String.eqb y) seen); [apply IH|].
    cbn [app]. f_equal. rewrite IH. f_equal.
    apply uniqueStrings_ext. intros x. rewrite !in_app_iff. cbn [In]. tauto.
Qed.

End Unique.

Section Groups.
Import Js StatisticsCalculator.

Lemma count_cons (k j : string) (names : list string) :
  count k (j :: names) = (if String.eqb k j then 1 else 0) + count k names.
Proof.
  unfold count, len. cbn [filter].
  destruct (String.eqb k j); cbn [List.length]; lia.
Qed.

Lemma count_app (k : string) (l1 l2 : list string) :
  count k (l1 ++ l2) = count k l1 + count k l2.
Proof.
  unfold count, len. rewrite filter_app, length_app. lia.
Qed.

Section OnePass.
Variable incr : ProjectCount.t -> ProjectCount.t.
Hypothesis incr_name : forall g, ProjectCount.name (incr g) = ProjectCount.name g.

Lemma countInto_keys (items : list (option ProjectRef.t))
  (o : JsObject ProjectCount.t) :
  ownNames (namesOf items) ->
  keys (countInto incr items o)
  = keys o ++ uniqueStrings (keys o) (namesOf items).
Proof.
  revert o. induction items as [|p items IH]; intros o Hown.
  - cbn. now rewrite app_nil_r.
  - unfold countInto in *. cbn [fold_left namesOf map uniqueStrings].
    assert (Hp : inherited (projectNameOf p) = false) by (apply Hown; now left).
    rewrite IH by (intros k Hk; apply Hown; now right).
    rewrite (keys_touch _ _ _ _ Hp).
    destruct (existsb (String.eqb (projectNameOf p)) (keys o)); [reflexivity|].
    rewrite <- app_assoc. cbn [app]. do 2 f_equal.
    apply uniqueStrings_ext. intros x. rewrite in_app_iff. cbn [In]. tauto.
Qed.

Lemma countInto_named (items : list (option ProjectRef.t))
  (o : JsObject ProjectCount.t) :
  ownNames (namesOf items) -> named o -> named (countInto incr items o).
Proof.
  revert o. induction items as [|p items IH]; intros o Hown Hnamed;
    [exact Hnamed|].
  unfold countInto in *. cbn [fold_left].
  apply IH; [intros k Hk; apply Hown; now right|].
  assert (Hp : inherited (projectNameOf p) = false) by (apply Hown; now left).
  intros k g. rewrite (getOwn_touch _ _ _ _ _ Hp).
  destruct (String.eqb_spec (projectNameOf p) k) as [<-|Hne]; [|apply Hnamed].
  intros [= <-]. rewrite incr_name.
  destruct (getOwn o (projectNameOf p)) as [g0|] eqn:Hget;
    [now apply Hnamed|reflexivity].
Qed.

Variable counter : ProjectCount.t -> Z.
Variable delta : Z.
Hypothesis counter_incr : forall g, counter (incr g) = counter g + delta.
Hypothesis counter_new : forall p, counter (newGroup p) = 0.

Lemma countInto_counter (items : list (option ProjectRef.t))
  (o : JsObject ProjectCount.t) (k : string) :
  ownNames (namesOf items) ->
  counterAt counter (countInto incr items o) k
  = counterAt counter o k + delta * count k (namesOf items).
Proof.
  revert o. induction items as [|p items IH]; intros o Hown.
  - cbn. unfold count, len. cbn. lia.
  - unfold countInto in *. cbn [fold_left namesOf map].
    assert (Hp : inherited (projectNameOf p) = false) by (apply Hown; now left).
    rewrite IH by (intros j Hj; apply Hown; now right).
    rewrite count_cons. unfold counterAt at 1.
    rewrite (getOwn_touch _ _ _ _ _ Hp), (String.eqb_sym k).
    destruct (String.eqb_spec (projectNameOf p) k) as [<-|Hne].
    + rewrite counter_incr. unfold counterAt.
      destruct (getOwn o (projectNameOf p)); [|rewrite counter_new];
        fold (namesOf items); lia.
    + unfold counterAt. fold (namesOf items). lia.
Qed.

End OnePass.

End Groups.

Section ProjectStatistics.
Import Js StatisticsCalculator.

Lemma ownNames_app (l1 l2 : list string) :
  ownNames (l1 ++ l2) <-> ownNames l1 /\ ownNames l2.
Proof.
  unfold ownNames. split.
  - intros H. split; intros k Hk; apply H, in_app_iff; tauto.
  - intros [H1 H2] k Hk. apply in_app_iff in Hk as [Hk|Hk]; auto.
Qed.

Lemma projectCounts_keys (data : Dataset.t) :
  ownNames (projectNames data) ->
  keys (projectCounts data) = discoveryOrder data.
Proof.
  intros Hown. unfold projectNames in Hown.
  apply ownNames_app in Hown as [Hc Hown].
  apply ownNames_app in Hown as [Hr Hm].
  unfold projectCounts, discoveryOrder, projectNames.
  rewrite !countInto_keys by assumption.
  fold (createdNames data) (resolvedNames data) (commentNames data).
  cbn [keys map app]. rewrite !uniqueStrings_app. cbn [app].
  now rewrite <- app_assoc.
Qed.

Lemma projectCounts_named (data : Dataset.t) :
  ownNames (projectNames data) -> named (projectCounts data).
Proof.
  intros Hown. unfold projectNames in Hown.
  apply ownNames_app in Hown as [Hc Hown].
  apply ownNames_app in Hown as [Hr Hm].
  unfold projectCounts.
  repeat (apply countInto_named; [reflexivity|assumption|]).
  intros k g. discriminate.
Qed.

Lemma projectCounts_counters (data : Dataset.t) (k : string) :
  ownNames (projectNames data) ->
  counterAt ProjectCount.issuesCreated (projectCounts data) k
    = count k (createdNames data)
  /\ counterAt ProjectCount.issuesResolved (projectCounts data) k
     = count k (resolvedNames data)
  /\ counterAt ProjectCount.comments (projectCounts data) k
     = count k (commentNames data).
Proof.
  intros Hown. unfold projectNames in Hown.
  apply ownNames_app in Hown as [Hc Hown].
  apply ownNames_app in Hown as [Hr Hm].
  unfold projectCounts.
  fold (createdNames data) (resolvedNames data) (commentNames data) in *.
  split; [|split].
  - rewrite (countInto_counter incrComments ProjectCount.issuesCreated 0)
      by (try assumption; intros; cbn; lia).
    rewrite (countInto_counter incrResolved ProjectCount.issuesCreated 0)
      by (try assumption; intros; cbn; lia).
    rewrite (countInto_counter incrCreated ProjectCount.issuesCreated 1)
      by (try assumption; intros; cbn; lia).
    unfold createdNames, counterAt. cbn [getOwn]. lia.
  - rewrite (countInto_counter incrComments ProjectCount.issuesResolved 0)
      by (try assumption; intros; cbn; lia).
    rewrite (countInto_counter incrResolved ProjectCount.issuesResolved 1)
      by (try assumption; intros; cbn; lia).
    rewrite (countInto_counter incrCreated ProjectCount.issuesResolved 0)
      by (try assumption; intros; cbn; lia).
    unfold resolvedNames, counterAt. cbn [getOwn]. lia.
  - rewrite (countInto_counter incrComments ProjectCount.comments 1)
      by (try assumption; intros; cbn; lia).
    rewrite (countInto_counter incrResolved ProjectCount.comments 0)
      by (try assumption; intros; cbn; lia).
    rewrite (countInto_counter incrCreated ProjectCount.comments 0)
      by (try assumption; intros; cbn; lia).
    unfold commentNames, counterAt. cbn [getOwn]. lia.
Qed.

Lemma discoveryOrder_NoDup (data : Dataset.t) : NoDup (discoveryOrder data).
Proof. apply uniqueStrings_spec. Qed.

Lemma listing_group (data : Dataset.t) (g : ProjectActivity.t) :
  ownNames (projectNames data) ->
  In g (listing data) ->
  ProjectActivity.issuesCreated g
    = count (ProjectActivity.name g) (createdNames data)
  /\ ProjectActivity.issuesResolved g
     = count (ProjectActivity.name g) (resolvedNames data)
  /\ ProjectActivity.comments g
     = count (ProjectActivity.name g) (commentNames data)
  /\ ProjectActivity.totalActivity g = totalOf data (ProjectActivity.name g)
  /\ ProjectActivity.totalActivity g
     = ProjectActivity.issuesCreated g + ProjectActivity.issuesResolved g
       + ProjectActivity.comments g.
Proof.
  intros Hown Hin. unfold listing, values in Hin.
  apply in_map_iff in Hin as (c & <- & Hin).
  apply in_map_iff in Hin as ([k c'] & Hc & Hin). cbn [snd] in Hc. subst c'.
  apply (Permutation_in _ (entries_perm _)) in Hin.
  assert (Hnd : NoDup (keys (projectCounts data)))
    by (rewrite projectCounts_keys by exact Hown; apply discoveryOrder_NoDup).
  apply (getOwn_In _ _ _ Hnd) in Hin.
  pose proof (projectCounts_named data Hown k c Hin) as Hname.
  destruct (projectCounts_counters data k Hown) as (H1 & H2 & H3).
  unfold counterAt in H1, H2, H3. rewrite Hin in H1, H2, H3.
  unfold withTotal, totalOf.
  cbn [ProjectActivity.name ProjectActivity.issuesCreated
       ProjectActivity.issuesResolved ProjectActivity.comments
       ProjectActivity.totalActivity].
  rewrite Hname. repeat split; try assumption; lia.
Qed.

Lemma listing_names (data : Dataset.t) :
  ownNames (projectNames data) ->
  map ProjectActivity.name (listing data)
  = enumerationOrder (discoveryOrder data).
Proof.
  intros Hown. rewrite <- (projectCounts_keys data Hown), <- entries_keys.
  unfold listing, values. rewrite !map_map.
  apply map_ext_in. intros [k c] Hin. cbn [fst snd].
  apply (Permutation_in _ (entries_perm _)) in Hin.
  assert (Hnd : NoDup (keys (projectCounts data)))
    by (rewrite projectCounts_keys by exact Hown; apply discoveryOrder_NoDup).
  apply (getOwn_In _ _ _ Hnd) in Hin.
  exact (projectCounts_named data Hown k c Hin).
Qed.

Lemma map_filter_names {A B} (f : A -> B) (p : A -> bool) (q : B -> bool)
  (l : list A) :
  (forall a, In a l -> p a = q (f a)) ->
  map f (filter p l) = filter q (map f l).
Proof.
  induction l as [|a l IH]; intros H; [reflexivity|].
  cbn [filter map]. rewrite <- (H a (or_introl eq_refl)).
  destruct (p a); cbn [map]; rewrite IH; auto; intros; apply H; now right.
Qed.

Lemma projects_sorted (data : Dataset.t) :
  ProjectStats.projects (calculateProjectStats data)
  = sortBy byTotalActivity (listing data).
Proof. reflexivity. Qed.

Lemma uniqueStrings_nil (l : list string) : uniqueStrings [] l = [] -> l = [].
Proof. destruct l; [reflexivity|discriminate]. Qed.

Lemma alpha_group (data : Dataset.t) (i1 i2 i3 : Issue.t) :
  Dataset.createdIssues data = [i1; i2] ->
  Dataset.resolvedIssues data = [i3] ->
  Dataset.comments data = [] ->
  projectNameOf (Issue.project i1) = "Alpha" ->
  projectNameOf (Issue.project i2) = "Alpha" ->
  projectNameOf (Issue.project i3) = "Alpha" ->
  projectShortNameOf (Issue.project i1) = "AL" ->
  ProjectStats.projects (calculateProjectStats data)
  = [ {| ProjectActivity.name := "Alpha";
         ProjectActivity.shortName := "AL";
         ProjectActivity.issuesCreated := 2;
         ProjectActivity.issuesResolved := 1;
         ProjectActivity.comments := 0;
         ProjectActivity.totalActivity := 3 |} ].
Proof.
  intros Hc Hr Hm H1 H2 H3 Hs.
  unfold calculateProjectStats, projectCounts. rewrite Hc, Hr, Hm.
  cbn [map ProjectStats.projects]. unfold countInto. cbn [fold_left].
  unfold newGroup. rewrite H1, H2, H3, Hs. reflexivity.
Qed.

(** Claim C6, as the aggregator has it. For a dataset none of whose
    project names is a member of [Object.prototype]: there is one group
    per distinct display name ("Unknown" standing for a missing name);
    its three counters are the numbers of created issues, of resolved
    issues and of comments under that name, and [totalActivity] is their
    sum; the groups are sorted by descending [totalActivity]; the groups
    of equal [totalActivity] keep the order in which [Object.values]
    enumerates the counts, names that are array indices first, in
    ascending numeric order, then the other names in order of first
    discovery, which is the order of first discovery throughout when no
    name is an array index; [topProject] is the first group, of the
    highest activity, and is [null] exactly when the dataset has no
    issue and no comment. Two created issues and one resolved issue under
    "Alpha" give the single group Alpha with 2, 1, 0 and 3. *)
Theorem project_stats_by_display_name (data : Dataset.t) :
  ownNames (projectNames data) ->
  let stats := calculateProjectStats data in
  let groups := ProjectStats.projects stats in
  (Permutation (map ProjectActivity.name groups) (discoveryOrder data)
   /\ NoDup (map ProjectActivity.name groups))
  /\ (forall g, In g groups ->
        ProjectActivity.issuesCreated g
          = count (ProjectActivity.name g) (createdNames data)
        /\ ProjectActivity.issuesResolved g
           = count (ProjectActivity.name g) (resolvedNames data)
        /\ ProjectActivity.comments g
           = count (ProjectActivity.name g) (commentNames data)
        /\ ProjectActivity.totalActivity g
           = ProjectActivity.issuesCreated g + ProjectActivity.issuesResolved g
             + ProjectActivity.comments g)
  /\ StronglySorted
       (fun a b => ProjectActivity.totalActivity b
                   <= ProjectActivity.totalActivity a) groups
  /\ (forall v,
        map ProjectActivity.name
            (filter (fun g => ProjectActivity.totalActivity g =? v) groups)
        = filter (fun name => totalOf data name =? v)
                 (enumerationOrder (discoveryOrder data)))
  /\ (forallb (fun name => negb (isArrayIndex name)) (discoveryOrder data) = true ->
      enumerationOrder (discoveryOrder data) = discoveryOrder data)
  /\ (ProjectStats.topProject stats = hd_error groups
      /\ ProjectStats.totalProjects stats = len (discoveryOrder data)
      /\ (ProjectStats.topProject stats = None <-> projectNames data = [])
      /\ (forall top, ProjectStats.topProject stats = Some top ->
            forall g, In g groups ->
              ProjectActivity.totalActivity g
              <= ProjectActivity.totalActivity top))
  /\ (forall i1 i2 i3,
        Dataset.createdIssues data = [i1; i2] ->
        Dataset.resolvedIssues data = [i3] ->
        Dataset.comments data = [] ->
        projectNameOf (Issue.project i1) = "Alpha" ->
        projectNameOf (Issue.project i2) = "Alpha" ->
        projectNameOf (Issue.project i3) = "Alpha" ->
        projectShortNameOf (Issue.project i1) = "AL" ->
        groups = [ {| ProjectActivity.name := "Alpha";
                      ProjectActivity.shortName := "AL";
                      ProjectActivity.issuesCreated := 2;
                      ProjectActivity.issuesResolved := 1;
                      ProjectActivity.comments := 0;
                      ProjectActivity.totalActivity := 3 |} ]).
Proof.
  intros Hown. cbv zeta. rewrite projects_sorted.
  pose proof (sortBy_perm byTotalActivity (listing data)) as Hperm.
  pose proof (listing_names data Hown) as Hnames.
  assert (Hpermnames :
    Permutation (map ProjectActivity.name (sortBy byTotalActivity (listing data)))
                (discoveryOrder data)).
  { rewrite Hperm, Hnames. unfold enumerationOrder.
    rewrite sortBy_perm.
    generalize (discoveryOrder data) as l. intros l.
    induction l as [|k l IH]; [reflexivity|]. cbn [filter].
    destruct (isArrayIndex k); cbn [negb app].
    - now apply perm_skip.
    - rewrite <- Permutation_middle. now apply perm_skip. }
  assert (Hsorted :
    StronglySorted
      (fun a b => ProjectActivity.totalActivity b
                  <= ProjectActivity.totalActivity a)
      (sortBy byTotalActivity (listing data)))
    by apply (sortBy_descending ProjectActivity.totalActivity).
  split.
  { split; [exact Hpermnames|].
    eapply Permutation_NoDup; [symmetry; exact Hpermnames|].
    apply discoveryOrder_NoDup. }
  split.
  { intros g Hg. apply (Permutation_in _ Hperm) in Hg.
    destruct (listing_group data g Hown Hg) as (H1 & H2 & H3 & _ & H5).
    now repeat split. }
  split; [exact Hsorted|].
  split.
  { intros v.
    pose proof (sortBy_stable ProjectActivity.totalActivity v (listing data))
      as Hstable.
    change (sortBy (fun a b => ProjectActivity.totalActivity b
                               - ProjectActivity.totalActivity a))
      with (sortBy byTotalActivity) in Hstable.
    rewrite Hstable, <- Hnames.
    apply map_filter_names. intros g Hg.
    destruct (listing_group data g Hown Hg) as (_ & _ & _ & -> & _).
    reflexivity. }
  split; [apply enumerationOrder_no_index|].
  split.
  { split; [reflexivity|].
  split.
  { cbn [ProjectStats.totalProjects calculateProjectStats]. fold (listing data).
    unfold len. f_equal.
    rewrite <- (length_map ProjectActivity.name).
    now apply Permutation_length. }
  split.
  { cbn [ProjectStats.topProject calculateProjectStats]. fold (listing data).
    split.
    - intros Hnone.
      destruct (sortBy byTotalActivity (listing data)) as [|g gs] eqn:E;
        [|discriminate].
      cbn [map] in Hpermnames. apply Permutation_nil in Hpermnames.
      now apply uniqueStrings_nil.
    - intros Hnil. unfold discoveryOrder in Hpermnames. rewrite Hnil in Hpermnames.
      cbn in Hpermnames. apply Permutation_sym, Permutation_nil in Hpermnames.
      destruct (sortBy byTotalActivity (listing data)); [reflexivity|discriminate]. }
    cbn [ProjectStats.topProject calculateProjectStats]. fold (listing data).
    intros top Htop g Hg.
    destruct (sortBy byTotalActivity (listing data)) as [|g0 gs]; [discriminate|].
    injection Htop as ->. destruct Hg as [->|Hg]; [lia|].
    apply StronglySorted_inv in Hsorted as [_ Hall].
    rewrite Forall_forall in Hall. now apply Hall. }
  intros i1 i2 i3 Hc Hr Hm H1 H2 H3 Hs.
  rewrite <- projects_sorted. now apply (alpha_group data i1 i2 i3).
Qed.

End ProjectStatistics.

Section AchievementsOfTheDataset.
Import Js StatisticsCalculator.

Lemma longestRun_unique (days : list string) (n m : Z) :
  longestRun days n -> longestRun days m -> n = m.
Proof.
  intros [(r1 & S1 & C1 & L1) M1] [(r2 & S2 & C2 & L2) M2].
  specialize (M1 r2 S2 C2). specialize (M2 r1 S1 C1). lia.
Qed.

(** The days of the streak are the length of the longest run of the
    sorted days. *)
Lemma streak_days_longestRun (h : Dates.Host) (activities : list Activity.t) :
  longestRun (sortedDays h activities)
             (Streak.days (calculateLongestStreak h activities)).
Proof.
  destruct activities as [|a activities'] eqn:Ha.
  - split.
    + exists []. split; [now exists [], []|]. split; [exact I|reflexivity].
    + intros other (pre & post & E) _. cbn in E.
      symmetry in E. apply app_eq_nil in E as [_ E].
      apply app_eq_nil in E as [-> _]. cbn. lia.
  - rewrite <- Ha.
    assert (Hne : activities <> []) by (rewrite Ha; discriminate).
    clear Ha. unfold calculateLongestStreak. rewrite (len_nonzero _ Hne).
    pose proof (sortedDays_nonempty h activities Hne) as Hdays.
    destruct (sortedDays h activities) as [|first rest]; [now elim Hdays|].
    destruct (scanDays_inv rest [] first _ (scan_start first))
      as (done' & prev' & Heq & Hinv).
    cbn [app] in Heq.
    destruct Hinv as [_ (best & last & Hseg & Hchain & _ & _ & Hlen) Hall _].
    cbn [Streak.days]. rewrite Heq. split.
    + exists (best ++ [last]). now repeat split.
    + exact Hall.
Qed.

Lemma timeStats_streak (h : Dates.Host) (data : Dataset.t) :
  TimeStats.longestStreak (calculateTimeStats h data)
  = calculateLongestStreak h (allActivities data).
Proof.
  unfold calculateTimeStats.
  now destruct (countActivities h (allActivities data)) as [[? ?] ?].
Qed.

Lemma dayKeys_instants (h : Dates.Host) (data : Dataset.t) :
  dayKeys h (allActivities data) = map (dayKey h) (eventInstants data).
Proof.
  unfold dayKeys, allActivities, eventInstants.
  rewrite !map_app, !map_map. reflexivity.
Qed.

(** The streak of a dataset is the longest run of consecutive days in
    any strictly ascending list of the day keys of its events. *)
Lemma streak_of_the_dataset (h : Dates.Host) (data : Dataset.t)
  (days : list string) (n : Z) :
  StronglySorted strictlyBefore days ->
  (forall key, In key days <-> In key (map (dayKey h) (eventInstants data))) ->
  longestRun days n ->
  Streak.days (TimeStats.longestStreak (calculateTimeStats h data)) = n.
Proof.
  intros Hsorted Hkeys Hrun.
  destruct (sortedDays_spec h (allActivities data)) as (_ & Hin & Hs).
  assert (E : days = sortedDays h (allActivities data)).
  { apply strictly_sorted_unique; [exact Hsorted|exact Hs|].
    intros key. rewrite Hkeys, Hin, dayKeys_instants. reflexivity. }
  rewrite timeStats_streak.
  apply (longestRun_unique days); [|exact Hrun].
  rewrite E. apply streak_days_longestRun.
Qed.

Lemma enumerationOrder_perm (l : list string) :
  Permutation (enumerationOrder l) l.
Proof.
  unfold enumerationOrder. rewrite sortBy_perm.
  induction l as [|k l IH]; [reflexivity|]. cbn [filter].
  destruct (isArrayIndex k); cbn [negb app].
  - now apply perm_skip.
  - rewrite <- Permutation_middle. now apply perm_skip.
Qed.

(** Where no name is inherited, the number of groups is the number of
    distinct project names of the dataset. *)
Lemma projects_of_the_dataset (data : Dataset.t) (names : list string) :
  ownNames (projectNames data) ->
  NoDup names ->
  (forall name, In name names <-> In name (projectNames data)) ->
  ProjectStats.totalProjects (calculateProjectStats data) = len names.
Proof.
  intros Hown Hnd Hin.
  assert (Hperm : Permutation names (discoveryOrder data)).
  { apply NoDup_Permutation; [exact Hnd|apply discoveryOrder_NoDup|].
    intros name. rewrite Hin. unfold discoveryOrder.
    destruct (uniqueStrings_spec (projectNames data) []) as [_ Hu].
    rewrite Hu. cbn [In]. tauto. }
  cbn [ProjectStats.totalProjects calculateProjectStats]. fold (listing data).
  unfold len. f_equal.
  rewrite sortBy_length, <- (length_map ProjectActivity.name).
  rewrite (listing_names data Hown).
  rewrite (Permutation_length (enumerationOrder_perm _)).
  symmetry. now apply Permutation_length.
Qed.

(** Claim C7. For every dataset and host, the badges of each of the six
    ladders that the achievements contain are at most one. For the ladders
    of the issues created (5/20/50/100), the issues resolved (20/50/100),
    the comments (50/200/500) and the articles (3/10/20) it is the badge
    of the highest tier that the number of those items in the dataset
    reaches, and no badge below the first tier; 75 created issues give the
    50+ badge and neither the 20+ nor the 5+ one. For the ladder of the
    streak (7/14/30) it is the badge of the highest tier reached by the
    longest run of consecutive days among the distinct local day keys of
    the events, in ascending order. For the ladder of the projects (5/10)
    it is the badge of the highest tier reached by the number of distinct
    project names of the dataset, where none of them is the name of a
    member of [Object.prototype]. Each of the three flags is in the list
    exactly when its own count exceeds 20, the events of local Saturdays
    and Sundays for the weekend flag, those of the local hours 22, 23, 0-4
    and 5-8 for the other two, whatever the ladders and the other flags
    give. *)
Theorem achievements_highest_tier_only (h : Dates.Host) (data : Dataset.t) :
  let earned := badgeIds (calculateAchievements h data) in
  (fromLadder issuesCreatedLadder earned =
     highestTierMet issuesCreatedLadder (len (Dataset.createdIssues data))
   /\ fromLadder issuesResolvedLadder earned =
        highestTierMet issuesResolvedLadder (len (Dataset.resolvedIssues data))
   /\ fromLadder commentsLadder earned =
        highestTierMet commentsLadder (len (Dataset.comments data))
   /\ fromLadder articlesLadder earned =
        highestTierMet articlesLadder (len (Dataset.articles data))
   /\ (forall days n,
         StronglySorted strictlyBefore days ->
         (forall key,
            In key days <-> In key (map (dayKey h) (eventInstants data))) ->
         longestRun days n ->
         fromLadder streakLadder earned = highestTierMet streakLadder n)
   /\ (ownNames (projectNames data) ->
       forall names,
         NoDup names ->
         (forall name, In name names <-> In name (projectNames data)) ->
         fromLadder projectsLadder earned
         = highestTierMet projectsLadder (len names)))
  /\ Forall (fun ladder => (List.length (fromLadder ladder earned) <= 1)%nat)
            [ issuesCreatedLadder; issuesResolvedLadder; commentsLadder;
              articlesLadder; streakLadder; projectsLadder ]
  /\ (len (Dataset.createdIssues data) = 75 ->
      In "issue_expert" earned
      /\ ~ In "issue_enthusiast" earned
      /\ ~ In "issue_starter" earned
      /\ fromLadder issuesCreatedLadder earned = ["issue_expert"])
  /\ (filter (String.eqb "weekend_warrior") earned =
       (if 20 <? countAmong [0; 6] (eventWeekdays h data)
        then ["weekend_warrior"] else [])
      /\ filter (String.eqb "night_owl") earned =
           (if 20 <? countAmong [22; 23; 0; 1; 2; 3; 4] (eventHours h data)
            then ["night_owl"] else [])
      /\ filter (String.eqb "early_bird") earned =
           (if 20 <? countAmong [5; 6; 7; 8] (eventHours h data)
            then ["early_bird"] else [])).
Proof.
  cbv zeta.
  pose proof (ladder_issuesCreated h data) as H1.
  pose proof (ladder_issuesResolved h data) as H2.
  pose proof (ladder_comments h data) as H3.
  pose proof (ladder_articles h data) as H4.
  pose proof (ladder_streak h data) as H5.
  pose proof (ladder_projects h data) as H6.
  split.
  { split; [exact H1|]. split; [exact H2|]. split; [exact H3|].
    split; [exact H4|]. split.
    - intros days n Hsorted Hkeys Hrun.
      rewrite H5. f_equal. now apply (streak_of_the_dataset h data days).
    - intros Hown names Hnd Hin.
      rewrite H6. f_equal. now apply projects_of_the_dataset. }
  split.
  { repeat (apply Forall_cons;
              [ first [rewrite H1 | rewrite H2 | rewrite H3 | rewrite H4
                      | rewrite H5 | rewrite H6];
                apply highestTierMet_at_most_one | ]).
    apply Forall_nil. }
  split.
  { intros H75. rewrite H75 in H1. cbn in H1.
    assert (Hiff : forall id, onLadder issuesCreatedLadder id = true ->
              (In id (badgeIds (calculateAchievements h data)) <-> id = "issue_expert")).
    { intros id Hid. split.
      - intros Hin.
        assert (Hf : In id (fromLadder issuesCreatedLadder
                              (badgeIds (calculateAchievements h data))))
          by (apply filter_In; split; assumption).
        rewrite H1 in Hf. destruct Hf as [Hf|[]]. now symmetry.
      - intros ->.
        assert (Hf : In "issue_expert" (fromLadder issuesCreatedLadder
                              (badgeIds (calculateAchievements h data))))
          by (rewrite H1; now left).
        now apply filter_In in Hf. }
    split; [now apply Hiff|].
    split; [intros Hin; apply Hiff in Hin; [discriminate|reflexivity]|].
    split; [intros Hin; apply Hiff in Hin; [discriminate|reflexivity]|].
    exact H1. }
  split; [apply flag_weekend|].
  split; [apply flag_nightOwl|apply flag_earlyBird].
Qed.

End AchievementsOfTheDataset.

Section Gateway.
Import Js Async YouTrackClient.

Lemma request_sends_once {A} (client : YouTrackClient.t)
  (endpoint : Endpoint A) (path : string) (w : World) :
  snd (request client endpoint path w) = sent w (requestOf client path).
Proof.
  unfold request. fold (requestOf client path).
  destruct (endpoint (requests w) (requestOf client path))
    as [e|status statusText text json]; [reflexivity|].
  destruct (negb (ok status)), text, json; reflexivity.
Qed.

Lemma request_outcome {A} (client : YouTrackClient.t)
  (endpoint : Endpoint A) (path : string) (w : World) :
  fst (request client endpoint path w) =
    match endpoint (requests w) (requestOf client path) with
    | NetworkFailure e => Throw e
    | Response status _ text json =>
        if ok status then
          match json with inr data => Return data | inl e => Throw e end
        else
          match text with
          | inr body => Throw (apiError status body)
          | inl e => Throw e
          end
    end.
Proof.
  unfold request. fold (requestOf client path).
  destruct (endpoint (requests w) (requestOf client path))
    as [e|status statusText text json]; [reflexivity|].
  destruct (ok status), text, json; reflexivity.
Qed.

(** Claim C2, as the gateway has it. [getCurrentUser] sends one request.
    When the request cannot be sent it fails with the error of the
    transport, unchanged. On a status outside 200-299, 401 and 403
    included, it fails with one and the same kind of error, a plain
    [Error] whose message is [YouTrack API error ({status}): {body}]; the
    status and the raw body are carried in that text only. On a status in
    200-299 it returns the parsed user. *)
Theorem getCurrentUser_outcomes (client : YouTrackClient.t) (tracker : Tracker)
  (w : World) :
  let req := requestOf client currentUserPath in
  let answer := usersMe tracker (requests w) req in
  let result := fst (getCurrentUser client tracker w) in
  let w' := snd (getCurrentUser client tracker w) in
  (requests w' = requests w ++ [req] /\ progress w' = progress w)
  /\ (forall e, answer = NetworkFailure e -> result = Throw e)
  /\ (forall status statusText body json,
        answer = Response status statusText (inr body) json ->
        ~ 200 <= status <= 299 ->
        result = Throw (apiError status body)
        /\ failsWith "Error" result)
  /\ (forall status statusText text user,
        answer = Response status statusText text (inr user) ->
        200 <= status <= 299 ->
        result = Return user).
Proof.
  cbv zeta. unfold getCurrentUser. fold currentUserPath.
  rewrite request_sends_once, request_outcome.
  split; [split; reflexivity|].
  split; [intros e ->; reflexivity|].
  split.
  - intros status statusText body json -> Hs.
    assert (Hok : ok status = false).
    { unfold ok. apply andb_false_iff.
      destruct (Z.leb_spec 200 status); [|now left].
      right. apply Z.leb_gt. lia. }
    rewrite Hok. split; [reflexivity|]. now exists (apiError status body).
  - intros status statusText text user -> Hs.
    assert (Hok : ok status = true) by (unfold ok; apply andb_true_iff; lia).
    now rewrite Hok.
Qed.

(** *** Pagination *)

Lemma notify_quiet (onProgress : option Callback) (message : string) (w : World) :
  quiet onProgress ->
  exists w', notify onProgress message w = (Return tt, w')
             /\ requests w' = requests w.
Proof.
  destruct onProgress as [callback|]; cbn [quiet notify].
  - intros H. apply H.
  - intros _. now exists w.
Qed.

Lemma pageRequests_S (client : YouTrackClient.t) (path : Z -> string)
  (skip : Z) (n : nat) :
  pageRequests client path skip (S n) =
    requestOf client (path skip) :: pageRequests client path (skip + top) n.
Proof.
  unfold pageRequests. cbn [seq map]. f_equal.
  - do 2 f_equal. lia.
  - rewrite <- seq_shift, map_map. apply map_ext. intros i.
    do 2 f_equal. lia.
Qed.

Lemma request_served {A} (client : YouTrackClient.t) (endpoint : Endpoint A)
  (path : string) (w : World) status statusText text (page : A) :
  ok status = true ->
  endpoint (requests w) (requestOf client path)
    = Response status statusText text (inr page) ->
  request client endpoint path w = (Return page, sent w (requestOf client path)).
Proof.
  intros Hok Hanswer.
  rewrite (surjective_pairing (request client endpoint path w)).
  rewrite request_sends_once, request_outcome, Hanswer, Hok. reflexivity.
Qed.

Lemma len_zero_nil {A} (l : list A) : len l = 0 -> l = [].
Proof. destruct l; [reflexivity|]. unfold len. cbn [List.length]. lia. Qed.

Section PageLoop.
Context {A : Type}.
Variable client : YouTrackClient.t.
Variable endpoint : Endpoint (list A).
Variable path : Z -> string.
Variable afterPage : list A -> M unit.
Hypothesis afterPage_quiet :
  forall all w, exists w',
    afterPage all w = (Return tt, w') /\ requests w' = requests w.

Let fetchPage (skip : Z) : M (list A) := request client endpoint (path skip).

Lemma pageLoop_full_pages (fulls : list (list A)) :
  forall (last : list A) (fuel : nat) (all : list A) (skip : Z) (w : World),
    Forall (fun page => top <= len page) fulls ->
    len last < top ->
    (List.length fulls < fuel)%nat ->
    serves client endpoint path (requests w) skip (fulls ++ [last]) ->
    exists w',
      pageLoop fuel fetchPage afterPage all skip w
        = (Return (all ++ List.concat (fulls ++ [last])), w')
      /\ requests w'
         = requests w ++ pageRequests client path skip (S (List.length fulls)).
Proof.
  induction fulls as [|page fulls IH];
    intros last fuel all skip w Hfull Hshort Hfuel Hserves.
  - destruct fuel as [|fuel]; [cbn in Hfuel; lia|].
    cbn [app serves] in Hserves.
    destruct Hserves as [(status & statusText & text & Hok & Hanswer) _].
    cbn [pageLoop]. unfold bind, fetchPage.
    rewrite (request_served _ _ _ _ _ _ _ _ Hok Hanswer).
    cbn [app List.concat List.length]. rewrite app_nil_r.
    destruct (len last =? 0) eqn:Hempty.
    + apply Z.eqb_eq, len_zero_nil in Hempty. subst last. rewrite app_nil_r.
      eexists. split; [reflexivity|]. now rewrite pageRequests_S.
    + destruct (afterPage_quiet (all ++ last) (sent w (requestOf client (path skip))))
        as (w' & Hafter & Hreq).
      rewrite Hafter. apply Z.ltb_lt in Hshort. rewrite Hshort.
      eexists. split; [reflexivity|]. rewrite Hreq. now rewrite pageRequests_S.
  - destruct fuel as [|fuel]; [cbn in Hfuel; lia|].
    cbn [app serves] in Hserves.
    destruct Hserves as [(status & statusText & text & Hok & Hanswer) Hlater].
    apply Forall_cons_iff in Hfull as [Hpage Hfull].
    cbn [pageLoop]. unfold bind, fetchPage.
    rewrite (request_served _ _ _ _ _ _ _ _ Hok Hanswer).
    assert (Hne : (len page =? 0) = false) by (apply Z.eqb_neq; unfold top in *; lia).
    rewrite Hne.
    destruct (afterPage_quiet (all ++ page) (sent w (requestOf client (path skip))))
      as (w1 & Hafter & Hreq).
    rewrite Hafter.
    assert (Hnot : (len page <? top) = false) by (apply Z.ltb_ge; lia).
    rewrite Hnot.
    destruct (IH last fuel (all ++ page) (skip + top) w1 Hfull Hshort)
      as (w' & Hrun & Hsent).
    { cbn [List.length] in Hfuel. lia. }
    { rewrite Hreq. exact Hlater. }
    exists w'. fold fetchPage. rewrite Hrun. split.
    + cbn [app List.concat]. now rewrite <- !app_assoc.
    + rewrite Hsent, Hreq. cbn [sent requests List.length].
      rewrite (pageRequests_S _ _ skip). now rewrite <- app_assoc.
Qed.

End PageLoop.

Lemma pageLoop_fetchesEveryPage {A} (fuel : nat) (client : YouTrackClient.t)
  (endpoint : Endpoint (list A)) (path : Z -> string)
  (afterPage : list A -> M unit) (w : World) :
  (forall all w0, exists w',
      afterPage all w0 = (Return tt, w') /\ requests w' = requests w0) ->
  fetchesEveryPage fuel client endpoint path
    (pageLoop fuel (fun skip => request client endpoint (path skip))
              afterPage [] 0)
    w.
Proof.
  intros Hquiet fulls last Hfull Hshort Hfuel Hserves.
  exact (pageLoop_full_pages client endpoint path afterPage Hquiet
           fulls last fuel [] 0 w Hfull Hshort Hfuel Hserves).
Qed.

(** Claim C4. Each of the paginated fetches (issues created, issues
    resolved, issues with comments, the articles of one project) requests
    pages of 100 at the offsets 0, 100, 200, ... and stops at the first
    page of fewer than 100 items, an empty page included; it returns the
    concatenation of the pages and has sent one request per page. With
    pages of 100, 100 and 37 items it sends exactly three requests, at the
    offsets 0, 100 and 200, and returns 237 items. The progress callback
    is taken to return normally, and the loop budget to exceed the number
    of full pages. *)
Theorem pagination_fetches_every_page (fuel : nat) (client : YouTrackClient.t)
  (tracker : Tracker) (userId startDate endDate shortName : string)
  (onProgress : option Callback) (w : World) :
  quiet onProgress ->
  fetchesEveryPage fuel client (issues tracker)
    (createdPath tracker userId startDate endDate)
    (getIssuesCreatedByUser fuel client tracker userId startDate endDate
                            onProgress) w
  /\ fetchesEveryPage fuel client (issues tracker)
       (resolvedPath tracker userId startDate endDate)
       (getIssuesResolvedByUser fuel client tracker userId startDate endDate
                                onProgress) w
  /\ fetchesEveryPage fuel client (issuesWithComments tracker)
       (commentedPath tracker userId startDate endDate)
       (getIssuesWithComments fuel client tracker userId startDate endDate
                              onProgress) w
  /\ fetchesEveryPage fuel client (articles tracker)
       (articlesPath shortName)
       (projectArticles fuel client tracker shortName) w
  /\ (forall page1 page2 page3 : list Issue.t,
        len page1 = 100 -> len page2 = 100 -> len page3 = 37 ->
        (3 <= fuel)%nat ->
        serves client (issues tracker)
               (createdPath tracker userId startDate endDate)
               (requests w) 0 [page1; page2; page3] ->
        exists items w',
          getIssuesCreatedByUser fuel client tracker userId startDate endDate
                                 onProgress w = (Return items, w')
          /\ items = page1 ++ page2 ++ page3
          /\ len items = 237
          /\ requests w'
             = requests w
               ++ [ requestOf client
                      (createdPath tracker userId startDate endDate 0);
                    requestOf client
                      (createdPath tracker userId startDate endDate 100);
                    requestOf client
                      (createdPath tracker userId startDate endDate 200) ]).
Proof.
  intros Hquiet.
  assert (Hcreated :
    fetchesEveryPage fuel client (issues tracker)
      (createdPath tracker userId startDate endDate)
      (getIssuesCreatedByUser fuel client tracker userId startDate endDate
                              onProgress) w).
  { apply pageLoop_fetchesEveryPage. intros all w0. now apply notify_quiet. }
  split; [exact Hcreated|].
  split; [apply pageLoop_fetchesEveryPage; intros all w0; now apply notify_quiet|].
  split; [apply pageLoop_fetchesEveryPage; intros all w0; now apply notify_quiet|].
  split; [apply pageLoop_fetchesEveryPage; intros all w0; now exists w0|].
  intros page1 page2 page3 H1 H2 H3 Hfuel Hserves.
  destruct (Hcreated [page1; page2] page3) as (w' & Hrun & Hsent).
  - unfold top. repeat constructor; lia.
  - unfold top. lia.
  - cbn [List.length]. lia.
  - exact Hserves.
  - exists (page1 ++ page2 ++ page3), w'.
    split; [rewrite Hrun; cbn [app List.concat]; now rewrite app_nil_r|].
    split; [reflexivity|]. split.
    + unfold len in *. rewrite !length_app. lia.
    + rewrite Hsent. reflexivity.
Qed.

End Gateway.

Section Articles.
Import Js Async YouTrackClient.

Lemma request_stateless {A} (client : YouTrackClient.t) (endpoint : Endpoint A)
  (path : string) (w w' : World) :
  stateless endpoint ->
  fst (request client endpoint path w) = fst (request client endpoint path w').
Proof.
  intros Hs. rewrite !request_outcome.
  now rewrite (Hs (requests w) (requests w')).
Qed.

Lemma pageLoop_stateless {A} (client : YouTrackClient.t)
  (endpoint : Endpoint (list A)) (path : Z -> string) (fuel : nat) :
  stateless endpoint ->
  forall (all : list A) (skip : Z) (w w' : World),
    fst (pageLoop fuel (fun s => request client endpoint (path s))
                  (fun _ => ret tt) all skip w)
    = fst (pageLoop fuel (fun s => request client endpoint (path s))
                    (fun _ => ret tt) all skip w').
Proof.
  intros Hs. induction fuel as [|fuel IH]; intros all skip w w';
    [reflexivity|].
  cbn [pageLoop]. unfold bind.
  pose proof (request_stateless client endpoint (path skip) w w' Hs) as Hfst.
  destruct (request client endpoint (path skip) w) as [r1 w1].
  destruct (request client endpoint (path skip) w') as [r2 w2].
  cbn [fst] in Hfst. subst r2.
  destruct r1 as [page|e|]; [|reflexivity|reflexivity].
  destruct (len page =? 0); [reflexivity|].
  unfold ret. destruct (len page <? top); [reflexivity|].
  apply IH.
Qed.

Lemma attempt_unfold {A} (c : M A) (w : World) :
  attempt c w =
    match c w with
    | (Return a, w') => (Return (inr a), w')
    | (Throw e, w') => (Return (inl e), w')
    | (OutOfFuel, w') => (OutOfFuel, w')
    end.
Proof. reflexivity. Qed.

Lemma attempt_notify_returns (onProgress : option Callback) (message : string)
  (w : World) :
  ends onProgress ->
  exists r w', attempt (notify onProgress message) w = (Return r, w').
Proof.
  intros Hends. unfold attempt.
  destruct onProgress as [callback|]; cbn [notify ends] in *.
  - specialize (Hends message w).
    destruct (callback message w) as [[[]|e|] w']; cbn [fst] in Hends.
    + now exists (inr tt), w'.
    + now exists (inl e), w'.
    + now elim Hends.
  - now exists (inr tt), w.
Qed.

(** One project: a failed fetch leaves the collected articles as they
    are, a successful one appends its pages; neither rejects. *)
Lemma articlesStep_outcome (fuel : nat) (client : YouTrackClient.t)
  (tracker : Tracker) (onProgress : option Callback)
  (allArticles : list Article.t) (shortName : string) (w : World) :
  ends onProgress ->
  match projectArticles fuel client tracker shortName w with
  | (Return pages, _) =>
      exists w', articlesStep fuel client tracker onProgress allArticles
                              shortName w = (Return (allArticles ++ pages), w')
  | (Throw _, w1) =>
      articlesStep fuel client tracker onProgress allArticles shortName w
        = (Return allArticles, w1)
  | (OutOfFuel, w1) =>
      articlesStep fuel client tracker onProgress allArticles shortName w
        = (OutOfFuel, w1)
  end.
Proof.
  intros Hends. unfold articlesStep, bind.
  rewrite (attempt_unfold (projectArticles fuel client tracker shortName) w).
  destruct (projectArticles fuel client tracker shortName w) as [[pages|e|] w1];
    [|reflexivity|reflexivity].
  match goal with
  | |- context [attempt (notify onProgress ?m) w1] =>
      destruct (attempt_notify_returns onProgress m w1 Hends) as (r & w' & ->)
  end.
  now exists w'.
Qed.

Lemma articlesLoop_stateless (fuel : nat) (client : YouTrackClient.t)
  (tracker : Tracker) (onProgress : option Callback)
  (projectShortNames : list string) :
  stateless (articles tracker) ->
  ends onProgress ->
  (forall p, In p projectShortNames ->
             projectOutcome fuel client tracker p <> OutOfFuel) ->
  forall (allArticles : list Article.t) (w : World),
    fst (articlesLoop fuel client tracker onProgress allArticles
                      projectShortNames w)
    = Return (allArticles
              ++ flat_map (contribution fuel client tracker) projectShortNames).
Proof.
  intros Hs Hends. induction projectShortNames as [|p rest IH];
    intros Hfuel allArticles w.
  - cbn. now rewrite app_nil_r.
  - cbn [articlesLoop flat_map]. unfold bind.
    pose proof (articlesStep_outcome fuel client tracker onProgress
                  allArticles p w Hends) as Hstep.
    assert (Hout : fst (projectArticles fuel client tracker p w)
                   = projectOutcome fuel client tracker p)
      by (apply pageLoop_stateless, Hs).
    assert (Hp : projectOutcome fuel client tracker p <> OutOfFuel)
      by (apply Hfuel; now left).
    unfold contribution at 1.
    destruct (projectArticles fuel client tracker p w) as [[pages|e|] w1];
      cbn [fst] in Hout; rewrite <- Hout in *.
    + destruct Hstep as (w' & ->).
      rewrite IH by (intros q Hq; apply Hfuel; now right).
      now rewrite app_assoc.
    + rewrite Hstep.
      rewrite IH by (intros q Hq; apply Hfuel; now right).
      reflexivity.
    + now elim Hp.
Qed.

Lemma articlesLoop_never_rejects (fuel : nat) (client : YouTrackClient.t)
  (tracker : Tracker) (onProgress : option Callback)
  (projectShortNames : list string) :
  ends onProgress ->
  forall (allArticles : list Article.t) (w : World) (e : JsError),
    fst (articlesLoop fuel client tracker onProgress allArticles
                      projectShortNames w) <> Throw e.
Proof.
  intros Hends. induction projectShortNames as [|p rest IH];
    intros allArticles w e.
  - discriminate.
  - cbn [articlesLoop]. unfold bind.
    pose proof (articlesStep_outcome fuel client tracker onProgress
                  allArticles p w Hends) as Hstep.
    destruct (projectArticles fuel client tracker p w) as [[pages|e'|] w1].
    + destruct Hstep as (w' & ->). apply IH.
    + rewrite Hstep. apply IH.
    + rewrite Hstep. discriminate.
Qed.

(** Claim C9. [getArticles] keeps the failure of one project to itself.
    With no project it returns the empty array and sends nothing. It
    never rejects. A project whose fetch fails leaves the articles
    collected so far as they are and the loop goes on; a project whose
    fetch succeeds appends its pages. At an endpoint whose answers depend
    on the request alone, the result is the concatenation, in order, of
    the pages of the projects whose fetch succeeded. The progress
    callback may return or throw. *)
Theorem getArticles_isolates_failures (fuel : nat) (client : YouTrackClient.t)
  (tracker : Tracker) (onProgress : option Callback) (w : World) :
  ends onProgress ->
  getArticles fuel client tracker [] onProgress w = (Return [], w)
  /\ (forall projectShortNames e,
        fst (getArticles fuel client tracker projectShortNames onProgress w)
        <> Throw e)
  /\ (forall allArticles shortName w0 e w1,
        projectArticles fuel client tracker shortName w0 = (Throw e, w1) ->
        articlesStep fuel client tracker onProgress allArticles shortName w0
          = (Return allArticles, w1))
  /\ (forall allArticles shortName w0 pages w1,
        projectArticles fuel client tracker shortName w0 = (Return pages, w1) ->
        exists w',
          articlesStep fuel client tracker onProgress allArticles shortName w0
            = (Return (allArticles ++ pages), w'))
  /\ (stateless (articles tracker) ->
      forall projectShortNames,
        (forall p, In p projectShortNames ->
                   projectOutcome fuel client tracker p <> OutOfFuel) ->
        fst (getArticles fuel client tracker projectShortNames onProgress w)
          = Return (flat_map (contribution fuel client tracker)
                             projectShortNames)).
Proof.
  intros Hends.
  split; [reflexivity|].
  split.
  { intros ps e. unfold getArticles.
    destruct (len ps =? 0); [discriminate|].
    now apply articlesLoop_never_rejects. }
  split.
  { intros allArticles shortName w0 e w1 Hfail.
    pose proof (articlesStep_outcome fuel client tracker onProgress
                  allArticles shortName w0 Hends) as Hstep.
    now rewrite Hfail in Hstep. }
  split.
  { intros allArticles shortName w0 pages w1 Hok.
    pose proof (articlesStep_outcome fuel client tracker onProgress
                  allArticles shortName w0 Hends) as Hstep.
    now rewrite Hok in Hstep. }
  intros Hs ps Hfuel. unfold getArticles.
  destruct (len ps =? 0) eqn:Hempty.
  - apply Z.eqb_eq, len_zero_nil in Hempty. now subst ps.
  - now rewrite articlesLoop_stateless.
Qed.

End Articles.

Section Progress.
Import Js Async YouTrackClient DataCollector.

Lemma agree_ret {A} (a : A) : agree (ret a) (ret a).
Proof. intros w w' H. now split. Qed.

Lemma agree_bind {A B} (c c' : M A) (k k' : A -> M B) :
  agree c c' -> (forall a, agree (k a) (k' a)) ->
  agree (bind c k) (bind c' k').
Proof.
  intros Hc Hk w w' Hw. unfold bind.
  destruct (Hc w w' Hw) as [Hfst Hreq].
  destruct (c w) as [r w1], (c' w') as [r' w1'].
  cbn [fst snd] in Hfst, Hreq. subst r'.
  destruct r as [a|e|]; [now apply Hk|now split|now split].
Qed.

Lemma agree_attempt {A} (c c' : M A) :
  agree c c' -> agree (attempt c) (attempt c').
Proof.
  intros Hc w w' Hw. unfold attempt.
  destruct (Hc w w' Hw) as [Hfst Hreq].
  destruct (c w) as [r w1], (c' w') as [r' w1'].
  cbn [fst snd] in Hfst, Hreq. subst r'.
  destruct r as [a|e|]; now split.
Qed.

Lemma agree_request {A} (client : YouTrackClient.t) (endpoint : Endpoint A)
  (path : string) :
  agree (request client endpoint path) (request client endpoint path).
Proof.
  intros w w' Hw. rewrite !request_sends_once, !request_outcome.
  cbn [sent requests]. now rewrite Hw.
Qed.

Lemma agree_listen (l : Listener) (message : string) :
  neverThrows l -> agree (listen l message) (ret tt).
Proof.
  intros Hl w w' Hw. unfold listen. rewrite Hl. now split.
Qed.

Lemma agree_pageLoop {A} (fuel : nat) (fetchPage : Z -> M (list A))
  (afterPage afterPage' : list A -> M unit) :
  (forall skip, agree (fetchPage skip) (fetchPage skip)) ->
  (forall all, agree (afterPage all) (afterPage' all)) ->
  forall all skip,
    agree (pageLoop fuel fetchPage afterPage all skip)
          (pageLoop fuel fetchPage afterPage' all skip).
Proof.
  intros Hfetch Hafter. induction fuel as [|fuel IH]; intros all skip.
  - intros w w' Hw. now split.
  - cbn [pageLoop]. apply agree_bind; [apply Hfetch|]. intros page.
    destruct (len page =? 0); [apply agree_ret|].
    apply agree_bind; [apply Hafter|]. intros _.
    destruct (len page <? top); [apply agree_ret|apply IH].
Qed.

Lemma agree_articlesLoop (fuel : nat) (client : YouTrackClient.t)
  (tracker : Tracker) (l : Listener) (projectShortNames : list string) :
  neverThrows l ->
  forall allArticles,
    agree (articlesLoop fuel client tracker
             (Some (fun m => notify (Some (listen l)) m)) allArticles
             projectShortNames)
          (articlesLoop fuel client tracker
             (Some (fun m => notify None m)) allArticles projectShortNames).
Proof.
  intros Hl. induction projectShortNames as [|p rest IH]; intros allArticles.
  - apply agree_ret.
  - cbn [articlesLoop]. apply agree_bind; [|apply IH].
    unfold articlesStep. apply agree_bind.
    + apply agree_attempt. unfold projectArticles.
      apply agree_pageLoop; intros; [apply agree_request|apply agree_ret].
    + intros [e|pages]; [apply agree_ret|].
      apply agree_bind; [|intros; apply agree_ret].
      apply agree_attempt. cbn [notify]. now apply agree_listen.
Qed.

Lemma agree_promiseAll4 {A B C D} (a a' : M A) (b b' : M B) (c c' : M C)
  (d d' : M D) :
  agree a a' -> agree b b' -> agree c c' -> agree d d' ->
  agree (promiseAll4 a b c d) (promiseAll4 a' b' c' d').
Proof.
  intros Ha Hb Hc Hd w w' Hw. unfold promiseAll4.
  destruct (Ha w w' Hw) as [Ha1 Ha2].
  destruct (a w) as [ra w1], (a' w') as [ra' w1']. cbn [fst snd] in Ha1, Ha2.
  destruct (Hb w1 w1' Ha2) as [Hb1 Hb2].
  destruct (b w1) as [rb w2], (b' w1') as [rb' w2']. cbn [fst snd] in Hb1, Hb2.
  destruct (Hc w2 w2' Hb2) as [Hc1 Hc2].
  destruct (c w2) as [rc w3], (c' w2') as [rc' w3']. cbn [fst snd] in Hc1, Hc2.
  destruct (Hd w3 w3' Hc2) as [Hd1 Hd2].
  destruct (d w3) as [rd w4], (d' w3') as [rd' w4']. cbn [fst snd] in Hd1, Hd2.
  subst ra' rb' rc' rd'.
  destruct ra, rb, rc, rd; now split.
Qed.

Lemma collectYearData_agree (fuel : nat) (client : YouTrackClient.t)
  (tracker : Tracker) (nowISO : string) (year : Z)
  (articleProjects : list string) (l : Listener) :
  neverThrows l ->
  agree (collectYearData fuel client tracker nowISO year articleProjects
                         (Some (listen l)))
        (collectYearData fuel client tracker nowISO year articleProjects None).
Proof.
  intros Hl. unfold collectYearData.
  apply agree_bind; [cbn [notify]; now apply agree_listen|]. intros _.
  apply agree_bind; [apply agree_request|]. intros currentUser.
  apply agree_bind; [cbn [notify]; now apply agree_listen|]. intros _.
  apply agree_bind.
  - apply agree_promiseAll4.
    + apply agree_pageLoop; intros; [apply agree_request|].
      cbn [notify]. now apply agree_listen.
    + apply agree_pageLoop; intros; [apply agree_request|].
      cbn [notify]. now apply agree_listen.
    + apply agree_pageLoop; intros; [apply agree_request|].
      cbn [notify]. now apply agree_listen.
    + unfold getArticles. destruct (len articleProjects =? 0);
        [apply agree_ret|now apply agree_articlesLoop].
  - intros [[[createdIssues resolvedIssues] issuesWithComments] allArticles].
    apply agree_bind; [cbn [notify]; now apply agree_listen|]. intros _.
    apply agree_bind; [cbn [notify]; now apply agree_listen|]. intros _.
    apply agree_ret.
Qed.

(** Claim C10, as the collector has it. A progress callback that returns
    normally is advisory: with it or without it, [collectYearData] ends
    the same way, with the same dataset or the same failure, and sends the
    same requests. A callback that throws is not shielded: if it throws
    on the first message, the collection fails with its error and no
    request is sent. *)
Theorem progress_callback_is_advisory_unless_it_throws (fuel : nat)
  (client : YouTrackClient.t) (tracker : Tracker) (nowISO : string)
  (year : Z) (articleProjects : list string) (l : Listener) (w : World) :
  let collect := collectYearData fuel client tracker nowISO year articleProjects in
  (neverThrows l ->
   fst (collect (Some (listen l)) w) = fst (collect None w)
   /\ requests (snd (collect (Some (listen l)) w))
      = requests (snd (collect None w)))
  /\ (forall e,
        l (progress w) "Fetching your user information..." = Some e ->
        fst (collect (Some (listen l)) w) = Throw e
        /\ requests (snd (collect (Some (listen l)) w)) = requests w).
Proof.
  cbv zeta. split.
  - intros Hl. now apply collectYearData_agree.
  - intros e He.
    assert (Hrun :
      collectYearData fuel client tracker nowISO year articleProjects
                      (Some (listen l)) w
      = (Throw e,
         {| requests := requests w;
            progress := progress w ++ ["Fetching your user information..."] |})).
    { unfold collectYearData, bind. cbn [notify]. unfold listen at 1.
      now rewrite He. }
    rewrite Hrun. now split.
Qed.

End Progress.

Section Examples.
Import Js StatisticsCalculator.

(** Claim C1, evaluated. On the empty dataset [calculateAll] returns no
    achievement, no top project, the streak [{days: 0, startDate: null,
    endDate: null}] and 0 for every number it obtains by a division
    (the two averages of the issue statistics, the average comment length
    and the average article length). Its fun facts are not empty: the
    busiest weekday and the busiest hour are objects whatever the data,
    so the two facts built from them are always emitted, here for Sunday
    with 0 activities and for hour 0. *)
Theorem empty_dataset_report (h : Dates.Host) (user : User.t) (year : Z)
  (collectedAt : string) :
  let report := calculateAll h (emptyDataset user year collectedAt) in
  Report.funFacts report =
    [ {| FunFact.icon := "📅";
         FunFact.text := "Sunday was your power day";
         FunFact.comparison := "0 activities on Sundays" |};
      {| FunFact.icon := "⏰";
         FunFact.text := "You're a Night Owl";
         FunFact.comparison := "Most active around 0:00" |} ]
  /\ Report.funFacts report <> []
  /\ Report.achievements report = []
  /\ ProjectStats.topProject (Report.projectStats report) = None
  /\ TimeStats.longestStreak (Report.timeStats report) =
       {| Streak.days := 0; Streak.startDate := None; Streak.endDate := None |}
  /\ IssueStats.avgResolutionTimeMs (Report.issueStats report) = num 0
  /\ IssueStats.avgResolutionTimeDays (Report.issueStats report) = num 0
  /\ CommentStats.avgLength (Report.commentStats report) = num 0
  /\ ArticleStats.avgContentLength (Report.articleStats report) = num 0.
Proof.
  cbv zeta. repeat split; try reflexivity. discriminate.
Qed.

(** Against claim C7: ten created issues of ten projects, one of them
    called [constructor], earn the badge of five projects, not that of
    ten; no group is made for a name that [Object.prototype] has, so nine
    projects are counted. *)
Lemma ten_projects_one_of_them_called_constructor :
  let earned := badgeIds (calculateAchievements Dates.utcHost tenProjects) in
  NoDup (projectNames tenProjects)
  /\ len (projectNames tenProjects) = 10
  /\ ~ ownNames (projectNames tenProjects)
  /\ highestTierMet projectsLadder (len (projectNames tenProjects))
     = ["polyglot"]
  /\ ProjectStats.totalProjects (calculateProjectStats tenProjects) = 9
  /\ fromLadder projectsLadder earned = ["versatile"]
  /\ ~ In "polyglot" earned.
Proof.
  cbv zeta.
  assert (E : badgeIds (calculateAchievements Dates.utcHost tenProjects)
              = ["issue_starter"; "versatile"]) by (vm_compute; reflexivity).
  rewrite E.
  split.
  { change (projectNames tenProjects)
      with [ "Alpha"; "Beta"; "Gamma"; "Delta"; "Epsilon"; "Zeta";
             "Eta"; "Theta"; "Iota"; "constructor" ].
    repeat (constructor; [cbn [In]; intuition discriminate|]). constructor. }
  split; [reflexivity|].
  split.
  { intros Hown. specialize (Hown "constructor").
    assert (Hin : In "constructor" (projectNames tenProjects))
      by (cbn; tauto).
    specialize (Hown Hin). discriminate Hown. }
  split; [reflexivity|]. split; [reflexivity|].
  split; [reflexivity|].
  cbn [In]. intuition discriminate.
Qed.

(** Claim C7 at a dataset of 75 created issues. *)
Lemma achievements_of_75_created_issues :
  let earned := badgeIds (calculateAchievements Dates.utcHost (createdOnly 75)) in
  In "issue_expert" earned
  /\ ~ In "issue_enthusiast" earned
  /\ ~ In "issue_starter" earned
  /\ fromLadder issuesCreatedLadder earned = ["issue_expert"].
Proof.
  cbv zeta.
  destruct (achievements_highest_tier_only Dates.utcHost (createdOnly 75))
    as (_ & _ & H & _).
  exact (H eq_refl).
Defined.

(** Claim C8 at three created issues, two of them resolved after one and
    three days: the mean is two days. *)
Lemma average_resolution_time_of_two_issues :
  let data :=
    {| Dataset.user := someUser; Dataset.year := 2025;
       Dataset.createdIssues :=
         [ alphaIssue 1000 (Some (1000 + 86400000));
           alphaIssue 2000 None;
           alphaIssue 3000 (Some (3000 + 3 * 86400000)) ];
       Dataset.resolvedIssues := []; Dataset.comments := [];
       Dataset.articles := []; Dataset.collectedAt := "" |} in
  IssueStats.avgResolutionTimeMs (calculateIssueStats data)
  = num (2 * 86400000)
  /\ exists d : Z,
       IssueStats.avgResolutionTimeDays (calculateIssueStats data) = num d
       /\ (2 * d - 1) * (86400000 * 2) <= 2 * (4 * 86400000)
          < (2 * d + 1) * (86400000 * 2).
Proof.
  cbv zeta.
  match goal with
  | |- context [calculateIssueStats ?data] =>
      destruct (average_resolution_time data) as (_ & _ & _ & H)
  end.
  destruct H as (q & d & _ & _ & Hwhole & Hdays & Hd); [discriminate|].
  split; [apply Hwhole; reflexivity|].
  exists d. split; [exact Hdays|exact Hd].
Defined.

End Examples.

Section GatewayExamples.
Import Js Async YouTrackClient DataCollector.

(** Against claim C2: on a 401 the gateway fails with a plain [Error], not
    with an [AuthError], and on a 500 with an error of the same class, not
    with a [ProtocolError]. *)
Lemma getCurrentUser_401_is_a_plain_Error :
  let on401 := fst (getCurrentUser exampleClient
                      (refusingTracker 401 "Unauthorized") initialWorld) in
  let on500 := fst (getCurrentUser exampleClient
                      (refusingTracker 500 "Internal Server Error")
                      initialWorld) in
  ~ failsWith "AuthError" on401
  /\ failsWith "Error" on401
  /\ ~ failsWith "ProtocolError" on500
  /\ failsWith "Error" on500.
Proof.
  cbv zeta. repeat split.
  - intros (e & He & Hname). injection He as <-. discriminate Hname.
  - eexists. split; reflexivity.
  - intros (e & He & Hname). injection He as <-. discriminate Hname.
  - eexists. split; reflexivity.
Qed.

(** Claim C2 at a tracker that answers and at one that refuses with 403. *)
Lemma getCurrentUser_answers_and_refusals :
  fst (getCurrentUser exampleClient emptyTracker initialWorld) = Return someUser
  /\ fst (getCurrentUser exampleClient (refusingTracker 403 "Forbidden")
            initialWorld)
     = Throw (apiError 403 "Forbidden").
Proof.
  split.
  - destruct (getCurrentUser_outcomes exampleClient emptyTracker initialWorld)
      as (_ & _ & _ & H).
    apply (H 200 "OK" (inr "(json)") someUser); [reflexivity|lia].
  - destruct (getCurrentUser_outcomes exampleClient
                (refusingTracker 403 "Forbidden") initialWorld)
      as (_ & _ & H & _).
    apply (H 403 "" "Forbidden"
             (inl (mkError "SyntaxError" "Unexpected token in JSON")));
      [reflexivity|lia].
Defined.

(** Claim C4 at a stub that serves pages of 100, 100 and 37 issues. *)
Lemma three_pages_of_100_100_37 :
  exists items w',
    getIssuesCreatedByUser 3 exampleClient
      (scriptedTracker [page 100; page 100; page 37])
      "jane" "2025-01-01" "2025-12-31" None initialWorld = (Return items, w')
    /\ len items = 237
    /\ map url (requests w')
       = map (fun skip =>
                ("https://youtrack.example.com/api/issues?query="
                 ++ "created: 2025-01-01 .. 2025-12-31 created by: jane"
                 ++ "&fields=" ++ issueFields ++ "&$top=100&$skip=" ++ skip)%string)
             ["0"; "100"; "200"].
Proof.
  destruct (pagination_fetches_every_page 3 exampleClient
              (scriptedTracker [page 100; page 100; page 37])
              "jane" "2025-01-01" "2025-12-31" "A" None initialWorld I)
    as (_ & _ & _ & _ & H).
  destruct (H (page 100) (page 100) (page 37) eq_refl eq_refl eq_refl (le_n 3))
    as (items & w' & Hrun & _ & Hlen & Hsent).
  - cbn [serves]. repeat split; exists 200, "OK", (inr "(json)"); split; reflexivity.
  - exists items, w'. split; [exact Hrun|]. split; [exact Hlen|].
    rewrite Hsent. reflexivity.
Defined.

(** Claim C9 at the projects A, B and C, the articles of B forbidden. *)
Lemma articles_of_A_and_C_survive_the_failure_of_B :
  fst (getArticles 2 exampleClient abcTracker ["A"; "B"; "C"] None initialWorld)
  = Return [articleOf "A"; articleOf "C"].
Proof.
  destruct (getArticles_isolates_failures 2 exampleClient abcTracker None
              initialWorld I) as (_ & _ & _ & _ & H).
  apply (H (fun _ _ _ => eq_refl) ["A"; "B"; "C"]).
  intros p [<-|[<-|[<-|[]]]]; discriminate.
Defined.

(** Against claim C10: at a tracker where the collection succeeds without
    a callback, a callback that throws makes it fail. *)
Lemma a_throwing_progress_callback_fails_the_collection :
  let collect :=
    collectYearData 2 exampleClient emptyTracker "2026-01-05T10:00:00.000Z"
                    2025 [] in
  fst (collect None initialWorld)
    = Return {| Dataset.user := someUser; Dataset.year := 2025;
                Dataset.createdIssues := []; Dataset.resolvedIssues := [];
                Dataset.comments := []; Dataset.articles := [];
                Dataset.collectedAt := "2026-01-05T10:00:00.000Z" |}
  /\ fst (collect (Some (listen failingListener)) initialWorld)
     = Throw (mkError "Error" "the progress display is gone")
  /\ fst (collect (Some (listen failingListener)) initialWorld)
     <> fst (collect None initialWorld).
Proof.
  cbv zeta. split; [reflexivity|]. split; [reflexivity|]. discriminate.
Qed.

(** Claim C10 at a callback that returns and at one that throws. *)
Lemma a_silent_or_failing_listener :
  let collect :=
    collectYearData 2 exampleClient emptyTracker "2026-01-05T10:00:00.000Z"
                    2025 [] in
  fst (collect (Some (listen silentListener)) initialWorld)
    = fst (collect None initialWorld)
  /\ fst (collect (Some (listen failingListener)) initialWorld)
     = Throw (mkError "Error" "the progress display is gone").
Proof.
  cbv zeta. split.
  - destruct (progress_callback_is_advisory_unless_it_throws 2 exampleClient
                emptyTracker "2026-01-05T10:00:00.000Z" 2025 []
                silentListener initialWorld) as [H _].
    apply H. intros received message. reflexivity.
  - destruct (progress_callback_is_advisory_unless_it_throws 2 exampleClient
                emptyTracker "2026-01-05T10:00:00.000Z" 2025 []
                failingListener initialWorld) as [_ H].
    apply (H (mkError "Error" "the progress display is gone")). reflexivity.
Defined.

End GatewayExamples.

Section AggregatorExamples.
Import Js StatisticsCalculator.

(** Against claim C6: two projects of equal activity, "Beta" met first and
    "7" second, are listed with "7" first, which is also the top project;
    and an issue of a project called "constructor" gives no group. *)
Lemma ties_follow_the_enumeration_of_the_object :
  let data := issuesOnly [issueOf "Beta"; issueOf "7"] [] in
  let groups := ProjectStats.projects (calculateProjectStats data) in
  discoveryOrder data = ["Beta"; "7"]
  /\ map ProjectActivity.totalActivity groups = [1; 1]
  /\ map ProjectActivity.name groups = ["7"; "Beta"]
  /\ map ProjectActivity.name groups <> discoveryOrder data
  /\ option_map ProjectActivity.name
       (ProjectStats.topProject (calculateProjectStats data)) = Some "7"
  /\ ProjectStats.projects
       (calculateProjectStats (issuesOnly [issueOf "constructor"] [])) = [].
Proof.
  cbv zeta. repeat split; try reflexivity. discriminate.
Qed.

(** Claim C6 at two created issues and one resolved issue of Alpha. *)
Lemma alpha_project_group :
  ProjectStats.projects
    (calculateProjectStats
       (issuesOnly [alphaIssue 1000 None; alphaIssue 2000 None]
                   [alphaIssue 500 (Some 3000)]))
  = [ {| ProjectActivity.name := "Alpha";
         ProjectActivity.shortName := "AL";
         ProjectActivity.issuesCreated := 2;
         ProjectActivity.issuesResolved := 1;
         ProjectActivity.comments := 0;
         ProjectActivity.totalActivity := 3 |} ].
Proof.
  refine (proj2 (proj2 (proj2 (proj2 (proj2 (proj2
            (project_stats_by_display_name
               (issuesOnly [alphaIssue 1000 None; alphaIssue 2000 None]
                           [alphaIssue 500 (Some 3000)]) _))))))
            (alphaIssue 1000 None) (alphaIssue 2000 None)
            (alphaIssue 500 (Some 3000))
            eq_refl eq_refl eq_refl eq_refl eq_refl eq_refl eq_refl).
  intros k Hk. cbn in Hk.
  destruct Hk as [<-|[<-|[<-|[]]]]; reflexivity.
Defined.

(** Claim C5 at events of 1-5 and 10 March 2025, in the UTC time zone. *)
Lemma streak_of_march_2025 :
  calculateLongestStreak Dates.utcHost
    (map marchEvent [10; 3; 1; 2; 5; 4; 1; 3])
  = {| Streak.days := 5; Streak.startDate := Some "2025-03-01";
       Streak.endDate := Some "2025-03-05" |}.
Proof.
  refine (proj1 (proj2 (proj2 (proj2
            (longest_streak Dates.utcHost
               (map marchEvent [10; 3; 1; 2; 5; 4; 1; 3]))))) _).
  intros key.
  change (dayKeys Dates.utcHost (map marchEvent [10; 3; 1; 2; 5; 4; 1; 3]))
    with ["2025-03-10"; "2025-03-03"; "2025-03-01"; "2025-03-02";
          "2025-03-05"; "2025-03-04"; "2025-03-01"; "2025-03-03"].
  unfold marchDays. cbn [In]. tauto.
Defined.

End AggregatorExamples.

(* ===================================================================== *)
(** * Part XI. Further properties of the services and of the page *)
(* ===================================================================== *)

Section HistogramShape.
Import Js StatisticsCalculator.

Lemma range_S (from : Z) (n : nat) :
  range from (S n) = from :: range (from + 1) n.
Proof.
  unfold range. cbn [seq map]. f_equal; [lia|].
  rewrite <- seq_shift, map_map. apply map_ext. intros k. lia.
Qed.

Lemma range_In (n : nat) : forall from x,
  In x (range from n) <-> from <= x < from + Z.of_nat n.
Proof.
  induction n as [|n IH]; intros from x.
  - cbn. lia.
  - rewrite range_S. cbn [In]. rewrite IH. lia.
Qed.

Lemma range_NoDup (n : nat) : forall from, NoDup (range from n).
Proof.
  induction n as [|n IH]; intros from.
  - constructor.
  - rewrite range_S. constructor; [|apply IH].
    rewrite range_In. lia.
Qed.

(** One increment of a histogram whose buckets are distinct. *)
Lemma increment_map (j : Z) (f : Z -> Z) (buckets : list Z) :
  NoDup buckets ->
  increment j (map (fun k => (numToString k, f k)) buckets)
  = map (fun k => (numToString k, f k + (if k =? j then 1 else 0))) buckets.
Proof.
  unfold increment.
  induction buckets as [|b rest IH]; intros Hnd; [reflexivity|].
  apply NoDup_cons_iff in Hnd as [Hb Hrest].
  cbn [map updateOwn]. rewrite numToString_eqb.
  destruct (Z.eqb_spec b j) as [->|Hne].
  - f_equal. apply map_ext_in. intros k Hk.
    destruct (Z.eqb_spec k j) as [->|_]; [contradiction|].
    now rewrite Z.add_0_r.
  - rewrite Z.add_0_r. f_equal. now apply IH.
Qed.

Lemma increments_map (ks : list Z) : forall (f : Z -> Z) (buckets : list Z),
  NoDup buckets ->
  fold_left (fun acc j => increment j acc) ks
            (map (fun k => (numToString k, f k)) buckets)
  = map (fun k => (numToString k, f k + occurrences k ks)) buckets.
Proof.
  induction ks as [|j ks IH]; intros f buckets Hnd.
  - cbn [fold_left]. apply map_ext. intros k. f_equal.
    unfold occurrences, len. cbn. lia.
  - cbn [fold_left]. rewrite increment_map by exact Hnd.
    rewrite (IH _ _ Hnd). apply map_ext. intros k.
    rewrite occurrences_cons. f_equal. lia.
Qed.

(** The counting loop fills the histogram of the events. *)
Lemma increments_histogram (buckets ks : list Z) :
  NoDup buckets ->
  fold_left (fun acc j => increment j acc) ks (zeroCounts buckets)
  = histogram buckets ks.
Proof.
  intros Hnd. unfold zeroCounts, histogram.
  now rewrite (increments_map ks (fun _ => 0) buckets Hnd).
Qed.

Lemma sumZ_cons (x : Z) (l : list Z) : sumZ (x :: l) = x + sumZ l.
Proof. reflexivity. Qed.

Lemma indicator_sum (j : Z) (buckets : list Z) :
  NoDup buckets -> In j buckets ->
  sumZ (map (fun k => if k =? j then 1 else 0) buckets) = 1.
Proof.
  induction buckets as [|b rest IH]; intros Hnd Hin; [contradiction|].
  apply NoDup_cons_iff in Hnd as [Hb Hrest].
  cbn [map]. rewrite sumZ_cons.
  destruct (Z.eqb_spec b j) as [->|Hne].
  - assert (E : sumZ (map (fun k => if k =? j then 1 else 0) rest) = 0).
    { clear IH Hin Hrest. induction rest as [|c rest IH]; [reflexivity|].
      cbn [map]. rewrite sumZ_cons.
      destruct (Z.eqb_spec c j) as [->|_].
      - exfalso. apply Hb. now left.
      - rewrite IH; [reflexivity|]. intros H. apply Hb. now right. }
    lia.
  - destruct Hin as [->|Hin]; [contradiction|].
    rewrite (IH Hrest Hin). lia.
Qed.

Lemma sumZ_add (f g : Z -> Z) (l : list Z) :
  sumZ (map (fun k => f k + g k) l) = sumZ (map f l) + sumZ (map g l).
Proof.
  induction l as [|x l IH]; [reflexivity|].
  cbn [map]. rewrite !sumZ_cons, IH. lia.
Qed.

Lemma sumZ_map_zero {A} (f : A -> Z) (l : list A) :
  (forall x, f x = 0) -> sumZ (map f l) = 0.
Proof.
  intros Hf. induction l as [|x l IH]; [reflexivity|].
  cbn [map]. rewrite sumZ_cons, Hf, IH. reflexivity.
Qed.

(** Every event falls into one bucket: the counts add up to the number of
    events. *)
Lemma histogram_total (buckets ks : list Z) :
  NoDup buckets -> (forall k, In k ks -> In k buckets) ->
  sumZ (map snd (histogram buckets ks)) = len ks.
Proof.
  intros Hnd Hin. unfold histogram. rewrite map_map. cbn [snd].
  induction ks as [|j ks IH].
  - apply sumZ_map_zero. intros k. reflexivity.
  - rewrite (map_ext _ (fun k => (if k =? j then 1 else 0) + occurrences k ks))
      by (intros k; apply occurrences_cons).
    rewrite sumZ_add, indicator_sum by (exact Hnd || (apply Hin; now left)).
    rewrite IH by (intros k Hk; apply Hin; now right).
    unfold len. cbn [List.length]. lia.
Qed.

Lemma getMonth_range (h : Dates.Host) (t : Z) :
  In (Dates.getMonth h t + 1) (range 1 12).
Proof.
  apply range_In. unfold Dates.getMonth.
  pose proof (civilFromDays_spec (Dates.localDay h t)) as H.
  destruct (Dates.civilFromDays (Dates.localDay h t)) as [[y m] d].
  cbn [fst snd]. lia.
Qed.

Lemma getDay_range (h : Dates.Host) (t : Z) : In (Dates.getDay h t) (range 0 7).
Proof.
  apply range_In. unfold Dates.getDay.
  pose proof (Z.mod_pos_bound (Dates.localDay h t + 4) 7). lia.
Qed.

Lemma getHours_range (h : Dates.Host) (t : Z) :
  In (Dates.getHours h t) (range 0 24).
Proof.
  apply range_In. unfold Dates.getHours.
  pose proof (Z.mod_pos_bound (Dates.localTime h t / Dates.msPerHour) 24). lia.
Qed.

Lemma timeStats_monthly (h : Dates.Host) (data : Dataset.t) :
  TimeStats.monthlyActivity (calculateTimeStats h data) =
    fold_left (fun acc j => increment j acc)
      (map (fun a => Dates.getMonth h (Activity.timestamp a) + 1)
           (allActivities data))
      (zeroCounts (range 1 12)).
Proof.
  unfold calculateTimeStats. rewrite countActivities_split. reflexivity.
Qed.

Lemma timeStats_histograms (h : Dates.Host) (data : Dataset.t) :
  let stats := calculateTimeStats h data in
  TimeStats.monthlyActivity stats = histogram (range 1 12) (eventMonths h data)
  /\ TimeStats.dayOfWeekActivity stats
     = histogram (range 0 7) (eventWeekdays h data)
  /\ TimeStats.hourlyActivity stats = histogram (range 0 24) (eventHours h data).
Proof.
  cbv zeta. rewrite timeStats_monthly, timeStats_dayOfWeek, timeStats_hourly.
  rewrite !increments_histogram by apply range_NoDup.
  repeat split.
Qed.

Lemma len_app {A} (l1 l2 : list A) : len (l1 ++ l2) = len l1 + len l2.
Proof. unfold len. rewrite length_app. lia. Qed.

Lemma len_map {A B} (f : A -> B) (l : list A) : len (map f l) = len l.
Proof. unfold len. now rewrite length_map. Qed.

End HistogramShape.

(** X1. Each of the three histograms of [calculateTimeStats] holds, under
    every one of its keys (the months 1 to 12, the weekdays 0 to 6, the
    hours 0 to 23) and under no other, the number of events that fall into
    it in local time; so each adds up to the number of events, which is the
    number of created issues, comments and articles (resolved issues are
    not events). *)
Theorem histograms_count_every_event (h : Dates.Host) (data : Dataset.t) :
  let stats := StatisticsCalculator.calculateTimeStats h data in
  let summary := StatisticsCalculator.calculateSummary data in
  let events := Js.len (StatisticsCalculator.allActivities data) in
  (TimeStats.monthlyActivity stats
     = histogram (StatisticsCalculator.range 1 12) (eventMonths h data)
   /\ TimeStats.dayOfWeekActivity stats
      = histogram (StatisticsCalculator.range 0 7) (eventWeekdays h data)
   /\ TimeStats.hourlyActivity stats
      = histogram (StatisticsCalculator.range 0 24) (eventHours h data))
  /\ (sumZ (map snd (TimeStats.monthlyActivity stats)) = events
      /\ sumZ (map snd (TimeStats.dayOfWeekActivity stats)) = events
      /\ sumZ (map snd (TimeStats.hourlyActivity stats)) = events)
  /\ events = Summary.totalIssuesCreated summary + Summary.totalComments summary
              + Summary.totalArticles summary.
Proof.
  cbv zeta.
  destruct (timeStats_histograms h data) as (Hm & Hd & Hh).
  split; [now repeat split|]. split.
  - rewrite Hm, Hd, Hh.
    unfold eventMonths, eventWeekdays, eventHours.
    rewrite !histogram_total.
    + rewrite !len_map. now repeat split.
    + apply range_NoDup.
    + intros k Hk. apply in_map_iff in Hk as (a & <- & _). apply getHours_range.
    + apply range_NoDup.
    + intros k Hk. apply in_map_iff in Hk as (a & <- & _). apply getDay_range.
    + apply range_NoDup.
    + intros k Hk. apply in_map_iff in Hk as (a & <- & _). apply getMonth_range.
  - unfold StatisticsCalculator.allActivities, StatisticsCalculator.calculateSummary.
    cbn [Summary.totalIssuesCreated Summary.totalComments Summary.totalArticles].
    rewrite !len_app, !len_map. lia.
Qed.

Section Extremes.
Import Js.
Context {A : Type}.
Variable key : A -> Z.

Lemma filter_head (p : A -> bool) (l : list A) (x : A) (t : list A) :
  filter p l = x :: t ->
  exists pre post,
    l = pre ++ x :: post /\ Forall (fun y => p y = false) pre /\ p x = true.
Proof.
  induction l as [|y l IH]; intros H; [discriminate|].
  cbn [filter] in H. destruct (p y) eqn:E.
  - injection H as -> _. exists [], l. repeat split; [constructor|exact E].
  - destruct (IH H) as (pre & post & -> & Hpre & Hx).
    exists (y :: pre), post. repeat split; [now constructor|exact Hx].
Qed.

Lemma filter_last (p : A -> bool) (l : list A) (x : A) (t : list A) :
  filter p l = t ++ [x] ->
  exists pre post,
    l = pre ++ x :: post /\ Forall (fun y => p y = false) post /\ p x = true.
Proof.
  intros H.
  assert (Hr : filter p (rev l) = x :: rev t).
  { rewrite <- (rev_involutive (filter p (rev l))).
    rewrite <- (rev_involutive (x :: rev t)). f_equal.
    cbn [rev]. rewrite rev_involutive, <- H.
    clear. induction l as [|y l IH]; [reflexivity|].
    cbn [rev filter]. rewrite filter_app, rev_app_distr, IH. cbn [filter].
    destruct (p y); reflexivity. }
  destruct (filter_head p (rev l) x (rev t) Hr) as (pre & post & E & Hpre & Hx).
  exists (rev post), (rev pre). repeat split; [| |exact Hx].
  - rewrite <- (rev_involutive l), E, rev_app_distr. cbn [rev].
    now rewrite <- app_assoc.
  - apply Forall_rev. exact Hpre.
Qed.

(** The head of a list sorted by descending key, stably, is the first
    element with the largest key. *)
Lemma sorted_head_firstLargest (l : list A) (x : A) :
  hd_error (sortBy (fun a b => key b - key a) l) = Some x ->
  firstLargest key l x.
Proof.
  intros Hhd.
  pose proof (sortBy_descending key l) as Hdesc.
  pose proof (sortBy_stable key (key x) l) as Hstable.
  destruct (sortBy (fun a b => key b - key a) l) as [|y rest] eqn:E;
    [discriminate|].
  injection Hhd as ->.
  assert (Hmax : forall y, In y l -> key y <= key x).
  { intros y Hy. apply (sortBy_In (fun a b => key b - key a)) in Hy.
    rewrite E in Hy. destruct Hy as [<-|Hy]; [lia|].
    apply StronglySorted_inv in Hdesc as [_ Hall].
    rewrite Forall_forall in Hall. now apply Hall. }
  cbn [filter] in Hstable. rewrite Z.eqb_refl in Hstable.
  symmetry in Hstable.
  destruct (filter_head _ _ _ _ Hstable) as (pre & post & -> & Hpre & _).
  exists pre, post. split; [reflexivity|]. split.
  - rewrite Forall_forall in *. intros y Hy.
    specialize (Hpre y Hy). apply Z.eqb_neq in Hpre.
    assert (key y <= key x) by (apply Hmax, in_or_app; now left). lia.
  - rewrite Forall_forall. intros y Hy.
    apply Hmax, in_or_app. right. now right.
Qed.

Lemma lastOf_Some (l : list A) (x : A) :
  lastOf l = Some x -> exists t, l = t ++ [x].
Proof.
  unfold lastOf. intros H. destruct (rev l) as [|y r] eqn:E; [discriminate|].
  injection H as ->. exists (rev r).
  rewrite <- (rev_involutive l), E. reflexivity.
Qed.

(** Its last element is the last element with the smallest key. *)
Lemma sorted_last_lastSmallest (l : list A) (x : A) :
  lastOf (sortBy (fun a b => key b - key a) l) = Some x ->
  lastSmallest key l x.
Proof.
  intros Hlast. apply lastOf_Some in Hlast as (t & E).
  pose proof (sortBy_descending key l) as Hdesc.
  pose proof (sortBy_stable key (key x) l) as Hstable.
  rewrite E in Hdesc, Hstable.
  assert (Hmin : forall y, In y l -> key x <= key y).
  { intros y Hy. apply (sortBy_In (fun a b => key b - key a)) in Hy.
    rewrite E in Hy. apply in_app_or in Hy as [Hy|[<-|[]]]; [|lia].
    clear - Hdesc Hy. induction t as [|z t IH]; [contradiction|].
    cbn [app] in Hdesc. apply StronglySorted_inv in Hdesc as [Hs Hall].
    destruct Hy as [<-|Hy]; [|now apply IH].
    rewrite Forall_forall in Hall. apply Hall, in_or_app. right. now left. }
  rewrite filter_app in Hstable. cbn [filter] in Hstable.
  rewrite Z.eqb_refl in Hstable. symmetry in Hstable.
  destruct (filter_last _ _ _ _ Hstable) as (pre & post & -> & Hpost & _).
  exists pre, post. split; [reflexivity|]. split.
  - rewrite Forall_forall. intros y Hy. apply Hmin, in_or_app. now left.
  - rewrite Forall_forall in *. intros y Hy.
    specialize (Hpost y Hy). apply Z.eqb_neq in Hpost.
    assert (key x <= key y) by (apply Hmin, in_or_app; right; now right). lia.
Qed.

Lemma sorted_head_nonempty (l : list A) :
  l <> [] -> exists x, hd_error (sortBy (fun a b => key b - key a) l) = Some x.
Proof.
  intros Hl.
  destruct (sortBy (fun a b => key b - key a) l) as [|x rest] eqn:E.
  - exfalso. apply Hl. apply length_zero_iff_nil.
    rewrite <- (sortBy_length (fun a b => key b - key a) l), E. reflexivity.
  - now exists x.
Qed.

Lemma sorted_last_nonempty (l : list A) :
  l <> [] -> exists x, lastOf (sortBy (fun a b => key b - key a) l) = Some x.
Proof.
  intros Hl. unfold lastOf.
  destruct (rev (sortBy (fun a b => key b - key a) l)) as [|x rest] eqn:E.
  - exfalso. apply Hl. apply length_zero_iff_nil.
    rewrite <- (sortBy_length (fun a b => key b - key a) l).
    rewrite <- length_rev, E. reflexivity.
  - now exists x.
Qed.

End Extremes.

Section LongestAndShortest.
Import Js StatisticsCalculator.

Lemma firstLargest_map {A B} (f : A -> B) (key : B -> Z) (l : list A) (y : B) :
  firstLargest key (map f l) y ->
  exists x, y = f x /\ firstLargest (fun a => key (f a)) l x.
Proof.
  intros (pre & post & E & Hpre & Hpost).
  apply map_eq_app in E as (lpre & lrest & -> & <- & E).
  apply map_eq_cons in E as (x & lpost & -> & <- & <-).
  exists x. split; [reflexivity|]. exists lpre, lpost.
  split; [reflexivity|].
  rewrite !Forall_map in *. now split.
Qed.

Lemma lastSmallest_map {A B} (f : A -> B) (key : B -> Z) (l : list A) (y : B) :
  lastSmallest key (map f l) y ->
  exists x, y = f x /\ lastSmallest (fun a => key (f a)) l x.
Proof.
  intros (pre & post & E & Hpre & Hpost).
  apply map_eq_app in E as (lpre & lrest & -> & <- & E).
  apply map_eq_cons in E as (x & lpost & -> & <- & <-).
  exists x. split; [reflexivity|]. exists lpre, lpost.
  split; [reflexivity|].
  rewrite !Forall_map in *. now split.
Qed.

(** The two ends of a list of items sorted by descending length, where
    the items travel with their lengths. *)
Lemma ends_of_sorted_lengths {A} (length : A -> Z) (l : list A) :
  l <> [] ->
  let sorted := sortBy (fun a b : A * Z => snd b - snd a)
                       (map (fun x => (x, length x)) l) in
  exists longest shortest,
    option_map fst (hd_error sorted) = Some longest
    /\ option_map fst (lastOf sorted) = Some shortest
    /\ firstLargest length l longest
    /\ lastSmallest length l shortest.
Proof.
  intros Hl sorted.
  assert (Hm : map (fun x => (x, length x)) l <> [])
    by (destruct l; [contradiction|discriminate]).
  destruct (sorted_head_nonempty snd _ Hm) as (a & Ha).
  destruct (sorted_last_nonempty snd _ Hm) as (b & Hb).
  apply sorted_head_firstLargest in Ha as Hfirst.
  apply sorted_last_lastSmallest in Hb as Hlast.
  apply firstLargest_map in Hfirst as (x & -> & Hx).
  apply lastSmallest_map in Hlast as (y & -> & Hy).
  exists x, y. subst sorted. rewrite Ha, Hb. now repeat split.
Qed.

Lemma rounded_average (total n : Z) :
  0 < n ->
  exists d, round (div (num total) (num n)) = num d /\ roundedQuotient total n d.
Proof.
  intros Hn. rewrite div_num by lia. cbn [round].
  eexists. split; [reflexivity|].
  apply (round_half_up total n Hn). apply Qred_correct.
Qed.

Lemma len_pos {A} (l : list A) : l <> [] -> 0 < len l.
Proof. destruct l; [contradiction|]. intros _. unfold len. cbn. lia. Qed.

End LongestAndShortest.

(** X2. [calculateIssueStats] counts the created and the resolved issues,
    and of the created issues it reports as longest summary the first
    issue, in the order of the collection, with the longest summary, and
    as shortest the last issue with the shortest one; an issue without
    summary counts as of length 0. Both are [null] exactly when no issue
    was created. *)
Theorem longest_and_shortest_summary (data : Dataset.t) :
  let issues := Dataset.createdIssues data in
  let stats := StatisticsCalculator.calculateIssueStats data in
  let length := fun i => Js.optLength (Issue.summary i) in
  IssueStats.total stats = Js.len issues
  /\ IssueStats.resolved stats = Js.len (Dataset.resolvedIssues data)
  /\ (issues = [] ->
      IssueStats.longestSummary stats = None
      /\ IssueStats.shortestSummary stats = None)
  /\ (issues <> [] ->
      exists longest shortest,
        IssueStats.longestSummary stats = Some longest
        /\ IssueStats.shortestSummary stats = Some shortest
        /\ firstLargest length issues longest
        /\ lastSmallest length issues shortest).
Proof.
  cbv zeta. unfold StatisticsCalculator.calculateIssueStats.
  cbn [IssueStats.total IssueStats.resolved IssueStats.longestSummary
       IssueStats.shortestSummary].
  split; [reflexivity|]. split; [reflexivity|]. split.
  - intros ->. split; reflexivity.
  - intros Hne.
    destruct (sorted_head_nonempty (fun i => Js.optLength (Issue.summary i))
                _ Hne) as (a & Ha).
    destruct (sorted_last_nonempty (fun i => Js.optLength (Issue.summary i))
                _ Hne) as (b & Hb).
    exists a, b. split; [exact Ha|]. split; [exact Hb|]. split.
    + now apply sorted_head_firstLargest.
    + now apply sorted_last_lastSmallest.
Qed.

(** X3. Of a dataset with comments, [calculateCommentStats] reports their
    number, the sum of the lengths of their texts (a comment without text
    counts as of length 0), the average length rounded to the nearest
    integer with halves going up, as longest comment the first one of the
    largest length and as shortest the last one of the smallest length.
    Without comments every number is 0 and every comment [null]. *)
Theorem comment_statistics (data : Dataset.t) :
  let comments := Dataset.comments data in
  let stats := StatisticsCalculator.calculateCommentStats data in
  let length := fun c => Js.optLength (Comment.text c) in
  CommentStats.total stats = Js.len comments
  /\ CommentStats.totalCharacters stats = sumZ (map length comments)
  /\ (comments = [] ->
      CommentStats.avgLength stats = Js.num 0
      /\ CommentStats.longestComment stats = None
      /\ CommentStats.shortestComment stats = None
      /\ CommentStats.mostCommentedIssue stats = None)
  /\ (comments <> [] ->
      (exists d, CommentStats.avgLength stats = Js.num d
                 /\ roundedQuotient (sumZ (map length comments))
                                    (Js.len comments) d)
      /\ exists longest shortest,
           CommentStats.longestComment stats = Some longest
           /\ CommentStats.shortestComment stats = Some shortest
           /\ firstLargest length comments longest
           /\ lastSmallest length comments shortest).
Proof.
  cbv zeta. unfold StatisticsCalculator.calculateCommentStats.
  destruct (Dataset.comments data) as [|c comments] eqn:E.
  - cbn. repeat split; intros; congruence.
  - set (l := c :: comments).
    assert (Hne : l <> []) by discriminate.
    rewrite (len_nonzero l Hne).
    cbn [CommentStats.total CommentStats.totalCharacters CommentStats.avgLength
         CommentStats.longestComment CommentStats.shortestComment
         CommentStats.mostCommentedIssue].
    assert (Hsum :
      fold_left (fun sum (c : Comment.t * Z) => sum + snd c)
                (map (fun c => (c, Js.optLength (Comment.text c))) l) 0
      = sumZ (map (fun c => Js.optLength (Comment.text c)) l)).
    { rewrite fold_left_sum, map_map. cbn [snd]. lia. }
    rewrite Hsum.
    split; [reflexivity|]. split; [reflexivity|].
    split; [intros; congruence|]. intros _. split.
    + apply rounded_average. now apply len_pos.
    + apply (ends_of_sorted_lengths
               (fun c => Js.optLength (Comment.text c)) l Hne).
Qed.

(** X4. Of a dataset with articles, [calculateArticleStats] reports their
    number, the sum of the lengths of their contents (an article without
    content counts as of length 0), the average length rounded to the
    nearest integer with halves going up, and as longest article the first
    one of the largest length. Without articles every number is 0 and the
    longest article [null]. *)
Theorem article_statistics (data : Dataset.t) :
  let articles := Dataset.articles data in
  let stats := StatisticsCalculator.calculateArticleStats data in
  let length := fun a => Js.optLength (Article.content a) in
  ArticleStats.total stats = Js.len articles
  /\ ArticleStats.totalContentLength stats = sumZ (map length articles)
  /\ (articles = [] ->
      ArticleStats.avgContentLength stats = Js.num 0
      /\ ArticleStats.longestArticle stats = None)
  /\ (articles <> [] ->
      (exists d, ArticleStats.avgContentLength stats = Js.num d
                 /\ roundedQuotient (sumZ (map length articles))
                                    (Js.len articles) d)
      /\ exists longest,
           ArticleStats.longestArticle stats = Some longest
           /\ firstLargest length articles longest).
Proof.
  cbv zeta. unfold StatisticsCalculator.calculateArticleStats.
  destruct (Dataset.articles data) as [|a articles] eqn:E.
  - cbn. repeat split; intros; congruence.
  - set (l := a :: articles).
    assert (Hne : l <> []) by discriminate.
    rewrite (len_nonzero l Hne).
    cbn [ArticleStats.total ArticleStats.totalContentLength
         ArticleStats.avgContentLength ArticleStats.longestArticle].
    assert (Hsum :
      fold_left (fun sum (a : Article.t * Z) => sum + snd a)
                (map (fun a => (a, Js.optLength (Article.content a))) l) 0
      = sumZ (map (fun a => Js.optLength (Article.content a)) l)).
    { rewrite fold_left_sum, map_map. cbn [snd]. lia. }
    rewrite Hsum.
    split; [reflexivity|]. split; [reflexivity|].
    split; [intros; congruence|]. intros _. split.
    + apply rounded_average. now apply len_pos.
    + destruct (ends_of_sorted_lengths
                  (fun a => Js.optLength (Article.content a)) l Hne)
        as (longest & _ & Hl & _ & Hfirst & _).
      now exists longest.
Qed.

Section Busiest.
Import Js StatisticsCalculator.

Lemma ascending_sorted (l : list Z) :
  ascending l = true -> StronglySorted Z.le l.
Proof.
  induction l as [|a l IH]; intros H; [constructor|].
  destruct l as [|b l].
  - repeat constructor.
  - cbn [ascending] in H. apply andb_prop in H as [Hab Hrest].
    apply Z.leb_le in Hab. specialize (IH Hrest).
    constructor; [exact IH|].
    constructor; [exact Hab|].
    apply StronglySorted_inv in IH as [_ Hall].
    eapply Forall_impl; [|exact Hall]. cbn. intros; lia.
Qed.

(** Sorting leaves a sorted list as it is. *)
Lemma sortBy_sorted_id {A} (cmp : A -> A -> Z) (l : list A) :
  StronglySorted (before cmp) l -> sortBy cmp l = l.
Proof.
  induction 1 as [|x l Hl IH Hall]; [reflexivity|].
  unfold sortBy in *. cbn [fold_right]. rewrite IH.
  destruct l as [|y r]; [reflexivity|].
  cbn [insertBy]. apply Forall_inv in Hall. unfold before in Hall.
  apply Z.leb_le in Hall. now rewrite Hall.
Qed.

(** An object whose keys are array indices in ascending order is
    enumerated as it was filled. *)
Lemma entries_of_ascending_indices {V} (o : JsObject V) :
  forallb isArrayIndex (keys o) = true ->
  ascending (map indexOf (keys o)) = true ->
  entries o = o.
Proof.
  intros Hidx Hasc. unfold entries.
  assert (Hall : filter (fun e : string * V => isArrayIndex (fst e)) o = o).
  { clear Hasc. induction o as [|[k v] o IH]; [reflexivity|].
    cbn [keys map fst forallb] in Hidx. apply andb_prop in Hidx as [Hk Ho].
    cbn [filter fst]. rewrite Hk. f_equal. now apply IH. }
  assert (Hnone : filter (fun e : string * V => negb (isArrayIndex (fst e))) o = []).
  { clear Hasc Hall. induction o as [|[k v] o IH]; [reflexivity|].
    cbn [keys map fst forallb] in Hidx. apply andb_prop in Hidx as [Hk Ho].
    cbn [filter fst]. rewrite Hk. cbn [negb]. now apply IH. }
  rewrite Hall, Hnone, app_nil_r.
  apply sortBy_sorted_id.
  apply ascending_sorted in Hasc. unfold keys in Hasc. rewrite map_map in Hasc.
  clear - Hasc. induction o as [|e o IH]; [constructor|].
  cbn [map] in Hasc. apply StronglySorted_inv in Hasc as [Hs Hall].
  constructor; [now apply IH|].
  rewrite Forall_map in Hall. eapply Forall_impl; [|exact Hall].
  unfold before. cbn. intros; lia.
Qed.

Lemma range_sorted (n : nat) : forall from, StronglySorted Z.lt (range from n).
Proof.
  induction n as [|n IH]; intros from; [constructor|].
  rewrite range_S. constructor; [apply IH|].
  rewrite Forall_forall. intros x Hx. apply range_In in Hx. lia.
Qed.

Lemma sorted_split (pre post : list Z) (m : Z) :
  StronglySorted Z.lt (pre ++ m :: post) ->
  Forall (fun y => y < m) pre /\ Forall (fun y => m < y) post.
Proof.
  induction pre as [|a pre IH]; cbn [app]; intros H.
  - apply StronglySorted_inv in H as [_ Hall]. now split.
  - apply StronglySorted_inv in H as [Hs Hall].
    destruct (IH Hs) as [Hpre Hpost]. split; [|exact Hpost].
    constructor; [|exact Hpre].
    rewrite Forall_forall in Hall. apply Hall, in_or_app. right. now left.
Qed.

Lemma firstLargest_range (from : Z) (n : nat) (ks : list Z) (m : Z) :
  firstLargest (fun k => occurrences k ks) (range from n) m ->
  firstBusiest from n ks m.
Proof.
  intros (pre & post & E & Hpre & Hpost).
  pose proof (range_sorted n from) as Hs. rewrite E in Hs.
  apply sorted_split in Hs as [Hlt Hgt].
  assert (Hm : from <= m < from + Z.of_nat n).
  { apply range_In. rewrite E. apply in_or_app. right. now left. }
  rewrite Forall_forall in *.
  split; [exact Hm|]. split.
  - intros k Hk. apply range_In in Hk. rewrite E in Hk.
    apply in_app_or in Hk as [Hk|[<-|Hk]].
    + specialize (Hpre k Hk). cbn in Hpre. lia.
    + lia.
    + exact (Hpost k Hk).
  - intros k Hk.
    assert (Hin : In k (range from n)) by (apply range_In; lia).
    rewrite E in Hin. apply in_app_or in Hin as [Hin|[<-|Hin]].
    + exact (Hpre k Hin).
    + lia.
    + specialize (Hgt k Hin). cbn in Hgt. lia.
Qed.

Lemma holdsFrom_range (check : Z -> bool) (from : Z) (n : nat) (m : Z) :
  holdsFrom check from n = true -> from <= m < from + Z.of_nat n ->
  check m = true.
Proof. intros H Hm. exact (holdsFrom_spec check n from H m Hm). Qed.

(** The busiest bucket of a histogram over consecutive array indices. *)
Lemma busiest_histogram (from : Z) (n : nat) (ks : list Z) :
  range from n <> [] ->
  forallb isArrayIndex (map numToString (range from n)) = true ->
  ascending (map indexOf (map numToString (range from n))) = true ->
  holdsFrom readsBack from n = true ->
  let found := busiest (histogram (range from n) ks) in
  firstBusiest from n ks (parseInt (fst found))
  /\ snd found = occurrences (parseInt (fst found)) ks.
Proof.
  intros Hne Hidx Hasc Hread found. subst found. unfold busiest.
  assert (Hkeys : keys (histogram (range from n) ks)
                  = map numToString (range from n)).
  { unfold keys, histogram. rewrite map_map. reflexivity. }
  rewrite entries_of_ascending_indices by (rewrite Hkeys; assumption).
  assert (Hh : histogram (range from n) ks <> []).
  { unfold histogram. destruct (range from n); [contradiction|discriminate]. }
  destruct (sorted_head_nonempty snd _ Hh) as (x & Hx).
  assert (Hhd : hd (EmptyString, 0)
                   (sortBy (fun a b : string * Z => snd b - snd a)
                           (histogram (range from n) ks)) = x).
  { destruct (sortBy _ (histogram (range from n) ks)); [discriminate|].
    now injection Hx as ->. }
  rewrite Hhd.
  apply sorted_head_firstLargest in Hx.
  unfold histogram in Hx. apply firstLargest_map in Hx as (m & -> & Hm).
  cbn [fst snd] in *. apply firstLargest_range in Hm.
  assert (E : parseInt (numToString m) = m).
  { apply Z.eqb_eq. apply (holdsFrom_range readsBack from n m Hread).
    apply Hm. }
  rewrite E. now split.
Qed.

(** The busiest month, weekday and hour are the first buckets no other
    exceeds, and the counts reported are those of the buckets. *)
Lemma busiest_periods_hold (h : Dates.Host) (data : Dataset.t) :
  let stats := calculateTimeStats h data in
  (firstBusiest 1 12 (eventMonths h data)
                (BusiestMonth.month (TimeStats.busiestMonth stats))
   /\ BusiestMonth.count (TimeStats.busiestMonth stats)
      = occurrences (BusiestMonth.month (TimeStats.busiestMonth stats))
                    (eventMonths h data))
  /\ (firstBusiest 0 7 (eventWeekdays h data)
                   (BusiestDay.day (TimeStats.busiestDayOfWeek stats))
      /\ BusiestDay.count (TimeStats.busiestDayOfWeek stats)
         = occurrences (BusiestDay.day (TimeStats.busiestDayOfWeek stats))
                       (eventWeekdays h data))
  /\ (firstBusiest 0 24 (eventHours h data)
                   (BusiestHour.hour (TimeStats.busiestHour stats))
      /\ BusiestHour.count (TimeStats.busiestHour stats)
         = occurrences (BusiestHour.hour (TimeStats.busiestHour stats))
                       (eventHours h data)).
Proof.
  cbv zeta.
  destruct (timeStats_histograms h data) as (Hm & Hd & Hh).
  assert (Em : TimeStats.busiestMonth (calculateTimeStats h data)
    = let found := busiest
                     (TimeStats.monthlyActivity
                        (calculateTimeStats h data)) in
      {| BusiestMonth.month := Js.parseInt (fst found);
         BusiestMonth.monthName :=
           nth_error monthNames
                     (Z.to_nat (Js.parseInt (fst found)));
         BusiestMonth.count := snd found |}).
  { unfold calculateTimeStats.
    destruct (countActivities h _) as [[mo dw] ho].
    reflexivity. }
  assert (Ed : TimeStats.busiestDayOfWeek (calculateTimeStats h data)
    = let found := busiest
                     (TimeStats.dayOfWeekActivity
                        (calculateTimeStats h data)) in
      {| BusiestDay.day := Js.parseInt (fst found);
         BusiestDay.dayName :=
           nth_error dayNames
                     (Z.to_nat (Js.parseInt (fst found)));
         BusiestDay.count := snd found |}).
  { unfold calculateTimeStats.
    destruct (countActivities h _) as [[mo dw] ho].
    reflexivity. }
  assert (Eh : TimeStats.busiestHour (calculateTimeStats h data)
    = let found := busiest
                     (TimeStats.hourlyActivity
                        (calculateTimeStats h data)) in
      {| BusiestHour.hour := Js.parseInt (fst found);
         BusiestHour.count := snd found |}).
  { unfold calculateTimeStats.
    destruct (countActivities h _) as [[mo dw] ho].
    reflexivity. }
  rewrite Em, Ed, Eh, Hm, Hd, Hh. cbv zeta.
  cbn [BusiestMonth.month BusiestMonth.monthName BusiestMonth.count
       BusiestDay.day BusiestDay.dayName BusiestDay.count
       BusiestHour.hour BusiestHour.count].
  destruct (busiest_histogram 1 12 (eventMonths h data))
    as [Hfm Hcm]; [discriminate|reflexivity|reflexivity|reflexivity|].
  destruct (busiest_histogram 0 7 (eventWeekdays h data))
    as [Hfd Hcd]; [discriminate|reflexivity|reflexivity|reflexivity|].
  destruct (busiest_histogram 0 24 (eventHours h data))
    as [Hfh Hch]; [discriminate|reflexivity|reflexivity|reflexivity|].
  split; [split; [exact Hfm|exact Hcm]|].
  split; [split; [exact Hfd|exact Hcd]|split; [exact Hfh|exact Hch]].
Qed.

Lemma busiest_month_name (h : Dates.Host) (data : Dataset.t) :
  let month := TimeStats.busiestMonth (calculateTimeStats h data) in
  BusiestMonth.monthName month
  = nth_error monthNames (Z.to_nat (BusiestMonth.month month)).
Proof.
  cbv zeta. unfold calculateTimeStats.
  destruct (countActivities h _) as [[mo dw] ho]. reflexivity.
Qed.

Lemma busiest_day_name (h : Dates.Host) (data : Dataset.t) :
  let day := TimeStats.busiestDayOfWeek (calculateTimeStats h data) in
  BusiestDay.dayName day = nth_error dayNames (Z.to_nat (BusiestDay.day day)).
Proof.
  cbv zeta. unfold calculateTimeStats.
  destruct (countActivities h _) as [[mo dw] ho]. reflexivity.
Qed.

End Busiest.

(** X5. The busiest month, weekday and hour of [calculateTimeStats] are
    the buckets with the most events in local time, the earliest of them
    where several have as many (so the month January, the day Sunday and
    the hour 0 when there is no event at all); the count reported is that
    of the bucket, and the month and the day always have a name. *)
Theorem busiest_periods_are_the_earliest_maxima (h : Dates.Host)
  (data : Dataset.t) :
  let stats := StatisticsCalculator.calculateTimeStats h data in
  let month := TimeStats.busiestMonth stats in
  let day := TimeStats.busiestDayOfWeek stats in
  let hour := TimeStats.busiestHour stats in
  (firstBusiest 1 12 (eventMonths h data) (BusiestMonth.month month)
   /\ BusiestMonth.count month
      = occurrences (BusiestMonth.month month) (eventMonths h data)
   /\ exists name,
        BusiestMonth.monthName month = Some name
        /\ nth_error StatisticsCalculator.monthNames
                     (Z.to_nat (BusiestMonth.month month)) = Some name
        /\ name <> EmptyString)
  /\ (firstBusiest 0 7 (eventWeekdays h data) (BusiestDay.day day)
      /\ BusiestDay.count day
         = occurrences (BusiestDay.day day) (eventWeekdays h data)
      /\ exists name,
           BusiestDay.dayName day = Some name
           /\ nth_error StatisticsCalculator.dayNames
                        (Z.to_nat (BusiestDay.day day)) = Some name)
  /\ (firstBusiest 0 24 (eventHours h data) (BusiestHour.hour hour)
      /\ BusiestHour.count hour
         = occurrences (BusiestHour.hour hour) (eventHours h data)).
Proof.
  cbv zeta.
  destruct (busiest_periods_hold h data)
    as ((Hfm & Hcm) & (Hfd & Hcd) & (Hfh & Hch)).
  split; [|split].
  - split; [exact Hfm|]. split; [exact Hcm|].
    rewrite busiest_month_name.
    destruct Hfm as [Hrange _].
    set (m := BusiestMonth.month _) in *. clearbody m.
    assert (Hnamed :
      holdsFrom
        (fun k => match nth_error StatisticsCalculator.monthNames (Z.to_nat k) with
                  | Some name => negb (String.eqb name EmptyString)
                  | None => false
                  end) 1 12 = true) by reflexivity.
    apply (holdsFrom_range _ 1 12 m) in Hnamed; [|exact Hrange].
    cbv beta in Hnamed.
    destruct (nth_error StatisticsCalculator.monthNames (Z.to_nat m))
      as [name|]; [|discriminate].
    exists name. split; [reflexivity|]. split; [reflexivity|].
    intros ->. cbn in Hnamed. discriminate.
  - split; [exact Hfd|]. split; [exact Hcd|].
    rewrite busiest_day_name.
    destruct Hfd as [Hrange _].
    set (m := BusiestDay.day _) in *. clearbody m.
    assert (Hnamed :
      holdsFrom
        (fun k => match nth_error StatisticsCalculator.dayNames (Z.to_nat k) with
                  | Some _ => true
                  | None => false
                  end) 0 7 = true) by reflexivity.
    apply (holdsFrom_range _ 0 7 m) in Hnamed; [|exact Hrange].
    cbv beta in Hnamed.
    destruct (nth_error StatisticsCalculator.dayNames (Z.to_nat m))
      as [name|]; [|discriminate].
    exists name. split; reflexivity.
  - now split.
Qed.

Section FunFacts.
Import Js StatisticsCalculator.

Lemma gtZ_num (d n : Z) : gtZ (num d) n = (n <? d).
Proof.
  unfold gtZ, num, Qle_bool. cbn [Qnum Qden inject_Z].
  rewrite !Z.mul_1_r. rewrite Z.ltb_antisym. reflexivity.
Qed.

(** The pages fact is there from 1500 characters on. *)
Lemma charactersFact_icons (h : Dates.Host) (commentStats : CommentStats.t) :
  map FunFact.icon (charactersFact h commentStats)
  = if 1500 <=? CommentStats.totalCharacters commentStats then ["📝"] else [].
Proof.
  unfold charactersFact.
  set (total := CommentStats.totalCharacters commentStats).
  destruct (rounded_average total 3000) as (d & Hd & Hq); [lia|].
  rewrite Hd, gtZ_num. unfold roundedQuotient in Hq.
  destruct (Z.ltb_spec 0 total), (Z.ltb_spec 0 d), (Z.leb_spec 1500 total);
    try reflexivity; lia.
Qed.

Lemma geZ_twelfth (n : Z) : geZ (div (num n) (num 12)) 1 = (12 <=? n).
Proof.
  rewrite div_num by lia. cbn [geZ].
  destruct (Z.leb_spec 12 n) as [Hle|Hlt].
  - apply Qle_bool_iff. rewrite Qred_correct.
    unfold Qle, Qdiv, Qmult, Qinv, inject_Z. cbn. lia.
  - destruct (Qle_bool _ _) eqn:E; [|reflexivity].
    apply Qle_bool_iff in E. rewrite Qred_correct in E.
    unfold Qle, Qdiv, Qmult, Qinv, inject_Z in E. cbn in E. lia.
Qed.

Lemma monthlyIssuesFact_icons (summary : Summary.t) :
  map FunFact.icon (monthlyIssuesFact summary)
  = if 12 <=? Summary.totalIssuesCreated summary then ["📊"] else [].
Proof.
  unfold monthlyIssuesFact. rewrite geZ_twelfth.
  destruct (12 <=? _); reflexivity.
Qed.

Lemma streakFact_icons (timeStats : TimeStats.t) :
  map FunFact.icon (streakFact timeStats)
  = if 2 <=? Streak.days (TimeStats.longestStreak timeStats) then ["🔥"] else [].
Proof.
  unfold streakFact.
  destruct (Z.ltb_spec 1 (Streak.days (TimeStats.longestStreak timeStats))),
           (Z.leb_spec 2 (Streak.days (TimeStats.longestStreak timeStats)));
    try reflexivity; lia.
Qed.

End FunFacts.

(** X6. Whatever the dataset, [calculateFunFacts] lists the fact of the
    busiest weekday and the fact of the busiest hour, so it never returns
    an empty list; before them comes the fact of the characters written
    exactly when the comments hold 1500 characters or more, after them the
    fact of the streak exactly when the longest streak has two days or
    more, and last the fact of the issues per month exactly when twelve
    issues or more were created. *)
Theorem fun_facts_present (h : Dates.Host) (data : Dataset.t) :
  let facts := StatisticsCalculator.calculateFunFacts h data in
  let characters :=
    CommentStats.totalCharacters (StatisticsCalculator.calculateCommentStats data) in
  let days :=
    Streak.days (TimeStats.longestStreak
                   (StatisticsCalculator.calculateTimeStats h data)) in
  let created := Js.len (Dataset.createdIssues data) in
  map FunFact.icon facts
  = (if 1500 <=? characters then ["📝"] else [])
    ++ ["📅"; "⏰"]
    ++ (if 2 <=? days then ["🔥"] else [])
    ++ (if 12 <=? created then ["📊"] else [])
  /\ facts <> []
  /\ (2 <= List.length facts <= 5)%nat.
Proof.
  cbv zeta.
  assert (Hicons :
    map FunFact.icon (StatisticsCalculator.calculateFunFacts h data)
    = (if 1500 <=? CommentStats.totalCharacters
                     (StatisticsCalculator.calculateCommentStats data)
       then ["📝"] else [])
      ++ ["📅"; "⏰"]
      ++ (if 2 <=? Streak.days (TimeStats.longestStreak
                                  (StatisticsCalculator.calculateTimeStats h data))
          then ["🔥"] else [])
      ++ (if 12 <=? Js.len (Dataset.createdIssues data) then ["📊"] else [])).
  { unfold StatisticsCalculator.calculateFunFacts.
    rewrite !map_app, charactersFact_icons, streakFact_icons,
      monthlyIssuesFact_icons.
    reflexivity. }
  split; [exact Hicons|].
  assert (Hlen : (2 <= List.length (StatisticsCalculator.calculateFunFacts h data)
                  <= 5)%nat).
  { rewrite <- (length_map FunFact.icon), Hicons. rewrite !length_app.
    destruct (1500 <=? _), (2 <=? _), (12 <=? _); cbn; lia. }
  split; [|exact Hlen].
  intros E. rewrite E in Hlen. cbn in Hlen. lia.
Qed.

Section OrderOfTheEvents.
Import Js StatisticsCalculator.

Lemma occurrences_perm (k : Z) (ks ks' : list Z) :
  Permutation ks ks' -> occurrences k ks = occurrences k ks'.
Proof.
  induction 1 as [|x l l' _ IH|x y l|l l' l'' _ IH1 _ IH2].
  - reflexivity.
  - rewrite !occurrences_cons, IH. reflexivity.
  - rewrite !occurrences_cons. lia.
  - congruence.
Qed.

Lemma histogram_perm (buckets ks ks' : list Z) :
  Permutation ks ks' -> histogram buckets ks = histogram buckets ks'.
Proof.
  intros Hp. unfold histogram. apply map_ext. intros k.
  now rewrite (occurrences_perm k ks ks' Hp).
Qed.

Lemma countActivities_histograms (h : Dates.Host) (activities : list Activity.t) :
  countActivities h activities =
    (histogram (range 1 12)
       (map (fun a => Dates.getMonth h (Activity.timestamp a) + 1) activities),
     histogram (range 0 7)
       (map (fun a => Dates.getDay h (Activity.timestamp a)) activities),
     histogram (range 0 24)
       (map (fun a => Dates.getHours h (Activity.timestamp a)) activities)).
Proof.
  rewrite countActivities_split.
  rewrite !increments_histogram by apply range_NoDup. reflexivity.
Qed.

Lemma countActivities_perm (h : Dates.Host) (l l' : list Activity.t) :
  Permutation l l' -> countActivities h l = countActivities h l'.
Proof.
  intros Hp. rewrite !countActivities_histograms.
  f_equal; [f_equal|]; apply histogram_perm; now apply Permutation_map.
Qed.

Lemma sortedDays_perm (h : Dates.Host) (l l' : list Activity.t) :
  Permutation l l' -> sortedDays h l = sortedDays h l'.
Proof.
  intros Hp.
  destruct (sortedDays_spec h l) as (_ & Hin & Hs).
  destruct (sortedDays_spec h l') as (_ & Hin' & Hs').
  apply strictly_sorted_unique; [exact Hs|exact Hs'|].
  intros key. rewrite Hin, Hin'. unfold dayKeys.
  split; apply Permutation_in; [|symmetry]; now apply Permutation_map.
Qed.

Lemma calculateLongestStreak_perm (h : Dates.Host) (l l' : list Activity.t) :
  Permutation l l' -> calculateLongestStreak h l = calculateLongestStreak h l'.
Proof.
  intros Hp. unfold calculateLongestStreak.
  rewrite (sortedDays_perm h l l' Hp).
  unfold len. now rewrite (Permutation_length Hp).
Qed.

Lemma allActivities_perm (data data' : Dataset.t) :
  Permutation (Dataset.createdIssues data) (Dataset.createdIssues data') ->
  Permutation (Dataset.comments data) (Dataset.comments data') ->
  Permutation (Dataset.articles data) (Dataset.articles data') ->
  Permutation (allActivities data) (allActivities data').
Proof.
  intros H1 H2 H3. unfold allActivities.
  repeat apply Permutation_app; now apply Permutation_map.
Qed.

End OrderOfTheEvents.

(** X7. [calculateTimeStats] does not depend on the order in which the
    created issues, the comments and the articles are listed: two datasets
    with the same events have the same histograms, the same busiest month,
    weekday and hour, and the same longest streak. *)
Theorem time_statistics_ignore_the_order (h : Dates.Host)
  (data data' : Dataset.t) :
  Permutation (Dataset.createdIssues data) (Dataset.createdIssues data') ->
  Permutation (Dataset.comments data) (Dataset.comments data') ->
  Permutation (Dataset.articles data) (Dataset.articles data') ->
  StatisticsCalculator.calculateTimeStats h data
  = StatisticsCalculator.calculateTimeStats h data'.
Proof.
  intros H1 H2 H3.
  pose proof (allActivities_perm data data' H1 H2 H3) as Hp.
  unfold StatisticsCalculator.calculateTimeStats.
  rewrite (countActivities_perm h _ _ Hp).
  rewrite (calculateLongestStreak_perm h _ _ Hp).
  reflexivity.
Qed.

Section CommentedIssues.
Import Js StatisticsCalculator.

(** One iteration of the loop that counts the comments of each issue. *)
Let step (counts : JsObject IssueCount.t) (comment : Comment.t)
  : JsObject IssueCount.t :=
  touch {| IssueCount.issue := Comment.issue comment; IssueCount.count := 0 |}
        (fun e => {| IssueCount.issue := IssueCount.issue e;
                     IssueCount.count := IssueCount.count e + 1 |})
        (IssueRef.idReadable (Comment.issue comment))
        counts.

Lemma countIssueComments_fold (comments : list Comment.t) :
  countIssueComments comments = fold_left step comments [].
Proof. reflexivity. Qed.

Lemma issue_counts_keys (comments : list Comment.t) :
  forall o, ownNames (issueIds comments) ->
  keys (fold_left step comments o)
  = keys o ++ uniqueStrings (keys o) (issueIds comments).
Proof.
  induction comments as [|c comments IH]; intros o Hown.
  - cbn. now rewrite app_nil_r.
  - cbn [fold_left issueIds map uniqueStrings].
    assert (Hc : inherited (IssueRef.idReadable (Comment.issue c)) = false)
      by (apply Hown; now left).
    rewrite IH by (intros k Hk; apply Hown; now right).
    assert (Hstep : keys (step o c)
                    = if existsb (String.eqb (IssueRef.idReadable (Comment.issue c)))
                                 (keys o)
                      then keys o
                      else keys o ++ [IssueRef.idReadable (Comment.issue c)])
      by (unfold step; apply keys_touch; exact Hc).
    rewrite Hstep.
    destruct (existsb (String.eqb (IssueRef.idReadable (Comment.issue c)))
                      (keys o)); [reflexivity|].
    rewrite <- app_assoc. cbn [app]. do 2 f_equal.
    apply uniqueStrings_ext. intros x. rewrite in_app_iff. cbn [In]. tauto.
Qed.

Lemma issue_counts_at (comments : list Comment.t) (k : string) :
  forall o, ownNames (issueIds comments) ->
  commentsAt (fold_left step comments o) k
  = commentsAt o k + count k (issueIds comments).
Proof.
  induction comments as [|c comments IH]; intros o Hown.
  - cbn. unfold count, len. cbn. lia.
  - cbn [fold_left issueIds map].
    assert (Hc : inherited (IssueRef.idReadable (Comment.issue c)) = false)
      by (apply Hown; now left).
    rewrite IH by (intros j Hj; apply Hown; now right).
    rewrite count_cons. unfold commentsAt at 1. unfold step.
    rewrite (getOwn_touch _ _ _ _ _ Hc), (String.eqb_sym k).
    destruct (String.eqb_spec (IssueRef.idReadable (Comment.issue c)) k)
      as [<-|Hne].
    + unfold commentsAt.
      destruct (getOwn o (IssueRef.idReadable (Comment.issue c)));
        cbn [IssueCount.count]; fold (issueIds comments); lia.
    + unfold commentsAt. fold (issueIds comments). lia.
Qed.

Lemma issue_counts_filed (all : list Comment.t) (comments : list Comment.t) :
  forall o, ownNames (issueIds comments) ->
  (forall c, In c comments -> In c all) ->
  filed all o -> filed all (fold_left step comments o).
Proof.
  induction comments as [|c comments IH]; intros o Hown Hsub Hfiled;
    [exact Hfiled|].
  cbn [fold_left].
  apply IH; [intros k Hk; apply Hown; now right
            |intros x Hx; apply Hsub; now right|].
  assert (Hc : inherited (IssueRef.idReadable (Comment.issue c)) = false)
    by (apply Hown; now left).
  intros k e. unfold step. rewrite (getOwn_touch _ _ _ _ _ Hc).
  destruct (String.eqb_spec (IssueRef.idReadable (Comment.issue c)) k)
    as [<-|Hne]; [|apply Hfiled].
  intros [= <-]. cbn [IssueCount.issue].
  destruct (getOwn o (IssueRef.idReadable (Comment.issue c))) as [e0|] eqn:Hget.
  - now apply Hfiled.
  - cbn [IssueCount.issue]. split; [reflexivity|].
    exists c. split; [apply Hsub; now left|reflexivity].
Qed.

Lemma count_nonneg (k : string) (names : list string) : 0 <= count k names.
Proof. unfold count, len. lia. Qed.

Lemma count_pos_In (k : string) (names : list string) :
  0 < count k names -> In k names.
Proof.
  unfold count, len. intros H.
  destruct (filter (String.eqb k) names) as [|x rest] eqn:E; [cbn in H; lia|].
  assert (Hx : In x (filter (String.eqb k) names)) by (rewrite E; now left).
  apply filter_In in Hx as [Hx Hk]. apply String.eqb_eq in Hk. now subst.
Qed.

(** X8. Where no readable id of an issue is the name of a member of
    [Object.prototype], the most commented issue of a dataset with comments
    is the issue of one of the comments, the count reported with it is the
    number of the comments that carry its readable id, and no readable id
    is carried by more comments. *)
Theorem most_commented_issue (data : Dataset.t) :
  let comments := Dataset.comments data in
  let ids := issueIds comments in
  ownNames ids ->
  comments <> [] ->
  exists top,
    CommentStats.mostCommentedIssue
      (StatisticsCalculator.calculateCommentStats data) = Some top
    /\ (exists comment,
          In comment comments /\ Comment.issue comment = IssueCount.issue top)
    /\ IssueCount.count top
       = count (IssueRef.idReadable (IssueCount.issue top)) ids
    /\ forall id, count id ids <= IssueCount.count top.
Proof.
  cbv zeta. intros Hown Hne.
  set (comments := Dataset.comments data) in *.
  set (o := StatisticsCalculator.countIssueComments comments).
  assert (Hkeys : keys o = uniqueStrings [] (issueIds comments)).
  { subst o. rewrite countIssueComments_fold.
    now rewrite (issue_counts_keys comments [] Hown). }
  assert (Hnd : NoDup (keys o)).
  { rewrite Hkeys. apply uniqueStrings_spec. }
  assert (Hat : forall k, commentsAt o k = count k (issueIds comments)).
  { intros k. subst o. rewrite countIssueComments_fold.
    now rewrite (issue_counts_at comments k [] Hown). }
  assert (Hfiled : filed comments o).
  { subst o. rewrite countIssueComments_fold.
    apply issue_counts_filed; [exact Hown|auto|].
    intros k e H. discriminate. }
  assert (Hvalues : forall e, In e (Js.values o) <->
                              exists k, Js.getOwn o k = Some e).
  { intros e. unfold Js.values. rewrite in_map_iff. split.
    - intros ([k e'] & <- & Hin). exists k. cbn [snd].
      apply (getOwn_In o k e' Hnd).
      exact (Permutation_in _ (entries_perm o) Hin).
    - intros (k & Hk). exists (k, e). split; [reflexivity|].
      apply (getOwn_In o k e Hnd) in Hk.
      exact (Permutation_in _ (Permutation_sym (entries_perm o)) Hk). }
  assert (Hsome : Js.values o <> []).
  { intros E.
    destruct comments as [|c rest] eqn:Ec; [now apply Hne|].
    assert (Hc : In (IssueRef.idReadable (Comment.issue c)) (keys o)).
    { rewrite Hkeys. apply uniqueStrings_spec. split; [now left|tauto]. }
    destruct (Js.getOwn o (IssueRef.idReadable (Comment.issue c))) as [e|] eqn:G.
    - assert (In e (Js.values o)) by (apply Hvalues; eauto).
      rewrite E in H. contradiction.
    - apply getOwn_None in G. contradiction. }
  destruct (sorted_head_nonempty IssueCount.count _ Hsome) as (top & Htop).
  exists top. split.
  - unfold StatisticsCalculator.calculateCommentStats.
    fold comments. rewrite (len_nonzero comments Hne).
    cbn [CommentStats.mostCommentedIssue]. exact Htop.
  - apply sorted_head_firstLargest in Htop as (pre & post & E & Hpre & Hpost).
    assert (Hin : In top (Js.values o))
      by (rewrite E; apply in_or_app; right; now left).
    apply Hvalues in Hin as (k & Hk).
    destruct (Hfiled k top Hk) as [Hid Hissue].
    assert (Hcount : IssueCount.count top = count k (issueIds comments)).
    { rewrite <- Hat. unfold commentsAt. now rewrite Hk. }
    split; [exact Hissue|]. split; [now rewrite Hid|].
    intros id.
    destruct (Js.getOwn o id) as [e|] eqn:G.
    + assert (He : In e (Js.values o)) by (apply Hvalues; eauto).
      assert (Hle : IssueCount.count e <= IssueCount.count top).
      { rewrite E in He. rewrite Forall_forall in Hpre, Hpost.
        apply in_app_or in He as [He|[<-|He]].
        - specialize (Hpre e He). cbn in Hpre. lia.
        - lia.
        - exact (Hpost e He). }
      rewrite <- (Hat id). unfold commentsAt. now rewrite G.
    + rewrite <- (Hat id). unfold commentsAt. rewrite G.
      rewrite Hcount. apply count_nonneg.
Qed.

End CommentedIssues.

Section BaseUrl.
Import Js Async YouTrackClient.

Lemma removeTrailingSlash_slash (s : string) :
  removeTrailingSlash (s ++ "/") = s.
Proof.
  induction s as [|c s IH]; [reflexivity|].
  cbn [append]. change (removeTrailingSlash (String c (s ++ "/")))
    with (match (s ++ "/")%string with
          | EmptyString => if Ascii.eqb c "/" then EmptyString
                           else String c (s ++ "/")
          | String _ _ => String c (removeTrailingSlash (s ++ "/"))
          end).
  destruct s as [|d s]; cbn [append] in *; now rewrite IH.
Qed.

Lemma removeTrailingSlash_other (s : string) (c : ascii) :
  c <> "/"%char ->
  removeTrailingSlash (s ++ String c EmptyString) = (s ++ String c EmptyString)%string.
Proof.
  intros Hc. induction s as [|d s IH].
  - cbn. apply Ascii.eqb_neq in Hc. now rewrite Hc.
  - cbn [append].
    change (removeTrailingSlash (String d (s ++ String c EmptyString)))
      with (match (s ++ String c EmptyString)%string with
            | EmptyString => if Ascii.eqb d "/" then EmptyString
                             else String d (s ++ String c EmptyString)
            | String _ _ =>
                String d (removeTrailingSlash (s ++ String c EmptyString))
            end).
    destruct s as [|d' s]; cbn [append] in *; now rewrite IH.
Qed.

End BaseUrl.

(** X9. The constructor of the client drops one slash from the end of the
    base URL and no more: the client made for [base/] has the base URL
    [base] and the API base [base/api], whatever [base] is (so a base
    that itself ends in a slash keeps that one), and it is the client made
    for [base] whenever [base] does not end in a slash. *)
Theorem trailing_slash_of_the_base_url (base token : string) :
  let client := YouTrackClient.new (base ++ "/") token in
  YouTrackClient.baseUrl client = base
  /\ YouTrackClient.apiBase client = (base ++ "/api")%string
  /\ YouTrackClient.baseUrl (YouTrackClient.new ((base ++ "/") ++ "/") token)
     = (base ++ "/")%string
  /\ YouTrackClient.baseUrl (YouTrackClient.new EmptyString token) = EmptyString
  /\ forall c : ascii,
       c <> "/"%char ->
       YouTrackClient.new (base ++ String c EmptyString) token
       = YouTrackClient.new ((base ++ String c EmptyString) ++ "/") token.
Proof.
  cbv zeta. unfold YouTrackClient.new.
  cbn [YouTrackClient.baseUrl YouTrackClient.apiBase].
  rewrite !removeTrailingSlash_slash.
  repeat split.
  intros c Hc.
  rewrite removeTrailingSlash_slash, removeTrailingSlash_other by exact Hc.
  reflexivity.
Qed.

Section Confinement.
Import Js Async YouTrackClient DataCollector.
Local Open Scope async_scope.
Variable client : YouTrackClient.t.

Lemma confined_ret {A} (a : A) : confined client (ret a).
Proof. intros w. exists []. cbn. now rewrite app_nil_r. Qed.

Lemma confined_throw {A} (e : JsError) : confined client (@throw A e).
Proof. intros w. exists []. cbn. now rewrite app_nil_r. Qed.

Lemma confined_out_of_fuel {A} :
  confined client (fun w : World => (@OutOfFuel A, w)).
Proof. intros w. exists []. cbn. now rewrite app_nil_r. Qed.

Lemma confined_bind {A B} (c : M A) (k : A -> M B) :
  confined client c -> (forall a, confined client (k a)) ->
  confined client (bind c k).
Proof.
  intros Hc Hk w. unfold bind.
  destruct (Hc w) as (new1 & E1 & F1).
  destruct (c w) as [[a|e|] w1] eqn:Ec; cbn [snd] in *.
  - destruct (Hk a w1) as (new2 & E2 & F2).
    exists (new1 ++ new2). rewrite E2, E1, app_assoc.
    split; [reflexivity|]. now apply Forall_app.
  - now exists new1.
  - now exists new1.
Qed.

Lemma confined_attempt {A} (c : M A) :
  confined client c -> confined client (attempt c).
Proof.
  intros Hc w. unfold attempt.
  destruct (Hc w) as (new & E & F).
  destruct (c w) as [[a|e|] w1]; cbn [snd] in *; now exists new.
Qed.

Lemma confined_request {A} (endpoint : Endpoint A) (path : string) :
  confined client (request client endpoint path).
Proof.
  intros w. rewrite request_sends_once. cbn [sent requests].
  exists [requestOf client path]. split; [reflexivity|].
  constructor; [now exists path|constructor].
Qed.

Lemma confined_listen (l : Listener) (message : string) :
  confined client (listen l message).
Proof.
  intros w. unfold listen. exists [].
  destruct (l (progress w) message); cbn; now rewrite app_nil_r.
Qed.

Lemma confined_notify (l : option Listener) (message : string) :
  confined client (notify (listening l) message).
Proof.
  destruct l as [l|]; cbn [listening option_map notify].
  - apply confined_listen.
  - apply confined_ret.
Qed.

Lemma confined_pageLoop {A} (fuel : nat) (fetchPage : Z -> M (list A))
  (afterPage : list A -> M unit) :
  (forall skip, confined client (fetchPage skip)) ->
  (forall all, confined client (afterPage all)) ->
  forall all skip, confined client (pageLoop fuel fetchPage afterPage all skip).
Proof.
  intros Hfetch Hafter.
  induction fuel as [|fuel IH]; intros all skip; cbn [pageLoop].
  - apply confined_out_of_fuel.
  - apply confined_bind; [apply Hfetch|]. intros page.
    destruct (len page =? 0); [apply confined_ret|].
    apply confined_bind; [apply Hafter|]. intros _.
    destruct (len page <? top); [apply confined_ret|apply IH].
Qed.

Lemma confined_articlesLoop (fuel : nat) (tracker : Tracker)
  (onProgress : option Callback) (projectShortNames : list string) :
  (forall message, confined client (notify onProgress message)) ->
  forall allArticles,
    confined client (articlesLoop fuel client tracker onProgress allArticles
                                  projectShortNames).
Proof.
  intros Hnotify.
  induction projectShortNames as [|shortName rest IH]; intros allArticles;
    cbn [articlesLoop].
  - apply confined_ret.
  - apply confined_bind; [|intros a; apply IH].
    unfold articlesStep. apply confined_bind.
    + apply confined_attempt. unfold projectArticles.
      apply confined_pageLoop; intros; [apply confined_request|apply confined_ret].
    + intros [error|pages]; [apply confined_ret|].
      apply confined_bind; [|intros _; apply confined_ret].
      apply confined_attempt, Hnotify.
Qed.

Lemma confined_promiseAll4 {A B C D} (a : M A) (b : M B) (c : M C) (d : M D) :
  confined client a -> confined client b -> confined client c ->
  confined client d -> confined client (promiseAll4 a b c d).
Proof.
  intros Ha Hb Hc Hd w0. unfold promiseAll4.
  destruct (Ha w0) as (n1 & E1 & F1). destruct (a w0) as [ra w1].
  destruct (Hb w1) as (n2 & E2 & F2). destruct (b w1) as [rb w2].
  destruct (Hc w2) as (n3 & E3 & F3). destruct (c w2) as [rc w3].
  destruct (Hd w3) as (n4 & E4 & F4). destruct (d w3) as [rd w4].
  cbn [snd] in *.
  assert (H : requests w4 = requests w0 ++ (n1 ++ n2 ++ n3 ++ n4)
              /\ Forall (ofClient client) (n1 ++ n2 ++ n3 ++ n4)).
  { split; [rewrite E4, E3, E2, E1; now rewrite <- !app_assoc|].
    repeat (apply Forall_app; split); assumption. }
  exists (n1 ++ n2 ++ n3 ++ n4).
  destruct ra, rb, rc, rd; exact H.
Qed.

Lemma collectYearData_confined (fuel : nat) (tracker : Tracker)
  (nowISO : string) (year : Z) (articleProjects : list string)
  (l : option Listener) :
  confined client (collectYearData fuel client tracker nowISO year
                                   articleProjects (listening l)).
Proof.
  unfold collectYearData.
  apply confined_bind; [apply confined_notify|]. intros _.
  apply confined_bind; [apply confined_request|]. intros currentUser.
  apply confined_bind; [apply confined_notify|]. intros _.
  apply confined_bind.
  - apply confined_promiseAll4.
    + apply confined_pageLoop; intros;
        [apply confined_request|apply confined_notify].
    + apply confined_pageLoop; intros;
        [apply confined_request|apply confined_notify].
    + apply confined_pageLoop; intros;
        [apply confined_request|apply confined_notify].
    + unfold getArticles. destruct (len articleProjects =? 0);
        [apply confined_ret|].
      apply confined_articlesLoop. intros message. apply confined_notify.
  - intros [[[createdIssues resolvedIssues] issuesWithComments] allArticles].
    apply confined_bind; [apply confined_notify|]. intros _.
    apply confined_bind; [apply confined_notify|]. intros _.
    apply confined_ret.
Qed.

End Confinement.

(** X10. Whatever the tracker answers and however the collection ends,
    every request that [collectYearData] sends is a request of its client:
    its URL is the API base of the client followed by a path, and its
    headers are the bearer token of the client and the two JSON content
    types. A listener to the progress sends nothing. *)
Theorem requests_stay_with_the_client (fuel : nat) (client : YouTrackClient.t)
  (tracker : YouTrackClient.Tracker) (nowISO : string) (year : Z)
  (articleProjects : list string) (l : option Async.Listener)
  (w : Async.World) :
  let w' := snd (DataCollector.collectYearData fuel client tracker nowISO year
                   articleProjects (listening l) w) in
  exists new,
    Async.requests w' = Async.requests w ++ new
    /\ Forall (ofClient client) new
    /\ forall req, In req new ->
         (exists path,
            Async.url req = (YouTrackClient.apiBase client ++ path)%string)
         /\ Async.headers req
            = [ ("Authorization",
                 ("Bearer " ++ YouTrackClient.token client)%string);
                ("Accept", "application/json");
                ("Content-Type", "application/json") ].
Proof.
  cbv zeta.
  destruct (collectYearData_confined client fuel tracker nowISO year
              articleProjects l w) as (new & E & F).
  exists new. split; [exact E|]. split; [exact F|].
  intros req Hreq. rewrite Forall_forall in F.
  destruct (F req Hreq) as (path & ->). split; [now exists path|reflexivity].
Qed.

Section PageTrace.
Import Js Async YouTrackClient.
Local Open Scope async_scope.
Context {A : Type}.
Variable client : YouTrackClient.t.
Variable endpoint : Endpoint (list A).
Variable path : Z -> string.
Variable afterPage : list A -> M unit.
Variable note : list A -> list string.
Hypothesis afterPage_notes :
  forall all w,
    afterPage all w
    = (Return tt, {| requests := requests w; progress := progress w ++ note all |}).

Let fetchPage (skip : Z) : M (list A) := request client endpoint (path skip).

Lemma pageRequests_snoc (skip : Z) (n : nat) :
  pageRequests client path skip (S n)
  = pageRequests client path skip n
    ++ [requestOf client (path (skip + top * Z.of_nat n))].
Proof.
  unfold pageRequests. rewrite seq_S, map_app. reflexivity.
Qed.

(** The loop through a stretch of full pages. *)
Lemma pageLoop_through_full_pages (fulls : list (list A)) :
  forall (fuel : nat) (all : list A) (skip : Z) (w : World),
    Forall (fun page => top <= len page) fulls ->
    serves client endpoint path (requests w) skip fulls ->
    pageLoop (List.length fulls + fuel) fetchPage afterPage all skip w
    = pageLoop fuel fetchPage afterPage (all ++ List.concat fulls)
               (skip + top * Z.of_nat (List.length fulls))
               {| requests := requests w
                              ++ pageRequests client path skip (List.length fulls);
                  progress := progress w ++ notesOf note all fulls |}.
Proof.
  induction fulls as [|page fulls IH]; intros fuel all skip w Hfull Hserves.
  - cbn [List.length List.concat notesOf Nat.add]. unfold pageRequests. cbn [seq map].
    rewrite !app_nil_r. replace (skip + top * Z.of_nat 0) with skip by lia.
    now destruct w.
  - cbn [serves] in Hserves.
    destruct Hserves as [(status & statusText & text & Hok & Hanswer) Hlater].
    apply Forall_cons_iff in Hfull as [Hpage Hfull].
    cbn [List.length Nat.add pageLoop]. unfold bind at 1. unfold fetchPage at 1.
    rewrite (request_served _ _ _ _ _ _ _ _ Hok Hanswer).
    assert (Hne : (len page =? 0) = false)
      by (apply Z.eqb_neq; unfold top in *; lia).
    rewrite Hne. unfold bind at 1. rewrite afterPage_notes.
    assert (Hnot : (len page <? top) = false) by (apply Z.ltb_ge; lia).
    rewrite Hnot.
    rewrite IH; [|exact Hfull|exact Hlater].
    cbn [sent requests progress List.concat notesOf].
    rewrite pageRequests_S. rewrite <- !app_assoc. cbn [app].
    replace (skip + top * Z.of_nat (S (List.length fulls)))
      with (skip + top + top * Z.of_nat (List.length fulls)) by lia.
    reflexivity.
Qed.

(** The last step, on a short or empty page. *)
Lemma pageLoop_last_page (fuel : nat) (all last : list A) (skip : Z) (w : World) :
  len last < top ->
  serves client endpoint path (requests w) skip [last] ->
  pageLoop (S fuel) fetchPage afterPage all skip w
  = (Return (all ++ last),
     {| requests := requests w ++ [requestOf client (path skip)];
        progress := progress w ++ notesOf note all (nonEmpty [last]) |}).
Proof.
  intros Hshort [(status & statusText & text & Hok & Hanswer) _].
  cbn [pageLoop]. unfold bind at 1. unfold fetchPage.
  rewrite (request_served _ _ _ _ _ _ _ _ Hok Hanswer).
  unfold nonEmpty. cbn [filter].
  destruct (len last =? 0) eqn:Hempty.
  - apply Z.eqb_eq, len_zero_nil in Hempty. subst last.
    cbn [negb notesOf ret sent]. now rewrite !app_nil_r.
  - cbn [negb notesOf]. unfold bind. rewrite afterPage_notes.
    apply Z.ltb_lt in Hshort. rewrite Hshort.
    cbn [ret sent requests progress]. now rewrite app_nil_r.
Qed.

(** The last step, on a request that fails. *)
Lemma pageLoop_rejected (fuel : nat) (all : list A) (skip : Z) (w : World)
  (e : JsError) :
  rejects endpoint (requests w) (requestOf client (path skip)) e ->
  pageLoop (S fuel) fetchPage afterPage all skip w
  = (Throw e, sent w (requestOf client (path skip))).
Proof.
  intros Hrej. cbn [pageLoop]. unfold bind, fetchPage.
  rewrite (surjective_pairing (request client endpoint (path skip) w)).
  rewrite request_sends_once, request_outcome.
  unfold rejects in Hrej.
  destruct (endpoint (requests w) (requestOf client (path skip)))
    as [e'|status statusText text json]; [now subst|].
  destruct (ok status).
  - now subst json.
  - destruct text; now subst.
Qed.

Lemma serves_app (pages later : list (list A)) :
  forall (log : list Request) (skip : Z),
    serves client endpoint path log skip (pages ++ later) ->
    serves client endpoint path log skip pages
    /\ serves client endpoint path
              (log ++ pageRequests client path skip (List.length pages))
              (skip + top * Z.of_nat (List.length pages)) later.
Proof.
  induction pages as [|page pages IH]; intros log skip H.
  - cbn [app List.length] in *. unfold pageRequests. cbn [seq map].
    rewrite app_nil_r. replace (skip + top * Z.of_nat 0) with skip by lia.
    now split.
  - cbn [app serves] in H. destruct H as [Hpage Hlater].
    apply IH in Hlater as [H1 H2]. split; [now split|].
    cbn [List.length]. rewrite pageRequests_S.
    rewrite <- app_assoc in H2. cbn [app] in H2.
    replace (skip + top * Z.of_nat (S (List.length pages)))
      with (skip + top + top * Z.of_nat (List.length pages)) by lia.
    exact H2.
Qed.

Lemma notesOf_app (all : list A) (pages later : list (list A)) :
  notesOf note all (pages ++ later)
  = notesOf note all pages ++ notesOf note (all ++ List.concat pages) later.
Proof.
  revert all. induction pages as [|page pages IH]; intros all.
  - cbn. now rewrite app_nil_r.
  - cbn [app notesOf List.concat]. rewrite IH, <- !app_assoc. reflexivity.
Qed.

Lemma nonEmpty_full (fulls : list (list A)) :
  Forall (fun page => top <= len page) fulls -> nonEmpty fulls = fulls.
Proof.
  induction 1 as [|page fulls Hpage _ IH]; [reflexivity|].
  unfold nonEmpty in *. cbn [filter].
  assert (Hne : (len page =? 0) = false)
    by (apply Z.eqb_neq; unfold top in *; lia).
  rewrite Hne. cbn [negb]. now rewrite IH.
Qed.

(** A whole run over full pages and a short one. *)
Lemma pageLoop_run (fuel : nat) (fulls : list (list A)) (last : list A)
  (w : World) :
  Forall (fun page => top <= len page) fulls ->
  len last < top ->
  (List.length fulls < fuel)%nat ->
  serves client endpoint path (requests w) 0 (fulls ++ [last]) ->
  pageLoop fuel fetchPage afterPage [] 0 w
  = (Return (List.concat (fulls ++ [last])),
     {| requests := requests w
                    ++ pageRequests client path 0 (S (List.length fulls));
        progress := progress w ++ notesOf note [] (nonEmpty (fulls ++ [last])) |}).
Proof.
  intros Hfull Hshort Hfuel Hserves.
  apply serves_app in Hserves as [Hfulls Hlast].
  replace fuel with (List.length fulls + S (fuel - S (List.length fulls)))%nat
    by lia.
  rewrite pageLoop_through_full_pages by assumption.
  rewrite (pageLoop_last_page _ _ last) by assumption.
  cbn [requests progress app]. rewrite pageRequests_snoc.
  unfold nonEmpty. rewrite filter_app. fold (nonEmpty fulls) (nonEmpty [last]).
  rewrite (nonEmpty_full fulls Hfull).
  rewrite notesOf_app, concat_app. cbn [List.concat].
  rewrite app_nil_r, <- !app_assoc. reflexivity.
Qed.

(** A run that meets a failing request after full pages. *)
Lemma pageLoop_run_rejected (fuel : nat) (fulls : list (list A)) (e : JsError)
  (w : World) :
  Forall (fun page => top <= len page) fulls ->
  (List.length fulls < fuel)%nat ->
  serves client endpoint path (requests w) 0 fulls ->
  rejects endpoint
          (requests w ++ pageRequests client path 0 (List.length fulls))
          (requestOf client (path (top * Z.of_nat (List.length fulls)))) e ->
  pageLoop fuel fetchPage afterPage [] 0 w
  = (Throw e,
     {| requests := requests w
                    ++ pageRequests client path 0 (S (List.length fulls));
        progress := progress w ++ notesOf note [] fulls |}).
Proof.
  intros Hfull Hfuel Hserves Hrej.
  replace fuel with (List.length fulls + S (fuel - S (List.length fulls)))%nat
    by lia.
  rewrite pageLoop_through_full_pages by assumption.
  rewrite pageLoop_rejected with (e := e) by exact Hrej.
  unfold sent. cbn [requests progress].
  rewrite pageRequests_snoc, <- app_assoc. reflexivity.
Qed.

End PageTrace.

Section FetchesAndTheirCallback.
Import Js Async YouTrackClient.
Local Open Scope async_scope.

Lemma notify_listening (l : option Listener) (message : string) (w : World) :
  (forall l0, l = Some l0 -> neverThrows l0) ->
  notify (listening l) message w
  = (Return tt, {| requests := requests w;
                   progress := progress w ++ told l message |}).
Proof.
  intros Hl. destruct l as [l0|]; cbn [listening option_map notify told].
  - unfold listen. now rewrite (Hl l0 eq_refl).
  - cbn. rewrite app_nil_r. now destruct w.
Qed.

Lemma notesOf_totals {A} (message : Z -> string) (pages : list (list A)) :
  forall all,
    notesOf (fun all => [message (len all)]) all pages
    = map message (runningTotals (len all) pages).
Proof.
  induction pages as [|page pages IH]; intros all; [reflexivity|].
  cbn [notesOf runningTotals map app]. rewrite IH.
  unfold len. rewrite length_app, Nat2Z.inj_add. reflexivity.
Qed.

Lemma fetch_fails_at_the_first_rejection {A} (fuel : nat)
  (client : YouTrackClient.t) (endpoint : Endpoint (list A))
  (path : Z -> string) (afterPage : list A -> M unit)
  (note : list A -> list string) (w : World) :
  (forall all w0,
     afterPage all w0
     = (Return tt, {| requests := requests w0;
                      progress := progress w0 ++ note all |})) ->
  failsAtTheFirstRejection fuel client endpoint path
    (pageLoop fuel (fun skip => request client endpoint (path skip))
              afterPage [] 0) w.
Proof.
  intros Hnotes fulls e Hfull Hfuel Hserves Hrej.
  eexists. split.
  - exact (pageLoop_run_rejected client endpoint path afterPage note Hnotes
             fuel fulls e w Hfull Hfuel Hserves Hrej).
  - reflexivity.
Qed.

Lemma fetch_reports_the_running_total {A} (fuel : nat)
  (client : YouTrackClient.t) (endpoint : Endpoint (list A))
  (path : Z -> string) (message : Z -> string) (l : Listener) (w : World) :
  neverThrows l ->
  reportsTheRunningTotal fuel client endpoint path message
    (pageLoop fuel (fun skip => request client endpoint (path skip))
              (fun all => notify (Some (listen l)) (message (len all))) [] 0) w.
Proof.
  intros Hl fulls last Hfull Hshort Hfuel Hserves.
  assert (Hnotes : forall (all : list A) w0,
            notify (Some (listen l)) (message (len all)) w0
            = (Return tt, {| requests := requests w0;
                             progress := progress w0 ++ [message (len all)] |})).
  { intros all w0. apply (notify_listening (Some l)).
    intros l0 [= <-]. exact Hl. }
  rewrite (pageLoop_run client endpoint path
             (fun all => notify (Some (listen l)) (message (len all)))
             (fun all => [message (len all)]) Hnotes
             fuel fulls last w Hfull Hshort Hfuel Hserves).
  cbn [snd progress]. now rewrite notesOf_totals.
Qed.

End FetchesAndTheirCallback.

(** X11. None of the paginated fetches (issues created, issues resolved,
    issues with comments, the articles of one project) returns a part of
    its result: when a request for a page fails after any number of full
    pages, the fetch fails with the error of that request, the pages it
    had are dropped, and it sends no further request. The progress
    callback is a listener that returns, or none. *)
Theorem a_failing_page_fails_the_fetch (fuel : nat) (client : YouTrackClient.t)
  (tracker : YouTrackClient.Tracker) (userId startDate endDate shortName : string)
  (l : option Async.Listener) (w : Async.World) :
  (forall l0, l = Some l0 -> neverThrows l0) ->
  failsAtTheFirstRejection fuel client (YouTrackClient.issues tracker)
    (createdPath tracker userId startDate endDate)
    (YouTrackClient.getIssuesCreatedByUser fuel client tracker userId startDate
       endDate (listening l)) w
  /\ failsAtTheFirstRejection fuel client (YouTrackClient.issues tracker)
       (resolvedPath tracker userId startDate endDate)
       (YouTrackClient.getIssuesResolvedByUser fuel client tracker userId
          startDate endDate (listening l)) w
  /\ failsAtTheFirstRejection fuel client
       (YouTrackClient.issuesWithComments tracker)
       (commentedPath tracker userId startDate endDate)
       (YouTrackClient.getIssuesWithComments fuel client tracker userId
          startDate endDate (listening l)) w
  /\ failsAtTheFirstRejection fuel client (YouTrackClient.articles tracker)
       (YouTrackClient.articlesPath shortName)
       (YouTrackClient.projectArticles fuel client tracker shortName) w.
Proof.
  intros Hl.
  split; [|split; [|split]].
  - eapply fetch_fails_at_the_first_rejection.
    intros all w0. now apply notify_listening.
  - eapply fetch_fails_at_the_first_rejection.
    intros all w0. now apply notify_listening.
  - eapply fetch_fails_at_the_first_rejection.
    intros all w0. now apply notify_listening.
  - apply (fetch_fails_at_the_first_rejection fuel client _ _ _
             (fun all => [])).
    intros all w0. cbn. rewrite app_nil_r. now destruct w0.
Qed.

(** X12. A fetch of issues tells a listener its running total: one message
    after each page that held something, [Fetched n created issues...]
    (or [resolved issues], or [issues with comments]) with [n] the number
    of issues fetched so far, that page included; an empty page brings no
    message, so a fetch that finds nothing reports nothing. *)
Theorem progress_reports_the_running_total (fuel : nat)
  (client : YouTrackClient.t) (tracker : YouTrackClient.Tracker)
  (userId startDate endDate : string) (l : Async.Listener) (w : Async.World) :
  neverThrows l ->
  reportsTheRunningTotal fuel client (YouTrackClient.issues tracker)
    (createdPath tracker userId startDate endDate)
    (fun n => ("Fetched " ++ Js.numToString n ++ " created issues...")%string)
    (YouTrackClient.getIssuesCreatedByUser fuel client tracker userId startDate
       endDate (Some (Async.listen l))) w
  /\ reportsTheRunningTotal fuel client (YouTrackClient.issues tracker)
       (resolvedPath tracker userId startDate endDate)
       (fun n => ("Fetched " ++ Js.numToString n ++ " resolved issues...")%string)
       (YouTrackClient.getIssuesResolvedByUser fuel client tracker userId
          startDate endDate (Some (Async.listen l))) w
  /\ reportsTheRunningTotal fuel client
       (YouTrackClient.issuesWithComments tracker)
       (commentedPath tracker userId startDate endDate)
       (fun n => ("Fetched " ++ Js.numToString n
                  ++ " issues with comments...")%string)
       (YouTrackClient.getIssuesWithComments fuel client tracker userId
          startDate endDate (Some (Async.listen l))) w.
Proof.
  intros Hl.
  split; [|split].
  - exact (fetch_reports_the_running_total fuel client _ _
             (fun n => ("Fetched " ++ Js.numToString n
                        ++ " created issues...")%string) l w Hl).
  - exact (fetch_reports_the_running_total fuel client _ _
             (fun n => ("Fetched " ++ Js.numToString n
                        ++ " resolved issues...")%string) l w Hl).
  - exact (fetch_reports_the_running_total fuel client _ _
             (fun n => ("Fetched " ++ Js.numToString n
                        ++ " issues with comments...")%string) l w Hl).
Qed.

Section Collection.
Import Js Async YouTrackClient DataCollector.
Local Open Scope async_scope.

Lemma request_rejected {A} (client : YouTrackClient.t) (endpoint : Endpoint A)
  (path : string) (w : World) (e : JsError) :
  rejects endpoint (requests w) (requestOf client path) e ->
  request client endpoint path w = (Throw e, sent w (requestOf client path)).
Proof.
  intros Hrej.
  rewrite (surjective_pairing (request client endpoint path w)).
  rewrite request_sends_once, request_outcome.
  unfold rejects in Hrej.
  destruct (endpoint (requests w) (requestOf client path))
    as [e'|status statusText text json]; [now subst|].
  destruct (ok status).
  - now subst json.
  - destruct text; now subst.
Qed.

Lemma bind_returns {A B} (c : M A) (k : A -> M B) (w w' : World) (b : B) :
  bind c k w = (Return b, w') ->
  exists a w1, c w = (Return a, w1) /\ k a w1 = (Return b, w').
Proof.
  unfold bind. destruct (c w) as [[a|e|] w1]; try discriminate.
  intros H. now exists a, w1.
Qed.

Lemma promiseAll4_returns {A B C D} (a : M A) (b : M B) (c : M C) (d : M D)
  (w w' : World) (r : A * B * C * D) :
  promiseAll4 a b c d w = (Return r, w') ->
  exists w1 w2 w3,
    a w = (Return (fst (fst (fst r))), w1)
    /\ b w1 = (Return (snd (fst (fst r))), w2)
    /\ c w2 = (Return (snd (fst r)), w3)
    /\ d w3 = (Return (snd r), w').
Proof.
  unfold promiseAll4.
  destruct (a w) as [ra w1] eqn:Ea. destruct (b w1) as [rb w2] eqn:Eb.
  destruct (c w2) as [rc w3] eqn:Ec. destruct (d w3) as [rd w4] eqn:Ed.
  destruct ra, rb, rc, rd; try discriminate.
  intros [= <- <-]. now exists w1, w2, w3.
Qed.

Lemma promiseAll4_rejects {A B C D} (a : M A) (b : M B) (c : M C) (d : M D)
  (w : World) :
  let w1 := snd (a w) in
  let w2 := snd (b w1) in
  let w3 := snd (c w2) in
  (exists e, fst (a w) = Throw e) \/ (exists e, fst (b w1) = Throw e)
  \/ (exists e, fst (c w2) = Throw e) \/ (exists e, fst (d w3) = Throw e) ->
  exists e, fst (promiseAll4 a b c d w) = Throw e.
Proof.
  cbv zeta. unfold promiseAll4.
  destruct (a w) as [ra w1]. cbn [fst snd]. destruct (b w1) as [rb w2].
  cbn [fst snd]. destruct (c w2) as [rc w3]. cbn [fst snd].
  destruct (d w3) as [rd w4]. cbn [fst snd].
  destruct ra, rb, rc, rd; cbn [fst];
    intros [(err & H)|[(err & H)|[(err & H)|(err & H)]]];
    try discriminate H; eauto.
Qed.

(** *** Runs whose end does not depend on the world *)

Lemma alike_bind {A B} (c c' : M A) (k k' : A -> M B) :
  alike c c' -> (forall a, alike (k a) (k' a)) -> alike (bind c k) (bind c' k').
Proof.
  intros Hc Hk w w'. unfold bind. specialize (Hc w w').
  destruct (c w) as [[a|e|] w1], (c' w') as [[a'|e'|] w1'];
    cbn [fst] in *; try congruence.
  injection Hc as <-. apply Hk.
Qed.

Lemma alike_request {A} (client : YouTrackClient.t) (endpoint : Endpoint A)
  (path : string) :
  stateless endpoint ->
  alike (request client endpoint path) (request client endpoint path).
Proof. intros Hs w w'. now apply request_stateless. Qed.

Lemma alike_notify (l : option Listener) (message : string) :
  (forall l0, l = Some l0 -> neverThrows l0) ->
  alike (notify (Some (fun m => notify (listening l) m)) message)
        (notify None message).
Proof.
  intros Hl w w'. cbn [notify]. now rewrite notify_listening.
Qed.

Lemma alike_pageLoop {A} (fuel : nat) (fetchPage : Z -> M (list A))
  (afterPage afterPage' : list A -> M unit) :
  (forall skip, alike (fetchPage skip) (fetchPage skip)) ->
  (forall all, alike (afterPage all) (afterPage' all)) ->
  forall all skip,
    alike (pageLoop fuel fetchPage afterPage all skip)
          (pageLoop fuel fetchPage afterPage' all skip).
Proof.
  intros Hfetch Hafter.
  induction fuel as [|fuel IH]; intros all skip; cbn [pageLoop].
  - intros w w'. reflexivity.
  - apply alike_bind; [apply Hfetch|]. intros page.
    destruct (len page =? 0); [intros w w'; reflexivity|].
    apply alike_bind; [apply Hafter|]. intros _.
    destruct (len page <? top); [intros w w'; reflexivity|apply IH].
Qed.


Lemma created_alike (fuel : nat) (client : YouTrackClient.t) (tracker : Tracker)
  (userId startDate endDate : string) (l : option Listener) :
  stateless (issues tracker) ->
  (forall l0, l = Some l0 -> neverThrows l0) ->
  alike (getIssuesCreatedByUser fuel client tracker userId startDate endDate
           (Some (fun m => notify (listening l) m)))
        (getIssuesCreatedByUser fuel client tracker userId startDate endDate None).
Proof.
  intros Hs Hl. apply alike_pageLoop.
  - intros skip. now apply alike_request.
  - intros all. now apply alike_notify.
Qed.

Lemma resolved_alike (fuel : nat) (client : YouTrackClient.t) (tracker : Tracker)
  (userId startDate endDate : string) (l : option Listener) :
  stateless (issues tracker) ->
  (forall l0, l = Some l0 -> neverThrows l0) ->
  alike (getIssuesResolvedByUser fuel client tracker userId startDate endDate
           (Some (fun m => notify (listening l) m)))
        (getIssuesResolvedByUser fuel client tracker userId startDate endDate None).
Proof.
  intros Hs Hl. apply alike_pageLoop.
  - intros skip. now apply alike_request.
  - intros all. now apply alike_notify.
Qed.

Lemma commented_alike (fuel : nat) (client : YouTrackClient.t) (tracker : Tracker)
  (userId startDate endDate : string) (l : option Listener) :
  stateless (issuesWithComments tracker) ->
  (forall l0, l = Some l0 -> neverThrows l0) ->
  alike (getIssuesWithComments fuel client tracker userId startDate endDate
           (Some (fun m => notify (listening l) m)))
        (getIssuesWithComments fuel client tracker userId startDate endDate None).
Proof.
  intros Hs Hl. apply alike_pageLoop.
  - intros skip. now apply alike_request.
  - intros all. now apply alike_notify.
Qed.

Lemma collectYearData_without_the_user (fuel : nat) (client : YouTrackClient.t)
  (tracker : Tracker) (nowISO : string) (year : Z)
  (articleProjects : list string) (l : option Listener) (w : World)
  (e : JsError) :
  (forall l0, l = Some l0 -> neverThrows l0) ->
  rejects (usersMe tracker) (requests w) (requestOf client currentUserPath) e ->
  collectYearData fuel client tracker nowISO year articleProjects (listening l) w
  = (Throw e,
     {| requests := requests w ++ [requestOf client currentUserPath];
        progress := progress w ++ told l "Fetching your user information..." |}).
Proof.
  intros Hl Hrej. unfold collectYearData.
  unfold bind at 1. rewrite notify_listening by exact Hl.
  unfold bind at 1. unfold getCurrentUser. fold currentUserPath.
  rewrite (request_rejected client (usersMe tracker) currentUserPath _ e)
    by exact Hrej.
  reflexivity.
Qed.

(** X13. Without the current user there is no collection: when the request
    for the user fails, [collectYearData] fails with the error of that
    request, after this one request and the one progress message that
    precedes it; no issue and no article is asked for. The progress
    callback is a listener that returns, or none. *)
Theorem no_collection_without_the_user (fuel : nat) (client : YouTrackClient.t)
  (tracker : Tracker) (nowISO : string) (year : Z)
  (articleProjects : list string) (l : option Listener) (w : World)
  (e : JsError) :
  (forall l0, l = Some l0 -> neverThrows l0) ->
  rejects (usersMe tracker) (requests w) (requestOf client currentUserPath) e ->
  collectYearData fuel client tracker nowISO year articleProjects (listening l) w
  = (Throw e,
     {| requests := requests w ++ [requestOf client currentUserPath];
        progress := progress w ++ told l "Fetching your user information..." |}).
Proof.
  apply collectYearData_without_the_user.
Qed.

(** X14. The issues are not fetched in isolation from each other: at a
    tracker whose answers depend on the request alone and that has
    answered with the user, a failure of any of the three fetches of issues
    (created, resolved, with comments) fails the whole collection, whatever
    the other fetches bring. The progress callback is a listener that
    returns, or none. *)
Theorem a_failing_fetch_of_issues_fails_the_collection (fuel : nat)
  (client : YouTrackClient.t) (tracker : Tracker) (nowISO : string) (year : Z)
  (articleProjects : list string) (l : option Listener) (w : World)
  (user : User.t) :
  let startDate := (numToString year ++ "-01-01")%string in
  let endDate := (numToString year ++ "-12-31")%string in
  (forall l0, l = Some l0 -> neverThrows l0) ->
  stateless (issues tracker) ->
  stateless (issuesWithComments tracker) ->
  fst (getCurrentUser client tracker w) = Return user ->
  (exists e, fst (getIssuesCreatedByUser fuel client tracker (User.login user)
                    startDate endDate None initialWorld) = Throw e)
  \/ (exists e, fst (getIssuesResolvedByUser fuel client tracker (User.login user)
                       startDate endDate None initialWorld) = Throw e)
  \/ (exists e, fst (getIssuesWithComments fuel client tracker (User.login user)
                       startDate endDate None initialWorld) = Throw e) ->
  exists e,
    fst (collectYearData fuel client tracker nowISO year articleProjects
                         (listening l) w) = Throw e.
Proof.
  cbv zeta. intros Hl Hs Hsc Huser Hfail. unfold collectYearData.
  unfold bind at 1. rewrite notify_listening by exact Hl.
  unfold bind at 1.
  set (w1 := {| requests := requests w; progress := _ |}).
  assert (Huser1 : fst (getCurrentUser client tracker w1) = Return user).
  { rewrite <- Huser. unfold getCurrentUser. rewrite !request_outcome.
    reflexivity. }
  destruct (getCurrentUser client tracker w1) as [r w2]. cbn [fst] in Huser1.
  subst r.
  unfold bind at 1. rewrite notify_listening by exact Hl.
  unfold bind at 1.
  set (w3 := {| requests := requests w2; progress := _ |}).
  match goal with
  | |- context [promiseAll4 ?a ?b ?c ?d w3] =>
      destruct (promiseAll4_rejects a b c d w3) as (e & He)
  end.
  - cbv zeta.
    destruct Hfail as [(e & He)|[(e & He)|(e & He)]].
    + left. exists e. rewrite <- He.
      apply (created_alike fuel client tracker _ _ _ l Hs Hl).
    + right. left. exists e. rewrite <- He.
      apply (resolved_alike fuel client tracker _ _ _ l Hs Hl).
    + right. right. left. exists e. rewrite <- He.
      apply (commented_alike fuel client tracker _ _ _ l Hsc Hl).
  - exists e.
    destruct (promiseAll4 _ _ _ _ w3) as [r w4]. cbn [fst] in He. now subst r.
Qed.

(** X15. What [collectYearData] returns, when it returns: a dataset of the
    year asked for, stamped with the time of the collection, whose user is
    the one the tracker answered with, whose created and resolved issues
    are what the two fetches returned, and in which every comment and every
    article is by that user (the login of the author, or of the reporter,
    is the login of the user) and was created inside the year. *)
Theorem what_a_collection_returns (fuel : nat) (client : YouTrackClient.t)
  (tracker : Tracker) (nowISO : string) (year : Z)
  (articleProjects : list string) (onProgress : option Callback)
  (w w' : World) (data : Dataset.t) :
  1000 <= year <= 9999 ->
  collectYearData fuel client tracker nowISO year articleProjects onProgress w
  = (Return data, w') ->
  let first := Dates.utcMs year 1 1 0 0 0 in
  let last := Dates.utcMs year 12 31 23 59 59 in
  let login := User.login (Dataset.user data) in
  let startDate := (numToString year ++ "-01-01")%string in
  let endDate := (numToString year ++ "-12-31")%string in
  let updateProgress := Some (fun message => notify onProgress message) in
  Dataset.year data = year
  /\ Dataset.collectedAt data = nowISO
  /\ (exists w1 w2,
        getCurrentUser client tracker w1 = (Return (Dataset.user data), w2))
  /\ (exists w1 w2,
        getIssuesCreatedByUser fuel client tracker login startDate endDate
          updateProgress w1 = (Return (Dataset.createdIssues data), w2))
  /\ (exists w1 w2,
        getIssuesResolvedByUser fuel client tracker login startDate endDate
          updateProgress w1 = (Return (Dataset.resolvedIssues data), w2))
  /\ (forall comment,
        In comment (Dataset.comments data) ->
        (exists author, Comment.author comment = Some author
                        /\ UserRef.login author = login)
        /\ first <= Comment.created comment <= last)
  /\ (forall article,
        In article (Dataset.articles data) ->
        (exists reporter, Article.reporter article = Some reporter
                          /\ UserRef.login reporter = login)
        /\ first <= Article.created article <= last).
Proof.
  intros Hyear Hrun. cbv zeta. unfold collectYearData in Hrun.
  apply bind_returns in Hrun as (u0 & w1 & _ & Hrun).
  apply bind_returns in Hrun as (user & w2 & Huser & Hrun).
  apply bind_returns in Hrun as (u1 & w3 & _ & Hrun).
  apply bind_returns in Hrun as (fetched & w4 & Hall & Hrun).
  destruct fetched as [[[createdIssues resolvedIssues] issuesWithComments]
                         allArticles].
  apply promiseAll4_returns in Hall as (w5 & w6 & w7 & Hc & Hr & Hi & Ha).
  cbn [fst snd] in Hc, Hr, Hi, Ha.
  apply bind_returns in Hrun as (u2 & w8 & _ & Hrun).
  apply bind_returns in Hrun as (u3 & w9 & _ & Hrun).
  unfold ret in Hrun. injection Hrun as <- _.
  cbn [Dataset.year Dataset.collectedAt Dataset.user Dataset.createdIssues
       Dataset.resolvedIssues Dataset.comments Dataset.articles].
  split; [reflexivity|]. split; [reflexivity|].
  split; [now exists w1, w2|].
  split; [now exists w3, w5|].
  split; [now exists w5, w6|].
  split.
  - intros comment Hin.
    apply extractUserComments_In in Hin
      as (issue & comments & raw & _ & _ & _ & Hkeep & ->).
    unfold keepsComment in Hkeep. apply andb_prop in Hkeep as [Hu Hy].
    apply isUser_spec in Hu. apply (withinYear_spec year _ Hyear) in Hy.
    cbn [enrich Comment.author Comment.created]. now split.
  - intros article Hin. unfold filterArticlesByUserAndYear in Hin.
    apply filter_In in Hin as [_ Hkeep].
    unfold keepsArticle in Hkeep. apply andb_prop in Hkeep as [Hu Hy].
    apply isUser_spec in Hu. apply (withinYear_spec year _ Hyear) in Hy.
    now split.
Qed.

End Collection.

Section Texts.
Import Js.

(** *** Reading back a printed integer *)

Lemma leadingDigits_acc (d : Decimal.uint) : forall acc : positive,
  leadingDigits (Some (Z.pos acc)) (NilEmpty.string_of_uint d)
  = Some (Z.pos (Pos.of_uint_acc d acc)).
Proof.
  induction d as [|d IH|d IH|d IH|d IH|d IH|d IH|d IH|d IH|d IH|d IH];
    intros acc; [reflexivity|..];
    cbn [NilEmpty.string_of_uint leadingDigits Pos.of_uint_acc];
    match goal with
    | |- context [digitValue ?c] =>
        let v := eval vm_compute in (digitValue c) in
        change (digitValue c) with v
    end; cbv iota; rewrite <- IH; do 2 f_equal; lia.
Qed.

Lemma leadingDigits_zero (d : Decimal.uint) :
  leadingDigits (Some 0) (NilEmpty.string_of_uint d)
  = Some (Z.of_N (Pos.of_uint d)).
Proof.
  induction d as [|d IH|d IH|d IH|d IH|d IH|d IH|d IH|d IH|d IH|d IH];
    [reflexivity|..];
    cbn [NilEmpty.string_of_uint leadingDigits Pos.of_uint];
    match goal with
    | |- context [digitValue ?c] =>
        let v := eval vm_compute in (digitValue c) in
        change (digitValue c) with v
    end; cbv iota;
    [exact IH|..]; cbn [Z.of_N]; rewrite <- leadingDigits_acc; reflexivity.
Qed.

Lemma leadingDigits_start (d : Decimal.uint) :
  d <> Decimal.Nil ->
  leadingDigits None (NilEmpty.string_of_uint d) = Some (Z.of_N (Pos.of_uint d)).
Proof.
  intros Hd. rewrite <- leadingDigits_zero.
  destruct d; [contradiction|..]; reflexivity.
Qed.

Lemma string_of_uint_starts_with_a_digit (d : Decimal.uint) :
  d <> Decimal.Nil ->
  exists c rest,
    NilEmpty.string_of_uint d = String c rest
    /\ isWhiteSpace c = false
    /\ Ascii.eqb c "-" = false /\ Ascii.eqb c "+" = false.
Proof.
  intros Hd. destruct d; [contradiction|..];
    cbn [NilEmpty.string_of_uint]; eexists; eexists;
    (split; [reflexivity|now repeat split]).
Qed.

(** [parseInt] reads a printed integer as that integer. *)
Lemma parseInt10_numToString (z : Z) : parseInt10 (numToString z) = Some z.
Proof.
  unfold numToString. destruct z as [|p|p]; [reflexivity|..];
    cbn [Z.to_int NilZero.string_of_int];
    pose proof (DecimalPos.Unsigned.to_uint_nonnil p) as Hnil;
    pose proof (DecimalPos.Unsigned.of_to p) as Hof;
    pose proof (leadingDigits_start _ Hnil) as Hread;
    destruct (string_of_uint_starts_with_a_digit _ Hnil)
      as (c & rest & E & Hws & Hminus & Hplus);
    unfold NilZero.string_of_uint;
    destruct (Pos.to_uint p) eqn:Ed; try contradiction.
  all: unfold parseInt10.
  all: try (rewrite E in *; cbn [trimStart]; rewrite Hws;
            destruct c as [[] [] [] [] [] [] [] []];
            try discriminate Hminus; try discriminate Hplus;
            rewrite Hread, Hof; reflexivity).
  all: cbn [trimStart]; change (isWhiteSpace "-") with false; cbv iota;
       rewrite Hread, Hof; reflexivity.
Qed.


(** *** Trimming *)

Lemma trimEnd_idempotent (s : string) : trimEnd (trimEnd s) = trimEnd s.
Proof.
  induction s as [|c s IH]; [reflexivity|].
  cbn [trimEnd]. destruct (trimEnd s) as [|d kept] eqn:E.
  - destruct (isWhiteSpace c) eqn:Hc; [reflexivity|].
    cbn [trimEnd]. now rewrite Hc.
  - change (trimEnd (String c (String d kept)))
      with (match trimEnd (String d kept) with
            | EmptyString =>
                if isWhiteSpace c then EmptyString else String c EmptyString
            | String _ _ as kept' => String c kept'
            end).
    now rewrite IH.
Qed.

Lemma trimStart_clean (c : ascii) (s : string) :
  isWhiteSpace c = false -> trimStart (String c s) = String c s.
Proof. intros H. cbn [trimStart]. now rewrite H. Qed.

Lemma trimEnd_head (c : ascii) (s : string) :
  isWhiteSpace c = false -> exists kept, trimEnd (String c s) = String c kept.
Proof.
  intros H. cbn [trimEnd]. destruct (trimEnd s).
  - rewrite H. now eexists.
  - now eexists.
Qed.

Lemma trimStart_head (s : string) :
  trimStart s = EmptyString
  \/ exists c rest, trimStart s = String c rest /\ isWhiteSpace c = false.
Proof.
  induction s as [|c s IH]; [now left|].
  cbn [trimStart]. destruct (isWhiteSpace c) eqn:Hc; [exact IH|].
  right. now exists c, s.
Qed.

(** Trimming a trimmed text changes nothing. *)
Lemma trim_idempotent (s : string) : trim (trim s) = trim s.
Proof.
  unfold trim. destruct (trimStart_head s) as [E|(c & rest & E & Hc)].
  - rewrite E. reflexivity.
  - rewrite E. destruct (trimEnd_head c rest Hc) as (kept & Ek).
    rewrite Ek, (trimStart_clean c kept Hc), <- Ek.
    apply trimEnd_idempotent.
Qed.

Lemma trim_after_space (s : string) : trim (String " " s) = trim s.
Proof. reflexivity. Qed.

Lemma contains_trimStart (c : ascii) (s : string) :
  contains c s = false -> contains c (trimStart s) = false.
Proof.
  induction s as [|c' s IH]; [reflexivity|].
  cbn [contains trimStart]. intros H. apply orb_false_iff in H as [H1 H2].
  destruct (isWhiteSpace c'); [now apply IH|].
  cbn [contains]. now rewrite H1, H2.
Qed.

Lemma contains_trimEnd (c : ascii) (s : string) :
  contains c s = false -> contains c (trimEnd s) = false.
Proof.
  induction s as [|c' s IH]; [reflexivity|].
  cbn [contains trimEnd]. intros H. apply orb_false_iff in H as [H1 H2].
  specialize (IH H2). destruct (trimEnd s) as [|d kept].
  - destruct (isWhiteSpace c'); [reflexivity|].
    cbn [contains]. now rewrite H1.
  - cbn [contains] in *. now rewrite H1, IH.
Qed.

Lemma contains_trim (c : ascii) (s : string) :
  contains c s = false -> contains c (trim s) = false.
Proof. intros H. now apply contains_trimEnd, contains_trimStart. Qed.

(** *** Splitting *)

Lemma split_nonempty (sep : ascii) (s : string) : split sep s <> [].
Proof.
  destruct s as [|c s]; [discriminate|].
  cbn [split]. destruct (Ascii.eqb c sep); [discriminate|].
  destruct (split sep s); discriminate.
Qed.

Lemma split_pieces (sep : ascii) (s : string) :
  Forall (fun piece => contains sep piece = false) (split sep s).
Proof.
  induction s as [|c s IH]; [now repeat constructor|].
  cbn [split]. destruct (Ascii.eqb c sep) eqn:E.
  - constructor; [reflexivity|exact IH].
  - destruct (split sep s) as [|piece pieces].
    + repeat constructor. cbn [contains]. now rewrite E.
    + apply Forall_cons_iff in IH as [Hp Hps].
      constructor; [|exact Hps]. cbn [contains]. now rewrite E, Hp.
Qed.

Lemma split_whole (sep : ascii) (s : string) :
  contains sep s = false -> split sep s = [s].
Proof.
  induction s as [|c s IH]; [reflexivity|].
  cbn [contains split]. intros H. apply orb_false_iff in H as [H1 H2].
  now rewrite H1, (IH H2).
Qed.

Lemma split_at_separator (sep : ascii) (a b : string) :
  contains sep a = false ->
  split sep (a ++ String sep b) = a :: split sep b.
Proof.
  induction a as [|c a IH]; intros H.
  - cbn [append split]. now rewrite Ascii.eqb_refl.
  - cbn [contains] in H. apply orb_false_iff in H as [H1 H2].
    cbn [append split]. now rewrite H1, (IH H2).
Qed.

End Texts.

Section ArticleProjects.
Import Js YouTrackWrapped.

Lemma articleProjectsOf_pieces (input : string) :
  articleProjectsOf input
  = filter (fun p => negb (String.eqb p EmptyString))
           (map trim (split "," input)).
Proof. destruct input; reflexivity. Qed.

Lemma articleProjectsOf_joined (names : list string) :
  Forall cleanName names ->
  filter (fun p => negb (String.eqb p EmptyString))
         (map trim (split "," (joinWith ", " names)))
  = names.
Proof.
  induction 1 as [|name names (Hne & Htrim & Hcomma) Hnames IH].
  - reflexivity.
  - assert (Hkeep : negb (String.eqb name EmptyString) = true).
    { apply negb_true_iff, String.eqb_neq. exact Hne. }
    destruct names as [|next names].
    + cbn [joinWith]. rewrite (split_whole _ _ Hcomma).
      cbn [map filter]. now rewrite Htrim, Hkeep.
    + change (joinWith ", " (name :: next :: names))
        with (name ++ String "," (String " " (joinWith ", " (next :: names))))%string.
      rewrite (split_at_separator _ _ _ Hcomma).
      cbn [map filter]. rewrite Htrim, Hkeep. f_equal.
      rewrite <- IH at 2.
      destruct (joinWith ", " (next :: names)) as [|c rest] eqn:E.
      * cbn. reflexivity.
      * remember (String c rest) as joined.
        cbn [split]. change (Ascii.eqb " " ",") with false. cbv iota.
        destruct (split "," joined) as [|piece pieces] eqn:Es;
          [now apply split_nonempty in Es|].
        cbn [map]. now rewrite trim_after_space.
Qed.

End ArticleProjects.

(** X16. The projects [handleLogin] reads from the form are the pieces
    between the commas of the input, trimmed, the empty ones left out: no
    project is empty, has white space at either end or holds a comma; and
    a list of such names, joined by a comma and a space, is read back as
    it was. *)
Theorem article_projects_of_the_form (input : string) :
  (forall project,
     In project (YouTrackWrapped.articleProjectsOf input) -> cleanName project)
  /\ YouTrackWrapped.articleProjectsOf EmptyString = []
  /\ forall names,
       Forall cleanName names ->
       YouTrackWrapped.articleProjectsOf (joinWith ", " names) = names.
Proof.
  split; [|split].
  - intros project Hin. rewrite articleProjectsOf_pieces in Hin.
    apply filter_In in Hin as [Hin Hne].
    apply in_map_iff in Hin as (piece & <- & Hpiece).
    pose proof (split_pieces "," input) as Hpieces.
    rewrite Forall_forall in Hpieces. specialize (Hpieces piece Hpiece).
    split; [|split].
    + apply negb_true_iff, String.eqb_neq in Hne. exact Hne.
    + apply trim_idempotent.
    + now apply contains_trim.
  - reflexivity.
  - intros names Hnames. rewrite articleProjectsOf_pieces.
    now apply articleProjectsOf_joined.
Qed.

Section Loading.
Import Js Async YouTrackClient DataCollector StatisticsCalculator YouTrackWrapped.
Local Open Scope async_scope.

Lemma includes_skip (a c : ascii) (needle hay : string) :
  Ascii.eqb a c = false ->
  includes (String a needle) (String c hay) = includes (String a needle) hay.
Proof.
  intros H. cbn [includes String.prefix].
  destruct (ascii_dec a c) as [->|_]; [now rewrite Ascii.eqb_refl in H|].
  reflexivity.
Qed.

Lemma includes_here (needle hay : string) :
  String.prefix needle hay = true -> includes needle hay = true.
Proof. intros H. destruct hay; cbn [includes]; now rewrite H. Qed.

Lemma includes_later (needle pre hay : string) :
  includes needle hay = true -> includes needle (pre ++ hay) = true.
Proof.
  intros H. induction pre as [|c pre IH]; [exact H|].
  cbn [append includes]. rewrite IH. apply orb_true_r.
Qed.

(** The message of an API error holds what the body holds, and its
    status. *)
Lemma apiError_401 (body : string) :
  includes "401" (errMessage (apiError 401 body)) = true
  /\ includes "Failed to fetch" (errMessage (apiError 401 body))
     = includes "Failed to fetch" body
  /\ includes "NetworkError" (errMessage (apiError 401 body))
     = includes "NetworkError" body.
Proof.
  unfold apiError. cbn [errMessage].
  change (numToString 401) with "401". cbn [append].
  split; [|split].
  - repeat (rewrite includes_skip by reflexivity).
    apply includes_here. reflexivity.
  - repeat (rewrite includes_skip by reflexivity). reflexivity.
  - repeat (rewrite includes_skip by reflexivity). reflexivity.
Qed.

Lemma apiError_403 (body : string) :
  includes "403" (errMessage (apiError 403 body)) = true
  /\ includes "Failed to fetch" (errMessage (apiError 403 body))
     = includes "Failed to fetch" body
  /\ includes "NetworkError" (errMessage (apiError 403 body))
     = includes "NetworkError" body.
Proof.
  unfold apiError. cbn [errMessage].
  change (numToString 403) with "403". cbn [append].
  split; [|split].
  - repeat (rewrite includes_skip by reflexivity).
    apply includes_here. reflexivity.
  - repeat (rewrite includes_skip by reflexivity). reflexivity.
  - repeat (rewrite includes_skip by reflexivity). reflexivity.
Qed.

(** How [loadData] ends, by how the collection ends. *)
Lemma loadData_outcome (h : Dates.Host) (fuel : nat) (tracker : Tracker)
  (nowISO : string) (baseUrl token : string) (year : Z)
  (articleProjects : list string) (w : World) :
  let w0 := {| requests := requests w;
               progress := progress w ++ ["Connecting to YouTrack..."] |} in
  let collection :=
    collectYearData fuel (YouTrackClient.new baseUrl token) tracker nowISO year
      articleProjects (listening (Some (fun _ _ => None))) w0 in
  loadData h fuel tracker nowISO baseUrl token year articleProjects w
  = match collection with
    | (Return data, w1) =>
        (Return (calculateAll h data),
         {| requests := requests w1;
            progress := progress w1 ++ ["Calculating your statistics..."] |})
    | (Throw e, w1) => (Throw (explain e), w1)
    | (OutOfFuel, w1) => (OutOfFuel, w1)
    end.
Proof.
  cbv zeta. unfold loadData.
  unfold bind at 1. unfold attempt. unfold bind at 1.
  unfold updateProgress at 1. unfold listen at 1. cbv iota beta.
  unfold bind at 1.
  change (Some (fun progress : string => updateProgress progress))
    with (listening (Some (fun (_ : list string) (_ : string) => @None JsError))).
  destruct (collectYearData _ _ _ _ _ _ _ _) as [[data|e|] w1]; reflexivity.
Qed.

End Loading.

(** X17. [loadData] replaces the errors it knows by advice. When the
    request for the user is rejected, it fails, after that one request,
    with what its [catch] block makes of the error: a response with status
    401 or 403 becomes the advice to check the token, whatever its body,
    unless the body speaks of a failed fetch; so does any other response
    whose body holds 401 or 403; an error that speaks of a failed fetch
    becomes the advice to check the connection; an error that holds none
    of the four texts is passed on as it is. When the collection returns,
    [loadData] returns the report of [calculateAll] on it. *)
Theorem loadData_explains_failures (h : Dates.Host) (fuel : nat)
  (tracker : YouTrackClient.Tracker) (nowISO : string) (baseUrl token : string)
  (year : Z) (articleProjects : list string) (w : Async.World) :
  let client := YouTrackClient.new baseUrl token in
  let load :=
    YouTrackWrapped.loadData h fuel tracker nowISO baseUrl token year
                             articleProjects in
  let advice := fun text => Js.mkError "Error" text in
  (forall e,
     rejects (YouTrackClient.usersMe tracker) (Async.requests w)
             (requestOf client currentUserPath) e ->
     fst (load w) = Async.Throw (YouTrackWrapped.explain e)
     /\ Async.requests (snd (load w))
        = Async.requests w ++ [requestOf client currentUserPath])
  /\ (forall body,
        Js.includes "Failed to fetch" body = false ->
        Js.includes "NetworkError" body = false ->
        YouTrackWrapped.explain (apiError 401 body)
        = advice YouTrackWrapped.authenticationHelp
        /\ YouTrackWrapped.explain (apiError 403 body)
           = advice YouTrackWrapped.authenticationHelp)
  /\ (forall status body,
        Js.includes "Failed to fetch" (Js.errMessage (apiError status body)) = false ->
        Js.includes "NetworkError" (Js.errMessage (apiError status body)) = false ->
        Js.includes "401" body = true \/ Js.includes "403" body = true ->
        YouTrackWrapped.explain (apiError status body)
        = advice YouTrackWrapped.authenticationHelp)
  /\ (forall e,
        Js.includes "Failed to fetch" (Js.errMessage e) = true
        \/ Js.includes "NetworkError" (Js.errMessage e) = true ->
        YouTrackWrapped.explain e = advice YouTrackWrapped.connectionHelp)
  /\ (forall e,
        Js.includes "Failed to fetch" (Js.errMessage e) = false ->
        Js.includes "NetworkError" (Js.errMessage e) = false ->
        Js.includes "401" (Js.errMessage e) = false ->
        Js.includes "403" (Js.errMessage e) = false ->
        YouTrackWrapped.explain e = e)
  /\ (forall data w1,
        DataCollector.collectYearData fuel client tracker nowISO year
          articleProjects (listening (Some (fun _ _ => None)))
          {| Async.requests := Async.requests w;
             Async.progress := Async.progress w ++ ["Connecting to YouTrack..."] |}
        = (Async.Return data, w1) ->
        fst (load w) = Async.Return (StatisticsCalculator.calculateAll h data)).
Proof.
  cbv zeta.
  split; [|split; [|split; [|split; [|split]]]].
  - intros e Hrej. rewrite loadData_outcome. cbv zeta.
    rewrite (collectYearData_without_the_user fuel _ tracker nowISO year
               articleProjects (Some (fun _ _ => None)) _ e).
    + split; reflexivity.
    + intros l0 [= <-] received message. reflexivity.
    + exact Hrej.
  - intros body H1 H2.
    destruct (apiError_401 body) as (Ha & Hb & Hc).
    destruct (apiError_403 body) as (Ha' & Hb' & Hc').
    unfold YouTrackWrapped.explain.
    rewrite Ha, Hb, Hc, Ha', Hb', Hc', H1, H2.
    cbn [orb]. rewrite orb_true_r. split; reflexivity.
  - intros status body H1 H2 H.
    unfold YouTrackWrapped.explain. rewrite H1, H2. cbn [orb].
    assert (E : Js.includes "401" (Js.errMessage (apiError status body))
                || Js.includes "403" (Js.errMessage (apiError status body))
                = true).
    { apply orb_true_iff. unfold apiError. cbn [Js.errMessage].
      destruct H as [H|H]; [left|right]; do 3 apply includes_later; exact H. }
    now rewrite E.
  - intros e H. unfold YouTrackWrapped.explain.
    apply orb_true_iff in H. now rewrite H.
  - intros e H1 H2 H3 H4. unfold YouTrackWrapped.explain.
    now rewrite H1, H2, H3, H4.
  - intros data w1 Hrun. rewrite loadData_outcome. cbv zeta.
    now rewrite Hrun.
Qed.

Section Login.
Import Js Async YouTrackClient DataCollector StatisticsCalculator YouTrackWrapped.
Local Open Scope async_scope.
Variable h : Dates.Host.
Variable fuel : nat.
Variable tracker : Tracker.
Variable nowISO : string.
Variable render : Report.t -> M unit.

Let login := handleLogin h fuel tracker nowISO render.

(** A form is accepted or it is not. *)
Lemma accepted_dec (form : LoginForm.t) :
  (exists year, accepted form year) \/ (forall year, ~ accepted form year).
Proof.
  unfold accepted.
  destruct (string_dec (trim (LoginForm.youtrackUrl form)) EmptyString) as [E1|N1];
    [right; intros y (H & _); contradiction|].
  destruct (string_dec (trim (LoginForm.youtrackToken form)) EmptyString) as [E2|N2];
    [right; intros y (_ & H & _); contradiction|].
  destruct (parseInt10 (LoginForm.year form)) as [y|] eqn:Ey;
    [|right; intros y (_ & _ & H & _); discriminate].
  destruct (Z.eq_dec y 0) as [->|Ny].
  - right. intros y (_ & _ & H & H0). congruence.
  - left. now exists y.
Qed.

Lemma login_refused (form : LoginForm.t) (storage : LocalStorage.t) (w : World) :
  (forall year, ~ accepted form year) ->
  login form storage w
  = (Return (LoginError "Please fill in all required fields", storage), w).
Proof.
  intros Hno. unfold login, handleLogin.
  destruct (parseInt10 (LoginForm.year form)) as [y|] eqn:Ey; [|reflexivity].
  destruct (String.eqb_spec (trim (LoginForm.youtrackUrl form)) EmptyString)
    as [E1|N1]; [reflexivity|].
  destruct (String.eqb_spec (trim (LoginForm.youtrackToken form)) EmptyString)
    as [E2|N2]; [reflexivity|].
  destruct (Z.eqb_spec y 0) as [E3|N3]; [reflexivity|].
  exfalso. apply (Hno y). now repeat split.
Qed.

Lemma login_accepted (form : LoginForm.t) (year : Z) (storage : LocalStorage.t)
  (w : World) :
  accepted form year ->
  login form storage w
  = match loadFor h fuel tracker nowISO form year w with
    | (Return report, w1) =>
        let storage' :=
          saveConfig (configOf form year) (LoginForm.rememberCredentials form)
                     storage in
        match render report w1 with
        | (Return _, w2) => (Return (Wrapped report, storage'), w2)
        | (Throw error, w2) =>
            (Return (ErrorScreen (errMessage error), storage'), w2)
        | (OutOfFuel, w2) => (OutOfFuel, w2)
        end
    | (Throw error, w1) => (Return (ErrorScreen (errMessage error), storage), w1)
    | (OutOfFuel, w1) => (OutOfFuel, w1)
    end.
Proof.
  intros (N1 & N2 & Ey & N3). unfold login, handleLogin. rewrite Ey.
  apply String.eqb_neq in N1, N2. apply Z.eqb_neq in N3.
  rewrite N1, N2, N3. cbn [orb].
  unfold bind at 1. unfold attempt at 1. unfold loadFor.
  destruct (loadData _ _ _ _ _ _ _ _ w) as [[report|error|] w1];
    [|reflexivity|reflexivity].
  cbv zeta. unfold bind, attempt. fold (configOf form year).
  destruct (render report w1) as [[u|error|] w2]; reflexivity.
Qed.

Lemma saveConfig_item (config : Config.t) (remember : bool)
  (storage : LocalStorage.t) :
  LocalStorage.denied (saveConfig config remember storage)
  = LocalStorage.denied storage
  /\ LocalStorage.full (saveConfig config remember storage)
     = LocalStorage.full storage
  /\ (remember = true ->
      LocalStorage.denied storage = false -> LocalStorage.full storage = false ->
      LocalStorage.item (saveConfig config remember storage)
      = Some (savedItem config))
  /\ (remember = false ->
      LocalStorage.denied storage = false ->
      LocalStorage.item (saveConfig config remember storage) = None)
  /\ (remember = false ->
      forall it, LocalStorage.item (saveConfig config remember storage) = Some it ->
                 LocalStorage.item storage = Some it)
  /\ (LocalStorage.denied storage = true ->
      saveConfig config remember storage = storage).
Proof.
  unfold saveConfig, removeItem.
  destruct remember, (LocalStorage.denied storage) eqn:Ed,
           (LocalStorage.full storage) eqn:Ef;
    cbn [orb LocalStorage.item LocalStorage.denied LocalStorage.full];
    repeat split; try congruence; intros; try congruence; discriminate.
Qed.

(** What a login leaves in the storage. *)
Lemma login_storage (form : LoginForm.t) (storage storage' : LocalStorage.t)
  (w w' : World) (shown : Shown) :
  login form storage w = (Return (shown, storage'), w') ->
  storage' = storage
  \/ exists year report w1,
       accepted form year
       /\ loadFor h fuel tracker nowISO form year w = (Return report, w1)
       /\ storage' = saveConfig (configOf form year)
                                (LoginForm.rememberCredentials form) storage.
Proof.
  intros Hrun.
  destruct (accepted_dec form) as [(year & Hacc)|Hno].
  - rewrite (login_accepted form year storage w Hacc) in Hrun.
    destruct (loadFor h fuel tracker nowISO form year w) as [[report|error|] w1]
      eqn:Eload.
    + right. exists year, report, w1. split; [exact Hacc|].
      split; [first [exact Eload|reflexivity]|].
      cbv zeta in Hrun.
      destruct (render report w1) as [[u|error|] w2]; congruence.
    + left. congruence.
    + discriminate.
  - rewrite (login_refused form storage w Hno) in Hrun. left. congruence.
Qed.


Lemma orElse_empty (s : string) : orElse (Some s) EmptyString = s.
Proof. destruct s; reflexivity. Qed.

Lemma accepted_year (form : LoginForm.t) (y1 y2 : Z) :
  accepted form y1 -> accepted form y2 -> y1 = y2.
Proof. intros (_ & _ & H1 & _) (_ & _ & H2 & _). congruence. Qed.

(** The form that [init] fills from a configuration saved by a login. *)
Lemma init_saved (form blank : LoginForm.t) (year : Z) (storage : LocalStorage.t) :
  accepted form year ->
  LocalStorage.denied storage = false ->
  LocalStorage.item storage = Some (savedItem (configOf form year)) ->
  init storage blank
  = {| LoginForm.youtrackUrl := trim (LoginForm.youtrackUrl form);
       LoginForm.youtrackToken := trim (LoginForm.youtrackToken form);
       LoginForm.year := numToString year;
       LoginForm.articleProjects := trim (LoginForm.articleProjects form);
       LoginForm.rememberCredentials := true |}.
Proof.
  intros (N1 & N2 & Ey & N3) Hd Hitem.
  unfold init, loadSavedConfig. rewrite Hd, Hitem.
  unfold savedItem, configOf.
  cbn [Config.baseUrl Config.token Config.year Config.articleProjects].
  rewrite !orElse_empty. unfold bothTruthy. rewrite !orElse_empty.
  apply String.eqb_neq in N1, N2. rewrite N1, N2.
  cbn [truthyNum]. apply Z.eqb_neq in N3. rewrite N3. reflexivity.
Qed.

(** X18. What a login does to the saved credentials. [handleLogin] changes
    nothing of the storage but the item of the page. With the box
    unchecked no credentials are in the storage afterwards that were not
    there before. The item changes only when the form was accepted and the
    data loaded; then, where the storage is not denied to the page, a
    checked box leaves the configuration of the form in it (where it is
    not full) and an unchecked box leaves no item. A form that is not
    accepted (a blank URL, a blank token, a year that is no number or 0)
    brings the message to fill in the fields and nothing else: no request,
    no change of the storage. *)
Theorem credentials_are_stored_on_request_only (form : LoginForm.t)
  (storage storage' : LocalStorage.t) (w w' : World) (shown : Shown) :
  handleLogin h fuel tracker nowISO render form storage w
  = (Return (shown, storage'), w') ->
  (LocalStorage.denied storage' = LocalStorage.denied storage
   /\ LocalStorage.full storage' = LocalStorage.full storage)
  /\ (LoginForm.rememberCredentials form = false ->
      forall it, LocalStorage.item storage' = Some it ->
                 LocalStorage.item storage = Some it)
  /\ (LocalStorage.item storage' <> LocalStorage.item storage ->
      exists year report w1,
        accepted form year
        /\ loadFor h fuel tracker nowISO form year w = (Return report, w1))
  /\ (forall year report w1,
        accepted form year ->
        loadFor h fuel tracker nowISO form year w = (Return report, w1) ->
        LocalStorage.denied storage = false ->
        (LoginForm.rememberCredentials form = true ->
         LocalStorage.full storage = false ->
         LocalStorage.item storage' = Some (savedItem (configOf form year)))
        /\ (LoginForm.rememberCredentials form = false ->
            LocalStorage.item storage' = None))
  /\ ((forall year, ~ accepted form year) ->
      shown = LoginError "Please fill in all required fields"
      /\ storage' = storage /\ w' = w).
Proof.
  intros Hrun. fold login in Hrun.
  pose proof (login_storage form storage storage' w w' shown Hrun) as Hst.
  split; [|split; [|split; [|split]]].
  - destruct Hst as [->|(year & report & w1 & _ & _ & ->)]; [now split|].
    destruct (saveConfig_item (configOf form year)
                (LoginForm.rememberCredentials form) storage) as (H1 & H2 & _).
    now split.
  - intros Hr it Hit.
    destruct Hst as [->|(year & report & w1 & _ & _ & ->)]; [exact Hit|].
    destruct (saveConfig_item (configOf form year)
                (LoginForm.rememberCredentials form) storage)
      as (_ & _ & _ & _ & H & _).
    now apply H.
  - intros Hchanged.
    destruct Hst as [->|(year & report & w1 & Hacc & Hload & _)];
      [contradiction|].
    now exists year, report, w1.
  - intros year report w1 Hacc Hload Hd.
    rewrite (login_accepted form year storage w Hacc), Hload in Hrun.
    cbv zeta in Hrun.
    assert (Hs : storage' = saveConfig (configOf form year)
                                       (LoginForm.rememberCredentials form) storage).
    { destruct (render report w1) as [[u|error|] w2]; congruence. }
    rewrite Hs.
    destruct (saveConfig_item (configOf form year)
                (LoginForm.rememberCredentials form) storage)
      as (_ & _ & Hyes & Hno & _).
    split; [intros Hr Hf; now apply Hyes|intros Hr; now apply Hno].
  - intros Hno. rewrite (login_refused form storage w Hno) in Hrun.
    injection Hrun as <- <- <-. now repeat split.
Qed.


(** X19. A login that saved its configuration is restored by [init]: the
    form it fills holds the URL, the token and the projects of the login,
    trimmed, its year as printed, and a checked box; [handleLogin] accepts
    it with the same year and the same configuration, and does with it
    what it does with the form of the login. *)
Theorem a_saved_login_is_restored (form blank : LoginForm.t)
  (storage storage' : LocalStorage.t) (w w' w1 : World) (shown : Shown)
  (year : Z) (report : Report.t) :
  handleLogin h fuel tracker nowISO render form storage w
  = (Return (shown, storage'), w') ->
  accepted form year ->
  loadFor h fuel tracker nowISO form year w = (Return report, w1) ->
  LoginForm.rememberCredentials form = true ->
  LocalStorage.denied storage = false ->
  LocalStorage.full storage = false ->
  let restored := init storage' blank in
  restored
  = {| LoginForm.youtrackUrl := trim (LoginForm.youtrackUrl form);
       LoginForm.youtrackToken := trim (LoginForm.youtrackToken form);
       LoginForm.year := numToString year;
       LoginForm.articleProjects := trim (LoginForm.articleProjects form);
       LoginForm.rememberCredentials := true |}
  /\ accepted restored year
  /\ configOf restored year = configOf form year
  /\ forall storage0 w0,
       handleLogin h fuel tracker nowISO render restored storage0 w0
       = handleLogin h fuel tracker nowISO render form storage0 w0.
Proof.
  intros Hrun Hacc Hload Hr Hd Hf. cbv zeta. fold login in Hrun.
  rewrite (login_accepted form year storage w Hacc), Hload in Hrun.
  cbv zeta in Hrun.
  assert (Hs : storage' = saveConfig (configOf form year)
                                     (LoginForm.rememberCredentials form) storage).
  { destruct (render report w1) as [[u|error|] w2]; congruence. }
  destruct (saveConfig_item (configOf form year)
              (LoginForm.rememberCredentials form) storage)
    as (Hd' & _ & Hyes & _).
  assert (Hinit := init_saved form blank year storage' Hacc).
  rewrite Hs in Hinit at 1 2. rewrite Hd', Hd in Hinit.
  specialize (Hinit eq_refl (Hyes Hr Hd Hf)).
  rewrite Hinit.
  set (restored := {| LoginForm.youtrackUrl := _ |}).
  assert (Hacc' : accepted restored year).
  { destruct Hacc as (N1 & N2 & Ey & N3). unfold accepted, restored.
    cbn [LoginForm.youtrackUrl LoginForm.youtrackToken LoginForm.year].
    rewrite !trim_idempotent, parseInt10_numToString. now repeat split. }
  assert (Hconfig : configOf restored year = configOf form year).
  { unfold configOf, restored.
    cbn [LoginForm.youtrackUrl LoginForm.youtrackToken LoginForm.articleProjects].
    now rewrite !trim_idempotent. }
  split; [reflexivity|]. split; [exact Hacc'|]. split; [exact Hconfig|].
  intros storage0 w0. fold login.
  rewrite (login_accepted restored year storage0 w0 Hacc').
  rewrite (login_accepted form year storage0 w0 Hacc).
  rewrite Hconfig.
  assert (Hsame : loadFor h fuel tracker nowISO restored year
                  = loadFor h fuel tracker nowISO form year).
  { unfold loadFor, restored.
    cbn [LoginForm.youtrackUrl LoginForm.youtrackToken LoginForm.articleProjects].
    now rewrite !trim_idempotent. }
  rewrite Hsame.
  replace (LoginForm.rememberCredentials restored)
    with (LoginForm.rememberCredentials form) by (rewrite Hr; reflexivity).
  reflexivity.
Qed.

End Login.

Section Chips.
Import Js StatisticsCalculator YouTrackWrapped.

Lemma sorted_app {A} (R : A -> A -> Prop) (l1 l2 : list A) :
  StronglySorted R (l1 ++ l2) ->
  forall x y, In x l1 -> In y l2 -> R x y.
Proof.
  induction l1 as [|a l1 IH]; intros Hs x y Hx Hy; [contradiction|].
  cbn [app] in Hs. apply StronglySorted_inv in Hs as [Hs Hall].
  destruct Hx as [<-|Hx]; [|now apply IH].
  rewrite Forall_forall in Hall. apply Hall, in_or_app. now right.
Qed.

End Chips.

(** X20. [renderTopProject] lists at most ten projects, the first ten of
    the statistics in their order, each as its short name and its total
    activity, and none when there is no project; the projects it leaves
    out have no more activity than any project it lists. *)
Theorem the_ten_chips_are_the_most_active (data : Dataset.t) :
  let stats := StatisticsCalculator.calculateProjectStats data in
  let projects := ProjectStats.projects stats in
  let chips := YouTrackWrapped.projectChips stats in
  chips = map chipOf (firstn 10 projects)
  /\ (List.length chips <= 10)%nat
  /\ (projects = [] <-> chips = [])
  /\ forall listed hidden,
       In listed (firstn 10 projects) -> In hidden (skipn 10 projects) ->
       ProjectActivity.totalActivity hidden <= ProjectActivity.totalActivity listed.
Proof.
  cbv zeta.
  set (stats := StatisticsCalculator.calculateProjectStats data).
  assert (Htop : ProjectStats.topProject stats
                 = hd_error (ProjectStats.projects stats)) by reflexivity.
  assert (Hchips : YouTrackWrapped.projectChips stats
                   = map chipOf (firstn 10 (ProjectStats.projects stats))).
  { unfold YouTrackWrapped.projectChips. rewrite Htop.
    destruct (ProjectStats.projects stats); reflexivity. }
  split; [exact Hchips|]. split; [|split].
  - rewrite Hchips, length_map. apply firstn_le_length.
  - rewrite Hchips. destruct (ProjectStats.projects stats); cbn; split;
      intros; congruence.
  - intros listed hidden Hl Hh.
    assert (Hs : StronglySorted
                   (fun a b => ProjectActivity.totalActivity b
                               <= ProjectActivity.totalActivity a)
                   (ProjectStats.projects stats)).
    { subst stats. rewrite projects_sorted.
      apply (sortBy_descending ProjectActivity.totalActivity). }
    rewrite <- (firstn_skipn 10 (ProjectStats.projects stats)) in Hs.
    exact (sorted_app _ _ _ Hs listed hidden Hl Hh).
Qed.

Section StreakDates.
Import Js StatisticsCalculator YouTrackWrapped.

Lemma formatDate_parsed (h : Dates.Host) (s : string) (t : Z) :
  Dates.parseDate s = Some t ->
  formatDate h (Some s) = shortDate (Dates.localDay h t).
Proof.
  intros Hp. unfold formatDate.
  destruct s as [|c s]; [discriminate|]. rewrite Hp.
  unfold shortDate, Dates.getMonth, Dates.getDate.
  destruct (Dates.civilFromDays (Dates.localDay h t)) as [[y m] d].
  cbn [fst snd]. reflexivity.
Qed.

Lemma dayKey_not_empty (h : Dates.Host) (t : Z) : dayKey h t <> EmptyString.
Proof.
  unfold dayKey.
  destruct (numToString (Dates.getFullYear h t)); discriminate.
Qed.

(** The longest streak of a dataset with events starts on a day of one of
    them, and has a day at least. *)
Lemma streak_of_events (h : Dates.Host) (activities : list Activity.t) :
  activities <> [] ->
  exists start finish,
    calculateLongestStreak h activities
    = {| Streak.days := Streak.days (calculateLongestStreak h activities);
         Streak.startDate := Some start;
         Streak.endDate := Some finish |}
    /\ 0 < Streak.days (calculateLongestStreak h activities)
    /\ In start (dayKeys h activities).
Proof.
  intros Hne. unfold calculateLongestStreak.
  rewrite (len_nonzero activities Hne).
  pose proof (sortedDays_nonempty h activities Hne) as Hdays.
  destruct (sortedDays_spec h activities) as (_ & Hin & _).
  destruct (sortedDays h activities) as [|first rest] eqn:E; [contradiction|].
  destruct (scanDays_inv rest [] first _ (scan_start first))
    as (done' & prev' & Esplit & Hinv).
  destruct Hinv as [_ (best & last & Hseg & _ & Hstart & _ & Hlen) _ _].
  eexists. eexists. cbn [Streak.days Streak.startDate Streak.endDate].
  split; [reflexivity|]. split.
  - rewrite <- Hlen. rewrite length_app. cbn [List.length]. lia.
  - apply Hin. rewrite <- Hstart.
    cbn [app] in Esplit. rewrite Esplit.
    destruct Hseg as (pre & post & ->).
    apply in_or_app. right. apply in_or_app. left.
    destruct best as [|b best]; cbn [hd app]; now left.
Qed.

End StreakDates.

(** X21. The dates of the streak are printed a day early west of
    Greenwich. [formatDate] reads the key of a local day as midnight UTC
    of that day and prints the instant in local time: where the offset of
    local time at that instant is zero or positive (and less than a day) ,
    it prints the day of the key; where the offset is negative, the day
    before. [renderStreak] prints the two dates exactly when the dataset
    has an event, and reports no streak otherwise. *)
Theorem streak_dates_are_printed_in_local_time (h : Dates.Host) (t : Z) :
  1000 <= Dates.getFullYear h t <= 9999 ->
  let day := Dates.localDay h t in
  let offset := Dates.tzOffset h (day * Dates.msPerDay) in
  let printed := YouTrackWrapped.formatDate h (Some (StatisticsCalculator.dayKey h t)) in
  printed = shortDate ((day * Dates.msPerDay + offset) / Dates.msPerDay)
  /\ (0 <= offset < Dates.msPerDay -> printed = shortDate day)
  /\ (- Dates.msPerDay <= offset < 0 -> printed = shortDate (day - 1))
  /\ forall data,
       (StatisticsCalculator.allActivities data = [] ->
        YouTrackWrapped.renderStreak h
          (StatisticsCalculator.calculateTimeStats h data) = None)
       /\ (StatisticsCalculator.allActivities data <> [] ->
           let streak :=
             TimeStats.longestStreak
               (StatisticsCalculator.calculateTimeStats h data) in
           YouTrackWrapped.renderStreak h
             (StatisticsCalculator.calculateTimeStats h data)
           = Some (YouTrackWrapped.formatDate h (Streak.startDate streak),
                   YouTrackWrapped.formatDate h (Streak.endDate streak))).
Proof.
  intros Hyear. cbv zeta.
  assert (Hprinted :
    YouTrackWrapped.formatDate h (Some (StatisticsCalculator.dayKey h t))
    = shortDate ((Dates.localDay h t * Dates.msPerDay
                  + Dates.tzOffset h (Dates.localDay h t * Dates.msPerDay))
                 / Dates.msPerDay)).
  { rewrite (formatDate_parsed h _ _ (dayKey_parses h t Hyear)). reflexivity. }
  split; [exact Hprinted|]. split; [|split].
  - intros Hoff. rewrite Hprinted. f_equal.
    unfold Dates.msPerDay in *.
    rewrite Z.add_comm, Z.div_add by lia.
    rewrite Z.div_small by lia. lia.
  - intros Hoff. rewrite Hprinted. f_equal.
    unfold Dates.msPerDay in *.
    replace (Dates.localDay h t * 86400000
             + Dates.tzOffset h (Dates.localDay h t * 86400000))
      with ((Dates.tzOffset h (Dates.localDay h t * 86400000) + 86400000)
            + (Dates.localDay h t - 1) * 86400000) by lia.
    rewrite Z.div_add by lia. rewrite Z.div_small by lia. lia.
  - intros data.
    assert (Hstreak :
      TimeStats.longestStreak (StatisticsCalculator.calculateTimeStats h data)
      = StatisticsCalculator.calculateLongestStreak h
          (StatisticsCalculator.allActivities data)).
    { unfold StatisticsCalculator.calculateTimeStats.
      destruct (StatisticsCalculator.countActivities h _) as [[mo dw] ho].
      reflexivity. }
    unfold YouTrackWrapped.renderStreak. rewrite Hstreak. split.
    + intros ->. reflexivity.
    + intros Hne.
      destruct (streak_of_events h _ Hne) as (start & finish & E & Hdays & Hin).
      rewrite E.
      cbn [Streak.days Streak.startDate Streak.endDate Js.orElse].
      apply Z.ltb_lt in Hdays. rewrite Hdays.
      unfold dayKeys in Hin. apply in_map_iff in Hin as (a & <- & _).
      pose proof (dayKey_not_empty h (Activity.timestamp a)) as Hk.
      destruct (StatisticsCalculator.dayKey h (Activity.timestamp a)) as [|c k]
        eqn:Ek; [contradiction|].
      reflexivity.
Qed.

Section MonthlyChart.
Import Js StatisticsCalculator YouTrackWrapped.

Ltac fractions :=
  unfold Qeq, Qle, Qdiv, Qmult, Qinv, inject_Z; cbn [Qnum Qden];
  rewrite ?Pos.mul_1_l, ?Pos.mul_1_r, ?Z.mul_1_r, ?Z.mul_1_l.

Lemma fold_max (l : list Z) : forall a,
  a <= fold_left Z.max l a
  /\ Forall (fun y => y <= fold_left Z.max l a) l
  /\ (fold_left Z.max l a = a \/ In (fold_left Z.max l a) l).
Proof.
  induction l as [|x l IH]; intros a; cbn [fold_left].
  - repeat split; [lia|constructor|now left].
  - destruct (IH (Z.max a x)) as (H1 & H2 & H3).
    split; [lia|]. split; [constructor; [lia|exact H2]|].
    destruct H3 as [H3|H3]; [|right; now right].
    rewrite H3. destruct (Z.max_spec a x) as [[_ ->]|[_ ->]];
      [right; now left|now left].
Qed.

(** The largest of the numbers of a list that holds one no other
    exceeds. *)
Lemma maxOf_largest (l : list Z) (top : Z) :
  In top l -> Forall (fun y => y <= top) l -> maxOf l = num top.
Proof.
  intros Hin Hall. destruct l as [|a l]; [contradiction|].
  unfold maxOf. f_equal.
  destruct (fold_max l a) as (H1 & H2 & H3).
  rewrite Forall_forall in *.
  assert (Hle : fold_left Z.max l a <= top).
  { destruct H3 as [->|H3]; apply Hall; [now left|now right]. }
  assert (Hge : top <= fold_left Z.max l a).
  { destruct Hin as [<-|Hin]; [exact H1|now apply H2]. }
  lia.
Qed.

Lemma range_nth (n : nat) : forall from i,
  (i < n)%nat -> nth_error (range from n) i = Some (from + Z.of_nat i).
Proof.
  induction n as [|n IH]; intros from i Hi; [lia|].
  rewrite range_S. destruct i as [|i]; cbn [nth_error].
  - f_equal. lia.
  - rewrite IH by lia. f_equal. lia.
Qed.

(** The height of one bar, for a count between 0 and the largest. *)
Lemma bar_height (count most : Z) :
  0 <= count <= most ->
  let height :=
    maxZ (if gtZ (num most) 0 then mulZ (div (num count) (num most)) 100
          else num 0) 3 in
  exists q,
    height = Fin q
    /\ (inject_Z 3 <= q)%Q /\ (q <= inject_Z 100)%Q
    /\ (100 * count <= 3 * most -> q = inject_Z 3)
    /\ (3 * most < 100 * count ->
        (q == inject_Z (100 * count) / inject_Z most)%Q)
    /\ (0 < most -> count = most -> q = inject_Z 100).
Proof.
  intros Hc. cbv zeta. rewrite gtZ_num.
  destruct (Z.ltb_spec 0 most) as [Hpos|Hzero].
  - rewrite div_num by lia. cbn [mulZ].
    set (q := Qred (Qred (inject_Z count / inject_Z most) * inject_Z 100)).
    assert (Hq : (q == inject_Z (100 * count) / inject_Z most)%Q).
    { subst q. rewrite !Qred_correct.
      destruct most as [|p|p]; try lia.
      fractions. nia. }
    assert (Hcmp : Qle_bool q (inject_Z 3) = (100 * count <=? 3 * most)).
    { destruct (Z.leb_spec (100 * count) (3 * most)) as [Hle|Hgt].
      - apply Qle_bool_iff. rewrite Hq.
        destruct most as [|p|p]; try lia.
        fractions. nia.
      - destruct (Qle_bool q (inject_Z 3)) eqn:E; [|reflexivity].
        apply Qle_bool_iff in E. rewrite Hq in E.
        destruct most as [|p|p]; try lia.
        revert E. fractions. nia. }
    cbn [maxZ]. rewrite Hcmp.
    destruct (Z.leb_spec (100 * count) (3 * most)) as [Hle|Hgt].
    + exists (inject_Z 3). split; [reflexivity|].
      split; [apply Qle_refl|]. split; [now compute|].
      split; [reflexivity|]. split; [lia|]. intros _ ->. lia.
    + exists q. split; [reflexivity|].
      split.
      { rewrite Hq. destruct most as [|p|p]; try lia.
        fractions. nia. }
      split.
      { rewrite Hq. destruct most as [|p|p]; try lia.
        fractions. nia. }
      split; [lia|]. split; [intros _; exact Hq|].
      intros _ ->. subst q.
      transitivity (Qred (inject_Z 100)); [|reflexivity].
      apply Qred_complete. rewrite Qred_correct.
      destruct most as [|p|p]; try lia.
      fractions. nia.
  - assert (most = 0) by lia. assert (count = 0) by lia. subst.
    cbn [maxZ num]. exists (inject_Z 3).
    split; [reflexivity|]. split; [apply Qle_refl|]. split; [now compute|].
    split; [reflexivity|]. split; [lia|]. lia.
Qed.

Lemma occurrences_nonneg (k : Z) (ks : list Z) : 0 <= occurrences k ks.
Proof. unfold occurrences, len. lia. Qed.

End MonthlyChart.

(** X22. The monthly chart of [renderTimeStats] has twelve bars, January
    first. The bar of a month is as high, in percent, as its events are to
    the events of the busiest month, and 3 where that is less than 3 or
    where there is no event at all; so every bar is between 3 and 100 and
    the bar of the busiest month of a dataset with events is 100. The
    busiest hour is printed with two digits. *)
Theorem monthly_chart (h : Dates.Host) (data : Dataset.t) :
  let stats := StatisticsCalculator.calculateTimeStats h data in
  let heights := YouTrackWrapped.chartHeights stats in
  let count := fun k => occurrences k (eventMonths h data) in
  let most := BusiestMonth.count (TimeStats.busiestMonth stats) in
  List.length heights = 12%nat
  /\ (forall k, 1 <= k <= 12 -> 0 <= count k <= most)
  /\ (forall k, 1 <= k <= 12 ->
        exists q,
          nth_error heights (Z.to_nat (k - 1)) = Some (Js.Fin q)
          /\ (inject_Z 3 <= q)%Q /\ (q <= inject_Z 100)%Q
          /\ (100 * count k <= 3 * most -> q = inject_Z 3)
          /\ (3 * most < 100 * count k ->
              (q == inject_Z (100 * count k) / inject_Z most)%Q)
          /\ (0 < most -> count k = most -> q = inject_Z 100))
  /\ exists a b,
       YouTrackWrapped.busiestHourText stats
       = String a (String b ":00")
       /\ Dates.twoDigits a b
          = Some (BusiestHour.hour (TimeStats.busiestHour stats)).
Proof.
  cbv zeta.
  destruct (timeStats_histograms h data) as (Hm & _ & _).
  destruct (busiest_periods_hold h data)
    as (((Hrange & Hmax & _) & Hcount) & _ & ((Hhrange & _) & _)).
  set (stats := StatisticsCalculator.calculateTimeStats h data) in *.
  set (m := BusiestMonth.month (TimeStats.busiestMonth stats)) in *.
  set (months := eventMonths h data) in *.
  rewrite Hcount.
  assert (Hvalues : Js.values (TimeStats.monthlyActivity stats)
                    = map (fun k => occurrences k months)
                          (StatisticsCalculator.range 1 12)).
  { rewrite Hm. unfold Js.values.
    rewrite entries_of_ascending_indices by reflexivity.
    unfold histogram. rewrite map_map. reflexivity. }
  assert (Hmost : Js.maxOf (Js.values (TimeStats.monthlyActivity stats))
                  = Js.num (occurrences m months)).
  { rewrite Hvalues. apply maxOf_largest.
    - apply in_map_iff. exists m. split; [reflexivity|]. now apply range_In.
    - rewrite Forall_map, Forall_forall. intros k Hk.
      apply range_In in Hk. now apply Hmax. }
  assert (Hheights :
    YouTrackWrapped.chartHeights stats
    = map (fun k =>
             Js.maxZ (if Js.gtZ (Js.num (occurrences m months)) 0
                      then Js.mulZ (Js.div (Js.num (occurrences k months))
                                           (Js.num (occurrences m months))) 100
                      else Js.num 0) 3)
          (StatisticsCalculator.range 1 12)).
  { unfold YouTrackWrapped.chartHeights. rewrite Hmost, Hvalues, map_map.
    reflexivity. }
  split; [now rewrite Hheights, length_map|].
  assert (Hbound : forall k, 1 <= k <= 12 ->
                     0 <= occurrences k months <= occurrences m months).
  { intros k Hk. split; [apply occurrences_nonneg|]. apply Hmax.
    change (Z.of_nat 12) with 12. lia. }
  split; [exact Hbound|]. split.
  - intros k Hk. rewrite Hheights.
    rewrite nth_error_map, (range_nth 12 1 (Z.to_nat (k - 1))) by lia.
    cbn [option_map]. replace (1 + Z.of_nat (Z.to_nat (k - 1))) with k by lia.
    destruct (bar_height (occurrences k months) (occurrences m months)
                (Hbound k Hk)) as (q & E & Hq).
    exists q. cbv zeta in E. rewrite E. now split.
  - unfold YouTrackWrapped.busiestHourText.
    destruct (two_digits (BusiestHour.hour (TimeStats.busiestHour stats)))
      as (a & b & E & Hd); [change (Z.of_nat 24) with 24 in Hhrange; lia|].
    exists a, b. rewrite E. now split.
Qed.

Section FurtherAggregatorExamples.
Import Js StatisticsCalculator.

(** X7 at two created issues, listed in either order. *)
Lemma time_statistics_of_two_issues_in_either_order :
  calculateTimeStats Dates.utcHost
    (issuesOnly [alphaIssue (Dates.utcMs 2025 3 1 12 0 0) None;
                 alphaIssue (Dates.utcMs 2025 6 2 10 0 0) None] [])
  = calculateTimeStats Dates.utcHost
      (issuesOnly [alphaIssue (Dates.utcMs 2025 6 2 10 0 0) None;
                   alphaIssue (Dates.utcMs 2025 3 1 12 0 0) None] []).
Proof.
  apply time_statistics_ignore_the_order.
  - apply perm_swap.
  - apply Permutation_refl.
  - apply Permutation_refl.
Defined.

(** X8 at two comments on AL-1 and one on AL-2. *)
Lemma most_commented_of_three_comments :
  exists top,
    CommentStats.mostCommentedIssue
      (calculateCommentStats
         (commentsOnly [commentOn "AL-2"; commentOn "AL-1"; commentOn "AL-1"]))
    = Some top
    /\ IssueCount.count top = 2
    /\ IssueRef.idReadable (IssueCount.issue top) = "AL-1".
Proof.
  destruct (most_commented_issue
              (commentsOnly [commentOn "AL-2"; commentOn "AL-1"; commentOn "AL-1"]))
    as (top & Htop & (comment & Hin & Hissue) & Hcount & Hmost).
  - intros k [<-|[<-|[<-|[]]]]; reflexivity.
  - discriminate.
  - exists top. split; [exact Htop|].
    specialize (Hmost "AL-1"). rewrite Hcount in *. rewrite <- Hissue in *.
    destruct Hin as [<-|[<-|[<-|[]]]]; cbn in *; first [lia | now split].
Defined.

(** X21 at noon of 1 March 2025, five hours west of Greenwich and at
    Greenwich. *)
Lemma first_of_march_is_printed_as_the_last_of_february :
  YouTrackWrapped.formatDate westernHost
    (Some (dayKey westernHost (Dates.utcMs 2025 3 1 17 0 0))) = "Feb 28"
  /\ YouTrackWrapped.formatDate Dates.utcHost
       (Some (dayKey Dates.utcHost (Dates.utcMs 2025 3 1 12 0 0))) = "Mar 1".
Proof.
  split.
  - destruct (streak_dates_are_printed_in_local_time westernHost
                (Dates.utcMs 2025 3 1 17 0 0)) as (_ & _ & H & _).
    + assert (E : Dates.getFullYear westernHost (Dates.utcMs 2025 3 1 17 0 0)
                  = 2025) by reflexivity.
      rewrite E. lia.
    + rewrite H; [reflexivity|]. vm_compute. split; [discriminate|reflexivity].
  - destruct (streak_dates_are_printed_in_local_time Dates.utcHost
                (Dates.utcMs 2025 3 1 12 0 0)) as (_ & H & _).
    + assert (E : Dates.getFullYear Dates.utcHost (Dates.utcMs 2025 3 1 12 0 0)
                  = 2025) by reflexivity.
      rewrite E. lia.
    + rewrite H; [reflexivity|]. vm_compute. split; [discriminate|reflexivity].
Defined.

End FurtherAggregatorExamples.

Section FurtherGatewayExamples.
Import Js Async YouTrackClient DataCollector.

(** X11 at a tracker that serves one full page of created issues and
    answers the request for the second with status 500. *)
Lemma a_second_page_that_fails :
  exists w',
    getIssuesCreatedByUser 5 exampleClient
      (exhaustedTracker [page 100] 500 "Internal Server Error")
      "jane" "2025-01-01" "2025-12-31" (Some (listen silentListener))
      initialWorld
    = (Throw (apiError 500 "Internal Server Error"), w')
    /\ List.length (requests w') = 2%nat.
Proof.
  destruct (a_failing_page_fails_the_fetch 5 exampleClient
              (exhaustedTracker [page 100] 500 "Internal Server Error")
              "jane" "2025-01-01" "2025-12-31" "A" (Some silentListener)
              initialWorld) as (H & _).
  - intros l0 [= <-] received message. reflexivity.
  - destruct (H [page 100] (apiError 500 "Internal Server Error"))
      as (w' & Hrun & Hsent).
    + repeat constructor. vm_compute. discriminate.
    + cbn. lia.
    + cbn [serves]. split; [|exact I].
      exists 200, "OK", (inr "(json)"). split; reflexivity.
    + reflexivity.
    + exists w'. split; [exact Hrun|]. rewrite Hsent. reflexivity.
Defined.

(** X12 at a tracker that serves pages of 100, 100 and 37 created
    issues. *)
Lemma progress_of_three_pages :
  progress
    (snd (getIssuesCreatedByUser 3 exampleClient
            (scriptedTracker [page 100; page 100; page 37])
            "jane" "2025-01-01" "2025-12-31" (Some (listen silentListener))
            initialWorld))
  = [ "Fetched 100 created issues...";
      "Fetched 200 created issues...";
      "Fetched 237 created issues..." ].
Proof.
  destruct (progress_reports_the_running_total 3 exampleClient
              (scriptedTracker [page 100; page 100; page 37])
              "jane" "2025-01-01" "2025-12-31" silentListener initialWorld)
    as (H & _).
  - intros received message. reflexivity.
  - rewrite (H [page 100; page 100] (page 37)); [reflexivity| | | |].
    + repeat constructor; vm_compute; discriminate.
    + reflexivity.
    + cbn. lia.
    + cbn [serves app]. repeat split;
        exists 200, "OK", (inr "(json)"); split; reflexivity.
Defined.

(** X13 at a tracker that answers [/users/me] with status 401. *)
Lemma no_collection_on_a_401 :
  collectYearData 2 exampleClient (refusingTracker 401 "Unauthorized")
    "2026-01-05T10:00:00.000Z" 2025 ["DOCS"] (Some (listen silentListener))
    initialWorld
  = (Throw (apiError 401 "Unauthorized"),
     {| requests := [requestOf exampleClient currentUserPath];
        progress := ["Fetching your user information..."] |}).
Proof.
  apply (no_collection_without_the_user 2 exampleClient
           (refusingTracker 401 "Unauthorized") "2026-01-05T10:00:00.000Z"
           2025 ["DOCS"] (Some silentListener) initialWorld
           (apiError 401 "Unauthorized")).
  - intros l0 [= <-] received message. reflexivity.
  - reflexivity.
Defined.

(** X14 at a tracker that refuses every query for issues. *)
Lemma no_collection_without_the_created_issues :
  exists e,
    fst (collectYearData 2 exampleClient brokenIssuesTracker
           "2026-01-05T10:00:00.000Z" 2025 [] None initialWorld) = Throw e.
Proof.
  apply (a_failing_fetch_of_issues_fails_the_collection 2 exampleClient
           brokenIssuesTracker "2026-01-05T10:00:00.000Z" 2025 [] None
           initialWorld someUser).
  - intros l0 [=].
  - intros log log' req. reflexivity.
  - intros log log' req. reflexivity.
  - reflexivity.
  - left. eexists. reflexivity.
Defined.

(** X15 at a tracker with an issue that holds a comment of the user in
    2025, one of somebody else and one of the user in 2024: the first is
    collected. *)
Lemma collection_of_the_comments_of_the_user :
  let run :=
    collectYearData 2 exampleClient discussingTracker
      "2026-01-05T10:00:00.000Z" 2025 [] None initialWorld in
  fst run = Return janesCollection
  /\ map Comment.id (Dataset.comments janesCollection) = ["4-1"]
  /\ forall comment,
       In comment (Dataset.comments janesCollection) ->
       (exists author, Comment.author comment = Some author
                       /\ UserRef.login author = "jane")
       /\ Dates.utcMs 2025 1 1 0 0 0 <= Comment.created comment
          <= Dates.utcMs 2025 12 31 23 59 59.
Proof.
  cbv zeta.
  assert (Hfst :
    fst (collectYearData 2 exampleClient discussingTracker
           "2026-01-05T10:00:00.000Z" 2025 [] None initialWorld)
    = Return janesCollection) by reflexivity.
  split; [exact Hfst|]. split; [reflexivity|].
  destruct (what_a_collection_returns 2 exampleClient discussingTracker
              "2026-01-05T10:00:00.000Z" 2025 [] None initialWorld
              (snd (collectYearData 2 exampleClient discussingTracker
                      "2026-01-05T10:00:00.000Z" 2025 [] None initialWorld))
              janesCollection)
    as (_ & _ & _ & _ & _ & H & _).
  - lia.
  - rewrite <- Hfst. apply surjective_pairing.
  - exact H.
Defined.

End FurtherGatewayExamples.

Section LoginExamples.
Import Js Async YouTrackClient DataCollector StatisticsCalculator YouTrackWrapped.

Lemma janesForm_accepted : accepted janesForm 2025.
Proof.
  repeat split; try (vm_compute; discriminate). 
Qed.

Lemma janesLogin_loads :
  loadFor Dates.utcHost 2 emptyTracker "2026-01-05T10:00:00.000Z" janesForm
          2025 initialWorld
  = (Return (calculateAll Dates.utcHost
               (emptyDataset someUser 2025 "2026-01-05T10:00:00.000Z")),
     snd (loadFor Dates.utcHost 2 emptyTracker "2026-01-05T10:00:00.000Z"
                  janesForm 2025 initialWorld)).
Proof.
  rewrite (surjective_pairing (loadFor _ _ _ _ _ _ _)) at 1.
  f_equal; reflexivity.
Qed.

Lemma janesLogin_returns :
  handleLogin Dates.utcHost 2 emptyTracker "2026-01-05T10:00:00.000Z" rendered
              janesForm emptyStorage initialWorld
  = (Return
       (Wrapped (calculateAll Dates.utcHost
                   (emptyDataset someUser 2025 "2026-01-05T10:00:00.000Z")),
        saveConfig (configOf janesForm 2025) true emptyStorage),
     snd (handleLogin Dates.utcHost 2 emptyTracker "2026-01-05T10:00:00.000Z"
                      rendered janesForm emptyStorage initialWorld)).
Proof.
  rewrite (surjective_pairing (handleLogin _ _ _ _ _ _ _ _)) at 1.
  f_equal; reflexivity.
Qed.

(** X18 at a login with the box checked, at a tracker that knows the
    user and has nothing else. *)
Lemma a_login_that_is_remembered :
  let run :=
    handleLogin Dates.utcHost 2 emptyTracker "2026-01-05T10:00:00.000Z"
                rendered janesForm emptyStorage initialWorld in
  exists shown storage',
    fst run = Return (shown, storage')
    /\ LocalStorage.item storage'
       = Some (LocalStorage.Saved (Some "https://youtrack.example.com/")
                                  (Some "perm:secret") (Some 2025)
                                  (Some "DOCS, KB")).
Proof.
  cbv zeta. pose proof janesLogin_returns as Hrun.
  eexists _, _. split; [rewrite Hrun; reflexivity|].
  destruct (credentials_are_stored_on_request_only _ _ _ _ _ _ _ _ _ _ _ Hrun)
    as (_ & _ & _ & H & _).
  destruct (H 2025 _ _ janesForm_accepted janesLogin_loads eq_refl) as [Hsaved _].
  exact (Hsaved eq_refl eq_refl).
Defined.

(** X19 at the same login: what [init] puts into a blank form
    afterwards. *)
Lemma the_form_after_a_login_that_is_remembered :
  let run :=
    handleLogin Dates.utcHost 2 emptyTracker "2026-01-05T10:00:00.000Z"
                rendered janesForm emptyStorage initialWorld in
  exists shown storage',
    fst run = Return (shown, storage')
    /\ init storage' blankForm
       = {| LoginForm.youtrackUrl := "https://youtrack.example.com/";
            LoginForm.youtrackToken := "perm:secret";
            LoginForm.year := "2025";
            LoginForm.articleProjects := "DOCS, KB";
            LoginForm.rememberCredentials := true |}.
Proof.
  cbv zeta. pose proof janesLogin_returns as Hrun.
  eexists _, _. split; [rewrite Hrun; reflexivity|].
  destruct (a_saved_login_is_restored _ _ _ _ _ janesForm blankForm _ _ _ _ _ _
              2025 _ Hrun janesForm_accepted janesLogin_loads
              eq_refl eq_refl eq_refl) as (H & _).
  exact H.
Defined.

End LoginExamples.
